(** * ai_crawl: a shallow embedding of the crawl / scoring pipeline

    The development follows the Python sources of the repository:

    - [crud/crud_operations.py]      domain normalisation, source listing,
                                     truth of form values, subscriptions
    - [scraper/models.py]            [ScraperRecipe] construction, scraped
                                     items, the validator and the factory
    - [scraper/scraper_main.py]      next-page computation, page parsing and
                                     the loop of a scrape
    - [services/ai_service.py]       validation of the LLM answer, the
                                     content handed to the analysis
    - [api/endpoints/intelligence.py] composite score, crawl loops, listing,
                                     export, batches
    - [api/endpoints/sources.py]     the sources table endpoint, saving a
                                     configuration, the summary of a test run

    Python values are modelled as the code has them: [str] as [string]
    (the model follows Python on ASCII text; bytes above 127 are carried
    along unchanged), [int] as [Z], [float] as the primitive binary64
    [float], [None]-able values as [option], exceptions as an explicit
    outcome. *)

From Stdlib Require Import ZArith String Ascii List Bool Lia Floats DecimalString.
From Stdlib Require Import Sorting.Sorted Sorting.Permutation.
From Stdlib Require Import DecimalPos DecimalZ.
Import ListNotations.

#[local] Set Warnings "-inexact-float,-register-all".
#[local] Open Scope string_scope.
#[local] Open Scope Z_scope.

(** ** Outcomes of Python calls *)

(** An exception with the text [str(e)] gives. *)
Inductive exn : Type :=
| ValueError (msg : string)
| TypeError (msg : string)
| OverflowError (msg : string)
| AttributeError (msg : string)
| UnboundLocalError (msg : string)
| InterfaceError (msg : string).

Definition str_of_exn (e : exn) : string :=
  match e with
  | ValueError m | TypeError m | OverflowError m | AttributeError m
  | UnboundLocalError m | InterfaceError m => m
  end.

(** [Unmodelled] marks the few places where CPython calls into machinery
    that is not embedded here (the [ipaddress] validation of a bracketed
    host and the NFKC check of a non-ASCII netloc in [urllib.parse]). *)
Inductive res (A : Type) : Type :=
| Ok (a : A)
| Raise (e : exn)
| Unmodelled.

Arguments Ok {A} a.
Arguments Raise {A} e.
Arguments Unmodelled {A}.

Definition bind {A B : Type} (m : res A) (k : A -> res B) : res B :=
  match m with
  | Ok a => k a
  | Raise e => Raise e
  | Unmodelled => Unmodelled
  end.

Notation "x <- m ;; k" := (bind m (fun x => k))
  (at level 61, m at next level, right associativity).

(** ** Python string operations used by the sources *)

Module PyStr.

Definition code (c : ascii) : nat := nat_of_ascii c.

Definition in_range (lo hi : nat) (c : ascii) : bool :=
  (Nat.leb lo (code c) && Nat.leb (code c) hi)%bool.

(** [str.isspace] on ASCII: TAB..CR, FS..US and the blank.  (Python also
    counts U+0085, U+00A0, U+1680, U+2000..U+200A, U+2028, U+2029, U+202F,
    U+205F and U+3000 as whitespace; what is stated of [strip] and of
    whitespace is stated of ASCII text.) *)
Definition is_space (c : ascii) : bool :=
  (in_range 9 13 c || in_range 28 32 c)%bool.

Definition is_upper (c : ascii) : bool := in_range 65 90 c.
Definition is_lower (c : ascii) : bool := in_range 97 122 c.
Definition is_digit (c : ascii) : bool := in_range 48 57 c.
Definition is_alpha (c : ascii) : bool := (is_upper c || is_lower c)%bool.
Definition is_ascii_char (c : ascii) : bool := Nat.leb (code c) 127.

Definition is_empty (s : string) : bool :=
  match s with EmptyString => true | String _ _ => false end.

Fixpoint all_chars (p : ascii -> bool) (s : string) : bool :=
  match s with
  | EmptyString => true
  | String c s' => (p c && all_chars p s')%bool
  end.

Fixpoint has_char (p : ascii -> bool) (s : string) : bool :=
  match s with
  | EmptyString => false
  | String c s' => (p c || has_char p s')%bool
  end.

Definition isascii (s : string) : bool := all_chars is_ascii_char s.

(** [s.lstrip(chars)], [s.rstrip(chars)] with the set given as a predicate. *)
Fixpoint lstrip_by (p : ascii -> bool) (s : string) : string :=
  match s with
  | EmptyString => EmptyString
  | String c s' => if p c then lstrip_by p s' else s
  end.

Fixpoint rstrip_by (p : ascii -> bool) (s : string) : string :=
  match s with
  | EmptyString => EmptyString
  | String c s' =>
      match rstrip_by p s' with
      | EmptyString => if p c then EmptyString else String c EmptyString
      | r => String c r
      end
  end.

(** [s.strip()] *)
Definition strip (s : string) : string :=
  lstrip_by is_space (rstrip_by is_space s).

Definition lower_char (c : ascii) : ascii :=
  if is_upper c then ascii_of_nat (code c + 32) else c.

(** [s.lower()] *)
Fixpoint lower (s : string) : string :=
  match s with
  | EmptyString => EmptyString
  | String c s' => String (lower_char c) (lower s')
  end.

(** [s.startswith(p)] *)
Fixpoint startswith (p s : string) : bool :=
  match p, s with
  | EmptyString, _ => true
  | String a p', String b s' => (Ascii.eqb a b && startswith p' s')%bool
  | String _ _, EmptyString => false
  end.

(** [sub in s] *)
Fixpoint contains (sub s : string) : bool :=
  (startswith sub s ||
   match s with
   | EmptyString => false
   | String _ s' => contains sub s'
   end)%bool.

(** [s[n:]] and [s[:n]] *)
Fixpoint drop (n : nat) (s : string) : string :=
  match n, s with
  | O, _ => s
  | S n', String _ s' => drop n' s'
  | S _, EmptyString => EmptyString
  end.

Fixpoint take (n : nat) (s : string) : string :=
  match n, s with
  | O, _ => EmptyString
  | S n', String c s' => String c (take n' s')
  | S _, EmptyString => EmptyString
  end.

(** [s.find(c)] for a one-character needle. *)
Fixpoint find_char (c : ascii) (s : string) : option nat :=
  match s with
  | EmptyString => None
  | String a s' =>
      if Ascii.eqb a c then Some O
      else match find_char c s' with
           | Some i => Some (S i)
           | None => None
           end
  end.

(** The text before the first character satisfying [p], and the text
    from that character on (everything and nothing when there is none). *)
Fixpoint break_at (p : ascii -> bool) (s : string) : string * string :=
  match s with
  | EmptyString => (EmptyString, EmptyString)
  | String c s' =>
      if p c then (EmptyString, s)
      else let (a, b) := break_at p s' in (String c a, b)
  end.

(** [s.split(c)] for a one-character separator: never empty. *)
Fixpoint split_on (c : ascii) (s : string) : list string :=
  match s with
  | EmptyString => [EmptyString]
  | String a s' =>
      if Ascii.eqb a c then EmptyString :: split_on c s'
      else match split_on c s' with
           | w :: ws => String a w :: ws
           | [] => [String a EmptyString]
           end
  end.

(** [s.replace(old, new)] for a non-empty [old]: the occurrences are
    replaced from left to right, without overlap.  [skip] counts the
    characters of a matched occurrence still to be passed over. *)
Fixpoint replace_from (old new : string) (skip : nat) (s : string) : string :=
  match s with
  | EmptyString => EmptyString
  | String c s' =>
      match skip with
      | S k => replace_from old new k s'
      | O =>
          if startswith old s
          then new ++ replace_from old new (String.length old - 1) s'
          else String c (replace_from old new O s')
      end
  end.

Definition replace (old new s : string) : string := replace_from old new O s.

Fixpoint filter_chars (p : ascii -> bool) (s : string) : string :=
  match s with
  | EmptyString => EmptyString
  | String c s' => if p c then String c (filter_chars p s') else filter_chars p s'
  end.

Definition char_in (set : string) (c : ascii) : bool :=
  has_char (Ascii.eqb c) set.

End PyStr.

(** ** [urllib.parse.urlparse]

    The standard-library function [_parse_domain] relies on, after
    CPython 3.12 ([Lib/urllib/parse.py]). *)

Module Url.
Import PyStr.

Record SplitResult : Type := mkSplit {
  s_scheme : string;
  s_netloc : string;
  s_path : string;
  s_query : string;
  s_fragment : string
}.

Record ParseResult : Type := mkParse {
  scheme : string;
  netloc : string;
  path : string;
  params : string;
  query : string;
  fragment : string
}.

(** [_WHATWG_C0_CONTROL_OR_SPACE] *)
Definition c0_or_space (c : ascii) : bool := Nat.leb (code c) 32.

(** [_UNSAFE_URL_BYTES_TO_REMOVE = ['\t', '\r', '\n']] *)
Definition unsafe_byte (c : ascii) : bool :=
  (Nat.eqb (code c) 9 || Nat.eqb (code c) 13 || Nat.eqb (code c) 10)%bool.

(** [scheme_chars]: letters, digits and [+-.] *)
Definition scheme_char (c : ascii) : bool :=
  (is_alpha c || is_digit c || char_in "+-." c)%bool.

Definition uses_params : list string :=
  [EmptyString; "ftp"; "hdl"; "prospero"; "http"; "imap"; "https"; "shttp"; "rtsp";
   "rtsps"; "rtspu"; "sip"; "sips"; "mms"; "sftp"; "tel"].

(** The scheme, when the text before the first colon is one. *)
Definition split_scheme (url : string) : string * string :=
  match find_char ":" url with
  | Some (S i) =>
      match url with
      | String c0 _ =>
          if (is_ascii_char c0 && is_alpha c0 && all_chars scheme_char (take (S i) url))%bool
          then (lower (take (S i) url), drop (S (S i)) url)
          else (EmptyString, url)
      | EmptyString => (EmptyString, url)
      end
  | _ => (EmptyString, url)
  end.

(** [_splitnetloc(url, 2)] on a text that starts with [//]. *)
Definition splitnetloc (url : string) : string * string :=
  break_at (char_in "/?#") (drop 2 url).

(** The bracket checks of [urlsplit]; a well-bracketed host is handed
    to [ipaddress], which is not embedded. *)
Definition check_brackets (nl : string) : res unit :=
  let lb := has_char (Ascii.eqb "[") nl in
  let rb := has_char (Ascii.eqb "]") nl in
  if ((lb && negb rb) || (rb && negb lb))%bool
  then Raise (ValueError "Invalid IPv6 URL")
  else if (lb && rb)%bool then Unmodelled
  else Ok tt.

(** [_checknetloc]: nothing to do for an empty or ASCII netloc. *)
Definition checknetloc (nl : string) : res unit :=
  if (is_empty nl || isascii nl)%bool then Ok tt else Unmodelled.

(** [url.split(c, 1)] when [c] occurs in [url], else the text and the
    empty text. *)
Definition split_once (c : ascii) (url : string) : string * string :=
  let (a, b) := break_at (Ascii.eqb c) url in (a, drop 1 b).

Definition urlsplit (url0 : string) : res SplitResult :=
  let url := lstrip_by c0_or_space url0 in
  let url := filter_chars (fun c => negb (unsafe_byte c)) url in
  let (sch, url) := split_scheme url in
  nl_url <-
    (if startswith "//" url
     then let (nl, rest) := splitnetloc url in
          _ <- check_brackets nl ;; Ok (nl, rest)
     else Ok (EmptyString, url)) ;;
  let (nl, url) := nl_url : string * string in
  let (url, frag) := split_once "#" url in
  let (url, qry) := split_once "?" url in
  _ <- checknetloc nl ;;
  Ok (mkSplit sch nl url qry frag).

(** [url.rfind('/')] and [url.find(';', from)] *)
Fixpoint rfind_char (c : ascii) (s : string) : option nat :=
  match s with
  | EmptyString => None
  | String a s' =>
      match rfind_char c s' with
      | Some i => Some (S i)
      | None => if Ascii.eqb a c then Some O else None
      end
  end.

Definition splitparams (url : string) : string * string :=
  match rfind_char "/" url with
  | Some k =>
      match find_char ";" (drop k url) with
      | Some j => (take (k + j) url, drop (S (k + j)) url)
      | None => (url, EmptyString)
      end
  | None =>
      match find_char ";" url with
      | Some j => (take j url, drop (S j) url)
      | None =>
          (* [find] gives -1: [url[:-1]] and [url[0:]]; unreachable from
             [urlparse], which asks for a [;] first. *)
          (take (String.length url - 1) url, url)
      end
  end.

Definition urlparse (url : string) : res ParseResult :=
  sp <- urlsplit url ;;
  let (p, prm) :=
    if (existsb (String.eqb (s_scheme sp)) uses_params
        && has_char (Ascii.eqb ";") (s_path sp))%bool
    then splitparams (s_path sp)
    else (s_path sp, EmptyString) in
  Ok (mkParse (s_scheme sp) (s_netloc sp) p prm (s_query sp) (s_fragment sp)).

End Url.

(** ** [crud/crud_operations.py]: domain normalisation *)

Module Crud.
Import PyStr.

Definition _parse_domain (raw : string) : res string :=
  let raw := strip raw in
  if is_empty raw then Ok EmptyString
  else
    p <- Url.urlparse (if contains "://" raw then raw else "https://" ++ raw) ;;
    let host := if is_empty (Url.netloc p) then Url.path p else Url.netloc p in
    let host := hd EmptyString (split_on "/" host) in
    let host := if startswith "www." host then drop 4 host else host in
    Ok (lower host).

(** Normalising the result of a normalisation. *)
Definition parse_domain_twice (raw : string) : res string :=
  h <- _parse_domain raw ;; _parse_domain h.

(** The characters of a normalised host: printable ASCII other than
    upper-case letters, blanks and the delimiters [/ ? # [ ]]. *)
Definition host_char (c : ascii) : bool :=
  (Nat.leb 33 (code c) && Nat.leb (code c) 127
   && negb (is_upper c) && negb (char_in "/?#[]" c))%bool.

Definition host_text (s : string) : bool := all_chars host_char s.

End Crud.

(** ** Text forms of Python values: [str(int)], [repr], [str(dict)] *)

Module PyRepr.
Import PyStr.

(** [str(n)] for an [int]. *)
Definition str_of_int (n : Z) : string :=
  NilZero.string_of_int (Z.to_int n).

Definition dquote : ascii := ascii_of_nat 34.
Definition squote : ascii := ascii_of_nat 39.
Definition backslash : ascii := ascii_of_nat 92.

Definition hex_digit (n : nat) : ascii :=
  if Nat.ltb n 10 then ascii_of_nat (48 + n) else ascii_of_nat (87 + n).

Definition repr_char (quote c : ascii) : string :=
  if (Ascii.eqb c quote || Ascii.eqb c backslash)%bool
  then String backslash (String c EmptyString)
  else if Nat.eqb (code c) 9 then String backslash "t"
  else if Nat.eqb (code c) 10 then String backslash "n"
  else if Nat.eqb (code c) 13 then String backslash "r"
  else if (Nat.ltb (code c) 32 || Nat.eqb (code c) 127)%bool
  then String backslash
         (String "x" (String (hex_digit (Nat.div (code c) 16))
                        (String (hex_digit (Nat.modulo (code c) 16)) EmptyString)))
  else String c EmptyString.

Fixpoint repr_body (quote : ascii) (s : string) : string :=
  match s with
  | EmptyString => EmptyString
  | String c s' => repr_char quote c ++ repr_body quote s'
  end.

(** [repr(s)]: single quotes unless the text has one and no double quote. *)
Definition repr_str (s : string) : string :=
  let q := if (has_char (Ascii.eqb squote) s
               && negb (has_char (Ascii.eqb dquote) s))%bool
           then dquote else squote in
  String q (repr_body q s ++ String q EmptyString).

Definition repr_bool (b : bool) : string := if b then "True" else "False".

Definition repr_opt {A : Type} (f : A -> string) (o : option A) : string :=
  match o with Some a => f a | None => "None" end.

(** [str(d)] for a dict given as its items, values already in text form. *)
Fixpoint dict_items (kvs : list (string * string)) : string :=
  match kvs with
  | [] => EmptyString
  | [(k, v)] => repr_str k ++ ": " ++ v
  | (k, v) :: rest => repr_str k ++ ": " ++ v ++ ", " ++ dict_items rest
  end.

Definition str_dict (kvs : list (string * string)) : string :=
  "{" ++ dict_items kvs ++ "}".

End PyRepr.

(** ** [scraper/models.py]: the recipe *)

Module Models.
Import PyStr PyRepr.

Record ScraperRecipe : Type := mkRecipe {
  domain : string;
  start_url : option string;
  list_selector : string;
  title_selector : string;
  link_selector : string;
  date_selector : option string;
  load_strategy : string;
  wait_until : string;
  wait_ms : Z;
  next_page_selector : option string;
  max_pages : Z;
  infinite_scroll : option bool;
  scroll_times : Z;
  scroll_wait_ms : Z;
  pagination_mode : string;
  load_more_selector : option string;
  page_pattern : option string;
  drupal_zero_based : bool;
  title_exclude_small : bool;
  title_exclude_time : bool;
  title_exclude_span : bool;
  exclude_current_page : bool;
  use_proxy : bool;
  rotate_ua : bool;
  accept_cookies : bool
}.

(** The field defaults of the dataclass. *)
Definition default_recipe : ScraperRecipe :=
  mkRecipe EmptyString None EmptyString EmptyString EmptyString None "static" "domcontentloaded" 0 None 1
           (Some false) 0 800 "none" None None false
           false false false false false false false.

(** An instance: the dataclass fields and whether the extra attribute
    [_drupal_auto_detected] has been set on it. *)
Record Instance : Type := mkInstance {
  fields : ScraperRecipe;
  _drupal_auto_detected : bool
}.

Definition set_drupal_zero_based (v : bool) (r : ScraperRecipe) : ScraperRecipe :=
  mkRecipe (domain r) (start_url r) (list_selector r) (title_selector r)
           (link_selector r) (date_selector r) (load_strategy r) (wait_until r)
           (wait_ms r) (next_page_selector r) (max_pages r) (infinite_scroll r)
           (scroll_times r) (scroll_wait_ms r) (pagination_mode r)
           (load_more_selector r) (page_pattern r) v
           (title_exclude_small r) (title_exclude_time r) (title_exclude_span r)
           (exclude_current_page r) (use_proxy r) (rotate_ua r) (accept_cookies r).

Definition set_max_pages (v : Z) (r : ScraperRecipe) : ScraperRecipe :=
  mkRecipe (domain r) (start_url r) (list_selector r) (title_selector r)
           (link_selector r) (date_selector r) (load_strategy r) (wait_until r)
           (wait_ms r) (next_page_selector r) v (infinite_scroll r)
           (scroll_times r) (scroll_wait_ms r) (pagination_mode r)
           (load_more_selector r) (page_pattern r) (drupal_zero_based r)
           (title_exclude_small r) (title_exclude_time r) (title_exclude_span r)
           (exclude_current_page r) (use_proxy r) (rotate_ua r) (accept_cookies r).

Definition set_wait_ms (v : Z) (r : ScraperRecipe) : ScraperRecipe :=
  mkRecipe (domain r) (start_url r) (list_selector r) (title_selector r)
           (link_selector r) (date_selector r) (load_strategy r) (wait_until r)
           v (next_page_selector r) (max_pages r) (infinite_scroll r)
           (scroll_times r) (scroll_wait_ms r) (pagination_mode r)
           (load_more_selector r) (page_pattern r) (drupal_zero_based r)
           (title_exclude_small r) (title_exclude_time r) (title_exclude_span r)
           (exclude_current_page r) (use_proxy r) (rotate_ua r) (accept_cookies r).

(** Truth value of an [Optional[str]]: set and not empty. *)
Definition truthy (o : option string) : bool :=
  match o with
  | Some s => negb (is_empty s)
  | None => false
  end.

(** [str(self.__dict__)] *)
Definition str_of_instance (self : Instance) : string :=
  let r := fields self in
  str_dict
    ([("domain", repr_str (domain r));
      ("start_url", repr_opt repr_str (start_url r));
      ("list_selector", repr_str (list_selector r));
      ("title_selector", repr_str (title_selector r));
      ("link_selector", repr_str (link_selector r));
      ("date_selector", repr_opt repr_str (date_selector r));
      ("load_strategy", repr_str (load_strategy r));
      ("wait_until", repr_str (wait_until r));
      ("wait_ms", str_of_int (wait_ms r));
      ("next_page_selector", repr_opt repr_str (next_page_selector r));
      ("max_pages", str_of_int (max_pages r));
      ("infinite_scroll", repr_opt repr_bool (infinite_scroll r));
      ("scroll_times", str_of_int (scroll_times r));
      ("scroll_wait_ms", str_of_int (scroll_wait_ms r));
      ("pagination_mode", repr_str (pagination_mode r));
      ("load_more_selector", repr_opt repr_str (load_more_selector r));
      ("page_pattern", repr_opt repr_str (page_pattern r));
      ("drupal_zero_based", repr_bool (drupal_zero_based r));
      ("title_exclude_small", repr_bool (title_exclude_small r));
      ("title_exclude_time", repr_bool (title_exclude_time r));
      ("title_exclude_span", repr_bool (title_exclude_span r));
      ("exclude_current_page", repr_bool (exclude_current_page r));
      ("use_proxy", repr_bool (use_proxy r));
      ("rotate_ua", repr_bool (rotate_ua r));
      ("accept_cookies", repr_bool (accept_cookies r))]
     ++ (if _drupal_auto_detected self
         then [("_drupal_auto_detected", "True")] else [])).

(** The Drupal auto-detection at the head of [__post_init__]. *)
Definition drupal_detected (self : Instance) : bool :=
  let r := fields self in
  (truthy (page_pattern r)
   && (contains "drupal" (lower (domain r))
       || contains "data-options" (lower (str_of_instance self))
       || String.eqb (pagination_mode r) "number"))%bool.

Definition __post_init__ (self : Instance) : res Instance :=
  let self :=
    if drupal_detected self
    then if negb (_drupal_auto_detected self)
         then mkInstance (set_drupal_zero_based true (fields self)) true
         else self
    else self in
  let r := fields self in
  if (String.eqb (pagination_mode r) "number" && negb (truthy (page_pattern r)))%bool
  then Raise (ValueError "数字分页模式需要设置page_pattern")
  else if (String.eqb (pagination_mode r) "next"
           && negb (truthy (next_page_selector r)))%bool
  then Raise (ValueError "下一页链接模式需要设置next_page_selector")
  else if (String.eqb (pagination_mode r) "loadmore"
           && negb (truthy (load_more_selector r)))%bool
  then Raise (ValueError "加载更多模式需要设置load_more_selector")
  else
    let r := if max_pages r <=? 0 then set_max_pages 1 r else r in
    let r := if wait_ms r <? 0 then set_wait_ms 0 r else r in
    Ok (mkInstance r (_drupal_auto_detected self)).

(** Constructing a [ScraperRecipe]: the generated [__init__] stores the fields
    on a fresh object and calls [__post_init__]. *)
Definition new (args : ScraperRecipe) : res Instance :=
  __post_init__ (mkInstance args false).

(** The message of the requirement check of each mode. *)
Definition requirement_error (mode : string) : string :=
  if String.eqb mode "number" then "数字分页模式需要设置page_pattern"
  else if String.eqb mode "next" then "下一页链接模式需要设置next_page_selector"
  else "加载更多模式需要设置load_more_selector".

End Models.

(** ** [scraper/scraper_main.py]: the next page *)

Module ScraperMain.
Import PyStr PyRepr Models.

(** What the code reads off a matched tag: its [href], its [class] list
    and the [class] list of its parent (empty when there is none). *)
Record Element : Type := mkElement {
  el_href : option string;
  el_class : list string;
  el_parent_class : list string
}.

Definition join_blank (l : list string) : string := String.concat " " l.

Definition marks_current (classes : list string) : bool :=
  match classes with
  | [] => false
  | _ =>
      existsb (fun keyword => contains keyword (lower (join_blank classes)))
              ["current"; "active"; "selected"]
  end.

Definition _is_current_page_element (el : Element) : bool :=
  (marks_current (el_class el) || marks_current (el_parent_class el))%bool.

Section NextPage.

(** The two library calls of the DOM branches: [soup.select(selector)] on
    the parsed [html] ([None] when it raises) and
    [urldefrag(urljoin(base, href))[0]]. *)
Variable soup_select : string -> string -> option (list Element).
Variable urljoin_defrag : string -> string -> string.

Definition _normalize_url (base : string) (href : option string) : option string :=
  match href with
  | Some h => if is_empty h then None else Some (urljoin_defrag base h)
  | None => None
  end.

(** [(self.recipe.max_pages or 1)] *)
Definition max_pages_or_1 (r : ScraperRecipe) : Z :=
  if max_pages r =? 0 then 1 else max_pages r.

Definition follow_href (current_url : string) (el : Element) : option string :=
  match _normalize_url current_url (el_href el) with
  | Some next_url =>
      if String.eqb next_url current_url then None else Some next_url
  | None => None
  end.

(** [None] is Python's [None]: no further page. *)
Definition _get_next_page_url
    (recipe : ScraperRecipe) (html current_url : string) (page_num : Z)
  : option string :=
  if page_num >=? max_pages_or_1 recipe - 1 then None
  else
    let mode := pagination_mode recipe in
    if (String.eqb mode "number" && truthy (page_pattern recipe))%bool then
      let next_page_param :=
        if drupal_zero_based recipe then page_num + 1 else page_num + 2 in
      match page_pattern recipe with
      | Some pattern => Some (replace "{n}" (str_of_int next_page_param) pattern)
      | None => None
      end
    else if String.eqb mode "loadmore" then None
    else if (String.eqb mode "next" && truthy (next_page_selector recipe))%bool then
      match next_page_selector recipe with
      | Some sel =>
          match soup_select html sel with
          | Some next_elements =>
              let next_elements :=
                if exclude_current_page recipe
                then filter (fun el => negb (_is_current_page_element el)) next_elements
                else next_elements in
              match next_elements with
              | el :: _ => follow_href current_url el
              | [] => None
              end
          | None => None
          end
      | None => None
      end
    else if (is_empty mode || String.eqb mode "none")%bool then
      match next_page_selector recipe with
      | Some sel =>
          if is_empty sel then None
          else match soup_select html sel with
               | Some (nxt :: _) => follow_href current_url nxt
               | _ => None
               end
      | None => None
      end
    else None.

End NextPage.

End ScraperMain.

(** ** Sample values used in the statements below *)

Module Samples.
Import Models ScraperMain.

(** A numbered-pagination recipe as a caller passes it, every other field
    at its default (so [max_pages] is 1). *)
Definition x_com_args (zero_based : bool) : ScraperRecipe :=
  mkRecipe "x.com" None EmptyString EmptyString EmptyString None "static" "domcontentloaded" 0 None 1
           (Some false) 0 800 "number" None
           (Some "https://x.com/news?page={n}") zero_based
           false false false false false false false.

(** Number mode asked for without any pattern. *)
Definition number_without_pattern : ScraperRecipe :=
  mkRecipe "x.com" None EmptyString EmptyString EmptyString None "static" "domcontentloaded" 0 None 1
           (Some false) 0 800 "number" None None false
           false false false false false false false.

(** The same with room for five pages. *)
Definition x_com_five_pages (zero_based : bool) : ScraperRecipe :=
  set_max_pages 5 (x_com_args zero_based).

(** A page on which no selector matches, and a join that keeps the link. *)
Definition empty_page : string -> string -> option (list Element) :=
  fun _ _ => Some [].
Definition keep_href : string -> string -> string := fun _ href => href.

End Samples.

(** ** JSON values as [json.loads] builds them *)

Module Json.

Inductive json : Type :=
| JNull
| JBool (b : bool)
| JInt (n : Z)
| JFloat (f : float)
| JStr (s : string)
| JArr (items : list json)
| JObj (members : list (string * json)).

(** A dict with text keys, in insertion order; a key occurs once. *)
Definition dict : Type := list (string * json).

Fixpoint dict_get (k : string) (d : dict) : option json :=
  match d with
  | [] => None
  | (k', v) :: rest => if String.eqb k k' then Some v else dict_get k rest
  end.

(** [k in d] *)
Definition has_key (k : string) (d : dict) : bool :=
  match dict_get k d with Some _ => true | None => false end.

(** [d.get(k)]: [None] when the key is missing. *)
Definition get_or_none (k : string) (d : dict) : json :=
  match dict_get k d with Some v => v | None => JNull end.

(** [d[k] = v] *)
Fixpoint dict_set (k : string) (v : json) (d : dict) : dict :=
  match d with
  | [] => [(k, v)]
  | (k', v') :: rest =>
      if String.eqb k k' then (k, v) :: rest else (k', v') :: dict_set k v rest
  end.

(** [v == s] for a text [s]. *)
Definition eq_str (v : json) (s : string) : bool :=
  match v with JStr t => String.eqb t s | _ => false end.

(** Lists and dicts cannot be hashed. *)
Definition hashable (v : json) : bool :=
  match v with JArr _ | JObj _ => false | _ => true end.

Definition type_name (v : json) : string :=
  match v with
  | JNull => "NoneType"
  | JBool _ => "bool"
  | JInt _ => "int"
  | JFloat _ => "float"
  | JStr _ => "str"
  | JArr _ => "list"
  | JObj _ => "dict"
  end.

Definition is_nil {A : Type} (l : list A) : bool :=
  match l with [] => true | _ => false end.

Definition json_of_opt_str (o : option string) : json :=
  match o with Some s => JStr s | None => JNull end.

End Json.

(** ** [services/ai_service.py]: validating the analysis *)

Module AiService.
Import PyStr Json.

(** [MockConfig] *)
Definition OFFICIAL_TOPICS : list string :=
  ["健康与安全"; "清洁技术机遇"; "绿色建筑"; "应对气候变化"; "生物多样性"; "其他"].

(** The keys of [OFFICIAL_CATEGORIES], in order. *)
Definition OFFICIAL_CATEGORIES : list string :=
  ["政策动态"; "前沿资讯"; "必读报告"].

Definition required_keys : list string :=
  ["议题"; "类别"; "摘要"; "新标题"; "评分详情"].

Definition required_score_keys : list string :=
  ["战略相关性"; "行业影响力"; "时效性紧迫性"; "业务机会风险强度"; "可操作性"].

(** [score_key in score_details] and [score_details[score_key]] is a dict
    holding ["分数"]. *)
Definition score_item_ok (score_details : dict) (score_key : string) : bool :=
  match dict_get score_key score_details with
  | Some (JObj score_item) => has_key "分数" score_item
  | _ => false
  end.

Definition _validate_analysis_result (result : dict) : res bool :=
  if is_nil result then Ok false
  else if negb (forallb (fun k => has_key k result) required_keys) then Ok false
  else if negb (existsb (eq_str (get_or_none "议题" result)) OFFICIAL_TOPICS)
  then Ok false
  else
    let category := get_or_none "类别" result in
    if negb (hashable category)
    then Raise (TypeError ("unhashable type: '" ++ type_name category ++ "'"))
    else if negb (existsb (eq_str category) OFFICIAL_CATEGORIES) then Ok false
    else
      match get_or_none "评分详情" result with
      | JObj score_details =>
          if is_nil score_details then Ok false
          else Ok (forallb (score_item_ok score_details) required_score_keys)
      | _ => Ok false
      end.

(** [DateExtractionResult] *)
Record DateExtractionResult : Type := mkDateResult {
  dr_success : bool;
  dr_date : option string;
  dr_confidence : float;
  dr_method : string;
  dr_error_message : option string
}.

(** What [analyze_article_with_deepseek] holds when the answer of the
    model arrives: the title of the article, the content and where it came
    from, the fetch error if any, today's date and the date extraction. *)
Record Context : Type := mkContext {
  title : string;
  content_source : string;
  content_length : Z;
  fetch_error : option string;
  current_date : string;
  date_result : option DateExtractionResult
}.

(** Number of code points of a UTF-8 text: bytes that do not continue one. *)
Definition is_continuation (c : ascii) : bool := in_range 128 191 c.

(** [s[:n]], counted in code points. *)
Fixpoint take_points (n : nat) (s : string) : string :=
  match s with
  | EmptyString => EmptyString
  | String c s' =>
      if is_continuation c then String c (take_points n s')
      else match n with
           | O => EmptyString
           | S n' => String c (take_points n' s')
           end
  end.

Definition zero_score (reason : string) : json :=
  JObj [("分数", JInt 0); ("理由", JStr reason)].

Definition non_empty (o : option string) : option string :=
  match o with
  | Some s => if is_empty s then None else Some s
  | None => None
  end.

(** The analysis with its [_meta] entry, returned when validation passes. *)
Definition accepted_result (ctx : Context) (analysis_results : dict) : dict :=
  let meta_info : dict :=
    [("content_source", JStr (content_source ctx));
     ("content_length", JInt (content_length ctx));
     ("fetch_error", json_of_opt_str (non_empty (fetch_error ctx)));
     ("analysis_date", JStr (current_date ctx))] in
  let meta_info :=
    match date_result ctx with
    | Some dr =>
        (meta_info ++
         [("date_extracted", JBool (dr_success dr));
          ("extracted_date",
           if dr_success dr then json_of_opt_str (dr_date dr) else JNull);
          ("date_extraction_method",
           if dr_success dr then JStr (dr_method dr) else JNull);
          ("date_confidence",
           if dr_success dr then JFloat (dr_confidence dr) else JNull)])%list
    | None => meta_info
    end in
  dict_set "_meta" (JObj meta_info) analysis_results.

(** The default returned when validation says no. *)
Definition rejected_result (ctx : Context) : dict :=
  [("议题", JStr (hd EmptyString OFFICIAL_TOPICS));
   ("类别", JStr (hd EmptyString OFFICIAL_CATEGORIES));
   ("摘要", JStr (title ctx));
   ("新标题", JStr (take_points 50 (title ctx)));
   ("评分详情",
    JObj [("战略相关性", zero_score "默认评分");
          ("行业影响力", zero_score "默认评分");
          ("时效性紧迫性", zero_score "默认评分");
          ("业务机会风险强度", zero_score "默认评分");
          ("可操作性", zero_score "默认评分")]);
   ("_meta",
    JObj [("content_source", JStr (content_source ctx));
          ("content_length", JInt (content_length ctx));
          ("fetch_error", JStr "AI分析结果验证失败");
          ("analysis_date", JStr (current_date ctx));
          ("date_extracted",
           match date_result ctx with
           | Some dr => JBool (dr_success dr)
           | None => JBool false
           end);
          ("extracted_date",
           match date_result ctx with
           | Some dr => if dr_success dr then json_of_opt_str (dr_date dr) else JNull
           | None => JNull
           end)])].

(** The default returned by the [except Exception] handler. *)
Definition failed_result (ctx : Context) (e : exn) : dict :=
  [("议题", JStr (hd EmptyString OFFICIAL_TOPICS));
   ("类别", JStr (hd EmptyString OFFICIAL_CATEGORIES));
   ("摘要", JStr ("分析失败: " ++ title ctx));
   ("新标题", JStr (take_points 50 (title ctx)));
   ("评分详情",
    JObj [("战略相关性",
           zero_score ("API调用失败: " ++ take_points 50 (str_of_exn e)));
          ("行业影响力", zero_score "API调用失败");
          ("时效性紧迫性", zero_score "API调用失败");
          ("业务机会风险强度", zero_score "API调用失败");
          ("可操作性", zero_score "API调用失败")]);
   ("_meta",
    JObj [("content_source", JStr (content_source ctx));
          ("content_length", JInt (content_length ctx));
          ("fetch_error", JStr ("API调用失败: " ++ str_of_exn e));
          ("analysis_date", JStr (current_date ctx));
          ("date_extracted", JBool false);
          ("extracted_date", JNull)])].

(** The [try] body of [analyze_article_with_deepseek] from the parsed
    answer on ([_parse_ai_output] always hands over a dict, empty when the
    text is not JSON). *)
Definition analyze_body (ctx : Context) (analysis_results : dict) : res dict :=
  valid <- _validate_analysis_result analysis_results ;;
  if valid then Ok (accepted_result ctx analysis_results)
  else Ok (rejected_result ctx).

(** ... and with its [except Exception] handler around it. *)
Definition analyze_parsed (ctx : Context) (analysis_results : dict) : res dict :=
  match analyze_body ctx analysis_results with
  | Raise e => Ok (failed_result ctx e)
  | r => r
  end.

(** [result["评分详情"][dimension]["分数"]] *)
Definition sub_score (result : dict) (dimension : string) : option json :=
  match dict_get "评分详情" result with
  | Some (JObj score_details) =>
      match dict_get dimension score_details with
      | Some (JObj score_item) => dict_get "分数" score_item
      | _ => None
      end
  | _ => None
  end.

(** [result["_meta"]["fetch_error"]] *)
Definition meta_fetch_error (result : dict) : option json :=
  match dict_get "_meta" result with
  | Some (JObj meta) => dict_get "fetch_error" meta
  | _ => None
  end.

(** The sub-dimension entry of an answer, when its score details hold one. *)
Definition sub_dimension (result : dict) (dimension : string) : option json :=
  match dict_get "评分详情" result with
  | Some (JObj score_details) => dict_get dimension score_details
  | _ => None
  end.

End AiService.

(** ** Python numbers: [int] and [float] arithmetic, [round] *)

Module PyNum.

Inductive pynum : Type :=
| PInt (n : Z)
| PFloat (f : float).

Definition is_finite (x : float) : bool :=
  negb (PrimFloat.is_nan x || PrimFloat.is_infinity x).

(** The double nearest to an integer (ties to even), infinite when the
    integer is beyond the doubles. *)
Definition nearest_double (n : Z) : float :=
  SF2Prim (binary_normalize prec emax n 0 false).

(** [float(n)]: [OverflowError] when [n] is too large. *)
Definition float_of_int (n : Z) : res float :=
  let x := nearest_double n in
  if PrimFloat.is_infinity x
  then Raise (OverflowError "int too large to convert to float")
  else Ok x.

(** Nearest integer to [num / den] for [den > 0], ties to the even one. *)
Definition div_half_even (num den : Z) : Z :=
  let q := num / den in
  let r := num mod den in
  match 2 * r ?= den with
  | Lt => q
  | Gt => q + 1
  | Eq => if Z.even q then q else q + 1
  end.

(** The magnitude of a finite double in tenths, rounded half-even on its
    exact binary value: what [_Py_dg_dtoa(x, 3, 1, ...)] prints. *)
Definition tenths_of_magnitude (m : positive) (e : Z) : Z :=
  if 0 <=? e then 10 * Z.pos m * 2 ^ e
  else div_half_even (10 * Z.pos m) (2 ^ (- e)).

(** The double nearest to [k / 10], with the given sign: the value
    [_Py_dg_strtod] reads back from the printed digits. *)
Definition double_of_tenths (negative : bool) (k : Z) : float :=
  match k with
  | Zpos p =>
      SF2Prim (SFdiv prec emax (S754_finite negative p 0) (S754_finite false 10 0))
  | _ => SF2Prim (S754_zero negative)
  end.

(** [round(x, 1)] on a float: infinities and nans round to themselves. *)
Definition round1_float (x : float) : float :=
  match Prim2SF x with
  | S754_finite s m e => double_of_tenths s (tenths_of_magnitude m e)
  | S754_zero s => double_of_tenths s 0
  | _ => x
  end.

(** [round(t, 1)]: an [int] is returned as it is. *)
Definition round1 (t : pynum) : pynum :=
  match t with
  | PInt n => PInt n
  | PFloat x => PFloat (round1_float x)
  end.

(** [t + x] for a float [x]. *)
Definition add_float (t : pynum) (x : float) : res pynum :=
  match t with
  | PInt n => y <- float_of_int n ;; Ok (PFloat (y + x))
  | PFloat y => Ok (PFloat (y + x))
  end.

End PyNum.

(** ** [api/endpoints/intelligence.py]: the composite score *)

Module Scoring.
Import Json PyNum.

(** [weights], in the order the loop runs through them. *)
Definition weights : list (string * float) :=
  [("战略相关性", 0.30%float);
   ("行业影响力", 0.20%float);
   ("时效性紧迫性", 0.20%float);
   ("业务机会风险强度", 0.15%float);
   ("可操作性", 0.15%float)].

(** [v * weight] for a JSON value [v]. *)
Definition times_weight (v : json) (weight : float) : res float :=
  match v with
  | JInt n => x <- float_of_int n ;; Ok (x * weight)%float
  | JBool b => Ok ((if b then 1 else 0) * weight)%float
  | JFloat x => Ok (x * weight)%float
  | JStr _ | JArr _ =>
      Raise (TypeError "can't multiply sequence by non-int of type 'float'")
  | JNull | JObj _ =>
      Raise (TypeError ("unsupported operand type(s) for *: '"
                        ++ type_name v ++ "' and 'float'"))
  end.

(** [scores.get(dimension, {})] *)
Definition get_dimension (scores : json) (dimension : string) : res json :=
  match scores with
  | JObj d =>
      Ok (match dict_get dimension d with Some v => v | None => JObj [] end)
  | _ =>
      Raise (AttributeError ("'" ++ type_name scores
                             ++ "' object has no attribute 'get'"))
  end.

(** One turn of the loop over [weights.items()]. *)
Definition add_dimension (scores : json) (total_score : pynum)
           (entry : string * float) : res pynum :=
  let (dimension, weight) := entry in
  score_data <- get_dimension scores dimension ;;
  match score_data with
  | JObj item =>
      match dict_get "分数" item with
      | Some v => x <- times_weight v weight ;; add_float total_score x
      | None => Ok total_score
      end
  | _ => Ok total_score
  end.

Fixpoint add_dimensions (scores : json) (total_score : pynum)
         (entries : list (string * float)) : res pynum :=
  match entries with
  | [] => Ok total_score
  | entry :: rest =>
      t <- add_dimension scores total_score entry ;;
      add_dimensions scores t rest
  end.

(** [analysis.get("评分详情", {})] *)
Definition scores_of (analysis : dict) : json :=
  match dict_get "评分详情" analysis with Some v => v | None => JObj [] end.

(** The value bound to [ai_score] in the [UPDATE]:
    [round(total_score, 1)]. *)
Definition ai_score (analysis : dict) : res pynum :=
  total_score <- add_dimensions (scores_of analysis) (PInt 0) weights ;;
  Ok (round1 total_score).

(** An analysis carrying the five sub-dimension scores as integers. *)
Definition with_scores (s1 s2 s3 s4 s5 : Z) (top : dict) : dict :=
  dict_set "评分详情"
    (JObj [("战略相关性", JObj [("分数", JInt s1); ("理由", JStr EmptyString)]);
           ("行业影响力", JObj [("分数", JInt s2); ("理由", JStr EmptyString)]);
           ("时效性紧迫性", JObj [("分数", JInt s3); ("理由", JStr EmptyString)]);
           ("业务机会风险强度", JObj [("分数", JInt s4); ("理由", JStr EmptyString)]);
           ("可操作性", JObj [("分数", JInt s5); ("理由", JStr EmptyString)])])
    top.

(** [analysis] carries score [n] for [dimension]. *)
Definition carries (analysis : dict) (dimension : string) (n : Z) : Prop :=
  exists score_details item,
    dict_get "评分详情" analysis = Some (JObj score_details)
    /\ dict_get dimension score_details = Some (JObj item)
    /\ dict_get "分数" item = Some (JInt n).

(** The formula as Python evaluates it on integer sub-scores, in binary64
    and from left to right. *)
Definition weighted_sum (s1 s2 s3 s4 s5 : Z) : float :=
  (nearest_double s1 * 0.30 + nearest_double s2 * 0.20
   + nearest_double s3 * 0.20 + nearest_double s4 * 0.15
   + nearest_double s5 * 0.15)%float.

(** The integer scores the prompt asks for. *)
Definition score_range : list Z := [0; 1; 2; 3; 4; 5; 6; 7; 8; 9; 10].

End Scoring.

(** ** Answers that validation must turn down *)

Module Responses.
Import Json AiService.

(** A parsed answer lacks a required top-level key, names a topic or a
    category outside the official lists, or lacks one of the five
    sub-dimensions. *)
Definition invalid_response (r : dict) : Prop :=
  (exists k, In k required_keys /\ dict_get k r = None)
  \/ existsb (eq_str (get_or_none "议题" r)) OFFICIAL_TOPICS = false
  \/ existsb (eq_str (get_or_none "类别" r)) OFFICIAL_CATEGORIES = false
  \/ (exists k, In k required_score_keys /\ sub_dimension r k = None).

(** All five sub-dimension scores of a result are the integer 0. *)
Definition zero_scored (d : dict) : Prop :=
  forall k, In k required_score_keys -> sub_score d k = Some (JInt 0).

(** A well-formed answer, and the same with a topic of the model's own. *)
Definition good_answer : dict :=
  [("议题", JStr "绿色建筑");
   ("类别", JStr "政策动态");
   ("摘要", JStr "s");
   ("新标题", JStr "t");
   ("评分详情",
    JObj [("战略相关性", JObj [("分数", JInt 8); ("理由", JStr EmptyString)]);
          ("行业影响力", JObj [("分数", JInt 6); ("理由", JStr EmptyString)]);
          ("时效性紧迫性", JObj [("分数", JInt 10); ("理由", JStr EmptyString)]);
          ("业务机会风险强度", JObj [("分数", JInt 4); ("理由", JStr EmptyString)]);
          ("可操作性", JObj [("分数", JInt 2); ("理由", JStr EmptyString)])])].

Definition unknown_topic_answer : dict :=
  dict_set "议题" (JStr "ESG") good_answer.

(** The category given as a list: not hashable. *)
Definition list_category_answer : dict :=
  dict_set "类别" (JArr [JStr "政策动态"]) good_answer.

Definition sample_context : Context :=
  mkContext "title" "cached" 5 None "2025-01-01" None.

End Responses.

(** ** The tables of the intelligence endpoints *)

Module Store.

(** A row of [intelligence]: the columns the crawl and the listing read
    or write (the others are NULL on insert and left alone). *)
Record Intelligence : Type := mkIntelligence {
  i_id : Z;
  i_title : string;
  i_summary : option string;
  i_topic : option string;
  i_news_time : option string;
  i_collect_time : string;
  i_update_time : string;
  i_quality_status : string;
  i_ai_score : float;
  i_score_dimensions : option string;
  i_is_merged : bool;
  i_merged_count : Z
}.

(** A row of [intelligence_sources]. *)
Record IntelligenceSource : Type := mkIntelligenceSource {
  src_id : Z;
  src_intelligence_id : Z;
  src_url : string;
  src_title : option string;
  src_domain : string;
  src_fetch_time : string
}.

Record Db : Type := mkDb {
  intelligence : list Intelligence;
  intelligence_sources : list IntelligenceSource
}.

(** The rowid SQLite gives to the next inserted row. *)
Definition next_rowid (ids : list Z) : Z :=
  fold_right Z.max 0 ids + 1.

End Store.

(** ** [api/endpoints/intelligence.py]: saving crawled items *)

Module Crawl.
Import PyStr Store.

(** A [datetime]: microseconds on the proleptic calendar, naive or with
    a UTC offset.  [datetime.now()] is naive. *)
Inductive datetime : Type :=
| Naive (us : Z)
| Aware (utc_us : Z) (utcoffset : Z).

(** [timedelta(days=1)] in microseconds. *)
Definition day : Z := 86400 * 1000000.

(** [a < b]: mixing naive and aware values is a [TypeError]. *)
Definition datetime_lt (a b : datetime) : res bool :=
  match a, b with
  | Naive x, Naive y => Ok (x <? y)
  | Aware x _, Aware y _ => Ok (x <? y)
  | _, _ => Raise (TypeError "can't compare offset-naive and offset-aware datetimes")
  end.

(** [start_date = end_date - timedelta(days=days_back)] with
    [end_date = datetime.now()], a reading far from the ends of the
    [datetime] range. *)
Definition start_date_of (now days_back : Z) : Z := now - days_back * day.

(** [ScrapedItem] *)
Record ScrapedItem : Type := mkItem {
  si_title : string;
  si_url : string;
  si_date : option string
}.

Record Counters : Type := mkCounters {
  saved_count : Z;
  updated_count : Z;
  duplicate_count : Z;
  out_of_range_count : Z
}.

Definition no_counts : Counters := mkCounters 0 0 0 0.

(** [SELECT id, news_time FROM intelligence WHERE title = :title LIMIT 1] *)
Definition find_by_title (title : string) (db : Db) : option Intelligence :=
  find (fun row => String.eqb (i_title row) title) (intelligence db).

(** [UPDATE intelligence SET news_time, update_time, topic WHERE id = :id] *)
Definition update_dated (id : Z) (news_time update_time topic : string)
           (row : Intelligence) : Intelligence :=
  if i_id row =? id
  then mkIntelligence (i_id row) (i_title row) (i_summary row) (Some topic)
         (Some news_time) (i_collect_time row) update_time
         (i_quality_status row) (i_ai_score row) (i_score_dimensions row)
         (i_is_merged row) (i_merged_count row)
  else row.

(** [SELECT COUNT( * ) FROM intelligence_sources
     WHERE intelligence_id = :id AND url = :url] *)
Definition count_sources (id : Z) (url : string) (db : Db) : Z :=
  Z.of_nat (List.length
    (filter (fun s => (src_intelligence_id s =? id) && String.eqb (src_url s) url)%bool
            (intelligence_sources db))).

(** [INSERT INTO intelligence_sources (...)] *)
Definition insert_source (intelligence_id : Z) (url title domain fetch_time : string)
           (db : Db) : Db :=
  mkDb (intelligence db)
       (intelligence_sources db ++
        [mkIntelligenceSource (next_rowid (map src_id (intelligence_sources db)))
           intelligence_id url (Some title) domain fetch_time]).

(** [INSERT INTO intelligence (...)]: the new row and its rowid. *)
Definition insert_intelligence (title topic : string) (news_time : option string)
           (now_text : string) (db : Db) : Db * Z :=
  let id := next_rowid (map i_id (intelligence db)) in
  (mkDb (intelligence db ++
         [mkIntelligence id title (Some EmptyString) (Some topic) news_time
            now_text now_text "pending" 0%float (Some "{}") false 0])
        (intelligence_sources db),
   id).

Definition bump_saved (c : Counters) : Counters :=
  mkCounters (saved_count c + 1) (updated_count c) (duplicate_count c)
             (out_of_range_count c).
Definition bump_updated (c : Counters) : Counters :=
  mkCounters (saved_count c) (updated_count c + 1) (duplicate_count c)
             (out_of_range_count c).
Definition bump_duplicate (c : Counters) : Counters :=
  mkCounters (saved_count c) (updated_count c) (duplicate_count c + 1)
             (out_of_range_count c).
Definition bump_out_of_range (c : Counters) : Counters :=
  mkCounters (saved_count c) (updated_count c) (duplicate_count c)
             (out_of_range_count c + 1).

Section Saving.

(** [dateutil]'s [parser.parse(text)] and [parser.parse(text, fuzzy=True)]
    ([None] when they raise), and [datetime.isoformat()]. *)
Variable parse : string -> option datetime.
Variable parse_fuzzy : string -> option datetime.
Variable isoformat : datetime -> string.

(** The date handling at the head of the loop body. *)
Definition parse_item_date (item : ScrapedItem) : option datetime :=
  match si_date item with
  | Some d =>
      if is_empty d then None
      else if is_empty (strip d) then None
      else match parse (strip d) with
           | Some t => Some t
           | None => parse_fuzzy (strip d)
           end
  | None => None
  end.

(** The range check: [news_time < start_date - timedelta(days=7)]. *)
Definition out_of_range (start_date : Z) (news_time : option datetime) : res bool :=
  match news_time with
  | Some t => datetime_lt t (Naive (start_date - 7 * day))
  | None => Ok false
  end.

(** The duplicate check and what follows it. *)
Definition merge_or_insert (topic_name source_domain : string)
           (current_time : Z) (item : ScrapedItem)
           (news_time : option datetime) (st : Db * Counters) : Db * Counters :=
  let (db, counts) := st in
  let now_text := isoformat (Naive current_time) in
  match find_by_title (si_title item) db with
  | Some existing_row =>
      match i_news_time existing_row, news_time with
      | None, Some t =>
          let db := mkDb (map (update_dated (i_id existing_row) (isoformat t)
                                            now_text topic_name)
                              (intelligence db))
                         (intelligence_sources db) in
          let db :=
            if count_sources (i_id existing_row) (si_url item) db =? 0
            then insert_source (i_id existing_row) (si_url item) (si_title item)
                               source_domain now_text db
            else db in
          (db, bump_updated counts)
      | _, _ => (db, bump_duplicate counts)
      end
  | None =>
      let news_time_str :=
        match news_time with Some t => Some (isoformat t) | None => None end in
      let (db, intelligence_id) :=
        insert_intelligence (si_title item) topic_name news_time_str now_text db in
      (insert_source intelligence_id (si_url item) (si_title item)
                     source_domain now_text db,
       bump_saved counts)
  end.

(** The [try] body of the loop over [items]; [current_time] is the
    reading of [datetime.now()] taken for this item. *)
Definition save_item (topic_name source_domain : string) (start_date : Z)
           (current_time : Z) (item : ScrapedItem) (st : Db * Counters)
  : res (Db * Counters) :=
  let news_time := parse_item_date item in
  discard <- out_of_range start_date news_time ;;
  if discard then Ok (fst st, bump_out_of_range (snd st))
  else Ok (merge_or_insert topic_name source_domain current_time item news_time st).

(** ... with its [except Exception: continue]. *)
Definition save_item_guarded (topic_name source_domain : string) (start_date : Z)
           (current_time : Z) (item : ScrapedItem) (st : Db * Counters)
  : Db * Counters :=
  match save_item topic_name source_domain start_date current_time item st with
  | Ok st' => st'
  | _ => st
  end.

(** The loop over the items of one source, each with its clock reading. *)
Definition save_items (topic_name source_domain : string) (start_date : Z)
           (items : list (Z * ScrapedItem)) (db : Db) : Db * Counters :=
  fold_left (fun st ti => save_item_guarded topic_name source_domain start_date
                                            (fst ti) (snd ti) st)
            items (db, no_counts).

(** One source of a topic: its domain and what [scraper.scrape] returned
    for it ([None] when building the recipe or scraping raised). *)
Record SourceRun : Type := mkSourceRun {
  run_domain : string;
  run_items : option (list (Z * ScrapedItem))
}.

(** The body of the loop over the sources of a topic; the totals are
    [total_crawled] and [total_saved]. *)
Definition crawl_source (topic_name : string) (start_date : Z) (run : SourceRun)
           (st : Db * (Z * Z)) : Db * (Z * Z) :=
  match run_items run with
  | Some items =>
      let (db, counts) :=
        save_items topic_name (run_domain run) start_date items (fst st) in
      (db, (fst (snd st) + Z.of_nat (List.length items),
            snd (snd st) + saved_count counts))
  | None => st
  end.

(** [start_crawling] over the topics found, each with its sources. *)
Definition start_crawling (now days_back : Z)
           (topics : list (string * list SourceRun)) (db : Db) : Db * (Z * Z) :=
  let start_date := start_date_of now days_back in
  fold_left
    (fun st topic =>
       fold_left (fun st run => crawl_source (fst topic) start_date run st)
                 (snd topic) st)
    topics (db, (0, 0)).

End Saving.

End Crawl.

(** ** Sample crawl *)

Module CrawlSamples.
Import Store Crawl.

(** A page date is read as so many days before the crawl of day 100. *)
Definition sample_parse (text : string) : option datetime :=
  if String.eqb text "old" then Some (Naive (100 * day - 30 * day))
  else if String.eqb text "recent" then Some (Naive (100 * day - 13 * day))
  else if String.eqb text "zoned" then Some (Aware (100 * day - 13 * day) 0)
  else None.

Definition sample_fuzzy (text : string) : option datetime := None.

Definition sample_isoformat (t : datetime) : string :=
  match t with
  | Naive us => "naive:" ++ PyRepr.str_of_int us
  | Aware us off => "aware:" ++ PyRepr.str_of_int us
  end.

Definition sample_now : Z := 100 * day.

(** One stored title without a date, reported by one URL. *)
Definition undated_db : Db :=
  mkDb [mkIntelligence 1 "T" (Some EmptyString) (Some "old topic") None "c" "u"
          "pending" 0%float (Some "{}") false 0]
       [mkIntelligenceSource 1 1 "https://a.example/t" (Some "T") "a.example" "f"].

Definition item_T (url : string) (date : option string) : ScrapedItem :=
  mkItem "T" url date.

End CrawlSamples.

(** ** The SQL the endpoints issue, as SQLite evaluates it *)

Module Sql.
Import PyStr.

(** One [ORDER BY] term: how two rows compare under it. *)
Definition term (A : Type) : Type := A -> A -> comparison.

Definition asc {A K : Type} (key : A -> K) (cmp : K -> K -> comparison) : term A :=
  fun a b => cmp (key a) (key b).

Definition desc {A K : Type} (key : A -> K) (cmp : K -> K -> comparison) : term A :=
  fun a b => cmp (key b) (key a).

(** The terms of an [ORDER BY], the first one that tells two rows apart
    deciding. *)
Fixpoint lex {A : Type} (terms : list (term A)) (a b : A) : comparison :=
  match terms with
  | [] => Eq
  | t :: ts =>
      match t a b with
      | Eq => lex ts a b
      | c => c
      end
  end.

Definition precedes {A : Type} (terms : list (term A)) (a b : A) : bool :=
  match lex terms a b with
  | Gt => false
  | _ => true
  end.

Fixpoint insert_sorted {A : Type} (le : A -> A -> bool) (x : A) (l : list A) : list A :=
  match l with
  | [] => [x]
  | y :: l' => if le x y then x :: l else y :: insert_sorted le x l'
  end.

(** [ORDER BY terms].  Rows that compare equal are left in table order
    here; SQLite promises no order among them, so what is stated of the
    order of an answer is stated of rows that do not tie, or holds for
    every order of the ties. *)
Definition order_by {A : Type} (terms : list (term A)) (rows : list A) : list A :=
  fold_right (insert_sorted (precedes terms)) [] rows.

(** The driver binds a Python [int] as a 64-bit integer and raises
    [OverflowError] for any other. *)
Definition int64 (n : Z) : bool := ((- 2 ^ 63 <=? n) && (n <=? 2 ^ 63 - 1))%bool.

Definition bind_int_error (n : Z) : option exn :=
  if int64 n then None
  else Some (OverflowError "Python int too large to convert to SQLite INTEGER").

(** [LIMIT :limit OFFSET :offset] on the values bound: a negative limit is
    no limit, a negative offset is 0. *)
Definition limit_offset {A : Type} (limit offset : Z) (rows : list A) : list A :=
  let rows := skipn (Z.to_nat offset) rows in
  if limit <? 0 then rows else firstn (Z.to_nat limit) rows.

(** Column values: NULL sorts before everything. *)
Definition cmp_nullable {K : Type} (cmp : K -> K -> comparison)
           (a b : option K) : comparison :=
  match a, b with
  | None, None => Eq
  | None, Some _ => Lt
  | Some _, None => Gt
  | Some x, Some y => cmp x y
  end.

(** TEXT under the BINARY collation, INTEGER, and the 0/1 of a test. *)
Definition cmp_text : string -> string -> comparison := String.compare.
Definition cmp_int : Z -> Z -> comparison := Z.compare.
Definition cmp_bool (a b : bool) : comparison :=
  match a, b with
  | false, true => Lt
  | true, false => Gt
  | _, _ => Eq
  end.

(** REAL; SQLite stores no NaN. *)
Definition cmp_real (x y : float) : comparison :=
  match PrimFloat.compare x y with
  | FLt => Lt
  | FGt => Gt
  | _ => Eq
  end.

Definition is_nul (c : ascii) : bool := Nat.eqb (code c) 0.

(** A text as the string functions of SQLite read it: up to its first
    NUL. *)
Fixpoint c_text (s : string) : string :=
  match s with
  | EmptyString => EmptyString
  | String c s' => if is_nul c then EmptyString else String c (c_text s')
  end.

(** The comparison behind [LIKE]: [%] stands for any run of characters,
    [_] for one, letters match in either case. *)
Fixpoint pattern_compare (pattern text : string) : bool :=
  match pattern with
  | EmptyString => is_empty text
  | String p pattern' =>
      if Ascii.eqb p "%" then
        (fix any_suffix (t : string) : bool :=
           (pattern_compare pattern' t ||
            match t with
            | EmptyString => false
            | String _ t' => any_suffix t'
            end)%bool) text
      else
        match text with
        | EmptyString => false
        | String c text' =>
            ((Ascii.eqb p "_" || Ascii.eqb (lower_char p) (lower_char c))
             && pattern_compare pattern' text')%bool
        end
  end.

(** [text LIKE pattern]: both are read up to their first NUL.  (A pattern
    of more than 50000 bytes is an error in SQLite; it is kept out by the
    statements about [LIKE].) *)
Definition like (pattern text : string) : bool :=
  pattern_compare (c_text pattern) (c_text text).

End Sql.

(** ** [api/endpoints/intelligence.py]: the listing *)

Module IntelList.
Import PyStr Json Store Sql.

Record ListQuery : Type := mkListQuery {
  page : Z;
  page_size : Z;
  title : option string;
  topic : option string;
  quality : option string;
  min_score : option float;
  max_score : option float;
  news_start_date : option string;
  news_end_date : option string;
  start_date : option string;
  end_date : option string;
  sort_by : string;
  order : string
}.

(** The defaults of the query parameters. *)
Definition default_query : ListQuery :=
  mkListQuery 1 20 None None None None None None None None None "news_time" "desc".

Inductive condition : Type :=
| TitleLike (pattern : string)
| TopicLike (pattern : string)
| QualityIs (status : string)
| ScoreAtLeast (x : float)
| ScoreAtMost (x : float)
| NewsFrom (bound : string)
| NewsTo (bound : string)
| CollectedFrom (bound : string)
| CollectedTo (bound : string).

(** A comparison with NULL is not true. *)
Definition holds (c : condition) (row : Intelligence) : bool :=
  match c with
  | TitleLike p => like p (i_title row)
  | TopicLike p =>
      match i_topic row with Some t => like p t | None => false end
  | QualityIs s => String.eqb (i_quality_status row) s
  | ScoreAtLeast x => PrimFloat.leb x (i_ai_score row)
  | ScoreAtMost x => PrimFloat.leb (i_ai_score row) x
  | NewsFrom b =>
      match i_news_time row with Some t => String.leb b t | None => false end
  | NewsTo b =>
      match i_news_time row with Some t => String.leb t b | None => false end
  | CollectedFrom b => String.leb b (i_collect_time row)
  | CollectedTo b => String.leb (i_collect_time row) b
  end.

Definition not_a_blank_word (s : string) : bool :=
  negb (existsb (String.eqb s) ["None"; "null"; EmptyString]).

(** [s and s.strip()] and [s] is none of [None], [null] and the empty
    text. *)
Definition given_text (o : option string) : option string :=
  match o with
  | Some s =>
      if (negb (is_empty s) && negb (is_empty (strip s)) && not_a_blank_word s)%bool
      then Some (strip s) else None
  | None => None
  end.

(** [s] is set and none of [None], [null] and the empty text. *)
Definition given_date (o : option string) : option string :=
  match o with
  | Some s => if (negb (is_empty s) && not_a_blank_word s)%bool then Some s else None
  | None => None
  end.

(** One item of the answer. *)
Record Item : Type := mkResultItem {
  it_id : Z;
  it_title : string;
  it_summary : string;
  it_news_time : option string;
  it_collect_time : option string;
  it_topic : string;
  it_category : string;
  it_ai_score : float;
  it_dimensions : json;
  it_quality_status : string;
  it_sources : list (string * string);
  it_is_merged : bool;
  it_merged_count : Z
}.

(** The answer; [l_error] is its [error] entry, there when the handler
    has caught an exception. *)
Record Listing : Type := mkListing {
  items : list Item;
  total : Z;
  l_page : Z;
  l_page_size : Z;
  total_pages : Z;
  l_error : option string
}.

Definition valid_sort_fields : list string :=
  ["id"; "title"; "topic"; "news_time"; "collect_time"; "ai_score"; "quality_status"].

(** The sort field after the allow-list check. *)
Definition effective_sort (sort_by : string) : string :=
  if existsb (String.eqb sort_by) valid_sort_fields then sort_by else "news_time".

Definition descending (order : string) : bool := String.eqb (lower order) "desc".

(** The ordering term of one allow-listed column. *)
Definition column_term (sort_by : string) (down : bool) : term Intelligence :=
  let dir := fun (K : Type) (key : Intelligence -> K) (cmp : K -> K -> comparison) =>
               if down then desc key cmp else asc key cmp in
  if String.eqb sort_by "id" then dir _ i_id cmp_int
  else if String.eqb sort_by "title" then dir _ i_title cmp_text
  else if String.eqb sort_by "topic" then dir _ i_topic (cmp_nullable cmp_text)
  else if String.eqb sort_by "collect_time" then dir _ i_collect_time cmp_text
  else if String.eqb sort_by "ai_score" then dir _ i_ai_score cmp_real
  else if String.eqb sort_by "quality_status" then dir _ i_quality_status cmp_text
  else dir _ i_news_time (cmp_nullable cmp_text).

Definition is_null {K : Type} (o : option K) : bool :=
  match o with None => true | Some _ => false end.

(** [order_clause] *)
Definition order_terms (sort_by : string) (down : bool) : list (term Intelligence) :=
  if String.eqb sort_by "news_time"
  then [asc (fun row => is_null (i_news_time row)) cmp_bool;
        column_term sort_by down]
  else [column_term sort_by down].

Definition or_default (s default : string) : string :=
  if is_empty s then default else s.

Section Listing.

(** [dateutil]'s [parser.parse] followed by the driver's rendering of the
    bound [datetime] ([None] when the text does not parse), and
    [json.loads] ([None] when it raises). *)
Variable bind_date : string -> option string.
Variable json_loads : string -> option json.

Definition date_condition (make : string -> condition) (text : string) : list condition :=
  match bind_date text with
  | Some bound => [make bound]
  | None => []
  end.

(** [where_conditions], in the order they are appended. *)
Definition where_conditions (q : ListQuery) : list condition :=
  (match given_text (title q) with
   | Some t => [TitleLike ("%" ++ t ++ "%")] | None => [] end)
  ++ (match given_text (topic q) with
      | Some t => [TopicLike ("%" ++ t ++ "%")] | None => [] end)
  ++ (match given_text (quality q) with
      | Some t => [QualityIs t] | None => [] end)
  ++ (match min_score q with Some x => [ScoreAtLeast x] | None => [] end)
  ++ (match max_score q with Some x => [ScoreAtMost x] | None => [] end)
  ++ (match given_date (news_start_date q) with
      | Some d => date_condition NewsFrom d | None => [] end)
  ++ (match given_date (news_end_date q) with
      | Some d => date_condition NewsTo d
      | None =>
          match given_date (start_date q) with
          | Some d => date_condition CollectedFrom d
          | None =>
              match given_date (end_date q) with
              | Some d => date_condition CollectedTo d
              | None => []
              end
          end
      end).

Definition matching (q : ListQuery) (db : Db) : list Intelligence :=
  filter (fun row => forallb (fun c => holds c row) (where_conditions q))
         (intelligence db).

(** What binding [:limit] and [:offset] of the data query raises, if
    anything. *)
Definition data_query_error (q : ListQuery) : option exn :=
  match bind_int_error (page_size q) with
  | Some e => Some e
  | None => bind_int_error ((page q - 1) * page_size q)
  end.

(** The rows of the page, in the order the query returns them. *)
Definition page_rows (q : ListQuery) (db : Db) : list Intelligence :=
  limit_offset (page_size q) ((page q - 1) * page_size q)
    (order_by (order_terms (effective_sort (sort_by q)) (descending (order q)))
              (matching q db)).

(** [SELECT url, title FROM intelligence_sources WHERE intelligence_id = :id] *)
Definition sources_of (db : Db) (id : Z) : list (string * string) :=
  map (fun s => (src_url s,
                 match src_title s with Some t => t | None => EmptyString end))
      (filter (fun s => src_intelligence_id s =? id) (intelligence_sources db)).

Definition item_of (db : Db) (row : Intelligence) : Item :=
  mkResultItem
    (i_id row) (i_title row)
    (match i_summary row with Some s => s | None => EmptyString end)
    (i_news_time row)
    (Some (i_collect_time row))
    (match i_topic row with Some t => t | None => EmptyString end)
    "前沿资讯"
    (if PrimFloat.eqb (i_ai_score row) 0 then 0%float else i_ai_score row)
    (match i_score_dimensions row with
     | Some text =>
         if is_empty text then JObj []
         else match json_loads text with Some v => v | None => JObj [] end
     | None => JObj []
     end)
    (or_default (i_quality_status row) "pending")
    (sources_of db (i_id row))
    (i_is_merged row)
    (i_merged_count row).

(** The [except] branch of the handler. *)
Definition failed (q : ListQuery) (message : string) : Listing :=
  mkListing [] 0 1 (page_size q) 0 (Some message).

(** The count query runs first; the data query raises when [:limit] or
    [:offset] cannot be bound, and the page count divides by
    [page_size]. *)
Definition get_intelligence_list (q : ListQuery) (db : Db) : Listing :=
  let total := Z.of_nat (List.length (matching q db)) in
  match data_query_error q with
  | Some e => failed q (str_of_exn e)
  | None =>
      if ((0 <? total) && (page_size q =? 0))%bool
      then failed q "integer division or modulo by zero"
      else
        mkListing (map (item_of db) (page_rows q db))
                  total (page q) (page_size q)
                  (if 0 <? total then (total + page_size q - 1) / page_size q else 0)
                  None
  end.

End Listing.

(** Rows without a date come after the rows with one. *)
Definition dated_first (a b : Intelligence) : Prop :=
  i_news_time a = None -> i_news_time b = None.

End IntelList.

(** ** [crud/crud_operations.py] and [api/endpoints/sources.py]: listing the sources *)

Module Sources.
Import PyStr Sql.

(** A row of [sources] with the ids of its topics. *)
Record Source : Type := mkSource {
  so_id : Z;
  so_domain : string;
  so_recipe_json : string;
  so_created_at : option string;
  so_updated_at : option string;
  so_topics : list Z
}.

(** What [getattr(Source, name)] can be: a mapped column, the [topics]
    relationship, or another object held by the class. *)
Inductive attribute : Type :=
| ColId
| ColDomain
| ColRecipeJson
| ColCreatedAt
| ColUpdatedAt
| RelTopics
| Other (type_name : string).

(** The public names of the class: its five columns, its relationship,
    and [metadata] and [registry] from the declarative base.  The private
    and dunder names it inherits are not listed here. *)
Definition class_attribute (name : string) : res (option attribute) :=
  if String.eqb name "id" then Ok (Some ColId)
  else if String.eqb name "domain" then Ok (Some ColDomain)
  else if String.eqb name "recipe_json" then Ok (Some ColRecipeJson)
  else if String.eqb name "created_at" then Ok (Some ColCreatedAt)
  else if String.eqb name "updated_at" then Ok (Some ColUpdatedAt)
  else if String.eqb name "topics" then Ok (Some RelTopics)
  else if String.eqb name "metadata" then Ok (Some (Other "MetaData"))
  else if String.eqb name "registry" then Ok (Some (Other "registry"))
  else if startswith "_" name then Unmodelled
  else Ok None.

(** [getattr(Source, sort_by, Source.id)] *)
Definition getattr_or_id (sort_by : string) : res attribute :=
  a <- class_attribute sort_by ;;
  Ok (match a with Some x => x | None => ColId end).

(** [sort_column.desc()] and [sort_column.asc()] as ordering terms. *)
Definition direction (a : attribute) (down : bool) : res (term Source) :=
  let dir := fun (K : Type) (key : Source -> K) (cmp : K -> K -> comparison) =>
               Ok (if down then desc key cmp else asc key cmp) in
  match a with
  | ColId => dir _ so_id cmp_int
  | ColDomain => dir _ so_domain cmp_text
  | ColRecipeJson => dir _ so_recipe_json cmp_text
  | ColCreatedAt => dir _ so_created_at (cmp_nullable cmp_text)
  | ColUpdatedAt => dir _ so_updated_at (cmp_nullable cmp_text)
  | RelTopics => Unmodelled
  | Other type_name =>
      Raise (AttributeError ("'" ++ type_name ++ "' object has no attribute '"
                             ++ (if down then "desc" else "asc") ++ "'"))
  end.

(** The search and topic filters of the query. *)
Definition selected (q : option string) (topic_id : option Z) (s : Source) : bool :=
  ((match q with
    | Some text =>
        if is_empty text then true
        else like (lower ("%" ++ strip text ++ "%")) (lower (so_domain s))
    | None => true
    end)
   && (match topic_id with
       | Some id => if id =? 0 then true else existsb (Z.eqb id) (so_topics s)
       | None => true
       end))%bool.

Definition get_sources_with_filter_and_sort
           (db : list Source) (q : option string) (topic_id : option Z)
           (sort_by order_by : string) : res (list Source) :=
  sort_column <- getattr_or_id sort_by ;;
  t <- direction sort_column (String.eqb (lower order_by) "desc") ;;
  Ok (Sql.order_by [t] (filter (selected q topic_id) db)).

Definition valid_sort_fields : list string :=
  ["id"; "domain"; "created_at"; "updated_at"].

(** The checks at the head of [api_get_sources_table]. *)
Definition checked_sort (sort : string) : string :=
  if existsb (String.eqb sort) valid_sort_fields then sort else "id".

Definition checked_order (order : string) : string :=
  if existsb (String.eqb (lower order)) ["asc"; "desc"] then order else "asc".

(** [api_get_sources_table]: the rows handed to the template. *)
Definition api_get_sources_table
           (db : list Source) (q : option string) (topic_filter : option Z)
           (sort order : string) : res (list Source) :=
  get_sources_with_filter_and_sort db q topic_filter
    (checked_sort sort) (checked_order order).

(** The list is in the order of one column, upwards or downwards. *)
Definition sorted_by {K : Type} (key : Source -> K) (cmp : K -> K -> comparison)
           (down : bool) (l : list Source) : Prop :=
  Sorted (fun a b => (if down then cmp (key b) (key a) else cmp (key a) (key b)) <> Gt) l.

(** Two sources, the second registered first in the alphabet. *)
Definition two_sources : list Source :=
  [mkSource 1 "b.example" "{x}" (Some "2025-01-02") (Some "2025-01-05") [];
   mkSource 2 "a.example" "{a}" (Some "2025-01-01") (Some "2025-01-06") []].

End Sources.

(** ** Sample listing *)

Module ListSamples.
Import Store IntelList.

Definition no_dates : string -> option string := fun _ => None.
Definition no_json : string -> option Json.json := fun _ => None.

(** Three stored rows: an undated one between two dated ones. *)
Definition three_rows : Db :=
  mkDb [mkIntelligence 1 "a" None None (Some "2025-01-01T00:00:00") "c1" "u1"
          "pending" 0%float None false 0;
        mkIntelligence 2 "b" None None None "c2" "u2" "pending" 0%float None false 0;
        mkIntelligence 3 "c" None None (Some "2025-03-01T00:00:00") "c3" "u3"
          "pending" 0%float None false 0]
       [].

End ListSamples.

(** ** [api/endpoints/intelligence.py]: storing the analysis *)

Module AiProcess.
Import PyStr Json PyNum Store Scoring.

(** What the handler answers. *)
Inductive reply : Type :=
| Success (ai_score : pynum) (dimensions topic summary category : json)
| Failure (message : string).

(** [SELECT ... FROM intelligence i LEFT JOIN ... WHERE i.id = :id LIMIT 1] *)
Definition find_by_id (id : Z) (db : Db) : option Intelligence :=
  find (fun row => i_id row =? id) (intelligence db).

(** A Python value bound to a TEXT column. *)
Definition bind_text (v : json) : res (option string) :=
  match v with
  | JStr s => Ok (Some s)
  | JNull => Ok None
  | JInt n => Ok (Some (PyRepr.str_of_int n))
  | JBool b => Ok (Some (if b then "1" else "0"))
  | JFloat _ => Unmodelled
  | JArr _ | JObj _ =>
      Raise (InterfaceError "Error binding parameter: type is not supported")
  end.

(** A Python number bound to the REAL column [ai_score]. *)
Definition bind_real (t : pynum) : res float :=
  match t with
  | PInt n => float_of_int n
  | PFloat x => Ok x
  end.

(** [analysis.get(key, default)] *)
Definition get_or (key : string) (default : json) (analysis : dict) : json :=
  match dict_get key analysis with Some v => v | None => default end.

(** [UPDATE intelligence SET topic, summary, ai_score, score_dimensions,
     update_time WHERE id = :id] *)
Definition update_analysed (id : Z) (topic summary : option string) (score : float)
           (score_dimensions update_time : string) (row : Intelligence)
  : Intelligence :=
  if i_id row =? id
  then mkIntelligence (i_id row) (i_title row) summary topic (i_news_time row)
         (i_collect_time row) update_time (i_quality_status row) score
         (Some score_dimensions) (i_is_merged row) (i_merged_count row)
  else row.

Section Processing.

(** [json.dumps(value, ensure_ascii=False)] *)
Variable json_dumps : json -> string.

(** [ai_process_single_intelligence] once the analysis is in:
    [update_time] is the text of [datetime.now().isoformat()]. *)
Definition process_body (analysis : dict) (update_time : string)
           (intelligence_id : Z) (row : Intelligence) (db : Db)
  : res (Db * reply) :=
  let scores := scores_of analysis in
  total_score <- add_dimensions scores (PInt 0) weights ;;
  let rounded := round1 total_score in
  topic <- bind_text (get_or "议题" (JStr "未分类") analysis) ;;
  summary <- bind_text (get_or "摘要" (JStr (i_title row)) analysis) ;;
  score <- bind_real rounded ;;
  Ok (mkDb (map (update_analysed intelligence_id topic summary score
                                 (json_dumps scores) update_time)
                (intelligence db))
           (intelligence_sources db),
      Success rounded scores (get_or_none "议题" analysis)
              (get_or_none "摘要" analysis) (get_or_none "类别" analysis)).

Definition ai_process_single_intelligence (analysis : dict) (update_time : string)
           (intelligence_id : Z) (db : Db) : res (Db * reply) :=
  match find_by_id intelligence_id db with
  | None => Ok (db, Failure "情报不存在")
  | Some row =>
      match process_body analysis update_time intelligence_id row db with
      | Raise e => Ok (db, Failure ("AI分析失败: " ++ str_of_exn e))
      | r => r
      end
  end.

(** [ai_process_single_intelligence_with_date_extraction] once the
    analysis is in.  The function body holds an [import json] below the
    place where [update_data] is built, so [json] is a local name of the
    function and is still unbound when [json.dumps] is reached. *)
Definition process_body_with_dates (analysis : dict) (update_time : string)
           (intelligence_id : Z) (row : Intelligence) (db : Db)
  : res (Db * reply) :=
  let scores := scores_of analysis in
  total_score <- add_dimensions scores (PInt 0) weights ;;
  let rounded := round1 total_score in
  Raise (UnboundLocalError
           "cannot access local variable 'json' where it is not associated with a value").

Definition ai_process_single_intelligence_with_date_extraction
           (analysis : dict) (update_time : string)
           (intelligence_id : Z) (db : Db) : res (Db * reply) :=
  match find_by_id intelligence_id db with
  | None => Ok (db, Failure "情报不存在")
  | Some row =>
      match process_body_with_dates analysis update_time intelligence_id row db with
      | Raise e => Ok (db, Failure ("AI分析失败: " ++ str_of_exn e))
      | r => r
      end
  end.

End Processing.

(** A stored item waiting for its analysis. *)
Definition pending_db : Db :=
  mkDb [mkIntelligence 1 "title" (Some EmptyString) (Some EmptyString) None "c" "u" "pending"
          0%float (Some "{}") false 0]
       [].

Definition sample_dumps : json -> string := fun _ => "dumped".

End AiProcess.

(** ** A page with one pager link *)

Module PagerSamples.
Import Models ScraperMain.

(** A recipe that follows the link matched by [a.next], for up to five
    pages. *)
Definition follow_next : ScraperRecipe :=
  mkRecipe "x.com" None EmptyString EmptyString EmptyString None "static" "domcontentloaded" 0
           (Some "a.next") 5 (Some false) 0 800 "next" None None false
           false false false true false false false.

(** Every selector matches one link to the second page. *)
Definition one_link : string -> string -> option (list Element) :=
  fun _ _ => Some [mkElement (Some "https://x.com/news?page=2") ["next"] ["pager"]].

End PagerSamples.

(** ** What a crawl was handed, and what it may do *)

Module CrawlTotals.
Import Store Crawl.

(** The number of items the scraper returned for the sources that could
    be scraped. *)
Definition items_scraped (topics : list (string * list SourceRun)) : Z :=
  fold_right
    (fun topic n =>
       fold_right
         (fun run m =>
            match run_items run with
            | Some items => Z.of_nat (List.length items) + m
            | None => m
            end)
         n (snd topic))
    0 topics.

(** A row carries a news date. *)
Definition dated (row : Intelligence) : Prop := i_news_time row <> None.

(** What the loop over the items may do to the tables while the count of
    saved items goes from [saved] to [saved']: titles and ids stay
    distinct, dated rows stay as they are, titles are only appended, one
    for each item counted as saved, and source rows are only appended, at
    least one for each item counted as saved. *)
Definition keeps (db : Db) (saved : Z) (db' : Db) (saved' : Z) : Prop :=
  (NoDup (map i_title (intelligence db)) -> NoDup (map i_title (intelligence db')))
  /\ (NoDup (map i_id (intelligence db)) -> NoDup (map i_id (intelligence db')))
  /\ (NoDup (map i_id (intelligence db)) ->
      forall row, In row (intelligence db) -> dated row -> In row (intelligence db'))
  /\ (exists added,
        map i_title (intelligence db') = (map i_title (intelligence db) ++ added)%list
        /\ Z.of_nat (List.length added) = saved' - saved)
  /\ (exists more,
        intelligence_sources db' = (intelligence_sources db ++ more)%list
        /\ saved' - saved <= Z.of_nat (List.length more)).

(** One topic with one source that returned the title [T] twice, first
    without a date and then with a recent one, and a new title. *)
Definition sample_topics : list (string * list SourceRun) :=
  [("topic",
    [mkSourceRun "b.example"
       (Some [(CrawlSamples.sample_now, CrawlSamples.item_T "https://b.example/t" None);
              (CrawlSamples.sample_now,
               CrawlSamples.item_T "https://b.example/t2" (Some "recent"));
              (CrawlSamples.sample_now, mkItem "N" "https://b.example/n" None)])])].

(** Two stored titles: [T] without a date and [D] with one. *)
Definition dated_row : Intelligence :=
  mkIntelligence 2 "D" (Some EmptyString) (Some "old topic")
    (Some "2025-01-01T00:00:00") "c" "u" "pending" 0%float (Some "{}") false 0.

Definition stored_db : Db :=
  mkDb (intelligence CrawlSamples.undated_db ++ [dated_row])
       (intelligence_sources CrawlSamples.undated_db).

End CrawlTotals.

(** ** Walking through the pages of the listing *)

Module ListPages.
Import PyStr Store Sql IntelList.

(** The same query for another page. *)
Definition with_page (p : Z) (q : ListQuery) : ListQuery :=
  mkListQuery p (page_size q) (title q) (topic q) (quality q) (min_score q)
              (max_score q) (news_start_date q) (news_end_date q)
              (start_date q) (end_date q) (sort_by q) (order q).

(** The page numbers [1 .. n]. *)
Definition page_numbers (n : Z) : list Z := map Z.of_nat (seq 1 (Z.to_nat n)).

(** The characters [LIKE] reads as wildcards. *)
Definition wildcard (c : ascii) : bool := (Ascii.eqb c "%" || Ascii.eqb c "_")%bool.

(** The default of SQLite for the longest [LIKE] pattern, in bytes. *)
Definition MAX_LIKE_PATTERN_LENGTH : Z := 50000.

(** A search text that the model reads as the code does: ASCII, so that
    [strip] is Python's; without NUL and without the wildcards of [LIKE];
    and short enough for the pattern [%text%]. *)
Definition plain_text (s : string) : bool :=
  (isascii s && negb (has_char is_nul s) && negb (has_char wildcard s)
   && (Z.of_nat (String.length s) + 2 <=? MAX_LIKE_PATTERN_LENGTH))%bool.

Definition plain_filter (o : option string) : bool :=
  match o with Some s => plain_text s | None => true end.

Definition ascii_filter (o : option string) : bool :=
  match o with Some s => isascii s | None => true end.

(** The text filters of a query: plain search texts for [title] and
    [topic], ASCII text for [quality]. *)
Definition plain_query (q : ListQuery) : bool :=
  (plain_filter (title q) && plain_filter (topic q) && ascii_filter (quality q))%bool.

(** No two of the rows tie under the terms of an [ORDER BY]. *)
Definition no_ties (terms : list (term Intelligence)) (rows : list Intelligence) : Prop :=
  forall a b, In a rows -> In b rows -> lex terms a b = Eq -> a = b.

(** The largest integer SQLite stores, also the most rows a table holds. *)
Definition MAX_INT64 : Z := 2 ^ 63 - 1.

(** A query that only searches the titles. *)
Definition title_only (q : ListQuery) : Prop :=
  topic q = None /\ quality q = None /\ min_score q = None /\ max_score q = None
  /\ news_start_date q = None /\ news_end_date q = None
  /\ start_date q = None /\ end_date q = None.

(** The text [needle] occurs in [text], the ASCII letters in either case. *)
Definition occurs_in (needle text : string) : bool :=
  contains (lower needle) (lower text).

(** The default query with pages of two items. *)
Definition two_per_page : ListQuery :=
  mkListQuery 1 2 None None None None None None None None None "news_time" "desc".

(** Titles to search through, and a search for [green] in any case. *)
Definition titled_rows : Db :=
  mkDb [mkIntelligence 1 "Green roofs" None None None "c1" "u1" "pending" 0%float
          None false 0;
        mkIntelligence 2 "Steel prices" None None None "c2" "u2" "pending" 0%float
          None false 0;
        mkIntelligence 3 "Evergreen bonds" None None None "c3" "u3" "pending" 0%float
          None false 0]
       [].

Definition search_green : ListQuery :=
  mkListQuery 1 20 (Some " GREEN ") None None None None None None None None
              "id" "asc".

End ListPages.

(** ** The collect-time bounds of the listing *)

Module CollectDates.
Import PyStr Store IntelList.

(** The same query with other collect-time bounds. *)
Definition with_collect_dates (from to : option string) (q : ListQuery) : ListQuery :=
  mkListQuery (page q) (page_size q) (title q) (topic q) (quality q) (min_score q)
              (max_score q) (news_start_date q) (news_end_date q)
              from to (sort_by q) (order q).

(** Rows collected on three days, their [collect_time] as the crawl
    writes it ([isoformat]), asked for from the second day to the second
    day. *)
Definition collected_rows : Db :=
  mkDb [mkIntelligence 1 "a" None None None "2025-01-01T09:00:00" "u1" "pending"
          0%float None false 0;
        mkIntelligence 2 "b" None None None "2025-01-02T09:00:00" "u2" "pending"
          0%float None false 0;
        mkIntelligence 3 "c" None None None "2025-01-03T09:00:00" "u3" "pending"
          0%float None false 0]
       [].

Definition second_day_only : ListQuery :=
  mkListQuery 1 20 None None None None None None None
              (Some "2025-01-02") (Some "2025-01-02") "id" "asc".

(** A day given as [YYYY-MM-DD] is parsed to its midnight, which the
    driver binds as [YYYY-MM-DD 00:00:00]. *)
Definition at_midnight : string -> option string :=
  fun text => Some (text ++ " 00:00:00").

End CollectDates.

(** ** [scraper/models.py]: a scraped item *)

Module ScrapedItems.
Import PyStr Crawl.

(** [re.sub(r'\s+', ' ', s)]: every run of whitespace becomes one blank.
    [in_run] tells that the character before was whitespace. *)
Fixpoint sub_spaces (in_run : bool) (s : string) : string :=
  match s with
  | EmptyString => EmptyString
  | String c s' =>
      if is_space c
      then if in_run then sub_spaces true s' else String " " (sub_spaces true s')
      else String c (sub_spaces false s')
  end.

Definition collapse_spaces (s : string) : string := sub_spaces false s.

(** [url.startswith(('http://', 'https://'))] *)
Definition starts_http (url : string) : bool :=
  (startswith "http://" url || startswith "https://" url)%bool.

Definition __post_init__ (self : ScrapedItem) : res ScrapedItem :=
  let title :=
    if is_empty (si_title self) then si_title self
    else collapse_spaces (strip (si_title self)) in
  if (negb (is_empty (si_url self)) && negb (starts_http (si_url self)))%bool
  then Raise (ValueError ("无效的URL: " ++ si_url self))
  else
    let date :=
      match si_date self with
      | Some d => if is_empty d then Some d else Some (strip d)
      | None => None
      end in
    Ok (mkItem title (si_url self) date).

(** [ScrapedItem(title=..., url=..., date=...)] *)
Definition new (title url : string) (date : option string) : res ScrapedItem :=
  __post_init__ (mkItem title url date).

(** A text without whitespace at either end in which whitespace only
    occurs as single blanks.  [after_blank] tells that the character
    before was a blank, or that the text starts here. *)
Fixpoint tidy_from (after_blank : bool) (s : string) : bool :=
  match s with
  | EmptyString => negb after_blank
  | String c s' =>
      if is_space c
      then (Ascii.eqb c " " && negb after_blank && tidy_from true s')%bool
      else tidy_from false s'
  end.

Definition tidy (s : string) : bool :=
  match s with
  | EmptyString => true
  | String _ _ => tidy_from true s
  end.

(** No whitespace at the start, at the end. *)
Definition starts_clean (s : string) : bool :=
  match s with
  | EmptyString => true
  | String c _ => negb (is_space c)
  end.

Fixpoint ends_clean (s : string) : bool :=
  match s with
  | EmptyString => true
  | String c EmptyString => negb (is_space c)
  | String _ s' => ends_clean s'
  end.

End ScrapedItems.

(** ** [scraper/models.py]: checking and building recipes *)

Module Recipes.
Import PyStr PyRepr Models.

(** [PaginationValidator.validate_recipe] *)
Definition validate_recipe (recipe : ScraperRecipe) : list string :=
  ((if String.eqb (pagination_mode recipe) "number" then
      (match page_pattern recipe with
       | Some pattern =>
           if is_empty pattern then ["数字分页模式需要设置URL模式"]
           else if negb (contains "{n}" pattern) then ["URL模式中缺少{n}占位符"]
           else []
       | None => ["数字分页模式需要设置URL模式"]
       end)
      ++ (if (drupal_zero_based recipe && (max_pages recipe >? 20))%bool
          then ["Drupal分页建议限制最大页数以避免过多请求"] else [])
    else if String.eqb (pagination_mode recipe) "next" then
      (if negb (truthy (next_page_selector recipe))
       then ["下一页链接模式需要设置选择器"] else [])
    else if String.eqb (pagination_mode recipe) "loadmore" then
      (if negb (truthy (load_more_selector recipe))
       then ["加载更多模式需要设置选择器"] else [])
      ++ (if String.eqb (load_strategy recipe) "static"
          then ["加载更多通常需要动态渲染模式"] else [])
    else [])
   ++ (if is_empty (list_selector recipe)
       then ["建议设置列表容器选择器以提高准确性"] else [])
   ++ (if is_empty (title_selector recipe) then ["建议设置标题选择器"] else [])
   ++ (if (use_proxy recipe && String.eqb (load_strategy recipe) "static")%bool
       then ["代理通常与动态渲染配合使用效果更好"] else []))%list.

(** [PaginationValidator.suggest_improvements] *)
Definition suggest_improvements (recipe : ScraperRecipe) : list string :=
  ((if wait_ms recipe >? 5000 then ["等待时间过长可能影响抓取效率"] else [])
   ++ (if max_pages recipe >? 50 then ["页数过多建议分批处理或增加并发控制"] else [])
   ++ (if (String.eqb (load_strategy recipe) "static"
           && String.eqb (pagination_mode recipe) "loadmore")%bool
       then ["加载更多功能建议使用动态渲染模式"] else [])
   ++ (if (negb (rotate_ua recipe) && (max_pages recipe >? 10))%bool
       then ["多页抓取建议启用User-Agent轮换"] else [])
   ++ (if drupal_zero_based recipe
       then ["已启用Drupal零基页码，页码将从0开始计算"] else []))%list.

(** The warnings about a field the pagination mode cannot do without. *)
Definition requirement_warnings : list string :=
  ["数字分页模式需要设置URL模式"; "下一页链接模式需要设置选择器";
   "加载更多模式需要设置选择器"].

(** The values of [query_params]: a text or a number, or a list of them. *)
Inductive scalar : Type :=
| SText (s : string)
| SInt (n : Z).

Inductive param_value : Type :=
| One (v : scalar)
| Many (vs : list scalar).

(** [f"{v}"] *)
Definition str_of_scalar (v : scalar) : string :=
  match v with
  | SText s => s
  | SInt n => str_of_int n
  end.

(** What one item of [query_params] appends to [params]. *)
Definition render_param (item : string * param_value) : list string :=
  let (key, value) := item in
  if String.eqb key "page" then ["page={n}"]
  else match value with
       | Many vs => map (fun v => key ++ "[]=" ++ str_of_scalar v) vs
       | One v => [key ++ "=" ++ str_of_scalar v]
       end.

(** [RecipeFactory.create_drupal_recipe]; [query_params] in the order of
    the dict. *)
Definition create_drupal_recipe (domain start_url : string)
           (query_params : list (string * param_value)) : res Instance :=
  let page_pattern := hd EmptyString (split_on "?" start_url) ++ "?" in
  let params := flat_map render_param query_params in
  let page_pattern := page_pattern ++ String.concat "&" params in
  new (mkRecipe domain (Some start_url) EmptyString EmptyString EmptyString None
                "dynamic" "domcontentloaded" 2000 None 10 (Some false) 0 800
                "number" None (Some page_pattern) true
                false false false false false false false).

(** [RecipeFactory.create_simple_recipe] *)
Definition create_simple_recipe (domain start_url : string) : res Instance :=
  new (mkRecipe domain (Some start_url) EmptyString EmptyString EmptyString None
                "static" "domcontentloaded" 0 None 1 (Some false) 0 800
                "none" None None false
                false false false false false false false).

(** [RecipeFactory.create_next_page_recipe] *)
Definition create_next_page_recipe (domain start_url selector : string)
  : res Instance :=
  new (mkRecipe domain (Some start_url) EmptyString EmptyString EmptyString None
                "static" "domcontentloaded" 0 (Some selector) 5 (Some false) 0 800
                "next" None None false
                false false false true false false false).

(** A text without an opening brace; an item of [query_params] that is
    the page number or renders without braces. *)
Definition plain (s : string) : bool := negb (has_char (Ascii.eqb "{") s).

Definition plain_param (item : string * param_value) : bool :=
  (String.eqb (fst item) "page" || forallb plain (render_param item))%bool.

(** The query string of page [n]: the page parameter with its number,
    the other parameters as they are. *)
Definition render_at (n : string) (item : string * param_value) : list string :=
  if String.eqb (fst item) "page" then ["page=" ++ n] else render_param item.

(** A piece of the pattern and what it becomes for page [n]. *)
Definition becomes (n p p' : string) : Prop :=
  (plain p = true /\ p' = p) \/ (p = "page={n}" /\ p' = "page=" ++ n).

(** A search form with a keyword, two types and the page number. *)
Definition search_params : list (string * param_value) :=
  [("q", One (SText "green")); ("type", Many [SText "news"; SInt 7]);
   ("page", One (SInt 0))].

End Recipes.

(** ** [api/endpoints/sources.py]: the summary of a test run *)

Module Extraction.
Import PyStr Json.

(** Truth value of a JSON value. *)
Definition truthy_json (v : json) : bool :=
  match v with
  | JNull => false
  | JBool b => b
  | JInt n => negb (n =? 0)
  | JFloat x => negb (PrimFloat.eqb x 0)
  | JStr s => negb (is_empty s)
  | JArr items => negb (is_nil items)
  | JObj members => negb (is_nil members)
  end.

(** [item.get(key)] is truthy. *)
Definition has_field (key : string) (item : dict) : bool :=
  truthy_json (get_or_none key item).

(** The part of [summary] kept for one field: its counter and its
    sample list. *)
Record FieldSummary : Type := mkFieldSummary {
  count : Z;
  samples : list json
}.

(** The entries of [summary]. *)
Record Summary : Type := mkSummary {
  total_items : Z;
  with_title : FieldSummary;
  with_url : FieldSummary;
  with_date : FieldSummary
}.

(** One field in the loop over the first five items: counted, and its
    value sampled while fewer than three are held. *)
Definition sample_field (key : string) (item : dict) (f : FieldSummary)
  : FieldSummary :=
  if has_field key item
  then mkFieldSummary
         (count f + 1)
         (if (Z.of_nat (List.length (samples f)) <? 3)
          then (samples f ++ [get_or_none key item])%list else samples f)
  else f.

(** One field in the loop over all items. *)
Definition count_field (key : string) (item : dict) (f : FieldSummary)
  : FieldSummary :=
  if has_field key item then mkFieldSummary (count f + 1) (samples f) else f.

Definition generate_extraction_summary (results : list dict) : Summary :=
  let summary :=
    mkSummary (Z.of_nat (List.length results))
              (mkFieldSummary 0 []) (mkFieldSummary 0 []) (mkFieldSummary 0 []) in
  let summary :=
    fold_left
      (fun s item =>
         mkSummary (total_items s)
                   (sample_field "title" item (with_title s))
                   (sample_field "url" item (with_url s))
                   (sample_field "date" item (with_date s)))
      (firstn 5 results) summary in
  fold_left
    (fun s item =>
       mkSummary (total_items s)
                 (count_field "title" item (with_title s))
                 (count_field "url" item (with_url s))
                 (count_field "date" item (with_date s)))
    results summary.

(** The number of items that have the field, and the field of the
    summary by its key. *)
Definition having (key : string) (items : list dict) : Z :=
  Z.of_nat (List.length (filter (has_field key) items)).

Definition field_of (key : string) (s : Summary) : FieldSummary :=
  if String.eqb key "title" then with_title s
  else if String.eqb key "url" then with_url s
  else with_date s.

(** Seven scraped items, the second without a title. *)
Definition scraped (title : string) : dict :=
  [("title", JStr title); ("url", JStr "https://x.com/a"); ("date", JNull)].

Definition seven_items : list dict :=
  [scraped "a"; scraped EmptyString; scraped "c"; scraped "d"; scraped "e";
   scraped "f"; scraped "g"].

End Extraction.

(** ** [services/ai_service.py]: the content handed to the analysis *)

Module Fetching.
Import PyStr AiService.

(** [ContentFetchResult] *)
Record ContentFetchResult : Type := mkFetched {
  success : bool;
  content : string;
  error_message : option string;
  source : string
}.

(** [config.CONTENT_MAX_LENGTH] *)
Definition CONTENT_MAX_LENGTH : Z := 8000.

(** [s[:n]] for a bound that is not negative. *)
Definition head (n : Z) (s : string) : string := take_points (Z.to_nat n) s.

(** [len(s)]: the code points of a UTF-8 text. *)
Fixpoint len_points (s : string) : Z :=
  match s with
  | EmptyString => 0
  | String c s' => if is_continuation c then len_points s' else len_points s' + 1
  end.

Definition newline : ascii := ascii_of_nat 10.

(** What the request of [fetch_webpage_content] comes back with: a
    response with its status and the text BeautifulSoup extracts from it
    (read only when the status is 200), a timeout, or any other exception
    with its text. *)
Inductive Reply : Type :=
| Answered (status : Z) (extracted_content : string)
| TimedOut
| Failed (e : string).

(** The cleaning of the extracted text: the lines that are not blank,
    stripped. *)
Definition cleaned (extracted_content : string) : string :=
  let lines := split_on newline extracted_content in
  let cleaned_lines :=
    map strip (filter (fun line => negb (is_empty (strip line))) lines) in
  String.concat (String newline EmptyString) cleaned_lines.

Definition fetch_webpage_content (reply : Reply) : ContentFetchResult :=
  match reply with
  | Answered status extracted_content =>
      if negb (status =? 200)
      then mkFetched false EmptyString
                     (Some ("HTTP " ++ PyRepr.str_of_int status)) "fetched"
      else mkFetched true (head CONTENT_MAX_LENGTH (cleaned extracted_content))
                     None "fetched"
  | TimedOut => mkFetched false EmptyString (Some "请求超时") "fetched"
  | Failed e => mkFetched false EmptyString (Some e) "fetched"
  end.

(** [get_article_content], given [config.USE_URL_FETCH], the stored
    content of the article and what the request for its URL comes back
    with. *)
Definition get_article_content
    (USE_URL_FETCH : bool) (article_content : string) (reply : Reply)
  : ContentFetchResult :=
  if negb USE_URL_FETCH
  then mkFetched true (head CONTENT_MAX_LENGTH article_content) None "cached"
  else
    let fetch_result := fetch_webpage_content reply in
    if (success fetch_result
        && (100 <? len_points (strip (content fetch_result))))%bool
    then fetch_result
    else mkFetched true (head CONTENT_MAX_LENGTH article_content)
                   (error_message fetch_result) "fallback".

End Fetching.

(** ** [api/endpoints/sources.py]: saving a manual configuration *)

Module SaveSource.
Import PyStr Models.

(** The form fields of [api_create_or_update_source_enhanced] that reach
    the recipe. *)
Module Form.
Record t : Type := mk {
  domain : string;
  start_url : option string;
  list_selector : string;
  title_selector : string;
  link_selector : string;
  date_selector : option string;
  load_strategy : string;
  wait_until : string;
  wait_ms : Z;
  next_page_selector : option string;
  load_more_selector : option string;
  max_pages : Z;
  pagination_mode : string;
  page_pattern : option string;
  drupal_zero_based : bool;
  title_exclude_small : bool;
  title_exclude_time : bool;
  title_exclude_span : bool;
  exclude_current_page : bool;
  use_proxy : bool;
  rotate_ua : bool;
  accept_cookies : bool
}.
End Form.

(** [recipe_data] as the constructor receives it when the source is used
    (the keywords of [json.loads(source.recipe_json)]): the keys the
    handler has written, every other field at the default of the
    dataclass.  The selector of a mode is written only in that mode. *)
Definition recipe_data (domain : string) (form : Form.t) : ScraperRecipe :=
  let pagination_mode := Form.pagination_mode form in
  mkRecipe
    domain
    (Form.start_url form)
    (Form.list_selector form)
    (Form.title_selector form)
    (Form.link_selector form)
    (Form.date_selector form)
    (Form.load_strategy form)
    (Form.wait_until form)
    (Form.wait_ms form)
    (if String.eqb pagination_mode "next"
     then Form.next_page_selector form else next_page_selector default_recipe)
    (Form.max_pages form)
    (infinite_scroll default_recipe)
    (scroll_times default_recipe)
    (scroll_wait_ms default_recipe)
    pagination_mode
    (if String.eqb pagination_mode "next" then load_more_selector default_recipe
     else if String.eqb pagination_mode "loadmore"
          then Form.load_more_selector form else load_more_selector default_recipe)
    (if String.eqb pagination_mode "next" then page_pattern default_recipe
     else if String.eqb pagination_mode "loadmore" then page_pattern default_recipe
     else if String.eqb pagination_mode "number"
          then Form.page_pattern form else page_pattern default_recipe)
    (if String.eqb pagination_mode "next" then drupal_zero_based default_recipe
     else if String.eqb pagination_mode "loadmore" then drupal_zero_based default_recipe
     else if String.eqb pagination_mode "number"
          then Form.drupal_zero_based form else drupal_zero_based default_recipe)
    (Form.title_exclude_small form)
    (Form.title_exclude_time form)
    (Form.title_exclude_span form)
    (Form.exclude_current_page form)
    (Form.use_proxy form)
    (Form.rotate_ua form)
    (Form.accept_cookies form).

(** What the handler answers, up to the call of [upsert_source]: 400
    for a domain that normalises to nothing, 500 with the exception that
    was caught, or the domain and the recipe it hands to the store. *)
Inductive Saving : Type :=
| InvalidDomain
| SaveFailed (e : exn)
| Stored (domain : string) (recipe : ScraperRecipe).

Definition api_create_or_update_source_enhanced (form : Form.t) : res Saving :=
  match Crud._parse_domain (Form.domain form) with
  | Ok domain =>
      if is_empty domain then Ok InvalidDomain
      else Ok (Stored domain (recipe_data domain form))
  | Raise e => Ok (SaveFailed e)
  | Unmodelled => Unmodelled
  end.

(** The form field the constructor asks for in a mode, for the modes
    that ask for one. *)
Definition required_field (form : Form.t) : option (option string) :=
  let pagination_mode := Form.pagination_mode form in
  if String.eqb pagination_mode "number" then Some (Form.page_pattern form)
  else if String.eqb pagination_mode "next" then Some (Form.next_page_selector form)
  else if String.eqb pagination_mode "loadmore"
       then Some (Form.load_more_selector form)
       else None.

(** The form as the page sends it when only the domain is filled in:
    the defaults of the handler. *)
Definition bare_form (domain : string) : Form.t :=
  Form.mk domain None EmptyString EmptyString EmptyString None "static" "domcontentloaded" 0
          None None 1 "next" None true false false false false false false false.

(** A form in mode [none] that still carries a next-page selector. *)
Definition none_with_selector : Form.t :=
  Form.mk "x.com" None EmptyString EmptyString EmptyString None "static" "domcontentloaded" 0
          (Some "a.next") None 5 "none" None true false false false false false false false.

End SaveSource.

(** ** Python's [int(text)] *)

Module PyInt.
Import PyStr PyRepr.

(** The blanks [int] skips around an ASCII literal: TAB..CR and the
    space. *)
Definition c_space (c : ascii) : bool :=
  (in_range 9 13 c || Nat.eqb (code c) 32)%bool.

(** What the scan of the digits has just passed. *)
Inductive seen : Type := Nothing | Digit | Underscore.

(** The digits of a literal, single underscores allowed between them:
    the value, the number of digits and the text left over; [None]
    when there is no digit or an underscore is misplaced. *)
Fixpoint scan (s : string) (acc count : Z) (prev : seen) : option (Z * Z * string) :=
  match s with
  | String c s' =>
      if is_digit c
      then scan s' (acc * 10 + (Z.of_nat (code c) - 48)) (count + 1) Digit
      else if Ascii.eqb c "_"
      then match prev with
           | Digit => scan s' acc count Underscore
           | _ => None
           end
      else match prev with
           | Digit => Some (acc, count, s)
           | _ => None
           end
  | EmptyString =>
      match prev with
      | Digit => Some (acc, count, s)
      | _ => None
      end
  end.

(** [sys.get_int_max_str_digits()] *)
Definition MAX_STR_DIGITS : Z := 4300.

Definition invalid_literal (s : string) : exn :=
  ValueError ("invalid literal for int() with base 10: " ++ take 200 (repr_str s)).

Definition over_the_limit (count : Z) : exn :=
  ValueError ("Exceeds the limit (4300 digits) for integer string conversion: value has "
              ++ str_of_int count
              ++ " digits; use sys.set_int_max_str_digits() to increase the limit").

(** [int(s)] for a text; digits outside ASCII are not embedded. *)
Definition int_of_str (s : string) : res Z :=
  if negb (isascii s) then Unmodelled
  else
    let t := lstrip_by c_space s in
    let (negative, t) :=
      match t with
      | String "+" t' => (false, t')
      | String "-" t' => (true, t')
      | _ => (false, t)
      end in
    match scan t 0 0 Nothing with
    | None => Raise (invalid_literal s)
    | Some (acc, count, rest) =>
        if MAX_STR_DIGITS <? count then Raise (over_the_limit count)
        else if is_empty (lstrip_by c_space rest)
        then Ok (if negative : bool then - acc else acc)
        else Raise (invalid_literal s)
    end.

(** The value of a run of decimal digits read from the left. *)
Fixpoint uint_value (d : Decimal.uint) (acc : Z) : Z :=
  match d with
  | Decimal.Nil => acc
  | Decimal.D0 l => uint_value l (acc * 10 + 0)
  | Decimal.D1 l => uint_value l (acc * 10 + 1)
  | Decimal.D2 l => uint_value l (acc * 10 + 2)
  | Decimal.D3 l => uint_value l (acc * 10 + 3)
  | Decimal.D4 l => uint_value l (acc * 10 + 4)
  | Decimal.D5 l => uint_value l (acc * 10 + 5)
  | Decimal.D6 l => uint_value l (acc * 10 + 6)
  | Decimal.D7 l => uint_value l (acc * 10 + 7)
  | Decimal.D8 l => uint_value l (acc * 10 + 8)
  | Decimal.D9 l => uint_value l (acc * 10 + 9)
  end.

(** The characters of [str(n)]. *)
Definition digit_or_minus (c : ascii) : bool := (is_digit c || Ascii.eqb c "-")%bool.

End PyInt.

(** ** [api/endpoints/intelligence.py]: the ids of a request *)

Module IdList.
Import PyStr PyInt.

(** [[int(id.strip()) for id in text.split(',') if id.strip()]]: the
    first piece that is no literal raises. *)
Fixpoint ints (pieces : list string) : res (list Z) :=
  match pieces with
  | [] => Ok []
  | id :: rest =>
      n <- int_of_str (strip id) ;;
      ns <- ints rest ;;
      Ok (n :: ns)
  end.

Definition id_list (text : string) : res (list Z) :=
  ints (filter (fun id => negb (is_empty (strip id))) (split_on "," text)).

(** The start of [start_crawling], up to the query for the topics: an
    error answer, or the ids the topics are asked for. *)
Inductive CrawlStart : Type :=
| ErrorAnswer (message : string)
| TopicsAsked (topic_id_list : list Z).

Definition start_crawling_ids (topic_ids : string) : res CrawlStart :=
  match id_list topic_ids with
  | Ok topic_id_list =>
      if Json.is_nil topic_id_list then Ok (ErrorAnswer "请至少选择一个议题")
      else Ok (TopicsAsked topic_id_list)
  | Raise e => Ok (ErrorAnswer ("爬取失败: " ++ str_of_exn e))
  | Unmodelled => Unmodelled
  end.

(** [not id.strip()] *)
Definition blank (id : string) : bool := is_empty (strip id).

(** [','.join(str(id) for id in ids)], what the page sends. *)
Definition joined (ids : list Z) : string :=
  String.concat "," (map PyRepr.str_of_int ids).

(** The decimal text of the id stays within the digit limit. *)
Definition within_limit (id : Z) : bool :=
  Z.of_nat (String.length (PyRepr.str_of_int id)) <=? MAX_STR_DIGITS.

End IdList.

(** ** [crud/crud_operations.py]: truth of a form value *)

Module Boolify.
Import PyStr PyRepr PyInt.

(** The values [_boolify] is given: a [bool], [None], an [int] or a
    text. *)
Inductive value : Type :=
| VBool (b : bool)
| VNone
| VInt (n : Z)
| VStr (s : string).

(** [str(n)] raises past the digit limit. *)
Definition str_limit_error : exn :=
  ValueError ("Exceeds the limit (4300 digits) for integer string conversion; "
              ++ "use sys.set_int_max_str_digits() to increase the limit").

Definition str_of_value (v : value) : res string :=
  match v with
  | VBool b => Ok (repr_bool b)
  | VNone => Ok "None"
  | VInt n =>
      if MAX_STR_DIGITS <? Z.of_nat (String.length (str_of_int (Z.abs n)))
      then Raise str_limit_error
      else Ok (str_of_int n)
  | VStr s => Ok s
  end.

Definition TRUE_WORDS : list string := ["1"; "true"; "on"; "yes"; "y"].

Definition _boolify (v : value) : res bool :=
  match v with
  | VBool b => Ok b
  | VNone => Ok false
  | _ =>
      s <- str_of_value v ;;
      Ok (existsb (String.eqb (lower (strip s))) TRUE_WORDS)
  end.

(** A text that says yes: one of the words above, its letters in either
    case, with nothing but whitespace before and after it. *)
Definition says_yes (s : string) : Prop :=
  exists before word after,
    s = before ++ word ++ after
    /\ all_chars is_space before = true
    /\ all_chars is_space after = true
    /\ In (lower word) TRUE_WORDS.

End Boolify.

(** ** [api/endpoints/intelligence.py]: the export *)

Module Exporting.
Import PyStr IdList.

Section Handler.

(** The columns of [intelligence] a row of the query carries besides the
    id, and the responses of [export_as_csv], [export_as_json] and
    [export_as_excel]. *)
Variable Columns : Type.
Variable Response : Type.

(** A row of the query: an intelligence joined with one of its sources,
    or with NULLs when it has none. *)
Record Row : Type := mkRow {
  id : Z;
  columns : Columns;
  url : option string;
  domain : option string
}.

(** An entry of [intelligence_dict]: the id, the columns its scalar
    entries are computed from, and its [sources] as (url, domain). *)
Record Entry : Type := mkEntry {
  e_id : Z;
  e_columns : Columns;
  sources : list (string * string)
}.

(** The query for the selected ids, the three renderers (by the
    lower-cased format), and [str(e)] for an [HTTPException]. *)
Variable fetchall : list Z -> res (list Row).
Variable render : string -> list Entry -> res Response.
Variable str_of_http : Z -> string -> string.

(** [intelligence_dict[intel_id]['sources'].append(source)] *)
Fixpoint append_source (intel_id : Z) (source : string * string)
         (intelligence_dict : list Entry) : list Entry :=
  match intelligence_dict with
  | [] => []
  | e :: rest =>
      if e_id e =? intel_id
      then mkEntry (e_id e) (e_columns e) (sources e ++ [source]) :: rest
      else e :: append_source intel_id source rest
  end.

(** One turn of the loop over the rows; the dict keeps insertion
    order. *)
Definition add_row (intelligence_dict : list Entry) (row : Row) : list Entry :=
  let intel_id := id row in
  let intelligence_dict :=
    if existsb (fun e => e_id e =? intel_id) intelligence_dict
    then intelligence_dict
    else (intelligence_dict ++ [mkEntry intel_id (columns row) []])%list in
  match url row with
  | Some u =>
      if is_empty u then intelligence_dict
      else append_source intel_id
             (u, match domain row with Some d => d | None => EmptyString end)
             intelligence_dict
  | None => intelligence_dict
  end.

Definition data_to_export (rows : list Row) : list Entry :=
  fold_left add_row rows [].

(** The [try] body: a response, an [HTTPException] raised in it (status
    and detail), or another exception.  [text] is bound by an import in
    the branch of the selected ids and is therefore a local name of the
    whole function: the other two branches reach [text(query_sql)] with
    the name unbound. *)
Definition export_body (format export_scope : string)
           (intelligence_ids : option string)
  : res (Response + Z * string) :=
  rows <-
    (if (String.eqb export_scope "selected" && Models.truthy intelligence_ids)%bool
     then
       ids <- id_list (match intelligence_ids with Some s => s | None => EmptyString end) ;;
       if Json.is_nil ids then Ok (inr (400, "未提供有效的情报ID"))
       else rows <- fetchall ids ;; Ok (inl rows)
     else
       Raise (UnboundLocalError
                "cannot access local variable 'text' where it is not associated with a value")) ;;
  match rows with
  | inr http => Ok (inr http)
  | inl rows =>
      let data_to_export := data_to_export rows in
      let kind := lower format in
      if (String.eqb kind "csv" || String.eqb kind "json" || String.eqb kind "excel")%bool
      then response <- render kind data_to_export ;; Ok (inl response)
      else Ok (inr (400, "不支持的导出格式"))
  end.

(** What the client gets. *)
Inductive Outcome : Type :=
| Returned (response : Response)
| HTTPException (status_code : Z) (detail : string).

Definition export_intelligence (format export_scope : string)
           (intelligence_ids : option string) : res Outcome :=
  match export_body format export_scope intelligence_ids with
  | Ok (inl response) => Ok (Returned response)
  | Ok (inr (status_code, detail)) =>
      Ok (HTTPException 500 ("导出失败: " ++ str_of_http status_code detail))
  | Raise e => Ok (HTTPException 500 ("导出失败: " ++ str_of_exn e))
  | Unmodelled => Unmodelled
  end.

(** The sources of an id as the rows list them. *)
Definition sources_of (intel_id : Z) (rows : list Row) : list (string * string) :=
  flat_map
    (fun row =>
       if id row =? intel_id
       then match url row with
            | Some u =>
                if is_empty u then []
                else [(u, match domain row with Some d => d | None => EmptyString end)]
            | None => []
            end
       else [])
    rows.

(** The columns of the first row with the id. *)
Definition first_columns (intel_id : Z) (rows : list Row) : option Columns :=
  option_map columns (find (fun row => id row =? intel_id) rows).

(** What the dict holds once the rows [seen] have been passed: one
    entry per id, and for each entry the sources and the first columns of
    its id. *)
Definition holds (d : list Entry) (seen : list Row) : Prop :=
  NoDup (map e_id d)
  /\ (forall intel_id, In intel_id (map e_id d) <-> In intel_id (map id seen))
  /\ (forall e, In e d ->
      sources e = sources_of (e_id e) seen
      /\ Some (e_columns e) = first_columns (e_id e) seen).

End Handler.

Arguments mkRow {Columns} id columns url domain.
Arguments id {Columns} r.
Arguments columns {Columns} r.
Arguments url {Columns} r.
Arguments domain {Columns} r.
Arguments mkEntry {Columns} e_id e_columns sources.
Arguments e_id {Columns} e.
Arguments e_columns {Columns} e.
Arguments sources {Columns} e.
Arguments Returned {Response} response.
Arguments HTTPException {Response} status_code detail.

(** Three rows of a query: one intelligence with two sources, one
    without any. *)
Definition joined_rows : list (Row string) :=
  [mkRow 7 "seven" (Some "https://a.com/1") (Some "a.com");
   mkRow 9 "nine" None None;
   mkRow 7 "seven" (Some "https://b.com/2") None].

(** A store that has the rows above and renderers that only name the
    format. *)
Definition sample_fetchall (ids : list Z) : res (list (Row string)) :=
  Ok (filter (fun row => existsb (Z.eqb (id row)) ids) joined_rows).

Definition sample_render (kind : string) (data : list (Entry string))
  : res (string * list (Entry string)) :=
  Ok (kind, data).

Definition sample_str_of_http (status_code : Z) (detail : string) : string :=
  PyRepr.str_of_int status_code ++ ": " ++ detail.

End Exporting.

(** ** [scraper/scraper_main.py]: the pages of a scrape *)

Module Scrape.
Import PyStr Models ScraperMain Crawl.

(** What [_parse_one_page] reads off an anchor: which object it is
    ([id(a)]), its [href], and the title and the date text the selectors
    of the recipe give for it (the title falling back to the text of the
    anchor). *)
Record Anchor : Type := mkAnchor {
  a_id : Z;
  a_href : option string;
  a_title : option string;
  a_date : option string
}.

(** A parsed page under the selectors of the recipe: the anchors of
    each container [list_selector] gives, and the anchors of the whole
    document, used when there is no container. *)
Record Page : Type := mkPage {
  boxes : list (list Anchor);
  document : list Anchor
}.

(** [results]: a dict from URL to item, in insertion order. *)
Definition Results : Type := list (string * ScrapedItem).

Definition has_url (url : string) (results : Results) : bool :=
  existsb (fun entry => String.eqb (fst entry) url) results.

(** [{item.title for item in results.values()}] *)
Definition existing_titles (results : Results) : list string :=
  map (fun entry => si_title (snd entry)) results.

Definition len (results : Results) : Z := Z.of_nat (List.length results).

(** [meta] *)
Record Meta : Type := mkMeta {
  containers : Z;
  raw : Z;
  unique : Z;
  dedup : Z;
  pages : Z;
  truncated : bool;
  strategy : string;
  base_url : string;
  meta_pagination_mode : string;
  pagination_working : bool
}.

(** The counters of [scrape]. *)
Record Totals : Type := mkTotals {
  total_containers : Z;
  total_raw : Z;
  t_pages : Z;
  t_truncated : bool
}.

Section Scraper.

Variable soup_select : string -> string -> option (list Element).
Variable urljoin_defrag : string -> string -> string.

(** [self._fetch_html(url)]: the page text, [None] when the request
    raises (the exception is only printed); and the parse of a page text
    under the selectors of the recipe. *)
Variable fetch_html : string -> option string.
Variable parse_page : string -> Page.

Variable recipe : ScraperRecipe.

(** One anchor of the inner loop.  The dict is shared with the caller:
    the first component is what it holds afterwards in every case.  The
    second tells how the loop goes on: with the set of processed
    elements, or [None] when the function returns, or with the exception
    of [ScrapedItem(...)]. *)
Definition visit (page_url : string) (max_links : Z) (a : Anchor)
           (processed_elements : list Z) (results : Results)
  : Results * res (option (list Z)) :=
  if existsb (Z.eqb (a_id a)) processed_elements
  then (results, Ok (Some processed_elements))
  else
    let processed_elements := a_id a :: processed_elements in
    match _normalize_url urljoin_defrag page_url (a_href a) with
    | None => (results, Ok (Some processed_elements))
    | Some url =>
        if (is_empty url || has_url url results)%bool
        then (results, Ok (Some processed_elements))
        else
          let stored : res Results :=
            match a_title a with
            | Some title =>
                if (negb (is_empty title) && negb (is_empty (strip title)))%bool
                then
                  if existsb (String.eqb title) (existing_titles results)
                  then Ok results
                  else item <- ScrapedItems.new title url (a_date a) ;;
                       Ok (results ++ [(url, item)])%list
                else Ok results
            | None => Ok results
            end in
          match stored with
          | Ok results =>
              if len results >=? max_links then (results, Ok None)
              else (results, Ok (Some processed_elements))
          | Raise e => (results, Raise e)
          | Unmodelled => (results, Unmodelled)
          end
    end.

Fixpoint visit_anchors (page_url : string) (max_links : Z) (anchors : list Anchor)
         (processed_elements : list Z) (results : Results)
  : Results * res (option (list Z)) :=
  match anchors with
  | [] => (results, Ok (Some processed_elements))
  | a :: rest =>
      match visit page_url max_links a processed_elements results with
      | (results, Ok (Some processed_elements)) =>
          visit_anchors page_url max_links rest processed_elements results
      | stopped => stopped
      end
  end.

(** The loop over the containers: the dict afterwards, and
    [(container_count, raw_links)] or the exception. *)
Fixpoint visit_boxes (page_url : string) (max_links container_count : Z)
         (boxes : list (list Anchor)) (raw_links : Z)
         (processed_elements : list Z) (results : Results)
  : Results * res (Z * Z) :=
  match boxes with
  | [] => (results, Ok (container_count, raw_links))
  | anchors :: rest =>
      let raw_links := raw_links + Z.of_nat (List.length anchors) in
      match visit_anchors page_url max_links anchors processed_elements results with
      | (results, Ok (Some processed_elements)) =>
          visit_boxes page_url max_links container_count rest raw_links
                      processed_elements results
      | (results, Ok None) => (results, Ok (container_count, raw_links))
      | (results, Raise e) => (results, Raise e)
      | (results, Unmodelled) => (results, Unmodelled)
      end
  end.

Definition _parse_one_page (page : Page) (page_url : string) (max_links : Z)
           (results : Results) : Results * res (Z * Z) :=
  match boxes page with
  | [] => visit_boxes page_url max_links 1 [document page] 0 [] results
  | found =>
      visit_boxes page_url max_links (Z.of_nat (List.length found)) found 0 [] results
  end.

(** The loop of [scrape] over [range(max(1, max_pages or 1))], from
    page [page_num] on with [remaining] turns left.  An exception of the
    request or of the parse ends the loop; the items the parse had stored
    before it failed stay in the dict. *)
Fixpoint pages_from (remaining : nat) (page_num : Z) (max_links : Z)
         (current_url : string) (results : Results) (totals : Totals)
  : res (Results * Totals) :=
  match remaining with
  | O => Ok (results, totals)
  | S remaining =>
      let totals :=
        mkTotals (total_containers totals) (total_raw totals)
                 (t_pages totals + 1) (t_truncated totals) in
      match fetch_html current_url with
      | None => Ok (results, totals)
      | Some html =>
          match _parse_one_page (parse_page html) current_url max_links results with
          | (results, Unmodelled) => Unmodelled
          | (results, Raise e) => Ok (results, totals)
          | (results, Ok (c_cnt, raw)) =>
              let totals :=
                mkTotals (total_containers totals + (if 0 <? c_cnt then c_cnt else 0))
                         (total_raw totals + raw)
                         (t_pages totals) (t_truncated totals) in
              if len results >=? max_links
              then Ok (results,
                       mkTotals (total_containers totals) (total_raw totals)
                                (t_pages totals) true)
              else
                match _get_next_page_url soup_select urljoin_defrag recipe
                                         html current_url page_num with
                | Some next_url =>
                    if is_empty next_url then Ok (results, totals)
                    else pages_from remaining (page_num + 1) max_links
                                    next_url results totals
                | None => Ok (results, totals)
                end
          end
      end
  end.

(** [Scraper.__init__]: [recipe.start_url or f"https://{recipe.domain}/"] *)
Definition scraper_base_url : string :=
  match start_url recipe with
  | Some u => if is_empty u then "https://" ++ domain recipe ++ "/" else u
  | None => "https://" ++ domain recipe ++ "/"
  end.

Definition scrape (max_links : Z) : res (list ScrapedItem * Meta) :=
  let turns := Z.to_nat (Z.max 1 (max_pages_or_1 recipe)) in
  run <- pages_from turns 0 max_links scraper_base_url [] (mkTotals 0 0 0 false) ;;
  let (results, totals) := run : Results * Totals in
  let unique := len results in
  Ok (map snd results,
      mkMeta (if total_containers totals =? 0
              then (if unique =? 0 then 0 else 1) else total_containers totals)
             (total_raw totals)
             unique
             (Z.max 0 (total_raw totals - unique))
             (t_pages totals)
             (t_truncated totals)
             (load_strategy recipe)
             scraper_base_url
             (pagination_mode recipe)
             (1 <? t_pages totals)).

(** The dict as [_parse_one_page] keeps it: no URL twice, every item
    under its own URL, the URL starting with [http://] or [https://], the
    title tidy and not empty. *)
Definition well_kept (results : Results) : Prop :=
  NoDup (map fst results)
  /\ Forall (fun entry =>
               si_url (snd entry) = fst entry
               /\ ScrapedItems.starts_http (fst entry) = true
               /\ ScrapedItems.tidy (si_title (snd entry)) = true
               /\ si_title (snd entry) <> EmptyString)
            results.

(** The most items a scrape asked for [max_links] can hold. *)
Definition limit (max_links : Z) : Z := Z.max 1 max_links.

(** ... and, when [T] holds, no title twice. *)
Definition kept (T : Prop) (results : Results) : Prop :=
  well_kept results /\ (T -> NoDup (existing_titles results)).

(** The titles the page gives are ASCII text (where the whitespace of
    the model is the whitespace of Python) and tidy already. *)
Definition tidy_titles (anchors : list Anchor) : Prop :=
  Forall (fun a => forall title, a_title a = Some title ->
                                 isascii title = true
                                 /\ ScrapedItems.tidy title = true)
         anchors.

Definition tidy_page (page : Page) : Prop :=
  Forall tidy_titles (boxes page) /\ tidy_titles (document page).

End Scraper.

(** A listing page with three links, two of them under one title that
    differs only in its inner blanks. *)
Definition double_blank_page : Page :=
  mkPage []
         [mkAnchor 1 (Some "https://x.com/a") (Some "Green  roofs") None;
          mkAnchor 2 (Some "https://x.com/b") (Some "Green  roofs") None;
          mkAnchor 3 (Some "mailto:desk@x.com") (Some "Contact") None].

(** The same page with tidy titles and links that can be stored. *)
Definition tidy_page_sample : Page :=
  mkPage []
         [mkAnchor 1 (Some "https://x.com/a") (Some "Green roofs") None;
          mkAnchor 2 (Some "https://x.com/b") (Some "Green roofs") None;
          mkAnchor 3 (Some "https://x.com/c") (Some "Blue roofs") (Some " 2025-01-02")].

End Scrape.

(** ** [api/endpoints/intelligence.py]: the crawl that looks for dates *)

Module CrawlDates.
Import PyStr Store Crawl AiService.

(** A source of a topic as [start_crawling_with_date_extraction] uses
    it: what the plain crawl uses, and the [date_selector] of its recipe
    (a text, or missing). *)
Record DatedRun : Type := mkDatedRun {
  source_run : SourceRun;
  date_selector : option string
}.

Section DatedSaving.

Variable parse : string -> option datetime.
Variable parse_fuzzy : string -> option datetime.
Variable isoformat : datetime -> string.

(** [extract_date_from_url(url, date_selectors)]; [None] when it
    raises. *)
Variable extract_date_from_url : string -> list string -> option DateExtractionResult.

(** [date_selectors]: the pieces of [date_selector] when the extraction
    is enabled, else nothing. *)
Definition date_selectors_of (enable_date_extraction : bool)
           (date_selector : option string) : list string :=
  if enable_date_extraction then
    match date_selector with
    | Some text =>
        if is_empty text then []
        else map strip (filter (fun s => negb (is_empty (strip s))) (split_on "," text))
    | None => []
    end
  else [].

(** The look at the article itself when the listing gave no date: the
    date to go on with, and what is added to [date_extracted_count]. *)
Definition extract_missing (enable_date_extraction : bool)
           (date_selectors : list string) (item : ScrapedItem)
           (news_time : option datetime) : option datetime * Z :=
  match news_time with
  | Some t => (Some t, 0)
  | None =>
      if (enable_date_extraction && negb (Json.is_nil date_selectors)
          && negb (is_empty (si_url item)))%bool
      then
        match extract_date_from_url (si_url item) date_selectors with
        | Some date_result =>
            if dr_success date_result
            then match dr_date date_result with
                 | Some date =>
                     match parse date with
                     | Some t => (Some t, 1)
                     | None => (None, 0)
                     end
                 | None => (None, 0)
                 end
            else (None, 0)
        | None => (None, 0)
        end
      else (None, 0)
  end.

(** The body of the loop over [items] with its [except Exception:
    continue]; the third component is [date_extracted_count], which keeps
    its increment when the rest of the body raises. *)
Definition save_item_dated (topic_name source_domain : string) (start_date : Z)
           (enable_date_extraction : bool) (date_selectors : list string)
           (current_time : Z) (item : ScrapedItem) (st : Db * Counters * Z)
  : Db * Counters * Z :=
  let news_time := parse_item_date parse parse_fuzzy item in
  let (news_time, extracted) :=
    extract_missing enable_date_extraction date_selectors item news_time in
  let saved : res (Db * Counters) :=
    discard <- out_of_range start_date news_time ;;
    if discard then Ok (fst (fst st), bump_out_of_range (snd (fst st)))
    else Ok (merge_or_insert isoformat topic_name source_domain current_time
                             item news_time (fst st)) in
  (match saved with Ok st' => st' | _ => fst st end, snd st + extracted).

(** The body of the loop over the sources of a topic; the totals are
    [total_crawled], [total_saved] and [total_date_extracted]. *)
Definition crawl_source_dated (topic_name : string) (start_date : Z)
           (enable_date_extraction : bool) (run : DatedRun)
           (st : Db * (Z * Z * Z)) : Db * (Z * Z * Z) :=
  match run_items (source_run run) with
  | Some items =>
      let date_selectors :=
        date_selectors_of enable_date_extraction (date_selector run) in
      let done :=
        fold_left
          (fun st ti =>
             save_item_dated topic_name (run_domain (source_run run)) start_date
                             enable_date_extraction date_selectors
                             (fst ti) (snd ti) st)
          items (fst st, no_counts, 0) in
      (fst (fst done),
       (fst (fst (snd st)) + Z.of_nat (List.length items),
        snd (fst (snd st)) + saved_count (snd (fst done)),
        snd (snd st) + snd done))
  | None => st
  end.

Definition start_crawling_with_date_extraction (now days_back : Z)
           (enable_date_extraction : bool)
           (topics : list (string * list DatedRun)) (db : Db) : Db * (Z * Z * Z) :=
  let start_date := start_date_of now days_back in
  fold_left
    (fun st topic =>
       fold_left
         (fun st run =>
            crawl_source_dated (fst topic) start_date enable_date_extraction run st)
         (snd topic) st)
    topics (db, (0, 0, 0)).

End DatedSaving.

(** The sources as the plain crawl sees them. *)
Definition plain_topics (topics : list (string * list DatedRun))
  : list (string * list SourceRun) :=
  map (fun topic => (fst topic, map source_run (snd topic))) topics.

(** No source has a date selector. *)
Definition no_selectors (topics : list (string * list DatedRun)) : bool :=
  forallb (fun topic =>
             forallb (fun run => negb (Models.truthy (date_selector run)))
                     (snd topic))
          topics.

(** The sample topics of the plain crawl, with a date selector, and an
    extraction that finds the recent date on every article. *)
Definition sample_dated_topics : list (string * list DatedRun) :=
  map (fun topic => (fst topic, map (fun run => mkDatedRun run (Some ".date, time"))
                                    (snd topic)))
      CrawlTotals.sample_topics.

Definition sample_extract (url : string) (date_selectors : list string)
  : option DateExtractionResult :=
  Some (mkDateResult true (Some "recent") 0.9%float "css_selector" None).

End CrawlDates.

(** ** [api/endpoints/intelligence.py]: analysing a batch *)

Module Batch.
Import PyStr Json PyNum Store Scoring AiProcess.

(** What [analyze_article_with_deepseek] comes back with at the turn of
    an id: the analysis (with the reading of the clock taken for the
    update), a timeout, or another exception. *)
Inductive Analysis : Type :=
| Arrived (analysis : dict) (update_time : string)
| TimedOut
| Raised (e : exn).

(** One id of the request with the analysis its turn gets. *)
Definition Job : Type := (Z * Analysis)%type.

(** What the handler answers; the entries computed from the clock are
    left out. *)
Inductive BatchAnswer : Type :=
| BatchError (message : string)
| BatchDone (results : list (Z * reply)) (success_count total_count : Z).

Definition is_success (answer : reply) : bool :=
  match answer with Success _ _ _ _ _ => true | Failure _ => false end.

Section Batches.

Variable json_dumps : json -> string.

(** [ai_process_single_intelligence] with the call of the analysis:
    the row is looked up first, and an exception of the analysis is
    answered as a failure. *)
Definition process_one (single : dict -> string -> Z -> Db -> res (Db * reply))
           (job : Job) (db : Db) : res (Db * reply) :=
  match snd job with
  | Arrived analysis update_time => single analysis update_time (fst job) db
  | TimedOut =>
      match find_by_id (fst job) db with
      | None => Ok (db, Failure "情报不存在")
      | Some _ => Ok (db, Failure "AI分析超时")
      end
  | Raised e =>
      match find_by_id (fst job) db with
      | None => Ok (db, Failure "情报不存在")
      | Some _ => Ok (db, Failure ("AI分析失败: " ++ str_of_exn e))
      end
  end.

(** The loop over the ids: every id is processed on the tables the one
    before left, and gets an entry in [results]. *)
Fixpoint process_all (single : dict -> string -> Z -> Db -> res (Db * reply))
         (jobs : list Job) (db : Db) (results : list (Z * reply)) (success_count : Z)
  : res (Db * (list (Z * reply) * Z)) :=
  match jobs with
  | [] => Ok (db, (results, success_count))
  | job :: rest =>
      match process_one single job db with
      | Ok (db, result) =>
          process_all single rest db (results ++ [(fst job, result)])%list
                      (if is_success result then success_count + 1 else success_count)
      | Raise e =>
          process_all single rest db
                      (results ++ [(fst job, Failure ("处理异常: " ++ str_of_exn e))])%list
                      success_count
      | Unmodelled => Unmodelled
      end
  end.

Definition batch (single : dict -> string -> Z -> Db -> res (Db * reply))
           (jobs : list Job) (db : Db) : res (Db * BatchAnswer) :=
  if is_nil jobs then Ok (db, BatchError "请提供要处理的情报ID列表")
  else
    done <- process_all single jobs db [] 0 ;;
    Ok (fst done,
        BatchDone (fst (snd done)) (snd (snd done)) (Z.of_nat (List.length jobs))).

(** [batch_ai_process] *)
Definition batch_ai_process (jobs : list Job) (db : Db) : res (Db * BatchAnswer) :=
  batch (ai_process_single_intelligence json_dumps) jobs db.

(** [batch_ai_process_with_date_extraction], through
    [process_single_intelligence_isolated] *)
Definition batch_ai_process_with_date_extraction (jobs : list Job) (db : Db)
  : res (Db * BatchAnswer) :=
  batch ai_process_single_intelligence_with_date_extraction jobs db.

End Batches.

(** What a batch leaves alone, [ids] being the ids it was asked to
    analyse: the sources, the ids and the titles, and every row with
    another id. *)
Definition framed (ids : list Z) (db db' : Db) : Prop :=
  intelligence_sources db' = intelligence_sources db
  /\ map i_id (intelligence db') = map i_id (intelligence db)
  /\ map i_title (intelligence db') = map i_title (intelligence db)
  /\ (forall row, In row (intelligence db) -> ~ In (i_id row) ids ->
                  In row (intelligence db')).

(** The number of successes among the results. *)
Definition successes (results : list (Z * reply)) : Z :=
  Z.of_nat (List.length (filter (fun entry => is_success (snd entry)) results)).

End Batch.

(** ** [crud/crud_operations.py]: subscriptions *)

Module Subscriptions.

(** A client with the ids of the topics in [client.topics]; the tables
    hold the clients and the ids of the topics. *)
Record Client : Type := mkClient {
  client_id : Z;
  client_name : string;
  topics : list Z
}.

Record Tables : Type := mkTables {
  clients : list Client;
  topic_ids : list Z
}.

Definition get_client (db : Tables) (id : Z) : option Client :=
  find (fun client => client_id client =? id) (clients db).

Definition get_topic (db : Tables) (id : Z) : option Z :=
  find (Z.eqb id) (topic_ids db).

(** The row of the client after a change of its [topics]. *)
Definition with_topics (id : Z) (ts : list Z) (client : Client) : Client :=
  if client_id client =? id then mkClient (client_id client) (client_name client) ts
  else client.

(** [topics.remove(topic)]: the first occurrence goes. *)
Fixpoint remove_first (topic : Z) (ts : list Z) : list Z :=
  match ts with
  | [] => []
  | t :: rest => if t =? topic then rest else t :: remove_first topic rest
  end.

(** The tables afterwards and the client returned ([None] when there is
    no such client). *)
Definition assign_topic_to_client (db : Tables) (id topic_id : Z)
  : Tables * option Client :=
  match get_client db id, get_topic db topic_id with
  | Some client, Some topic =>
      if negb (existsb (Z.eqb topic) (topics client))
      then
        let ts := (topics client ++ [topic])%list in
        (mkTables (map (with_topics id ts) (clients db)) (topic_ids db),
         Some (mkClient (client_id client) (client_name client) ts))
      else (db, Some client)
  | client, _ => (db, client)
  end.

Definition unassign_topic_from_client (db : Tables) (id topic_id : Z)
  : Tables * option Client :=
  match get_client db id, get_topic db topic_id with
  | Some client, Some topic =>
      if existsb (Z.eqb topic) (topics client)
      then
        let ts := remove_first topic (topics client) in
        (mkTables (map (with_topics id ts) (clients db)) (topic_ids db),
         Some (mkClient (client_id client) (client_name client) ts))
      else (db, Some client)
  | client, _ => (db, client)
  end.

(** The topics a client is subscribed to. *)
Definition subscribed (db : Tables) (id : Z) : list Z :=
  match get_client db id with
  | Some client => topics client
  | None => []
  end.

Definition two_clients : Tables :=
  mkTables [mkClient 1 "CSCI" [10]; mkClient 2 "Other" []] [10; 20; 30].

End Subscriptions.

(** * Properties *)

(** ** Facts on the string operations *)

Module PyStrFacts.
Import PyStr.

Lemma all_chars_weaken (p q : ascii -> bool) (s : string) :
  (forall c, p c = true -> q c = true) ->
  all_chars p s = true -> all_chars q s = true.
Proof.
  intros Hpq. induction s as [|c s IH]; simpl; [reflexivity|].
  intros H. apply andb_true_iff in H as [Hc Hs].
  rewrite (Hpq c Hc), (IH Hs). reflexivity.
Qed.

Lemma all_chars_has_not (p q : ascii -> bool) (s : string) :
  (forall c, p c = true -> q c = false) ->
  all_chars p s = true -> has_char q s = false.
Proof.
  intros Hpq. induction s as [|c s IH]; simpl; [reflexivity|].
  intros H. apply andb_true_iff in H as [Hc Hs].
  rewrite (Hpq c Hc), (IH Hs). reflexivity.
Qed.

Lemma rstrip_by_none (p : ascii -> bool) (s : string) :
  has_char p s = false -> rstrip_by p s = s.
Proof.
  induction s as [|c s IH]; simpl; [reflexivity|].
  intros H. apply orb_false_iff in H as [Hc Hs].
  rewrite (IH Hs), Hc. destruct s; reflexivity.
Qed.

Lemma lstrip_by_none (p : ascii -> bool) (s : string) :
  has_char p s = false -> lstrip_by p s = s.
Proof.
  destruct s as [|c s]; simpl; [reflexivity|].
  intros H. apply orb_false_iff in H as [Hc _]. rewrite Hc. reflexivity.
Qed.

Lemma strip_none (s : string) :
  has_char is_space s = false -> strip s = s.
Proof.
  intros H. unfold strip. rewrite (rstrip_by_none _ _ H).
  apply lstrip_by_none, H.
Qed.

Lemma filter_chars_all (p : ascii -> bool) (s : string) :
  all_chars p s = true -> filter_chars p s = s.
Proof.
  induction s as [|c s IH]; simpl; [reflexivity|].
  intros H. apply andb_true_iff in H as [Hc Hs].
  rewrite Hc, (IH Hs). reflexivity.
Qed.

Lemma break_at_none (p : ascii -> bool) (s : string) :
  has_char p s = false -> break_at p s = (s, EmptyString).
Proof.
  induction s as [|c s IH]; simpl; [reflexivity|].
  intros H. apply orb_false_iff in H as [Hc Hs].
  rewrite Hc, (IH Hs). reflexivity.
Qed.

Lemma split_on_none (c : ascii) (s : string) :
  has_char (Ascii.eqb c) s = false -> split_on c s = [s].
Proof.
  induction s as [|a s IH]; simpl; [reflexivity|].
  intros H. apply orb_false_iff in H as [Hc Hs].
  rewrite Ascii.eqb_sym, Hc, (IH Hs). reflexivity.
Qed.

Lemma lower_none (s : string) :
  has_char is_upper s = false -> lower s = s.
Proof.
  induction s as [|c s IH]; simpl; [reflexivity|].
  intros H. apply orb_false_iff in H as [Hc Hs].
  unfold lower_char. rewrite Hc, (IH Hs). reflexivity.
Qed.

(** Stripping keeps a part of the text. *)
Lemma all_chars_lstrip (p q : ascii -> bool) (s : string) :
  all_chars q s = true -> all_chars q (lstrip_by p s) = true.
Proof.
  induction s as [|c s IH]; cbn [lstrip_by]; [reflexivity|]. intros H.
  destruct (p c); [|exact H].
  cbn [all_chars] in H. apply andb_true_iff in H as [_ H]. exact (IH H).
Qed.

Lemma all_chars_rstrip (p q : ascii -> bool) (s : string) :
  all_chars q s = true -> all_chars q (rstrip_by p s) = true.
Proof.
  induction s as [|c s IH]; cbn [rstrip_by]; [reflexivity|]. intros H.
  cbn [all_chars] in H. apply andb_true_iff in H as [Hc H]. specialize (IH H).
  destruct (rstrip_by p s) as [|d r].
  - destruct (p c); [reflexivity|]. cbn [all_chars]. rewrite Hc. reflexivity.
  - cbn [all_chars] in *. rewrite Hc. exact IH.
Qed.

Lemma all_chars_strip (q : ascii -> bool) (s : string) :
  all_chars q s = true -> all_chars q (strip s) = true.
Proof. intros H. apply all_chars_lstrip, all_chars_rstrip, H. Qed.

Lemma has_char_all_chars (q : ascii -> bool) (s : string) :
  has_char q s = negb (all_chars (fun c => negb (q c)) s).
Proof.
  induction s as [|c s IH]; [reflexivity|]. cbn [has_char all_chars].
  rewrite IH. destruct (q c); reflexivity.
Qed.

Lemma has_char_strip (q : ascii -> bool) (s : string) :
  has_char q s = false -> has_char q (strip s) = false.
Proof.
  rewrite !has_char_all_chars. intros H. apply negb_false_iff in H.
  apply negb_false_iff. apply all_chars_strip, H.
Qed.

Lemma isascii_strip (s : string) : isascii s = true -> isascii (strip s) = true.
Proof. apply all_chars_strip. Qed.

Lemma length_lstrip (p : ascii -> bool) (s : string) :
  (String.length (lstrip_by p s) <= String.length s)%nat.
Proof.
  induction s as [|c s IH]; cbn [lstrip_by]; [apply Nat.le_refl|].
  destruct (p c); [|apply Nat.le_refl]. cbn [String.length]. lia.
Qed.

Lemma length_rstrip (p : ascii -> bool) (s : string) :
  (String.length (rstrip_by p s) <= String.length s)%nat.
Proof.
  induction s as [|c s IH]; cbn [rstrip_by]; [apply Nat.le_refl|].
  destruct (rstrip_by p s) as [|d r].
  - destruct (p c); cbn [String.length] in *; lia.
  - cbn [String.length] in *. lia.
Qed.

Lemma length_strip (s : string) :
  (String.length (strip s) <= String.length s)%nat.
Proof.
  unfold strip. pose proof (length_lstrip is_space (rstrip_by is_space s)).
  pose proof (length_rstrip is_space s). lia.
Qed.

(** A text without [/] holds no [://]. *)
Lemma contains_scheme_sep_none (s : string) :
  has_char (Ascii.eqb "/") s = false -> contains "://" s = false.
Proof.
  induction s as [|c s IH]; intros H.
  - reflexivity.
  - cbn [has_char] in H. apply orb_false_iff in H as [Hc Hs].
    cbn [contains]. rewrite (IH Hs), orb_false_r.
    cbn [startswith].
    destruct s as [|d s']; [apply andb_false_r|].
    cbn [has_char] in Hs. apply orb_false_iff in Hs as [Hd _].
    cbn [startswith]. rewrite Hd. cbn [andb]. apply andb_false_r.
Qed.

End PyStrFacts.

(** ** Domain normalisation *)

Module DomainFacts.
Import PyStr PyStrFacts Crud.

Ltac by_cases_on_char c :=
  destruct c as [[] [] [] [] [] [] [] []]; vm_compute; congruence.

Lemma host_char_not_space c : host_char c = true -> is_space c = false.
Proof. by_cases_on_char c. Qed.

Lemma host_char_not_upper c : host_char c = true -> is_upper c = false.
Proof. by_cases_on_char c. Qed.

Lemma host_char_not_slash c : host_char c = true -> Ascii.eqb "/"%char c = false.
Proof. by_cases_on_char c. Qed.

Lemma host_char_not_delim c : host_char c = true -> char_in "/?#" c = false.
Proof. by_cases_on_char c. Qed.

Lemma host_char_not_lbracket c : host_char c = true -> Ascii.eqb "["%char c = false.
Proof. by_cases_on_char c. Qed.

Lemma host_char_not_rbracket c : host_char c = true -> Ascii.eqb "]"%char c = false.
Proof. by_cases_on_char c. Qed.

Lemma host_char_safe c : host_char c = true -> negb (Url.unsafe_byte c) = true.
Proof. by_cases_on_char c. Qed.

Lemma host_char_ascii c : host_char c = true -> is_ascii_char c = true.
Proof. by_cases_on_char c. Qed.

(** [urlparse] of [https://h] for a host text [h]: everything is netloc. *)
Lemma urlparse_https_host (h : string) :
  host_text h = true ->
  Url.urlparse ("https://" ++ h) = Ok (Url.mkParse "https" h EmptyString EmptyString EmptyString EmptyString).
Proof.
  intros Hh. unfold Url.urlparse, Url.urlsplit.
  change (lstrip_by Url.c0_or_space ("https://" ++ h)) with ("https://" ++ h).
  assert (Hf : filter_chars (fun c => negb (Url.unsafe_byte c)) ("https://" ++ h)
               = "https://" ++ h).
  { cbn. rewrite (filter_chars_all _ h); [reflexivity|].
    exact (all_chars_weaken _ _ h host_char_safe Hh). }
  rewrite Hf.
  change (Url.split_scheme ("https://" ++ h)) with ("https", "//" ++ h).
  cbv beta iota.
  change (startswith "//" ("//" ++ h)) with true. cbv iota.
  unfold Url.splitnetloc. change (drop 2 ("//" ++ h)) with h.
  rewrite (break_at_none _ h (all_chars_has_not _ _ h host_char_not_delim Hh)).
  unfold Url.check_brackets.
  rewrite (all_chars_has_not _ _ h host_char_not_lbracket Hh).
  rewrite (all_chars_has_not _ _ h host_char_not_rbracket Hh).
  cbn. unfold Url.checknetloc, isascii.
  rewrite (all_chars_weaken _ _ h host_char_ascii Hh), orb_true_r.
  reflexivity.
Qed.

(** Normalised host names are fixed points of [_parse_domain]. *)
Lemma parse_domain_fixed (h : string) :
  host_text h = true -> startswith "www." h = false ->
  Crud._parse_domain h = Ok h.
Proof.
  intros Hh Hw. unfold Crud._parse_domain.
  rewrite (strip_none h (all_chars_has_not _ _ h host_char_not_space Hh)).
  destruct h as [|c h'] eqn:E; [reflexivity|]. rewrite <- E in *.
  assert (Hne : is_empty h = false) by (rewrite E; reflexivity).
  rewrite Hne.
  assert (Hs : has_char (Ascii.eqb "/") h = false)
    by exact (all_chars_has_not _ _ h host_char_not_slash Hh).
  rewrite (contains_scheme_sep_none h Hs).
  rewrite (urlparse_https_host h Hh).
  cbn [bind Url.netloc Url.path]. rewrite Hne.
  rewrite (split_on_none _ h Hs). cbn [hd]. rewrite Hw.
  rewrite (lower_none h (all_chars_has_not _ _ h host_char_not_upper Hh)).
  reflexivity.
Qed.

(** Only one [www.] label is removed per call, so a second call goes on
    where the first stopped; and the label is compared before the host is
    lower-cased, so an upper-case [WWW.] survives the first call. *)
Lemma parse_domain_not_idempotent :
  _parse_domain "www.www.example.com" = Ok "www.example.com"
  /\ parse_domain_twice "www.www.example.com" = Ok "example.com"
  /\ parse_domain_twice "www.www.example.com"
     <> _parse_domain "www.www.example.com"
  /\ _parse_domain "WWW.Example.com/path" = Ok "www.example.com"
  /\ _parse_domain "WWW.Example.com/path" <> Ok "example.com".
Proof.
  split; [reflexivity|]. split; [reflexivity|].
  split; [vm_compute; discriminate|].
  split; [reflexivity|vm_compute; discriminate].
Qed.

(** A blank before the path stays in the host and is stripped by the
    next call. *)
Lemma parse_domain_inner_blank :
  _parse_domain "a /c" = Ok "a " /\ parse_domain_twice "a /c" = Ok "a".
Proof. split; reflexivity. Qed.

(** C1 (amended).  Normalisation removes scheme and path, one leading
    lower-case [www.] label, and lower-cases the host:
    [_parse_domain "www.Example.com/path"] and
    [_parse_domain "https://Example.COM"] are both ["example.com"]; and it
    is idempotent on every input [s] whose normalisation [h] is a host text
    (printable ASCII without upper-case letters, blanks and [/ ? # [ ]])
    that does not begin with [www.]: normalising [h] again gives [h]. *)
Theorem parse_domain_idempotent_on_hosts (s h : string) :
  _parse_domain s = Ok h ->
  host_text h = true ->
  startswith "www." h = false ->
  parse_domain_twice s = _parse_domain s
  /\ _parse_domain "www.Example.com/path" = Ok "example.com"
  /\ _parse_domain "https://Example.COM" = Ok "example.com".
Proof.
  intros Hs Hh Hw. split; [|split; reflexivity].
  unfold parse_domain_twice. rewrite Hs. cbn [bind].
  apply parse_domain_fixed; assumption.
Qed.

Lemma parse_domain_idempotent_on_hosts_witness :
  _parse_domain "https://Example.COM" = Ok "example.com"
  /\ host_text "example.com" = true
  /\ startswith "www." "example.com" = false
  /\ (parse_domain_twice "https://Example.COM" = _parse_domain "https://Example.COM"
      /\ _parse_domain "www.Example.com/path" = Ok "example.com"
      /\ _parse_domain "https://Example.COM" = Ok "example.com").
Proof.
  split; [reflexivity|]. split; [reflexivity|]. split; [reflexivity|].
  exact (parse_domain_idempotent_on_hosts
           "https://Example.COM" "example.com" eq_refl eq_refl eq_refl).
Defined.

End DomainFacts.

(** ** Recipe construction *)

Module ModelsFacts.
Import PyStr Models.

(** What [__post_init__] leaves on the object when it returns. *)
Lemma post_init_ok (self i : Instance) :
  __post_init__ self = Ok i ->
  pagination_mode (fields i) = pagination_mode (fields self)
  /\ page_pattern (fields i) = page_pattern (fields self)
  /\ max_pages (fields i)
     = (if max_pages (fields self) <=? 0 then 1 else max_pages (fields self))
  /\ wait_ms (fields i)
     = (if wait_ms (fields self) <? 0 then 0 else wait_ms (fields self))
  /\ (drupal_detected self = true -> _drupal_auto_detected self = false ->
      drupal_zero_based (fields i) = true).
Proof.
  unfold __post_init__. intros H.
  destruct (drupal_detected self) eqn:Hd;
    destruct (_drupal_auto_detected self) eqn:Hf; cbn [negb] in H;
    cbv zeta in H; cbn [fields set_drupal_zero_based pagination_mode page_pattern
                        next_page_selector load_more_selector max_pages wait_ms] in H;
    repeat match type of H with
           | (if ?c then _ else _) = _ => destruct c; [discriminate|]
           end;
    injection H as <-; cbn [fields];
    destruct (max_pages (fields self) <=? 0);
    cbn [set_drupal_zero_based set_max_pages wait_ms];
    destruct (wait_ms (fields self) <? 0);
    cbn [set_drupal_zero_based set_max_pages set_wait_ms pagination_mode
         page_pattern max_pages wait_ms drupal_zero_based];
    repeat split; try reflexivity; try discriminate.
Qed.

Lemma new_number_mode_detected (a : ScraperRecipe) :
  pagination_mode a = "number" -> truthy (page_pattern a) = true ->
  drupal_detected (mkInstance a false) = true.
Proof.
  intros Hm Hp. unfold drupal_detected. cbn [fields]. rewrite Hp, Hm.
  cbn [String.eqb Ascii.eqb]. rewrite orb_true_r. reflexivity.
Qed.

Lemma new_number_mode_ok (a : ScraperRecipe) :
  pagination_mode a = "number" -> truthy (page_pattern a) = true ->
  exists i, new a = Ok i.
Proof.
  intros Hm Hp. unfold new, __post_init__.
  rewrite (new_number_mode_detected a Hm Hp). cbn [negb _drupal_auto_detected].
  cbv zeta. cbn [fields set_drupal_zero_based pagination_mode page_pattern].
  rewrite Hm, Hp. cbn. eauto.
Qed.

Lemma new_requires (a : ScraperRecipe) (mode : string)
      (sel : ScraperRecipe -> option string) :
  (forall v r, sel (set_drupal_zero_based v r) = sel r) ->
  In (mode, sel) [("number", page_pattern); ("next", next_page_selector);
                  ("loadmore", load_more_selector)] ->
  pagination_mode a = mode -> truthy (sel a) = false ->
  new a = Raise (ValueError (requirement_error mode)).
Proof.
  intros Hsel Hin Hm Hs. unfold new, __post_init__.
  assert (Hf : forall self : Instance,
             fields self = a \/ fields self = set_drupal_zero_based true a ->
             pagination_mode (fields self) = mode /\ truthy (sel (fields self)) = false).
  { intros self [->| ->]; [auto|]. rewrite Hsel. auto. }
  set (self1 := if drupal_detected (mkInstance a false) then _ else _).
  assert (Hx : fields self1 = a \/ fields self1 = set_drupal_zero_based true a).
  { unfold self1. destruct (drupal_detected _); [destruct (negb _)|];
      cbn [fields]; auto. }
  cbv zeta. destruct (Hf _ Hx) as [Hm' Hs'].
  cbn [In] in Hin.
  destruct Hin as [E|[E|[E|[]]]]; injection E as <- <-;
    rewrite ?Hm', ?Hs'; reflexivity.
Qed.

(** C8.  A number-mode recipe without [page_pattern] is refused with
    [ValueError] and the same construction with a pattern succeeds;
    [next] without [next_page_selector] and [loadmore] without
    [load_more_selector] are refused too; and every recipe that is
    constructed has [max_pages >= 1] and [wait_ms >= 0], a non-positive
    [max_pages] having become 1 and a negative [wait_ms] 0. *)
Theorem recipe_construction_validation (a : ScraperRecipe) :
  (pagination_mode a = "number" -> truthy (page_pattern a) = false ->
   new a = Raise (ValueError "数字分页模式需要设置page_pattern"))
  /\ (pagination_mode a = "number" -> truthy (page_pattern a) = true ->
      exists i, new a = Ok i)
  /\ (pagination_mode a = "next" -> truthy (next_page_selector a) = false ->
      new a = Raise (ValueError "下一页链接模式需要设置next_page_selector"))
  /\ (pagination_mode a = "loadmore" -> truthy (load_more_selector a) = false ->
      new a = Raise (ValueError "加载更多模式需要设置load_more_selector"))
  /\ (forall i, new a = Ok i ->
      1 <= max_pages (fields i) /\ 0 <= wait_ms (fields i)
      /\ max_pages (fields i) = (if max_pages a <=? 0 then 1 else max_pages a)
      /\ wait_ms (fields i) = (if wait_ms a <? 0 then 0 else wait_ms a)).
Proof.
  repeat split.
  - apply (new_requires a "number" page_pattern); cbn; auto.
  - apply new_number_mode_ok.
  - apply (new_requires a "next" next_page_selector); cbn; auto.
  - apply (new_requires a "loadmore" load_more_selector); cbn; auto.
  - destruct (post_init_ok _ _ H) as (_ & _ & Hmax & _). cbn [fields] in Hmax.
    rewrite Hmax. destruct (max_pages a <=? 0) eqn:E; lia.
  - destruct (post_init_ok _ _ H) as (_ & _ & _ & Hw & _). cbn [fields] in Hw.
    rewrite Hw. destruct (wait_ms a <? 0) eqn:E; lia.
  - destruct (post_init_ok _ _ H) as (_ & _ & Hmax & _). exact Hmax.
  - destruct (post_init_ok _ _ H) as (_ & _ & _ & Hw & _). exact Hw.
Qed.

Lemma recipe_construction_validation_witness :
  new Samples.number_without_pattern
  = Raise (ValueError "数字分页模式需要设置page_pattern")
  /\ (exists i, new (Samples.x_com_args false) = Ok i)
  /\ (forall i, new (set_max_pages (-3) default_recipe) = Ok i ->
      1 <= max_pages (fields i) /\ 0 <= wait_ms (fields i)
      /\ max_pages (fields i) = 1 /\ wait_ms (fields i) = 0).
Proof.
  split; [|split].
  - exact (proj1 (recipe_construction_validation Samples.number_without_pattern)
             eq_refl eq_refl).
  - exact (proj1 (proj2 (recipe_construction_validation (Samples.x_com_args false)))
             eq_refl eq_refl).
  - exact (proj2 (proj2 (proj2 (proj2
             (recipe_construction_validation (set_max_pages (-3) default_recipe)))))).
Defined.

(** C10.  A recipe constructed with [pagination_mode = "number"] and a
    non-empty [page_pattern] has [drupal_zero_based = True] whatever value
    was passed; the constructor turns the flag on whenever a pattern is set
    and the domain mentions drupal or the mode is [number]; hence no
    constructed number-mode recipe has the flag off. *)
Theorem number_mode_forces_zero_based (a : ScraperRecipe) :
  (pagination_mode a = "number" -> truthy (page_pattern a) = true ->
   exists i, new a = Ok i /\ drupal_zero_based (fields i) = true)
  /\ (forall i, new a = Ok i -> truthy (page_pattern a) = true ->
      contains "drupal" (lower (domain a)) = true \/ pagination_mode a = "number" ->
      drupal_zero_based (fields i) = true)
  /\ (forall i, new a = Ok i -> pagination_mode (fields i) = "number" ->
      drupal_zero_based (fields i) = true).
Proof.
  assert (Hdet : forall i, new a = Ok i -> truthy (page_pattern a) = true ->
            contains "drupal" (lower (domain a)) = true \/ pagination_mode a = "number" ->
            drupal_zero_based (fields i) = true).
  { intros i Hi Hp Hc.
    destruct (post_init_ok _ _ Hi) as (_ & _ & _ & _ & Hz).
    apply Hz; [|reflexivity].
    unfold drupal_detected. cbn [fields]. rewrite Hp.
    destruct Hc as [Hc|Hc]; rewrite Hc; cbn;
      rewrite ?orb_true_r; reflexivity. }
  split; [|split].
  - intros Hm Hp. destruct (new_number_mode_ok a Hm Hp) as [i Hi].
    exists i. split; [exact Hi|]. apply Hdet; auto.
  - exact Hdet.
  - intros i Hi Hm.
    destruct (post_init_ok _ _ Hi) as (Hmode & _). cbn [fields] in Hmode.
    rewrite Hmode in Hm.
    destruct (truthy (page_pattern a)) eqn:Hp.
    + apply Hdet; auto.
    + rewrite (new_requires a "number" page_pattern) in Hi;
        cbn; auto; discriminate.
Qed.

Lemma number_mode_forces_zero_based_witness :
  exists i, new (Samples.x_com_args false) = Ok i
            /\ drupal_zero_based (fields i) = true.
Proof.
  exact (proj1 (number_mode_forces_zero_based (Samples.x_com_args false))
           eq_refl eq_refl).
Defined.

End ModelsFacts.

(** ** Numbered pagination *)

Module ScraperFacts.
Import PyStr PyRepr Models ScraperMain.

Section NextPageFacts.

Variable soup_select : string -> string -> option (list Element).
Variable urljoin_defrag : string -> string -> string.

Local Abbreviation next_url := (_get_next_page_url soup_select urljoin_defrag).




End NextPageFacts.



End ScraperFacts.

(** ** Validation of the analysis *)

Module AiServiceFacts.
Import Json AiService Responses.

Lemma has_key_get (k : string) (d : dict) :
  has_key k d = true -> dict_get k d <> None.
Proof. unfold has_key. destruct (dict_get k d); [discriminate|discriminate]. Qed.

(** What an accepted answer looks like. *)
Lemma validate_accepts (r : dict) :
  _validate_analysis_result r = Ok true ->
  (forall k, In k required_keys -> dict_get k r <> None)
  /\ existsb (eq_str (get_or_none "议题" r)) OFFICIAL_TOPICS = true
  /\ existsb (eq_str (get_or_none "类别" r)) OFFICIAL_CATEGORIES = true
  /\ (forall k, In k required_score_keys -> sub_dimension r k <> None).
Proof.
  unfold _validate_analysis_result.
  destruct (is_nil r); [discriminate|].
  destruct (forallb (fun k => has_key k r) required_keys) eqn:Hkeys;
    [|discriminate].
  destruct (existsb (eq_str (get_or_none "议题" r)) OFFICIAL_TOPICS) eqn:Htopic;
    [|discriminate].
  cbn [negb]. cbv zeta.
  destruct (hashable (get_or_none "类别" r)); [|discriminate]. cbn [negb].
  destruct (existsb (eq_str (get_or_none "类别" r)) OFFICIAL_CATEGORIES)
    eqn:Hcat; [|discriminate].
  cbn [negb]. unfold get_or_none at 1.
  destruct (dict_get "评分详情" r) as [[| | | | | |sd]|] eqn:Hsd; try discriminate.
  destruct (is_nil sd); [discriminate|].
  intros H. assert (H' : forallb (score_item_ok sd) required_score_keys = true)
    by (injection H as H; exact H).
  clear H. rename H' into H.
  rewrite forallb_forall in Hkeys. rewrite forallb_forall in H.
  repeat split; try reflexivity.
  - intros k Hk. apply has_key_get, Hkeys, Hk.
  - intros k Hk. specialize (H k Hk). unfold sub_dimension. rewrite Hsd.
    unfold score_item_ok in H. destruct (dict_get k sd); [discriminate|discriminate].
Qed.

Lemma invalid_not_accepted (r : dict) :
  invalid_response r -> _validate_analysis_result r <> Ok true.
Proof.
  intros Hinv Hok.
  destruct (validate_accepts r Hok) as (Hkeys & Htopic & Hcat & Hdims).
  destruct Hinv as [(k & Hk & Hnone)|[H|[H|(k & Hk & Hnone)]]].
  - exact (Hkeys k Hk Hnone).
  - congruence.
  - congruence.
  - exact (Hdims k Hk Hnone).
Qed.

(** Validation answers or raises; it never leaves the embedded fragment. *)
Lemma validate_modelled (r : dict) : _validate_analysis_result r <> Unmodelled.
Proof.
  unfold _validate_analysis_result.
  repeat match goal with
         | |- (if ?c then _ else _) <> _ => destruct c; try discriminate
         | |- (let x := _ in _) <> _ => cbv zeta
         | |- match ?x with _ => _ end <> _ => destruct x; try discriminate
         end.
Qed.

Lemma rejected_zero_scored (ctx : Context) : zero_scored (rejected_result ctx).
Proof.
  intros k Hk. unfold required_score_keys in Hk. cbn [In] in Hk.
  repeat (destruct Hk as [<-|Hk]; [reflexivity|]). destruct Hk.
Qed.

Lemma failed_zero_scored (ctx : Context) (e : exn) : zero_scored (failed_result ctx e).
Proof.
  intros k Hk. unfold required_score_keys in Hk. cbn [In] in Hk.
  repeat (destruct Hk as [<-|Hk]; [reflexivity|]). destruct Hk.
Qed.

(** C4.  An answer that lacks a required top-level key, or whose topic is
    not an official topic, or whose category is not an official category,
    or that lacks one of the five sub-dimensions, is not accepted by
    validation, and the analysis returns (it does not raise) a default
    result whose five sub-dimension scores are all 0 and whose [_meta]
    records the failure: the validation-failure default when validation
    answers [False], the handler's default with the text of the exception
    when validation itself raises. *)
Theorem invalid_response_gets_default (ctx : Context) (r : dict) :
  invalid_response r ->
  _validate_analysis_result r <> Ok true
  /\ exists d : dict,
       analyze_parsed ctx r = Ok d
       /\ zero_scored d
       /\ ((_validate_analysis_result r = Ok false
            /\ d = rejected_result ctx
            /\ meta_fetch_error d = Some (JStr "AI分析结果验证失败"))
           \/ (exists e, _validate_analysis_result r = Raise e
                         /\ d = failed_result ctx e
                         /\ meta_fetch_error d
                            = Some (JStr ("API调用失败: " ++ str_of_exn e)))).
Proof.
  intros Hinv. pose proof (invalid_not_accepted r Hinv) as Hna.
  split; [exact Hna|].
  unfold analyze_parsed, analyze_body.
  destruct (_validate_analysis_result r) as [[|]|e|] eqn:Hv.
  - congruence.
  - exists (rejected_result ctx). cbn [bind].
    split; [reflexivity|]. split; [apply rejected_zero_scored|].
    left. repeat split; reflexivity.
  - exists (failed_result ctx e). cbn [bind].
    split; [reflexivity|]. split; [apply failed_zero_scored|].
    right. exists e. repeat split; reflexivity.
  - exfalso. exact (validate_modelled r Hv).
Qed.

Lemma invalid_response_gets_default_witness :
  analyze_parsed sample_context unknown_topic_answer
  = Ok (rejected_result sample_context)
  /\ analyze_parsed sample_context list_category_answer
     = Ok (failed_result sample_context (TypeError "unhashable type: 'list'")).
Proof.
  split.
  - destruct (invalid_response_gets_default sample_context unknown_topic_answer)
      as (_ & d & Hd & _ & [(_ & -> & _)|(e & He & _)]).
    + right. left. reflexivity.
    + exact Hd.
    + discriminate He.
  - destruct (invalid_response_gets_default sample_context list_category_answer)
      as (_ & d & Hd & _ & [(Hv & _)|(e & He & -> & _)]).
    + right. right. left. reflexivity.
    + discriminate Hv.
    + injection He as <-. exact Hd.
Defined.

(** A well-formed answer is accepted and returned with its [_meta]. *)
Lemma good_answer_accepted :
  _validate_analysis_result good_answer = Ok true
  /\ analyze_parsed sample_context good_answer
     = Ok (accepted_result sample_context good_answer).
Proof. split; reflexivity. Qed.

End AiServiceFacts.

(** ** The composite score *)

Module ScoringFacts.
Import Json PyNum Scoring.

Lemma in_score_range (s : Z) : 0 <= s <= 10 -> In s score_range.
Proof.
  intros H. unfold score_range.
  assert (E : s = 0 \/ s = 1 \/ s = 2 \/ s = 3 \/ s = 4 \/ s = 5 \/ s = 6
              \/ s = 7 \/ s = 8 \/ s = 9 \/ s = 10) by lia.
  cbn [In]. intuition auto.
Qed.

Ltac over_score_range H :=
  unfold score_range in H; cbn [In] in H;
  repeat (destruct H as [<-|H]; [vm_compute; reflexivity|]);
  destruct H.

(** Small integers convert to a double without overflow. *)
Lemma float_of_score (s : Z) :
  In s score_range -> float_of_int s = Ok (nearest_double s).
Proof. intros H. over_score_range H. Qed.

(** The loop starts from the integer 0: adding the first product to it
    gives that product. *)
Lemma first_product (s : Z) :
  In s score_range ->
  add_float (PInt 0) (nearest_double s * 0.30)%float
  = Ok (PFloat (nearest_double s * 0.30)%float).
Proof. intros H. over_score_range H. Qed.

Lemma carries_same_details (analysis : dict) (dimension : string) (n : Z)
      (score_details : dict) :
  dict_get "评分详情" analysis = Some (JObj score_details) ->
  carries analysis dimension n ->
  exists item, dict_get dimension score_details = Some (JObj item)
               /\ dict_get "分数" item = Some (JInt n).
Proof.
  intros Hsd (sd & item & H1 & H2 & H3).
  rewrite Hsd in H1. injection H1 as <-. eauto.
Qed.

(** One turn of the loop on a dimension that carries an integer score. *)
Lemma add_dimension_carried (score_details : dict) (dimension : string)
      (weight : float) (n : Z) (t : pynum) :
  (exists item, dict_get dimension score_details = Some (JObj item)
                /\ dict_get "分数" item = Some (JInt n)) ->
  In n score_range ->
  add_dimension (JObj score_details) t (dimension, weight)
  = add_float t (nearest_double n * weight)%float.
Proof.
  intros (item & H1 & H2) Hn. unfold add_dimension, get_dimension.
  rewrite H1. cbn [bind]. rewrite H2.
  unfold times_weight. rewrite (float_of_score n Hn). reflexivity.
Qed.

Lemma ai_score_carried (analysis : dict) (s1 s2 s3 s4 s5 : Z) :
  carries analysis "战略相关性" s1 ->
  carries analysis "行业影响力" s2 ->
  carries analysis "时效性紧迫性" s3 ->
  carries analysis "业务机会风险强度" s4 ->
  carries analysis "可操作性" s5 ->
  In s1 score_range -> In s2 score_range -> In s3 score_range ->
  In s4 score_range -> In s5 score_range ->
  ai_score analysis = Ok (PFloat (round1_float (weighted_sum s1 s2 s3 s4 s5))).
Proof.
  intros C1 C2 C3 C4 C5 R1 R2 R3 R4 R5.
  destruct C1 as (sd & item1 & Hsd & H1 & H1').
  pose proof (carries_same_details _ _ _ _ Hsd C2) as D2.
  pose proof (carries_same_details _ _ _ _ Hsd C3) as D3.
  pose proof (carries_same_details _ _ _ _ Hsd C4) as D4.
  pose proof (carries_same_details _ _ _ _ Hsd C5) as D5.
  assert (D1 : exists item, dict_get "战略相关性" sd = Some (JObj item)
                            /\ dict_get "分数" item = Some (JInt s1)) by eauto.
  unfold ai_score, scores_of. rewrite Hsd.
  unfold weights. cbn [add_dimensions].
  rewrite (add_dimension_carried sd _ _ s1 _ D1 R1).
  rewrite (first_product s1 R1). cbn [bind].
  rewrite (add_dimension_carried sd _ _ s2 _ D2 R2). cbn [add_float bind].
  rewrite (add_dimension_carried sd _ _ s3 _ D3 R3). cbn [add_float bind].
  rewrite (add_dimension_carried sd _ _ s4 _ D4 R4). cbn [add_float bind].
  rewrite (add_dimension_carried sd _ _ s5 _ D5 R5). cbn [add_float bind].
  reflexivity.
Qed.

(** The score [ai_process_single_intelligence] stores.  For an analysis
    carrying the five sub-dimension scores (integers from 0 to 10, as the
    prompt asks), [ai_score] is
    [strategic * 0.30 + industry * 0.20 + timeliness * 0.20
     + business * 0.15 + actionability * 0.15] rounded to one decimal:
    the sum as Python evaluates it in binary64, passed through
    [round(_, 1)]; and the sub-scores 8, 6, 10, 4, 2 give exactly 6.5. *)
Theorem ai_score_weighted_sum (analysis : dict) (s1 s2 s3 s4 s5 : Z) :
  carries analysis "战略相关性" s1 ->
  carries analysis "行业影响力" s2 ->
  carries analysis "时效性紧迫性" s3 ->
  carries analysis "业务机会风险强度" s4 ->
  carries analysis "可操作性" s5 ->
  0 <= s1 <= 10 -> 0 <= s2 <= 10 -> 0 <= s3 <= 10 ->
  0 <= s4 <= 10 -> 0 <= s5 <= 10 ->
  ai_score analysis = Ok (PFloat (round1_float (weighted_sum s1 s2 s3 s4 s5)))
  /\ ((s1, s2, s3, s4, s5) = (8, 6, 10, 4, 2) ->
      ai_score analysis = Ok (PFloat 6.5%float)).
Proof.
  intros C1 C2 C3 C4 C5 B1 B2 B3 B4 B5.
  pose proof (ai_score_carried analysis s1 s2 s3 s4 s5 C1 C2 C3 C4 C5
                (in_score_range _ B1) (in_score_range _ B2) (in_score_range _ B3)
                (in_score_range _ B4) (in_score_range _ B5)) as Hscore.
  split; [exact Hscore|].
  intros E. injection E as -> -> -> -> ->. rewrite Hscore.
  vm_compute. reflexivity.
Qed.

Lemma ai_score_weighted_sum_sample :
  ai_score (with_scores 8 6 10 4 2 []) = Ok (PFloat 6.5%float).
Proof.
  refine (proj2 (ai_score_weighted_sum (with_scores 8 6 10 4 2 [])
                   8 6 10 4 2 _ _ _ _ _ _ _ _ _ _) eq_refl);
    try (split; vm_compute; discriminate);
    (eexists; eexists; split; [reflexivity|split; reflexivity]).
Qed.

(** The tie at 0.15 shows the binary64 reading: the double nearest to
    0.15 lies below it and is rounded down to 0.1. *)
Lemma ai_score_at_tie :
  ai_score (with_scores 0 0 0 0 1 []) = Ok (PFloat 0.1%float).
Proof. vm_compute. reflexivity. Qed.

End ScoringFacts.

(** ** Saving crawled items *)

Module CrawlFacts.
Import PyStr Store Crawl.

Section SavingFacts.

Variable parse : string -> option datetime.
Variable parse_fuzzy : string -> option datetime.
Variable isoformat : datetime -> string.

Local Abbreviation item_date := (parse_item_date parse parse_fuzzy).
Local Abbreviation save := (save_item parse parse_fuzzy isoformat).
Local Abbreviation save_guarded := (save_item_guarded parse parse_fuzzy isoformat).
Local Abbreviation merge := (merge_or_insert isoformat).

Lemma map_update_dated_ids id nt ut tp rows :
  map i_id (map (update_dated id nt ut tp) rows) = map i_id rows.
Proof.
  induction rows as [|r rows IH]; [reflexivity|]. cbn [map]. rewrite IH.
  f_equal. unfold update_dated. destruct (i_id r =? id); reflexivity.
Qed.

Lemma map_update_dated_titles id nt ut tp rows :
  map i_title (map (update_dated id nt ut tp) rows) = map i_title rows.
Proof.
  induction rows as [|r rows IH]; [reflexivity|]. cbn [map]. rewrite IH.
  f_equal. unfold update_dated. destruct (i_id r =? id); reflexivity.
Qed.

(** An item that passes the range check goes on to the duplicate check. *)
Lemma save_item_in_range topic_name source_domain start_date current_time item st :
  out_of_range start_date (item_date item) = Ok false ->
  save topic_name source_domain start_date current_time item st
  = Ok (merge topic_name source_domain current_time item (item_date item) st).
Proof. intros H. unfold save_item. rewrite H. reflexivity. Qed.

(** The duplicate check on a known title: the table keeps its rows. *)
Lemma merge_known_title topic_name source_domain current_time item news_time
      db counts existing_row :
  find_by_title (si_title item) db = Some existing_row ->
  let st' := merge topic_name source_domain current_time item news_time (db, counts) in
  map i_id (intelligence (fst st')) = map i_id (intelligence db)
  /\ map i_title (intelligence (fst st')) = map i_title (intelligence db)
  /\ saved_count (snd st') = saved_count counts.
Proof.
  intros Hf. cbv zeta. unfold merge_or_insert. rewrite Hf.
  destruct (i_news_time existing_row), news_time; cbn [fst snd];
    try (repeat split; reflexivity).
  destruct (count_sources _ _ _ =? 0); cbn [fst snd insert_source intelligence];
    rewrite map_update_dated_ids, map_update_dated_titles;
    repeat split; reflexivity.
Qed.

(** The duplicate check on a known title, for an item that has passed the
    range check. *)
Lemma known_title_in_range topic_name source_domain start_date current_time
      item db counts existing_row :
  out_of_range start_date (item_date item) = Ok false ->
  find_by_title (si_title item) db = Some existing_row ->
  exists db' counts',
    save topic_name source_domain start_date current_time item (db, counts)
    = Ok (db', counts')
    /\ map i_id (intelligence db') = map i_id (intelligence db)
    /\ map i_title (intelligence db') = map i_title (intelligence db)
    /\ saved_count counts' = saved_count counts
    /\ (forall t,
          i_news_time existing_row = None -> item_date item = Some t ->
          intelligence db'
          = map (update_dated (i_id existing_row) (isoformat t)
                              (isoformat (Naive current_time)) topic_name)
                (intelligence db)
          /\ intelligence_sources db'
             = (if existsb (fun s => (src_intelligence_id s =? i_id existing_row)
                                     && String.eqb (src_url s) (si_url item))%bool
                           (intelligence_sources db)
                then intelligence_sources db
                else (intelligence_sources db ++
                      [mkIntelligenceSource
                         (next_rowid (map src_id (intelligence_sources db)))
                         (i_id existing_row) (si_url item) (Some (si_title item))
                         source_domain (isoformat (Naive current_time))])%list)
          /\ counts' = bump_updated counts)
    /\ (i_news_time existing_row <> None \/ item_date item = None ->
        db' = db /\ counts' = bump_duplicate counts).
Proof.
  intros Hr Hf.
  rewrite (save_item_in_range _ _ _ _ _ _ Hr).
  destruct (merge topic_name source_domain current_time item (item_date item)
                  (db, counts)) as [db' counts'] eqn:Hm.
  exists db', counts'. split; [reflexivity|].
  pose proof (merge_known_title topic_name source_domain current_time item
                (item_date item) db counts existing_row Hf) as Hk.
  cbv zeta in Hk. rewrite Hm in Hk. cbn [fst snd] in Hk.
  destruct Hk as (Hids & Htitles & Hsaved).
  split; [exact Hids|]. split; [exact Htitles|]. split; [exact Hsaved|].
  unfold merge_or_insert in Hm. rewrite Hf in Hm.
  split.
  - intros t Hnone Ht. rewrite Hnone, Ht in Hm.
    unfold count_sources in Hm. cbn [intelligence_sources] in Hm.
    set (recorded := fun s : IntelligenceSource =>
                       ((src_intelligence_id s =? i_id existing_row)
                        && String.eqb (src_url s) (si_url item))%bool) in *.
    destruct (existsb recorded (intelligence_sources db)) eqn:Hex.
    + assert (Hlen : (Z.of_nat (List.length
                        (filter recorded (intelligence_sources db))) =? 0) = false).
      { apply existsb_exists in Hex as (s & Hin & Hs).
        assert (Hin' : In s (filter recorded (intelligence_sources db)))
          by (apply filter_In; auto).
        destruct (filter _ _); [destruct Hin'|].
        apply Z.eqb_neq. cbn [List.length]. lia. }
      rewrite Hlen in Hm. injection Hm as <- <-. repeat split; reflexivity.
    + assert (Hlen : (Z.of_nat (List.length
                        (filter recorded (intelligence_sources db))) =? 0) = true).
      { destruct (filter _ _) as [|s l] eqn:Hfl; [reflexivity|].
        assert (Hin : In s (s :: l)) by (left; reflexivity).
        rewrite <- Hfl in Hin. apply filter_In in Hin as [Hin Hs].
        assert (existsb recorded (intelligence_sources db) = true)
          by (apply existsb_exists; eauto).
        congruence. }
      rewrite Hlen in Hm. injection Hm as <- <-.
      cbn [insert_source intelligence intelligence_sources].
      repeat split; reflexivity.
  - intros [Hsome|Hnone].
    + destruct (i_news_time existing_row); [|congruence].
      injection Hm as <- <-. split; reflexivity.
    + rewrite Hnone in Hm.
      destruct (i_news_time existing_row); injection Hm as <- <-; split; reflexivity.
Qed.

(** C5 (amended).  For every crawled item whose title already exists in
    [intelligence] and which passes the date-range check (it has no
    parseable date, or a date without UTC offset that is not older than
    [start_date - 7 days]), no second row is created (the ids and titles
    of the table are unchanged and nothing is counted as saved); if the
    row found has no [news_time] and the item has a parseable date, that
    row gets the item's date as [news_time], the crawl's topic and the
    current time as [update_time], and a source row for the item's URL is
    added exactly when that URL is not yet recorded for the row; otherwise
    the item is counted as a duplicate and nothing is written.  An item
    whose date has no UTC offset and is older than [start_date - 7 days]
    fails the range check: it is counted as out of range, not as a
    duplicate, and nothing is written. *)
Theorem merge_or_duplicate topic_name source_domain start_date current_time
        item db counts existing_row :
  find_by_title (si_title item) db = Some existing_row ->
  (item_date item = None
   \/ (exists t, item_date item = Some (Naive t) /\ start_date - 7 * day <= t) ->
   exists db' counts',
     save topic_name source_domain start_date current_time item (db, counts)
     = Ok (db', counts')
     /\ map i_id (intelligence db') = map i_id (intelligence db)
     /\ map i_title (intelligence db') = map i_title (intelligence db)
     /\ saved_count counts' = saved_count counts
     /\ (forall t,
           i_news_time existing_row = None -> item_date item = Some t ->
           intelligence db'
           = map (update_dated (i_id existing_row) (isoformat t)
                               (isoformat (Naive current_time)) topic_name)
                 (intelligence db)
           /\ intelligence_sources db'
              = (if existsb (fun s => (src_intelligence_id s =? i_id existing_row)
                                      && String.eqb (src_url s) (si_url item))%bool
                            (intelligence_sources db)
                 then intelligence_sources db
                 else (intelligence_sources db ++
                       [mkIntelligenceSource
                          (next_rowid (map src_id (intelligence_sources db)))
                          (i_id existing_row) (si_url item) (Some (si_title item))
                          source_domain (isoformat (Naive current_time))])%list)
           /\ counts' = bump_updated counts)
     /\ (i_news_time existing_row <> None \/ item_date item = None ->
         db' = db /\ counts' = bump_duplicate counts))
  /\ (forall t, item_date item = Some (Naive t) -> t < start_date - 7 * day ->
      save topic_name source_domain start_date current_time item (db, counts)
      = Ok (db, bump_out_of_range counts)
      /\ save_guarded topic_name source_domain start_date current_time item (db, counts)
         = (db, bump_out_of_range counts)).
Proof.
  intros Hf. split.
  - intros Hd. apply known_title_in_range; [|exact Hf].
    destruct Hd as [Hd|(t & Hd & Ht)]; rewrite Hd; cbn [out_of_range datetime_lt];
      [reflexivity|].
    destruct (t <? start_date - 7 * day) eqn:E; [apply Z.ltb_lt in E; lia|reflexivity].
  - intros t Hd Ht.
    assert (Hs : save topic_name source_domain start_date current_time item (db, counts)
                 = Ok (db, bump_out_of_range counts)).
    { unfold save_item. rewrite Hd. cbn [out_of_range datetime_lt bind].
      destruct (t <? start_date - 7 * day) eqn:E; [reflexivity|].
      apply Z.ltb_ge in E. lia. }
    split; [exact Hs|]. unfold save_item_guarded. rewrite Hs. reflexivity.
Qed.

(** The range check of a crawl with [days_back = 7]. *)
Lemma grace_cutoff (now : Z) : start_date_of now 7 - 7 * day = now - 14 * day.
Proof. unfold start_date_of. lia. Qed.

(** The range check in a crawl with [days_back = 7], so
    [start_date = now - 7 days].  An item whose parsed date has no UTC
    offset and is strictly older than [start_date - 7 days] (that is, than
    [now - 14 days]) is discarded before the duplicate check: the tables
    are left as they are and nothing is counted as saved.  A date that
    carries a UTC offset cannot be compared with the naive cutoff: the
    comparison raises and the handler of the loop skips the item, unsaved
    and uncounted.  An item dated [start_date - 6 days] without UTC offset,
    and an item without a parseable date, go on to the duplicate check,
    and a new title is saved. *)
Lemma out_of_range_filter topic_name source_domain now current_time item st :
  let start_date := start_date_of now 7 in
  (forall t, item_date item = Some (Naive t) -> t < start_date - 7 * day ->
     t < now - 14 * day
     /\ save topic_name source_domain start_date current_time item st
        = Ok (fst st, bump_out_of_range (snd st))
     /\ save_guarded topic_name source_domain start_date current_time item st
        = (fst st, bump_out_of_range (snd st)))
  /\ (forall u offset, item_date item = Some (Aware u offset) ->
      save_guarded topic_name source_domain start_date current_time item st = st)
  /\ (item_date item = Some (Naive (start_date - 6 * day)) \/ item_date item = None ->
      save topic_name source_domain start_date current_time item st
      = Ok (merge topic_name source_domain current_time item (item_date item) st)
      /\ (find_by_title (si_title item) (fst st) = None ->
          exists db' counts',
            save_guarded topic_name source_domain start_date current_time item st
            = (db', counts')
            /\ saved_count counts' = saved_count (snd st) + 1
            /\ out_of_range_count counts' = out_of_range_count (snd st)
            /\ In (si_title item) (map i_title (intelligence db')))).
Proof.
  cbv zeta. split; [|split].
  - intros t Ht Hlt. split; [rewrite <- grace_cutoff; exact Hlt|].
    assert (Hs : save topic_name source_domain (start_date_of now 7) current_time item st
                 = Ok (fst st, bump_out_of_range (snd st))).
    { unfold save_item. rewrite Ht. cbn [out_of_range datetime_lt bind].
      destruct (t <? start_date_of now 7 - 7 * day) eqn:E; [reflexivity|lia]. }
    split; [exact Hs|]. unfold save_item_guarded. rewrite Hs. reflexivity.
  - intros u offset Ht. unfold save_item_guarded, save_item. rewrite Ht.
    reflexivity.
  - intros Hd.
    assert (Hr : out_of_range (start_date_of now 7) (item_date item) = Ok false).
    { destruct Hd as [Hd|Hd]; rewrite Hd; cbn [out_of_range datetime_lt];
        [|reflexivity].
      destruct (start_date_of now 7 - 6 * day <? start_date_of now 7 - 7 * day) eqn:E;
        [|reflexivity].
      unfold day in E. lia. }
    pose proof (save_item_in_range topic_name source_domain _ current_time item st Hr)
      as Hs.
    split; [exact Hs|].
    intros Hnew. unfold save_item_guarded. rewrite Hs.
    destruct st as [db counts]. cbn [fst snd] in *.
    unfold merge_or_insert. rewrite Hnew.
    cbn [insert_intelligence insert_source intelligence intelligence_sources].
    eexists. eexists. split; [reflexivity|].
    cbn [bump_saved saved_count out_of_range_count insert_source intelligence].
    split; [reflexivity|]. split; [reflexivity|].
    rewrite map_app. apply in_or_app. right. left. reflexivity.
Qed.

End SavingFacts.

Import CrawlSamples.

Lemma merge_or_duplicate_witness :
  (exists db' counts',
     save_item sample_parse sample_fuzzy sample_isoformat "topic" "b.example"
               (start_date_of sample_now 7) sample_now
               (item_T "https://b.example/t" (Some "recent")) (undated_db, no_counts)
     = Ok (db', counts')
     /\ map i_news_time (intelligence db')
        = [Some (sample_isoformat (Naive (100 * day - 13 * day)))]
     /\ map src_url (intelligence_sources db')
        = ["https://a.example/t"; "https://b.example/t"]
     /\ counts' = bump_updated no_counts)
  /\ save_item_guarded sample_parse sample_fuzzy sample_isoformat "topic" "b.example"
                       (start_date_of sample_now 7) sample_now
                       (item_T "https://b.example/t" (Some "old"))
                       (undated_db, no_counts)
     = (undated_db, bump_out_of_range no_counts).
Proof.
  split.
  - destruct (proj1 (merge_or_duplicate sample_parse sample_fuzzy sample_isoformat
                "topic" "b.example" (start_date_of sample_now 7) sample_now
                (item_T "https://b.example/t" (Some "recent")) undated_db no_counts
                (mkIntelligence 1 "T" (Some EmptyString) (Some "old topic") None "c" "u"
                   "pending" 0%float (Some "{}") false 0)
                eq_refl))
      as (db' & counts' & Hs & _ & _ & _ & Hupd & _).
    { right. exists (100 * day - 13 * day). split; [reflexivity|].
      vm_compute. discriminate. }
    exists db', counts'. split; [exact Hs|].
    destruct (Hupd (Naive (100 * day - 13 * day)) eq_refl eq_refl) as (Hi & Hsrc & Hc).
    rewrite Hi, Hsrc, Hc. repeat split; reflexivity.
  - refine (proj2 (proj2 (merge_or_duplicate sample_parse sample_fuzzy sample_isoformat
              "topic" "b.example" (start_date_of sample_now 7) sample_now
              (item_T "https://b.example/t" (Some "old")) undated_db no_counts
              (mkIntelligence 1 "T" (Some EmptyString) (Some "old topic") None "c" "u"
                 "pending" 0%float (Some "{}") false 0)
              eq_refl) (100 * day - 30 * day) eq_refl _)).
    vm_compute. reflexivity.
Defined.

(** A dated item on an undated title, but older than the grace window:
    the range check comes first, the stored row keeps its empty date and
    the item is counted as out of range, not as an update or a duplicate. *)
Lemma out_of_range_item_not_merged :
  find_by_title "T" undated_db <> None
  /\ parse_item_date sample_parse sample_fuzzy
       (item_T "https://b.example/t" (Some "old")) <> None
  /\ save_item sample_parse sample_fuzzy sample_isoformat "topic" "b.example"
               (start_date_of sample_now 7) sample_now
               (item_T "https://b.example/t" (Some "old")) (undated_db, no_counts)
     = Ok (undated_db, mkCounters 0 0 0 1)
  /\ map i_news_time (intelligence undated_db) = [None].
Proof.
  split; [discriminate|]. split; [discriminate|]. split; reflexivity.
Qed.

Lemma out_of_range_filter_witness :
  save_item sample_parse sample_fuzzy sample_isoformat "topic" "b.example"
            (start_date_of sample_now 7) sample_now
            (item_T "https://b.example/t" (Some "old")) (undated_db, no_counts)
  = Ok (undated_db, bump_out_of_range no_counts)
  /\ save_item sample_parse sample_fuzzy sample_isoformat "topic" "b.example"
               (start_date_of sample_now 7) sample_now
               (item_T "https://b.example/t" (Some "recent")) (undated_db, no_counts)
     = Ok (merge_or_insert sample_isoformat "topic" "b.example" sample_now
             (item_T "https://b.example/t" (Some "recent"))
             (Some (Naive (start_date_of sample_now 7 - 6 * day)))
             (undated_db, no_counts)).
Proof.
  split.
  - refine (proj1 (proj2 (proj1 (out_of_range_filter sample_parse sample_fuzzy
              sample_isoformat "topic" "b.example" sample_now sample_now
              (item_T "https://b.example/t" (Some "old")) (undated_db, no_counts))
              (100 * day - 30 * day) eq_refl _))).
    vm_compute. reflexivity.
  - refine (proj1 (proj2 (proj2 (out_of_range_filter sample_parse sample_fuzzy
              sample_isoformat "topic" "b.example" sample_now sample_now
              (item_T "https://b.example/t" (Some "recent")) (undated_db, no_counts)))
              (or_introl eq_refl))).
Defined.

(** A date with a UTC offset cannot be compared with the naive cutoff:
    the handler skips the item and nothing is counted. *)
Lemma zoned_date_skipped :
  save_item_guarded sample_parse sample_fuzzy sample_isoformat "topic" "b.example"
                    (start_date_of sample_now 7) sample_now
                    (item_T "https://b.example/t" (Some "zoned")) (undated_db, no_counts)
  = (undated_db, no_counts).
Proof. reflexivity. Qed.

(** C7.  A crawl with [days_back = 7] meets a title that is not stored
    yet, dated exactly [start_date - 6 days].  When the parsed date has no
    UTC offset the item is retained: it passes the range check and is
    saved.  When the parsed date carries a UTC offset the comparison with
    the cutoff raises [TypeError], the handler of the loop skips the item,
    and it is neither saved nor counted: the item is lost although it lies
    inside the window. *)
Theorem utc_offset_item_in_window_lost :
  let start_date := start_date_of sample_now 7 in
  let crawl := save_item_guarded sample_parse sample_fuzzy sample_isoformat
                 "topic" "b.example" start_date sample_now in
  parse_item_date sample_parse sample_fuzzy (item_T "https://b.example/t" (Some "recent"))
  = Some (Naive (start_date - 6 * day))
  /\ (exists db',
        crawl (item_T "https://b.example/t" (Some "recent")) (mkDb [] [], no_counts)
        = (db', bump_saved no_counts)
        /\ map i_title (intelligence db') = ["T"])
  /\ parse_item_date sample_parse sample_fuzzy (item_T "https://b.example/t" (Some "zoned"))
     = Some (Aware (start_date - 6 * day) 0)
  /\ save_item sample_parse sample_fuzzy sample_isoformat "topic" "b.example"
               start_date sample_now
               (item_T "https://b.example/t" (Some "zoned")) (mkDb [] [], no_counts)
     = Raise (TypeError "can't compare offset-naive and offset-aware datetimes")
  /\ crawl (item_T "https://b.example/t" (Some "zoned")) (mkDb [] [], no_counts)
     = (mkDb [] [], no_counts).
Proof.
  cbv zeta. split; [reflexivity|]. split.
  - eexists. split; reflexivity.
  - split; [reflexivity|]. split; reflexivity.
Qed.

End CrawlFacts.

(** ** Ordering of query results *)

Module SqlFacts.
Import Sql.

Section Insertion.

Context {A : Type}.
Variable le : A -> A -> bool.

Lemma insert_sorted_in (x z : A) (l : list A) :
  In z (insert_sorted le x l) -> z = x \/ In z l.
Proof.
  induction l as [|y l IH]; cbn [insert_sorted].
  - intros [<-|[]]. left. reflexivity.
  - destruct (le x y).
    + intros [<-|H]; [left; reflexivity|right; exact H].
    + intros [<-|H]; [right; left; reflexivity|].
      destruct (IH H) as [->|Hin]; [left; reflexivity|right; right; exact Hin].
Qed.

Lemma insert_sorted_perm (x : A) (l : list A) :
  Permutation (insert_sorted le x l) (x :: l).
Proof.
  induction l as [|y l IH]; cbn [insert_sorted]; [reflexivity|].
  destruct (le x y); [reflexivity|].
  rewrite IH. apply perm_swap.
Qed.

(** Insertion keeps a list in order for any transitive relation the
    comparison respects in both of its outcomes. *)
Lemma insert_sorted_strongly (R : A -> A -> Prop) (x : A) (l : list A) :
  (forall a b c, R a b -> R b c -> R a c) ->
  (forall y, le x y = true -> R x y) ->
  (forall y, le x y = false -> R y x) ->
  StronglySorted R l -> StronglySorted R (insert_sorted le x l).
Proof.
  intros Htrans Hle Hgt. induction 1 as [|y l Hs IH Hall]; cbn [insert_sorted].
  - constructor; constructor.
  - destruct (le x y) eqn:E.
    + constructor; [constructor; assumption|].
      constructor; [apply Hle, E|].
      rewrite Forall_forall in Hall |- *. intros z Hz.
      apply (Htrans x y z); [apply Hle, E|apply Hall, Hz].
    + constructor; [exact IH|].
      rewrite Forall_forall in Hall |- *. intros z Hz.
      destruct (insert_sorted_in x z l Hz) as [->|Hin];
        [apply Hgt, E|apply Hall, Hin].
Qed.

(** Insertion keeps neighbours in order when the comparison is total. *)
Lemma insert_sorted_sorted (x : A) (l : list A) :
  (forall a b, le a b = false -> le b a = true) ->
  Sorted (fun a b => le a b = true) l ->
  Sorted (fun a b => le a b = true) (insert_sorted le x l).
Proof.
  intros Htot. induction 1 as [|y l Hs IH Hhd]; cbn [insert_sorted].
  - constructor; constructor.
  - destruct (le x y) eqn:E.
    + constructor; [constructor; assumption|]. constructor. exact E.
    + constructor; [exact IH|].
      destruct l as [|z l]; cbn [insert_sorted].
      * constructor. apply Htot, E.
      * destruct (le x z); constructor;
          [apply Htot, E|inversion Hhd; assumption].
Qed.

End Insertion.

Section OrderBy.

Context {A : Type}.
Variable terms : list (term A).

Lemma order_by_perm (rows : list A) : Permutation (order_by terms rows) rows.
Proof.
  induction rows as [|x rows IH]; [reflexivity|].
  unfold order_by in *. cbn [fold_right].
  rewrite insert_sorted_perm. constructor. exact IH.
Qed.

Lemma order_by_strongly (R : A -> A -> Prop) (rows : list A) :
  (forall a b c, R a b -> R b c -> R a c) ->
  (forall a b, precedes terms a b = true -> R a b) ->
  (forall a b, precedes terms a b = false -> R b a) ->
  StronglySorted R (order_by terms rows).
Proof.
  intros Htrans Hle Hgt. induction rows as [|x rows IH]; [constructor|].
  unfold order_by in *. cbn [fold_right].
  apply insert_sorted_strongly; auto.
Qed.

Lemma order_by_sorted (rows : list A) :
  (forall a b, precedes terms a b = false -> precedes terms b a = true) ->
  Sorted (fun a b => precedes terms a b = true) (order_by terms rows).
Proof.
  intros Htot. induction rows as [|x rows IH]; [constructor|].
  unfold order_by in *. cbn [fold_right].
  apply insert_sorted_sorted; auto.
Qed.

End OrderBy.

Section Strongly.

Context {A : Type}.
Variable R : A -> A -> Prop.

Lemma strongly_skipn (n : nat) (l : list A) :
  StronglySorted R l -> StronglySorted R (skipn n l).
Proof.
  revert l. induction n as [|n IH]; intros l H; [exact H|].
  destruct l as [|x l]; [constructor|]. cbn [skipn].
  apply IH. inversion H; assumption.
Qed.

Lemma in_firstn (n : nat) (l : list A) (z : A) : In z (firstn n l) -> In z l.
Proof.
  revert l. induction n as [|n IH]; intros [|x l]; cbn [firstn];
    try (intros Hz; destruct Hz; fail).
  intros [<-|Hz]; [left; reflexivity|right; apply IH, Hz].
Qed.

Lemma strongly_firstn (n : nat) (l : list A) :
  StronglySorted R l -> StronglySorted R (firstn n l).
Proof.
  revert l. induction n as [|n IH]; intros l H; [constructor|].
  destruct l as [|x l]; [constructor|]. cbn [firstn].
  inversion H as [|? ? Hs Hall]; subst. constructor; [apply IH, Hs|].
  rewrite Forall_forall in Hall |- *. intros z Hz.
  apply Hall. exact (in_firstn _ _ _ Hz).
Qed.

Lemma strongly_limit_offset (limit offset : Z) (l : list A) :
  StronglySorted R l -> StronglySorted R (limit_offset limit offset l).
Proof.
  intros H. unfold limit_offset. destruct (limit <? 0).
  - apply strongly_skipn, H.
  - apply strongly_firstn, strongly_skipn, H.
Qed.

(** In a strongly sorted list an earlier element is related to a later one. *)
Lemma strongly_nth (l : list A) (i j : nat) (a b : A) :
  StronglySorted R l -> (i < j)%nat ->
  nth_error l i = Some a -> nth_error l j = Some b -> R a b.
Proof.
  intros H. revert i j. induction H as [|x l Hs IH Hall]; intros i j Hij Hi Hj.
  - destruct i; discriminate.
  - destruct j as [|j]; [lia|]. cbn [nth_error] in Hj.
    destruct i as [|i].
    + cbn [nth_error] in Hi. injection Hi as <-.
      rewrite Forall_forall in Hall. apply Hall.
      exact (nth_error_In _ _ Hj).
    + cbn [nth_error] in Hi. apply (IH i j); [lia|assumption|assumption].
Qed.

End Strongly.

Lemma strongly_map {A B : Type} (f : A -> B) (R : B -> B -> Prop) (l : list A) :
  StronglySorted (fun a b => R (f a) (f b)) l -> StronglySorted R (map f l).
Proof.
  induction 1 as [|x l Hs IH Hall]; cbn [map]; constructor; [exact IH|].
  rewrite Forall_forall in Hall |- *. intros z Hz.
  apply in_map_iff in Hz as (y & <- & Hy). apply Hall, Hy.
Qed.

End SqlFacts.

(** ** The intelligence listing *)

Module IntelListFacts.
Import Store Sql IntelList SqlFacts.

Lemma order_terms_news_time (down : bool) :
  order_terms "news_time" down
  = [asc (fun row => is_null (i_news_time row)) cmp_bool;
     column_term "news_time" down].
Proof. reflexivity. Qed.

Lemma news_time_terms_respect (down : bool) (a b : Intelligence) :
  (precedes (order_terms "news_time" down) a b = true -> dated_first a b)
  /\ (precedes (order_terms "news_time" down) a b = false -> dated_first b a).
Proof.
  rewrite order_terms_news_time. unfold dated_first, precedes.
  cbn [lex]. unfold asc.
  destruct (i_news_time a), (i_news_time b); cbn [is_null cmp_bool];
    split; intros H Hn; try discriminate; reflexivity.
Qed.

Section ListingFacts.

Variable bind_date : string -> option string.
Variable json_loads : string -> option Json.json.

Lemma sorted_rows_dated_first (q : ListQuery) (db : Db) :
  effective_sort (sort_by q) = "news_time" ->
  StronglySorted dated_first (page_rows bind_date q db).
Proof.
  intros Hs. unfold page_rows. rewrite Hs.
  apply strongly_limit_offset, order_by_strongly.
  - unfold dated_first. intros a b c Hab Hbc Ha. auto.
  - intros a b. apply news_time_terms_respect.
  - intros a b. apply news_time_terms_respect.
Qed.

(** The items of an answer are the rows of the page, or none when the
    handler has caught an exception. *)
Lemma listing_items (q : ListQuery) (db : Db) :
  items (get_intelligence_list bind_date json_loads q db)
  = map (item_of json_loads db) (page_rows bind_date q db)
  \/ items (get_intelligence_list bind_date json_loads q db) = [].
Proof.
  unfold get_intelligence_list. destruct (data_query_error q); [right; reflexivity|].
  destruct (_ && _)%bool; [right|left]; reflexivity.
Qed.

(** C6.  Whenever the listing sorts by [news_time] (asked for, or fallen
    back to because the sort field is not allow-listed), in either
    direction and on any database: every returned item without a
    [news_time] comes strictly after every returned item with one. *)
Theorem listing_nulls_last (q : ListQuery) (db : Db) (i j : nat) (x y : Item) :
  effective_sort (sort_by q) = "news_time" ->
  nth_error (items (get_intelligence_list bind_date json_loads q db)) i = Some x ->
  nth_error (items (get_intelligence_list bind_date json_loads q db)) j = Some y ->
  it_news_time x = None ->
  it_news_time y <> None ->
  (j < i)%nat.
Proof.
  intros Hs Hi Hj Hx Hy.
  destruct (listing_items q db) as [E|E]; rewrite E in Hi, Hj;
    [|destruct i; discriminate Hi].
  pose proof (sorted_rows_dated_first q db Hs) as Hsorted.
  assert (Hitems : StronglySorted
                     (fun a b : Item => it_news_time a = None -> it_news_time b = None)
                     (map (item_of json_loads db) (page_rows bind_date q db))).
  { apply strongly_map. exact Hsorted. }
  destruct (Nat.lt_trichotomy i j) as [Hlt|[Heq|Hgt]]; [| |exact Hgt].
  - exfalso. apply Hy. exact (strongly_nth _ _ i j x y Hitems Hlt Hi Hj Hx).
  - exfalso. subst j. rewrite Hi in Hj. injection Hj as <-. exact (Hy Hx).
Qed.

End ListingFacts.

Import ListSamples.

Lemma listing_nulls_last_witness :
  map (fun x => (it_id x, it_news_time x))
      (items (get_intelligence_list no_dates no_json default_query three_rows))
  = [(3, Some "2025-03-01T00:00:00"); (1, Some "2025-01-01T00:00:00"); (2, None)]
  /\ (1 < 2)%nat.
Proof.
  split; [reflexivity|].
  eapply (listing_nulls_last no_dates no_json default_query three_rows 2 1);
    [reflexivity|reflexivity|reflexivity|reflexivity|discriminate].
Defined.

End IntelListFacts.

(** ** The sources table *)

Module SourcesFacts.
Import PyStr Sql Sources SqlFacts.

Lemma cmp_int_antisym (x y : Z) : cmp_int x y = Gt -> cmp_int y x <> Gt.
Proof. unfold cmp_int. rewrite (Z.compare_antisym x y). destruct (x ?= y); discriminate. Qed.

Lemma cmp_text_antisym (x y : string) : cmp_text x y = Gt -> cmp_text y x <> Gt.
Proof.
  unfold cmp_text. rewrite (String.compare_antisym x y).
  destruct (String.compare y x); discriminate.
Qed.

Lemma cmp_nullable_antisym {K : Type} (cmp : K -> K -> comparison) :
  (forall x y, cmp x y = Gt -> cmp y x <> Gt) ->
  forall a b, cmp_nullable cmp a b = Gt -> cmp_nullable cmp b a <> Gt.
Proof.
  intros H [x|] [y|]; cbn [cmp_nullable]; try discriminate. apply H.
Qed.

(** Ordering by one column leaves the rows sorted by it. *)
Lemma order_by_column {K : Type} (key : Source -> K) (cmp : K -> K -> comparison)
      (down : bool) (rows : list Source) :
  (forall x y, cmp x y = Gt -> cmp y x <> Gt) ->
  sorted_by key cmp down
            (order_by [if down then desc key cmp else asc key cmp] rows).
Proof.
  intros Hanti. unfold sorted_by.
  set (t := if down then desc key cmp else asc key cmp).
  assert (Hrel : forall a b, precedes [t] a b = true <->
                 (if down then cmp (key b) (key a) else cmp (key a) (key b)) <> Gt).
  { intros a b. unfold precedes, t. cbn [lex].
    destruct down; unfold desc, asc;
      match goal with |- context [cmp ?x ?y] => destruct (cmp x y) end;
      split; intros H; try reflexivity; try discriminate;
      exfalso; apply H; reflexivity. }
  assert (Htot : forall a b, precedes [t] a b = false -> precedes [t] b a = true).
  { intros a b H. apply Hrel.
    assert (Hgt : (if down then cmp (key b) (key a) else cmp (key a) (key b)) = Gt).
    { destruct (precedes [t] a b) eqn:E; [discriminate|].
      destruct (if down then cmp (key b) (key a) else cmp (key a) (key b)) eqn:C;
        try reflexivity; exfalso;
        assert (precedes [t] a b = true) by (apply Hrel; rewrite C; discriminate);
        congruence. }
    destruct down; apply Hanti; exact Hgt. }
  pose proof (order_by_sorted [t] rows Htot) as Hs.
  induction Hs as [|x l Hs IH Hhd]; constructor; [exact IH|].
  destruct Hhd; constructor. apply Hrel. assumption.
Qed.

Lemma checked_order_direction (order : string) :
  String.eqb (lower (checked_order order)) "desc" = String.eqb (lower order) "desc".
Proof.
  unfold checked_order. cbn [existsb].
  destruct (String.eqb (lower order) "asc") eqn:Ea; [reflexivity|].
  destruct (String.eqb (lower order) "desc") eqn:Ed; cbn [orb].
  - exact Ed.
  - reflexivity.
Qed.

Lemma checked_sort_outside (sort : string) :
  existsb (String.eqb sort) valid_sort_fields = false -> checked_sort sort = "id".
Proof. intros H. unfold checked_sort. rewrite H. reflexivity. Qed.

(** The query on one of the five columns. *)
Lemma query_on_column (db : list Source) q topic_id (sort_by order_by : string)
      (a : attribute) {K : Type} (key : Source -> K) (cmp : K -> K -> comparison) :
  class_attribute sort_by = Ok (Some a) ->
  (forall down, direction a down = Ok (if down then desc key cmp else asc key cmp)) ->
  (forall x y, cmp x y = Gt -> cmp y x <> Gt) ->
  exists l,
    get_sources_with_filter_and_sort db q topic_id sort_by order_by = Ok l
    /\ Permutation l (filter (selected q topic_id) db)
    /\ sorted_by key cmp (String.eqb (lower order_by) "desc") l.
Proof.
  intros Ha Hd Hanti. unfold get_sources_with_filter_and_sort, getattr_or_id.
  rewrite Ha. cbn [bind]. rewrite Hd. cbn [bind].
  eexists. split; [reflexivity|]. split.
  - apply order_by_perm.
  - apply order_by_column, Hanti.
Qed.

(** C9 (amended).  The sources-table endpoint checks [sort] against the
    allow-list [id], [domain], [created_at], [updated_at] before it calls
    the query: for a value in the list the rows are sorted by that
    column, for every other value they are sorted by [id]; in both cases
    in the requested direction, downwards when [order] is [desc] in any
    letter case and upwards otherwise. *)
Theorem sources_table_sorting (db : list Source) (q : option string)
        (topic_filter : option Z) (sort order : string) :
  let down := String.eqb (lower order) "desc" in
  let answer := api_get_sources_table db q topic_filter sort order in
  let rows := filter (selected q topic_filter) db in
  (sort = "id" ->
   exists l, answer = Ok l /\ Permutation l rows /\ sorted_by so_id cmp_int down l)
  /\ (sort = "domain" ->
      exists l, answer = Ok l /\ Permutation l rows
                /\ sorted_by so_domain cmp_text down l)
  /\ (sort = "created_at" ->
      exists l, answer = Ok l /\ Permutation l rows
                /\ sorted_by so_created_at (cmp_nullable cmp_text) down l)
  /\ (sort = "updated_at" ->
      exists l, answer = Ok l /\ Permutation l rows
                /\ sorted_by so_updated_at (cmp_nullable cmp_text) down l)
  /\ (existsb (String.eqb sort) valid_sort_fields = false ->
      exists l, answer = Ok l /\ Permutation l rows /\ sorted_by so_id cmp_int down l).
Proof.
  cbv zeta. unfold api_get_sources_table.
  rewrite <- (checked_order_direction order).
  repeat split.
  - intros ->. apply (query_on_column db q topic_filter _ _ ColId);
      [reflexivity|reflexivity|exact cmp_int_antisym].
  - intros ->. apply (query_on_column db q topic_filter _ _ ColDomain);
      [reflexivity|reflexivity|exact cmp_text_antisym].
  - intros ->. apply (query_on_column db q topic_filter _ _ ColCreatedAt);
      [reflexivity|reflexivity|exact (cmp_nullable_antisym _ cmp_text_antisym)].
  - intros ->. apply (query_on_column db q topic_filter _ _ ColUpdatedAt);
      [reflexivity|reflexivity|exact (cmp_nullable_antisym _ cmp_text_antisym)].
  - intros H. rewrite (checked_sort_outside sort H).
    apply (query_on_column db q topic_filter _ _ ColId);
      [reflexivity|reflexivity|exact cmp_int_antisym].
Qed.

Lemma sources_table_sorting_witness :
  (exists l, api_get_sources_table two_sources None None "domain" "asc" = Ok l
             /\ Permutation l two_sources
             /\ sorted_by so_domain cmp_text false l)
  /\ (exists l, api_get_sources_table two_sources None None "recipe_json" "DESC" = Ok l
                /\ Permutation l two_sources
                /\ sorted_by so_id cmp_int true l).
Proof.
  split.
  - exact (proj1 (proj2 (sources_table_sorting two_sources None None "domain" "asc"))
             eq_refl).
  - exact (proj2 (proj2 (proj2 (proj2
             (sources_table_sorting two_sources None None "recipe_json" "DESC"))))
             eq_refl).
Defined.

(** Outside the allow-list the order asked for is kept: the rows come by
    [id] downwards, not upwards; and the query function on its own sorts
    by any column [sort_by] names, here [recipe_json]. *)
Lemma sources_not_always_by_id_upwards :
  (exists l, api_get_sources_table two_sources None None "bogus" "desc" = Ok l
             /\ map so_id l = [2; 1]
             /\ ~ sorted_by so_id cmp_int false l)
  /\ (exists l, get_sources_with_filter_and_sort two_sources None None
                   "bogus" "desc" = Ok l
                /\ map so_id l = [2; 1])
  /\ (exists l, get_sources_with_filter_and_sort two_sources None None
                   "recipe_json" "asc" = Ok l
                /\ map so_id l = [2; 1]).
Proof.
  split; [|split]; eexists; (split; [reflexivity|]); try reflexivity.
  split; [reflexivity|].
  intros H. unfold sorted_by in H. inversion H as [|? ? _ Hhd]; subst.
  inversion Hhd as [|? ? Hc]; subst. apply Hc. reflexivity.
Qed.

End SourcesFacts.

(** ** Storing the analysis *)

Module AiProcessFacts.
Import Json PyNum Store Scoring AiProcess.

Lemma float_of_int_modelled (n : Z) : float_of_int n <> Unmodelled.
Proof. unfold float_of_int. destruct (PrimFloat.is_infinity _); discriminate. Qed.

Lemma add_float_modelled (t : pynum) (x : float) : add_float t x <> Unmodelled.
Proof.
  destruct t as [m|y]; cbn [add_float]; [|discriminate].
  pose proof (float_of_int_modelled m).
  destruct (float_of_int m); cbn [bind]; congruence.
Qed.

Lemma times_weight_then_add_modelled (v : json) (weight : float) (t : pynum) :
  bind (times_weight v weight) (add_float t) <> Unmodelled.
Proof.
  pose proof (add_float_modelled t) as Ha.
  pose proof float_of_int_modelled as Hf.
  destruct v as [|b|n|x|s|l|o]; cbn [times_weight bind]; try discriminate;
    try apply Ha.
  specialize (Hf n).
  destruct (float_of_int n); cbn [bind]; try apply Ha; congruence.
Qed.

Lemma add_dimension_modelled scores t entry :
  add_dimension scores t entry <> Unmodelled.
Proof.
  destruct entry as [dimension weight]. unfold add_dimension, get_dimension.
  destruct scores as [| | | | | |d]; cbn [bind]; try discriminate.
  destruct (match dict_get dimension d with Some v => v | None => JObj [] end)
    as [| | | | | |item]; try discriminate.
  destruct (dict_get "分数" item) as [v|]; [|discriminate].
  apply times_weight_then_add_modelled.
Qed.

Lemma add_dimensions_modelled scores entries t :
  add_dimensions scores t entries <> Unmodelled.
Proof.
  revert t. induction entries as [|entry entries IH]; intros t; cbn [add_dimensions].
  - discriminate.
  - pose proof (add_dimension_modelled scores t entry).
    destruct (add_dimension scores t entry); cbn [bind];
      try apply IH; congruence.
Qed.

(** The handler with date extraction never reaches its [UPDATE]: whatever
    the analysis, it answers with a failure and the tables are as before. *)
Lemma with_date_extraction_stores_nothing (analysis : dict) (update_time : string)
      (intelligence_id : Z) (db : Db) :
  exists message,
    ai_process_single_intelligence_with_date_extraction
      analysis update_time intelligence_id db
    = Ok (db, Failure message).
Proof.
  unfold ai_process_single_intelligence_with_date_extraction.
  destruct (find_by_id intelligence_id db) as [row|]; [|eauto].
  unfold process_body_with_dates.
  pose proof (add_dimensions_modelled (scores_of analysis) weights (PInt 0)) as Hm.
  destruct (add_dimensions (scores_of analysis) (PInt 0) weights);
    cbn [bind]; [eauto|eauto|congruence].
Qed.

Import Responses.

(** C3.  On the answer with sub-scores 8, 6, 10, 4, 2 the weighted sum
    rounded to one decimal is 6.5 and [ai_process_single_intelligence]
    stores it; [ai_process_single_intelligence_with_date_extraction]
    computes the same value but stops at [json.dumps], before its
    [UPDATE]: it answers with a failure and the stored [ai_score] stays
    what it was. *)
Theorem score_lost_with_date_extraction :
  ai_score good_answer = Ok (PFloat 6.5%float)
  /\ (exists db',
        ai_process_single_intelligence sample_dumps good_answer "now" 1 pending_db
        = Ok (db', Success (PFloat 6.5%float) (scores_of good_answer)
                     (JStr "绿色建筑") (JStr "s") (JStr "政策动态"))
        /\ map i_ai_score (intelligence db') = [6.5%float])
  /\ ai_process_single_intelligence_with_date_extraction
       good_answer "now" 1 pending_db
     = Ok (pending_db,
           Failure ("AI分析失败: cannot access local variable 'json' "
                    ++ "where it is not associated with a value"))
  /\ map i_ai_score (intelligence pending_db) = [0%float].
Proof.
  split; [vm_compute; reflexivity|].
  split; [eexists; split; vm_compute; reflexivity|].
  split; vm_compute; reflexivity.
Qed.

End AiProcessFacts.

(** ** Where the next page may lead *)

Module NextPageGuards.
Import PyStr PyRepr Models ScraperMain.

Section Guards.

Variable soup_select : string -> string -> option (list Element).
Variable urljoin_defrag : string -> string -> string.

Lemma follow_href_moves (cur : string) (el : Element) (u : string) :
  follow_href urljoin_defrag cur el = Some u -> u <> cur.
Proof.
  unfold follow_href.
  destruct (_normalize_url urljoin_defrag cur (el_href el)) as [next_url|];
    [|discriminate].
  destruct (String.eqb next_url cur) eqn:E; [discriminate|].
  intros H. injection H as <-. apply String.eqb_neq. exact E.
Qed.

(** X1.  Whenever [_get_next_page_url] names a next page, the page index is
    below [max_pages - 1], the mode is one of [number], [next], [none] or
    the empty text (never [loadmore]), and outside number mode the URL
    differs from the current one: the link modes cannot loop on a page. *)
Theorem next_page_bounded_and_moving (r : ScraperRecipe) (html cur : string)
        (page_num : Z) (u : string) :
  _get_next_page_url soup_select urljoin_defrag r html cur page_num = Some u ->
  page_num < max_pages_or_1 r - 1
  /\ In (pagination_mode r) ["number"; "next"; "none"; EmptyString]
  /\ (pagination_mode r <> "number" -> u <> cur).
Proof.
  unfold _get_next_page_url.
  destruct (page_num >=? max_pages_or_1 r - 1) eqn:Hcap; [discriminate|].
  intros H. split.
  { rewrite Z.geb_leb in Hcap. apply Z.leb_gt in Hcap. exact Hcap. }
  cbv zeta in H.
  destruct (String.eqb (pagination_mode r) "number") eqn:Enum.
  { apply String.eqb_eq in Enum. split; [rewrite Enum; left; reflexivity|].
    intros Hne. contradiction. }
  cbn [andb] in H.
  destruct (String.eqb (pagination_mode r) "loadmore") eqn:Eload; [discriminate H|].
  destruct (String.eqb (pagination_mode r) "next") eqn:Enext.
  { apply String.eqb_eq in Enext. split; [rewrite Enext; right; left; reflexivity|].
    intros _. cbn [andb] in H.
    destruct (truthy (next_page_selector r));
      [|rewrite Enext in H; cbn in H; discriminate H].
    destruct (next_page_selector r) as [sel|]; [|discriminate H].
    destruct (soup_select html sel) as [els|]; [|discriminate H].
    destruct (if exclude_current_page r
              then filter (fun el => negb (_is_current_page_element el)) els
              else els) as [|el rest]; [discriminate H|].
    exact (follow_href_moves _ _ _ H). }
  cbn [andb] in H.
  assert (Hfollow : forall mode_ok : bool,
             (if mode_ok
              then match next_page_selector r with
                   | Some sel =>
                       if is_empty sel then None
                       else match soup_select html sel with
                            | Some (nxt :: _) => follow_href urljoin_defrag cur nxt
                            | _ => None
                            end
                   | None => None
                   end
              else None) = Some u -> mode_ok = true /\ u <> cur).
  { intros [|] Hm; [|discriminate Hm]. split; [reflexivity|].
    destruct (next_page_selector r) as [sel|]; [|discriminate Hm].
    destruct (is_empty sel); [discriminate Hm|].
    destruct (soup_select html sel) as [[|nxt rest]|]; try discriminate Hm.
    exact (follow_href_moves _ _ _ Hm). }
  destruct (Hfollow _ H) as (Hmode & Hne).
  split; [|intros _; exact Hne].
  apply orb_true_iff in Hmode. destruct Hmode as [Hmode|Hmode].
  - destruct (pagination_mode r); [|discriminate Hmode].
    right; right; right; left; reflexivity.
  - apply String.eqb_eq in Hmode. rewrite Hmode. right; right; left; reflexivity.
Qed.

End Guards.

Import Samples PagerSamples.

Lemma next_page_bounded_and_moving_witness :
  0 < max_pages_or_1 follow_next - 1
  /\ "https://x.com/news?page=2" <> "https://x.com/news".
Proof.
  destruct (next_page_bounded_and_moving one_link keep_href follow_next
              "<html>" "https://x.com/news" 0 "https://x.com/news?page=2" eq_refl)
    as (Hcap & _ & Hmove).
  split; [exact Hcap|apply Hmove; discriminate].
Defined.

End NextPageGuards.

(** ** What an accepted analysis carries *)

Module AcceptedFacts.
Import Json AiService Responses AiServiceFacts.

Lemma dict_get_set_other (k k' : string) (v : json) (d : dict) :
  k <> k' -> dict_get k (dict_set k' v d) = dict_get k d.
Proof.
  intros Hne. induction d as [|[k0 v0] d IH]; cbn [dict_set dict_get].
  - apply String.eqb_neq in Hne. rewrite Hne. reflexivity.
  - destruct (String.eqb k' k0) eqn:E'; cbn [dict_get].
    + apply String.eqb_eq in E'. subst k0.
      apply String.eqb_neq in Hne. rewrite Hne. reflexivity.
    + destruct (String.eqb k k0); [reflexivity|exact IH].
Qed.

Lemma dict_get_set_same (k : string) (v : json) (d : dict) :
  dict_get k (dict_set k v d) = Some v.
Proof.
  induction d as [|[k0 v0] d IH]; cbn [dict_set dict_get].
  - rewrite String.eqb_refl. reflexivity.
  - destruct (String.eqb k k0) eqn:E; cbn [dict_get].
    + rewrite String.eqb_refl. reflexivity.
    + rewrite E. exact IH.
Qed.

(** X2.  An answer that validation accepts is returned as the model gave it:
    every key other than [_meta] keeps its value, so the topic, the
    category and the five sub-dimension scores are those of the answer (and
    each of the five is present), and [_meta] records where the content
    came from and the fetch error, [None] when there was none. *)
Theorem accepted_answer_passes_through (ctx : Context) (r : dict) :
  _validate_analysis_result r = Ok true ->
  exists d : dict,
    analyze_parsed ctx r = Ok d
    /\ (forall k, k <> "_meta" -> dict_get k d = dict_get k r)
    /\ (forall k, In k required_score_keys ->
          exists v, sub_score r k = Some v /\ sub_score d k = Some v)
    /\ meta_fetch_error d = Some (json_of_opt_str (non_empty (fetch_error ctx))).
Proof.
  intros Hok. exists (accepted_result ctx r).
  assert (Hsame : forall k, k <> "_meta" ->
                    dict_get k (accepted_result ctx r) = dict_get k r).
  { intros k Hk. unfold accepted_result. apply dict_get_set_other. exact Hk. }
  split; [unfold analyze_parsed, analyze_body; rewrite Hok; reflexivity|].
  split; [exact Hsame|]. split.
  - intros k Hk. unfold sub_score.
    rewrite (Hsame "评分详情") by discriminate.
    revert Hok. unfold _validate_analysis_result.
    destruct (is_nil r); [discriminate|].
    destruct (forallb (fun k => has_key k r) required_keys); [|discriminate].
    destruct (existsb (eq_str (get_or_none "议题" r)) OFFICIAL_TOPICS); [|discriminate].
    cbn [negb]. cbv zeta.
    destruct (hashable (get_or_none "类别" r)); [|discriminate]. cbn [negb].
    destruct (existsb (eq_str (get_or_none "类别" r)) OFFICIAL_CATEGORIES);
      [|discriminate].
    cbn [negb]. unfold get_or_none.
    destruct (dict_get "评分详情" r) as [[| | | | | |sd]|]; try discriminate.
    destruct (is_nil sd); [discriminate|].
    intros H. assert (H' : forallb (score_item_ok sd) required_score_keys = true)
      by (injection H as H; exact H).
    rewrite forallb_forall in H'. specialize (H' k Hk).
    unfold score_item_ok, has_key in H'.
    destruct (dict_get k sd) as [[| | | | | |item]|]; try discriminate H'.
    destruct (dict_get "分数" item) as [v|]; [|discriminate H'].
    exists v. split; reflexivity.
  - unfold meta_fetch_error, accepted_result. rewrite dict_get_set_same.
    destruct (date_result ctx) as [dr|]; cbn [dict_get app];
      repeat match goal with
             | |- context [String.eqb ?a ?b] =>
                 let e := eval vm_compute in (String.eqb a b) in
                 change (String.eqb a b) with e; cbv iota
             end; reflexivity.
Qed.

Lemma accepted_answer_passes_through_witness :
  exists d : dict,
    analyze_parsed sample_context good_answer = Ok d
    /\ dict_get "议题" d = Some (JStr "绿色建筑")
    /\ sub_score d "时效性紧迫性" = Some (JInt 10)
    /\ meta_fetch_error d = Some JNull.
Proof.
  destruct (accepted_answer_passes_through sample_context good_answer eq_refl)
    as (d & Hd & Hkeys & Hscores & Hmeta).
  exists d. split; [exact Hd|]. split; [|split; [|exact Hmeta]].
  - rewrite (Hkeys "议题") by discriminate. reflexivity.
  - destruct (Hscores "时效性紧迫性") as (v & Hr & Hv).
    + right; right; left; reflexivity.
    + rewrite Hv, <- Hr. reflexivity.
Defined.

End AcceptedFacts.

(** ** Invariants of a crawl *)

Module CrawlInvariants.
Import PyStr Store Crawl CrawlTotals CrawlFacts.

Lemma max_bounds (ids : list Z) (x : Z) : In x ids -> x <= fold_right Z.max 0 ids.
Proof.
  induction ids as [|y ids IH]; [intros []|].
  intros [->|Hin]; cbn [fold_right]; [lia|]. specialize (IH Hin). lia.
Qed.

Lemma next_rowid_fresh (ids : list Z) : ~ In (next_rowid ids) ids.
Proof. intros Hin. apply max_bounds in Hin. unfold next_rowid in Hin. lia. Qed.

Lemma find_by_title_none (title : string) (db : Db) :
  find_by_title title db = None -> ~ In title (map i_title (intelligence db)).
Proof.
  unfold find_by_title. intros Hf Hin. apply in_map_iff in Hin as (row & Ht & Hin).
  pose proof (find_none _ _ Hf row Hin) as Hne. cbn in Hne.
  rewrite Ht, String.eqb_refl in Hne. discriminate Hne.
Qed.

Lemma find_by_title_some (title : string) (db : Db) (row : Intelligence) :
  find_by_title title db = Some row -> In row (intelligence db) /\ i_title row = title.
Proof.
  unfold find_by_title. intros Hf. apply find_some in Hf as [Hin Ht].
  split; [exact Hin|]. apply String.eqb_eq. exact Ht.
Qed.

Lemma NoDup_snoc {A : Type} (l : list A) (x : A) :
  NoDup l -> ~ In x l -> NoDup (l ++ [x]).
Proof.
  intros Hl Hx. induction Hl as [|y l Hy Hl IH]; cbn [app].
  - constructor; [intros []|constructor].
  - constructor.
    + rewrite in_app_iff. intros [H|[H|[]]]; [exact (Hy H)|].
      apply Hx. left. symmetry. exact H.
    + apply IH. intros H. apply Hx. right. exact H.
Qed.

(** With ids that tell the rows apart, an update by id leaves every row
    with another id, so every dated row when the id is that of an undated
    one. *)
Lemma update_dated_keeps (id : Z) (nt ut tp : string) (rows : list Intelligence)
      (target row : Intelligence) :
  NoDup (map i_id rows) -> In target rows -> i_id target = id ->
  i_news_time target = None ->
  In row rows -> dated row -> In row (map (update_dated id nt ut tp) rows).
Proof.
  intros Hnd Htarget Hid Hnone Hin Hdated.
  apply in_map_iff. exists row. split; [|exact Hin].
  unfold update_dated. destruct (i_id row =? id) eqn:E; [|reflexivity].
  apply Z.eqb_eq in E. exfalso. apply Hdated.
  assert (row = target); [|subst row; exact Hnone].
  clear Hnone Hdated. rewrite <- Hid in E. clear Hid.
  induction rows as [|r rows IH]; [destruct Hin|].
  cbn [map] in Hnd. inversion Hnd as [|? ? Hnot Hnd']; subst.
  destruct Hin as [->|Hin], Htarget as [->|Htarget]; try reflexivity.
  - exfalso. apply Hnot. rewrite E. apply in_map. exact Htarget.
  - exfalso. apply Hnot. rewrite <- E. apply in_map. exact Hin.
  - exact (IH Hnd' Htarget Hin).
Qed.

Section Invariants.

Variable parse : string -> option datetime.
Variable parse_fuzzy : string -> option datetime.
Variable isoformat : datetime -> string.

Local Abbreviation save_guarded := (save_item_guarded parse parse_fuzzy isoformat).
Local Abbreviation merge := (merge_or_insert isoformat).
Local Abbreviation crawl := (start_crawling parse parse_fuzzy isoformat).

Lemma keeps_refl (db : Db) (saved : Z) : keeps db saved db saved.
Proof.
  repeat split; auto.
  - exists []. rewrite app_nil_r. split; [reflexivity|]. cbn; lia.
  - exists []. rewrite app_nil_r. split; [reflexivity|]. cbn; lia.
Qed.

Lemma keeps_trans (a b c : Db) (x y z : Z) :
  keeps a x b y -> keeps b y c z -> keeps a x c z.
Proof.
  intros (T1 & I1 & D1 & (added1 & A1 & L1) & (more1 & S1 & M1))
         (T2 & I2 & D2 & (added2 & A2 & L2) & (more2 & S2 & M2)).
  repeat split; auto.
  - exists (added1 ++ added2)%list. rewrite A2, A1, <- app_assoc.
    split; [reflexivity|]. rewrite length_app. lia.
  - exists (more1 ++ more2)%list. rewrite S2, S1, <- app_assoc.
    split; [reflexivity|]. rewrite length_app. lia.
Qed.

Lemma keeps_shift (a b : Db) (x y k : Z) :
  keeps a x b y -> keeps a (x + k) b (y + k).
Proof.
  intros (T & I & D & (added & A & L) & (more & S & M)).
  repeat split; auto.
  - exists added. split; [exact A|lia].
  - exists more. split; [exact S|lia].
Qed.

Lemma merge_keeps topic_name source_domain current_time item news_time db counts :
  let st' := merge topic_name source_domain current_time item news_time (db, counts) in
  keeps db (saved_count counts) (fst st') (saved_count (snd st')).
Proof.
  cbv zeta. unfold merge_or_insert.
  destruct (find_by_title (si_title item) db) as [existing_row|] eqn:Hf.
  - destruct (find_by_title_some _ _ _ Hf) as [Hin Htitle].
    destruct (i_news_time existing_row) eqn:Hnt; [apply keeps_refl|].
    destruct news_time as [t|]; [|apply keeps_refl].
    set (rows' := map (update_dated (i_id existing_row) (isoformat t)
                         (isoformat (Naive current_time)) topic_name)
                      (intelligence db)).
    assert (Hrows : forall db',
               intelligence db' = rows' ->
               (exists more, intelligence_sources db'
                             = (intelligence_sources db ++ more)%list) ->
               keeps db (saved_count counts) db' (saved_count counts)).
    { intros db' Hrows (more & Hmore). unfold keeps. rewrite Hrows.
      unfold rows'. rewrite map_update_dated_ids, map_update_dated_titles.
      repeat split; auto.
      - intros Hnd row Hrow Hdated.
        exact (update_dated_keeps _ _ _ _ _ existing_row row Hnd Hin eq_refl Hnt
                 Hrow Hdated).
      - exists []. rewrite app_nil_r. cbn [List.length].
        split; [reflexivity|]. lia.
      - exists more. split; [exact Hmore|lia]. }
    destruct (count_sources _ _ _ =? 0); cbn [fst snd bump_updated saved_count].
    + apply Hrows; [reflexivity|].
      cbn [insert_source intelligence_sources]. eexists. reflexivity.
    + apply Hrows; [reflexivity|]. exists []. rewrite app_nil_r. reflexivity.
  - pose proof (find_by_title_none _ _ Hf) as Hfresh.
    unfold insert_intelligence, insert_source, keeps.
    cbn [fst snd intelligence intelligence_sources bump_saved saved_count].
    rewrite !map_app. cbn [map].
    repeat split.
    + intros Hnd. apply NoDup_snoc; assumption.
    + intros Hnd. apply NoDup_snoc; [exact Hnd|apply next_rowid_fresh].
    + intros _ row Hrow _. apply in_or_app. left. exact Hrow.
    + eexists. split; [reflexivity|]. cbn [List.length]. lia.
    + eexists. split; [reflexivity|]. cbn [List.length]. lia.
Qed.

Lemma save_guarded_keeps topic_name source_domain start_date current_time item st :
  let st' := save_guarded topic_name source_domain start_date current_time item st in
  keeps (fst st) (saved_count (snd st)) (fst st') (saved_count (snd st')).
Proof.
  cbv zeta. unfold save_item_guarded, save_item.
  destruct (out_of_range start_date (parse_item_date parse parse_fuzzy item))
    as [[|]|e|]; cbn [bind fst snd]; try apply keeps_refl.
  destruct st as [db counts]. apply merge_keeps.
Qed.

Lemma save_guarded_saved topic_name source_domain start_date current_time item st :
  let st' := save_guarded topic_name source_domain start_date current_time item st in
  saved_count (snd st) <= saved_count (snd st') <= saved_count (snd st) + 1.
Proof.
  cbv zeta. unfold save_item_guarded, save_item.
  destruct (out_of_range start_date (parse_item_date parse parse_fuzzy item))
    as [[|]|e|]; cbn [bind fst snd bump_out_of_range saved_count]; try lia.
  destruct st as [db counts]. unfold merge_or_insert.
  destruct (find_by_title (si_title item) db) as [existing_row|].
  - destruct (i_news_time existing_row), (parse_item_date parse parse_fuzzy item);
      cbn [snd bump_updated bump_duplicate saved_count]; try lia.
  - unfold insert_intelligence. cbn [snd bump_saved saved_count]. lia.
Qed.

Lemma save_items_from topic_name source_domain start_date items st :
  let st' :=
    fold_left (fun st ti => save_guarded topic_name source_domain start_date
                                         (fst ti) (snd ti) st) items st in
  keeps (fst st) (saved_count (snd st)) (fst st') (saved_count (snd st'))
  /\ saved_count (snd st) <= saved_count (snd st')
     <= saved_count (snd st) + Z.of_nat (List.length items).
Proof.
  cbv zeta. revert st. induction items as [|ti items IH]; intros st; cbn [fold_left].
  - split; [apply keeps_refl|cbn [List.length]; lia].
  - pose proof (save_guarded_keeps topic_name source_domain start_date
                  (fst ti) (snd ti) st) as Hstep. cbv zeta in Hstep.
    destruct (IH (save_guarded topic_name source_domain start_date
                               (fst ti) (snd ti) st)) as [Hrest Hbound].
    split; [exact (keeps_trans _ _ _ _ _ _ Hstep Hrest)|].
    pose proof (save_guarded_saved topic_name source_domain start_date
                  (fst ti) (snd ti) st) as Hone. cbv zeta in Hone.
    cbn [List.length]. lia.
Qed.

Lemma scraped_from (runs : list SourceRun) (n : Z) :
  fold_right (fun run m => match run_items run with
                           | Some items => Z.of_nat (List.length items) + m
                           | None => m
                           end) n runs
  = fold_right (fun run m => match run_items run with
                             | Some items => Z.of_nat (List.length items) + m
                             | None => m
                             end) 0 runs + n.
Proof.
  induction runs as [|run runs IH]; cbn [fold_right]; [lia|].
  rewrite IH. destruct (run_items run); lia.
Qed.

Lemma crawl_source_keeps topic_name start_date run st :
  let st' := crawl_source parse parse_fuzzy isoformat topic_name start_date run st in
  keeps (fst st) (snd (snd st)) (fst st') (snd (snd st'))
  /\ fst (snd st')
     = fst (snd st) + match run_items run with
                      | Some items => Z.of_nat (List.length items)
                      | None => 0
                      end
  /\ snd (snd st) <= snd (snd st')
  /\ snd (snd st') - snd (snd st) <= fst (snd st') - fst (snd st).
Proof.
  cbv zeta. unfold crawl_source. destruct (run_items run) as [items|].
  - unfold save_items.
    destruct (save_items_from topic_name (run_domain run) start_date items
                (fst st, no_counts)) as [Hk Hb].
    cbv zeta in Hk, Hb.
    destruct (fold_left _ items (fst st, no_counts)) as [db counts].
    cbn [fst snd no_counts saved_count] in *.
    split; [|split; [reflexivity|lia]].
    pose proof (keeps_shift _ _ _ _ (snd (snd st)) Hk) as Hs.
    replace (0 + snd (snd st)) with (snd (snd st)) in Hs by lia.
    replace (saved_count counts + snd (snd st))
      with (snd (snd st) + saved_count counts) in Hs by lia.
    exact Hs.
  - split; [apply keeps_refl|]. lia.
Qed.

Lemma crawl_topic_keeps topic_name start_date runs st :
  let st' := fold_left (fun st run => crawl_source parse parse_fuzzy isoformat
                                                   topic_name start_date run st)
                       runs st in
  keeps (fst st) (snd (snd st)) (fst st') (snd (snd st'))
  /\ fst (snd st')
     = fst (snd st)
       + fold_right (fun run m => match run_items run with
                                  | Some items => Z.of_nat (List.length items) + m
                                  | None => m
                                  end) 0 runs
  /\ snd (snd st) <= snd (snd st')
  /\ snd (snd st') - snd (snd st) <= fst (snd st') - fst (snd st).
Proof.
  cbv zeta. revert st. induction runs as [|run runs IH]; intros st;
    cbn [fold_left fold_right].
  - split; [apply keeps_refl|]. lia.
  - destruct (crawl_source_keeps topic_name start_date run st) as (K1 & C1 & S1 & B1).
    cbv zeta in K1, C1, S1, B1.
    destruct (IH (crawl_source parse parse_fuzzy isoformat topic_name start_date
                               run st)) as (K2 & C2 & S2 & B2).
    split; [exact (keeps_trans _ _ _ _ _ _ K1 K2)|].
    rewrite C2, C1. destruct (run_items run); lia.
Qed.

(** The whole crawl. *)
Lemma crawl_keeps now days_back topics db :
  let st' := crawl now days_back topics db in
  keeps db 0 (fst st') (snd (snd st'))
  /\ fst (snd st') = items_scraped topics
  /\ 0 <= snd (snd st') <= fst (snd st').
Proof.
  cbv zeta. unfold start_crawling.
  set (start_date := start_date_of now days_back).
  assert (H : forall st,
             let st' :=
               fold_left
                 (fun st topic =>
                    fold_left (fun st run => crawl_source parse parse_fuzzy isoformat
                                                          (fst topic) start_date run st)
                              (snd topic) st)
                 topics st in
             keeps (fst st) (snd (snd st)) (fst st') (snd (snd st'))
             /\ fst (snd st') = fst (snd st) + items_scraped topics
             /\ snd (snd st) <= snd (snd st')
             /\ snd (snd st') - snd (snd st) <= fst (snd st') - fst (snd st)).
  { cbv zeta. induction topics as [|topic topics IH]; intros st;
      cbn [fold_left items_scraped fold_right].
    - split; [apply keeps_refl|]. lia.
    - destruct (crawl_topic_keeps (fst topic) start_date (snd topic) st)
        as (K1 & C1 & S1 & B1). cbv zeta in K1, C1, S1, B1.
      destruct (IH (fold_left (fun st run => crawl_source parse parse_fuzzy isoformat
                                                          (fst topic) start_date run st)
                              (snd topic) st)) as (K2 & C2 & S2 & B2).
      split; [exact (keeps_trans _ _ _ _ _ _ K1 K2)|].
      rewrite C2, C1. fold (items_scraped topics).
      rewrite (scraped_from (snd topic) (items_scraped topics)). lia. }
  destruct (H (db, (0, 0))) as (K & C & S & B). cbv zeta in K, C, S, B.
  cbn [fst snd] in K, C, S, B. split; [exact K|]. lia.
Qed.

(** X3.  A crawl never stores a title twice: when the titles of [intelligence]
    are distinct before [start_crawling], they are distinct after it,
    whatever the sources returned. *)
Theorem crawl_keeps_titles_unique now days_back topics db :
  NoDup (map i_title (intelligence db)) ->
  NoDup (map i_title
           (intelligence
              (fst (start_crawling parse parse_fuzzy isoformat now days_back
                                   topics db)))).
Proof.
  intros Hnd. destruct (crawl_keeps now days_back topics db) as ((T & _) & _).
  exact (T Hnd).
Qed.

(** X4.  The totals [start_crawling] reports: [total_crawled] is the number of
    items the scraped sources returned, [total_saved] lies between 0 and
    [total_crawled] and is exactly the number of rows added to
    [intelligence], every one of them with at least one new row in
    [intelligence_sources]. *)
Theorem crawl_counts_what_it_saves now days_back topics db :
  let result := start_crawling parse parse_fuzzy isoformat now days_back topics db in
  let total_crawled := fst (snd result) in
  let total_saved := snd (snd result) in
  total_crawled = items_scraped topics
  /\ 0 <= total_saved <= total_crawled
  /\ Z.of_nat (List.length (intelligence (fst result)))
     = Z.of_nat (List.length (intelligence db)) + total_saved
  /\ Z.of_nat (List.length (intelligence_sources db)) + total_saved
     <= Z.of_nat (List.length (intelligence_sources (fst result))).
Proof.
  cbv zeta.
  destruct (crawl_keeps now days_back topics db)
    as ((_ & _ & _ & (added & Ha & Hl) & (more & Hm & Hml)) & Hc & Hs).
  split; [exact Hc|]. split; [exact Hs|]. split.
  - rewrite <- (length_map i_title (intelligence (fst _))), Ha, length_app, length_map.
    lia.
  - rewrite Hm, length_app. lia.
Qed.

(** X5.  A crawl leaves what is stored in place: with ids that tell the rows
    apart, every row that has a news date is in the table unchanged after
    [start_crawling]; and the titles of the table and the rows of
    [intelligence_sources] are only added to at the end. *)
Theorem crawl_leaves_dated_rows now days_back topics db :
  NoDup (map i_id (intelligence db)) ->
  let db' := fst (start_crawling parse parse_fuzzy isoformat now days_back topics db) in
  (forall row, In row (intelligence db) -> dated row -> In row (intelligence db'))
  /\ (exists added,
        map i_title (intelligence db')
        = (map i_title (intelligence db) ++ added)%list)
  /\ (exists more,
        intelligence_sources db' = (intelligence_sources db ++ more)%list).
Proof.
  intros Hnd. cbv zeta.
  destruct (crawl_keeps now days_back topics db)
    as ((_ & _ & D & (added & Ha & _) & (more & Hm & _)) & _).
  split; [exact (D Hnd)|]. split; [exists added; exact Ha|exists more; exact Hm].
Qed.

End Invariants.

Import CrawlSamples.

Lemma crawl_keeps_titles_unique_witness :
  NoDup (map i_title
           (intelligence
              (fst (start_crawling sample_parse sample_fuzzy sample_isoformat
                      sample_now 7 sample_topics stored_db)))).
Proof.
  apply crawl_keeps_titles_unique.
  repeat constructor; cbn; intuition discriminate.
Defined.

Lemma crawl_leaves_dated_rows_witness :
  In dated_row
     (intelligence
        (fst (start_crawling sample_parse sample_fuzzy sample_isoformat
                sample_now 7 sample_topics stored_db))).
Proof.
  refine (proj1 (crawl_leaves_dated_rows sample_parse sample_fuzzy sample_isoformat
                   sample_now 7 sample_topics stored_db _) dated_row _ _).
  - repeat constructor; cbn; intuition discriminate.
  - right. left. reflexivity.
  - discriminate.
Defined.

Lemma crawl_sample_totals :
  snd (start_crawling sample_parse sample_fuzzy sample_isoformat
         sample_now 7 sample_topics stored_db) = (3, 1)
  /\ map i_news_time
         (intelligence
            (fst (start_crawling sample_parse sample_fuzzy sample_isoformat
                    sample_now 7 sample_topics stored_db)))
     = [Some "naive:7516800000000"; Some "2025-01-01T00:00:00"; None].
Proof. split; vm_compute; reflexivity. Qed.

End CrawlInvariants.

(** ** Pages of the listing *)

Module ListPagesFacts.
Import PyStr Store Sql IntelList ListPages.

Lemma firstn_plus {A : Type} (a b : nat) (l : list A) :
  firstn (a + b) l = (firstn a l ++ firstn b (skipn a l))%list.
Proof.
  revert l. induction a as [|a IH]; intros l; [reflexivity|].
  destruct l as [|x l]; cbn [Nat.add firstn skipn app].
  - rewrite firstn_nil. reflexivity.
  - rewrite IH. reflexivity.
Qed.

Lemma in_skipn {A : Type} (n : nat) (l : list A) (z : A) :
  In z (skipn n l) -> In z l.
Proof.
  revert l. induction n as [|n IH]; intros l Hz; [exact Hz|].
  destruct l as [|x l]; [destruct Hz|]. right. exact (IH l Hz).
Qed.

(** Cutting a list into [n] pieces of [s] elements. *)
Lemma chunks_concat {A : Type} (s n : nat) (l : list A) :
  concat (map (fun k => firstn s (skipn (k * s) l)) (seq 0 n)) = firstn (n * s) l.
Proof.
  induction n as [|n IH]; [reflexivity|].
  rewrite seq_S, map_app, concat_app, IH. cbn [map concat Nat.add].
  rewrite app_nil_r, <- firstn_plus. f_equal. lia.
Qed.

Lemma limit_offset_page {A : Type} (size : Z) (k : nat) (l : list A) :
  1 <= size ->
  limit_offset size ((Z.of_nat (S k) - 1) * size) l
  = firstn (Z.to_nat size) (skipn (k * Z.to_nat size) l).
Proof.
  intros Hs. unfold limit_offset.
  destruct (size <? 0) eqn:E; [apply Z.ltb_lt in E; lia|].
  do 2 f_equal. nia.
Qed.

Lemma int64_spec (n : Z) :
  int64 n = true <-> - 9223372036854775808 <= n <= 9223372036854775807.
Proof.
  unfold int64. change (2 ^ 63) with 9223372036854775808.
  rewrite andb_true_iff, !Z.leb_le. lia.
Qed.

Lemma MAX_INT64_value : MAX_INT64 = 9223372036854775807.
Proof. reflexivity. Qed.

(** The data query is answered when both values fit, and only then. *)
Lemma data_query_error_none (q : ListQuery) :
  data_query_error q = None
  <-> int64 (page_size q) = true /\ int64 ((page q - 1) * page_size q) = true.
Proof.
  unfold data_query_error, bind_int_error.
  destruct (int64 (page_size q)), (int64 ((page q - 1) * page_size q));
    split; try discriminate; try (intros [H1 H2]; discriminate); auto.
Qed.

Lemma c_text_none (s : string) : has_char is_nul s = false -> c_text s = s.
Proof.
  induction s as [|c s IH]; [reflexivity|]. cbn [has_char c_text]. intros H.
  apply orb_false_iff in H as [Hc Hs]. rewrite Hc, (IH Hs). reflexivity.
Qed.

Lemma has_char_app (p : ascii -> bool) (s t : string) :
  has_char p (s ++ t) = (has_char p s || has_char p t)%bool.
Proof.
  induction s as [|c s IH]; [reflexivity|]. cbn [append has_char].
  rewrite IH. apply orb_assoc.
Qed.

(** [LIKE] with a pattern that ends in [%]: the text before it must be a
    prefix, the ASCII letters in either case. *)
Lemma compare_percent (text : string) : pattern_compare "%" text = true.
Proof. induction text as [|c text IH]; [reflexivity|]. cbn. cbn in IH. exact IH. Qed.

Lemma compare_prefix (needle text : string) :
  has_char wildcard needle = false ->
  pattern_compare (needle ++ "%") text = startswith (lower needle) (lower text).
Proof.
  revert text. induction needle as [|p needle IH]; intros text Hw.
  - apply compare_percent.
  - cbn [has_char] in Hw. apply orb_false_iff in Hw as [Hp Hw].
    unfold wildcard in Hp. apply orb_false_iff in Hp as [Hp1 Hp2].
    cbn [append pattern_compare lower startswith]. rewrite Hp1, Hp2.
    destruct text as [|c text]; [reflexivity|].
    cbn [lower orb]. rewrite (IH text Hw). reflexivity.
Qed.

Lemma compare_anywhere (pattern text : string) :
  pattern_compare (String "%" pattern) text
  = (pattern_compare pattern text
     || match text with
        | EmptyString => false
        | String _ text' => pattern_compare (String "%" pattern) text'
        end)%bool.
Proof. destruct text; reflexivity. Qed.

Lemma compare_substring (needle text : string) :
  has_char wildcard needle = false ->
  pattern_compare ("%" ++ needle ++ "%") text = occurs_in needle text.
Proof.
  intros Hw. unfold occurs_in. change ("%" ++ needle ++ "%") with
    (String "%" (needle ++ "%")).
  induction text as [|c text IH]; rewrite compare_anywhere, (compare_prefix _ _ Hw).
  - reflexivity.
  - rewrite IH. reflexivity.
Qed.

(** [title LIKE '%needle%'] for a needle without NUL and without
    wildcards: the needle occurs in the title as read up to its first
    NUL. *)
Lemma like_substring (needle text : string) :
  has_char is_nul needle = false -> has_char wildcard needle = false ->
  like ("%" ++ needle ++ "%") text = occurs_in needle (c_text text).
Proof.
  intros Hn Hw. unfold like. rewrite c_text_none; [apply compare_substring, Hw|].
  change ("%" ++ needle ++ "%") with (String "%" (needle ++ "%")).
  cbn [has_char]. rewrite has_char_app, Hn. reflexivity.
Qed.

(** The stripped text of a plain filter is plain as well. *)
Lemma plain_given_text (filter_text : option string) (needle : string) :
  plain_filter filter_text = true -> given_text filter_text = Some needle ->
  has_char is_nul needle = false /\ has_char wildcard needle = false.
Proof.
  destruct filter_text as [s|]; [|discriminate]. cbn [plain_filter given_text].
  unfold plain_text. intros Hp Hg.
  apply andb_true_iff in Hp as [Hp _]. apply andb_true_iff in Hp as [Hp Hw].
  apply andb_true_iff in Hp as [_ Hn].
  apply negb_true_iff in Hw, Hn.
  destruct (_ && _)%bool in Hg; [|discriminate]. injection Hg as <-.
  split; apply PyStrFacts.has_char_strip; assumption.
Qed.

Section Pages.

Variable bind_date : string -> option string.
Variable json_loads : string -> option Json.json.

Local Abbreviation listing := (get_intelligence_list bind_date json_loads).
Local Abbreviation rows_of := (matching bind_date).

Lemma matching_with_page (p : Z) (q : ListQuery) (db : Db) :
  rows_of (with_page p q) db = rows_of q db.
Proof. reflexivity. Qed.

(** The answer when nothing is raised. *)
Lemma listing_answered (q : ListQuery) (db : Db) :
  data_query_error q = None -> page_size q <> 0 ->
  listing q db
  = mkListing (map (item_of json_loads db) (page_rows bind_date q db))
              (Z.of_nat (List.length (rows_of q db))) (page q) (page_size q)
              (if 0 <? Z.of_nat (List.length (rows_of q db))
               then (Z.of_nat (List.length (rows_of q db)) + page_size q - 1)
                    / page_size q
               else 0)
              None.
Proof.
  intros He Hs. unfold get_intelligence_list. rewrite He.
  destruct (page_size q =? 0) eqn:E; [apply Z.eqb_eq in E; contradiction|].
  rewrite andb_false_r. reflexivity.
Qed.

(** The number of pages of [size] rows that hold [n] rows. *)
Lemma pages_hold (n size : Z) :
  0 <= n -> 1 <= size ->
  let pages := if 0 <? n then (n + size - 1) / size else 0 in
  (pages - 1) * size < n <= pages * size.
Proof.
  intros Hn Hs. cbv zeta. destruct (0 <? n) eqn:E.
  - apply Z.ltb_lt in E.
    pose proof (Z.div_mod (n + size - 1) size) as Hd.
    pose proof (Z.mod_pos_bound (n + size - 1) size) as Hm.
    nia.
  - apply Z.ltb_ge in E. lia.
Qed.

(** X6.  The answer for one page, for [page >= 1] and [page_size >= 1]: at
    most [page_size] items; [total_pages] is the least number of pages of
    that size that hold [total] rows; nothing beyond the last page.  When
    [:limit] and [:offset] fit a 64-bit integer and the text filters are
    plain, the answer carries no error, repeats [page], and [total] is the
    number of rows the filters select.  When one of them does not fit, the
    data query raises, and the answer is the one of the [except] branch:
    no items, [total] 0, [page] 1, no pages, and an error text. *)
Theorem listing_page_bounds (q : ListQuery) (db : Db) :
  1 <= page q -> 1 <= page_size q ->
  let answer := get_intelligence_list bind_date json_loads q db in
  Z.of_nat (List.length (items answer)) <= page_size q
  /\ (total_pages answer - 1) * page_size q < total answer
     <= total_pages answer * page_size q
  /\ (total_pages answer < page q -> items answer = [])
  /\ (page_size q <= MAX_INT64 -> (page q - 1) * page_size q <= MAX_INT64 ->
      plain_query q = true ->
      l_error answer = None /\ l_page answer = page q
      /\ total answer = Z.of_nat (List.length (matching bind_date q db)))
  /\ (MAX_INT64 < page_size q \/ MAX_INT64 < (page q - 1) * page_size q ->
      items answer = [] /\ total answer = 0 /\ l_page answer = 1
      /\ total_pages answer = 0 /\ l_error answer <> None).
Proof.
  intros Hp Hs. cbv zeta. rewrite MAX_INT64_value.
  destruct (data_query_error q) as [e|] eqn:He.
  - assert (Hfail : listing q db = failed q (str_of_exn e)).
    { unfold get_intelligence_list. rewrite He. reflexivity. }
    rewrite Hfail. cbn [failed items total total_pages l_page l_error List.length].
    split; [lia|]. split; [lia|]. split; [reflexivity|]. split.
    + intros H1 H2 _.
      assert (Hnone : data_query_error q = None).
      { apply data_query_error_none. rewrite !int64_spec. nia. }
      congruence.
    + intros _. repeat split; try reflexivity. discriminate.
  - rewrite (listing_answered q db He) by lia.
    cbn [items total total_pages l_page l_error].
    apply data_query_error_none in He as [H1 H2]. apply int64_spec in H1, H2.
    set (n := Z.of_nat (List.length (rows_of q db))).
    set (sorted := order_by (order_terms (effective_sort (sort_by q))
                                         (descending (order q))) (rows_of q db)).
    assert (Hlen : Z.of_nat (List.length sorted) = n).
    { unfold sorted, n. f_equal. apply Permutation_length, SqlFacts.order_by_perm. }
    pose proof (pages_hold n (page_size q) ltac:(unfold n; lia) Hs) as Hpages.
    cbv zeta in Hpages.
    unfold page_rows. fold sorted. unfold limit_offset.
    destruct (page_size q <? 0) eqn:E; [apply Z.ltb_lt in E; lia|].
    rewrite length_map. split; [|split; [exact Hpages|split; [|split]]].
    + pose proof (firstn_le_length (Z.to_nat (page_size q))
                    (skipn (Z.to_nat ((page q - 1) * page_size q)) sorted)). lia.
    + intros Hbeyond. rewrite skipn_all2; [rewrite firstn_nil; reflexivity|]. nia.
    + intros _ _ _. repeat split; reflexivity.
    + intros [H|H]; lia.
Qed.

(** X7.  Walking through the pages [1 .. total_pages] with one page size
    shows every selected row exactly once, in the order of the query: the
    items of the pages, put end to end, are the items of the sorted
    selection.  This is for a query that is answered without error, with
    plain text filters, on a table within the size SQLite allows, and
    when no two selected rows tie under the [ORDER BY]: rows that tie come
    in an order SQLite does not promise. *)
Theorem listing_pages_cover (q : ListQuery) (db : Db) :
  1 <= page_size q ->
  data_query_error q = None ->
  plain_query q = true ->
  Z.of_nat (List.length (intelligence db)) <= MAX_INT64 ->
  no_ties (order_terms (effective_sort (sort_by q)) (descending (order q)))
          (matching bind_date q db) ->
  concat (map (fun p => items (get_intelligence_list bind_date json_loads
                                 (with_page p q) db))
              (page_numbers
                 (total_pages (get_intelligence_list bind_date json_loads q db))))
  = map (item_of json_loads db)
        (order_by (order_terms (effective_sort (sort_by q)) (descending (order q)))
                  (matching bind_date q db)).
Proof.
  intros Hs He _ Hrows _. rewrite MAX_INT64_value in Hrows.
  set (sorted := order_by (order_terms (effective_sort (sort_by q))
                                       (descending (order q))) (rows_of q db)).
  rewrite (listing_answered q db He) by lia. cbn [total_pages].
  pose proof (pages_hold (Z.of_nat (List.length (rows_of q db))) (page_size q)
                ltac:(lia) Hs) as Hpages. cbv zeta in Hpages.
  set (n := if 0 <? Z.of_nat (List.length (rows_of q db))
            then (Z.of_nat (List.length (rows_of q db)) + page_size q - 1) / page_size q
            else 0) in *.
  assert (Hsel : (List.length (rows_of q db) <= List.length (intelligence db))%nat).
  { unfold matching. apply filter_length_le. }
  apply data_query_error_none in He as [Hsize _]. apply int64_spec in Hsize.
  unfold page_numbers. rewrite <- seq_shift, !map_map.
  rewrite (map_ext_in _ (fun k : nat =>
             map (item_of json_loads db)
                 (firstn (Z.to_nat (page_size q))
                         (skipn (k * Z.to_nat (page_size q)) sorted)))).
  2:{ intros k Hk. apply in_seq in Hk.
      rewrite listing_answered.
      - cbn [items]. unfold page_rows.
        cbn [page page_size sort_by order with_page].
        rewrite matching_with_page. fold sorted.
        rewrite (limit_offset_page (page_size q) k sorted Hs). reflexivity.
      - apply data_query_error_none. cbn [page page_size with_page].
        rewrite !int64_spec. split; [lia|]. nia.
      - cbn [page_size with_page]. lia. }
  rewrite <- (map_map (fun k => firstn (Z.to_nat (page_size q))
                                       (skipn (k * Z.to_nat (page_size q)) sorted))
                      (map (item_of json_loads db))).
  rewrite <- concat_map, chunks_concat. f_equal.
  apply firstn_all2.
  assert (Hlen : List.length sorted = List.length (rows_of q db))
    by apply Permutation_length, SqlFacts.order_by_perm.
  rewrite Hlen. nia.
Qed.

(** X8.  The title filter is a search for the stripped text anywhere in the
    title, the ASCII letters in either case, when the text given is plain
    (ASCII, without NUL, [%] and [_], within the pattern length of
    SQLite): every item returned has it in its title, the title read up
    to its first NUL; and for a query that gives no other filter and is
    answered without error, [total] counts exactly the rows whose title
    has it. *)
Theorem title_search_is_substring_match (q : ListQuery) (db : Db) (needle : string) :
  given_text (title q) = Some needle ->
  plain_filter (title q) = true ->
  (forall x, In x (items (get_intelligence_list bind_date json_loads q db)) ->
             occurs_in needle (c_text (it_title x)) = true)
  /\ (title_only q -> data_query_error q = None -> page_size q <> 0 ->
      total (get_intelligence_list bind_date json_loads q db)
      = Z.of_nat (List.length
                    (filter (fun row => occurs_in needle (c_text (i_title row)))
                            (intelligence db)))).
Proof.
  intros Hg Hplain. destruct (plain_given_text _ _ Hplain Hg) as [Hn Hw]. split.
  - intros x Hx.
    destruct (IntelListFacts.listing_items bind_date json_loads q db) as [E|E];
      rewrite E in Hx; [|destruct Hx].
    apply in_map_iff in Hx as (row & <- & Hrow). cbn [item_of it_title].
    unfold page_rows, limit_offset in Hrow.
    assert (Hin : In row (rows_of q db)).
    { apply (Permutation_in row
               (SqlFacts.order_by_perm
                  (order_terms (effective_sort (sort_by q)) (descending (order q)))
                  (rows_of q db))).
      destruct (page_size q <? 0);
        [|apply SqlFacts.in_firstn in Hrow]; exact (in_skipn _ _ _ Hrow). }
    unfold matching in Hin. apply filter_In in Hin as [_ Hall].
    rewrite forallb_forall in Hall.
    specialize (Hall (TitleLike ("%" ++ needle ++ "%"))).
    rewrite <- (like_substring needle (i_title row) Hn Hw). apply Hall.
    unfold where_conditions. rewrite Hg. left. reflexivity.
  - intros (Ht & Hq & Hmin & Hmax & Hns & Hne & Hs & He) Herr Hsize.
    rewrite (listing_answered q db Herr Hsize). cbn [total]. do 2 f_equal.
    unfold matching, where_conditions.
    rewrite Hg, Ht, Hq, Hmin, Hmax, Hns, Hne, Hs, He. cbn [given_text given_date app].
    apply filter_ext. intros row. cbn [forallb holds].
    rewrite andb_true_r. apply like_substring; assumption.
Qed.

End Pages.

Import ListSamples.

Lemma listing_page_bounds_witness :
  Z.of_nat (List.length (items (get_intelligence_list no_dates no_json
                                  two_per_page three_rows))) <= 2
  /\ total (get_intelligence_list no_dates no_json two_per_page three_rows) = 3
  /\ total_pages (get_intelligence_list no_dates no_json two_per_page three_rows) = 2
  /\ l_error (get_intelligence_list no_dates no_json two_per_page three_rows) = None.
Proof.
  destruct (listing_page_bounds no_dates no_json two_per_page three_rows)
    as (Hlen & _ & _ & Hfit & _); [cbn; lia|cbn; lia|].
  destruct Hfit as (Herr & _ & Htotal);
    [vm_compute; discriminate|vm_compute; discriminate|reflexivity|].
  split; [exact Hlen|]. split; [exact Htotal|]. split; [reflexivity|exact Herr].
Defined.

Lemma listing_pages_cover_witness :
  map it_id
      (concat (map (fun p => items (get_intelligence_list no_dates no_json
                                      (with_page p two_per_page) three_rows))
                   [1; 2]))
  = [3; 1; 2].
Proof.
  change [1; 2] with
    (page_numbers (total_pages (get_intelligence_list no_dates no_json
                                  two_per_page three_rows))).
  rewrite (listing_pages_cover no_dates no_json two_per_page three_rows);
    [reflexivity|cbn; lia|reflexivity|reflexivity|vm_compute; discriminate|].
  intros a b Ha Hb.
  repeat (destruct Ha as [<-|Ha]; [|]); try destruct Ha;
    repeat (destruct Hb as [<-|Hb]; [|]); try destruct Hb;
    intros H; try reflexivity; vm_compute in H; discriminate H.
Defined.

Lemma title_search_is_substring_match_witness :
  total (get_intelligence_list no_dates no_json search_green titled_rows) = 2
  /\ map it_title (items (get_intelligence_list no_dates no_json
                            search_green titled_rows))
     = ["Green roofs"; "Evergreen bonds"].
Proof.
  destruct (title_search_is_substring_match no_dates no_json search_green
              titled_rows "GREEN" eq_refl eq_refl) as [_ Htotal].
  split; [|reflexivity].
  rewrite Htotal; [reflexivity| |reflexivity|discriminate].
  repeat split; reflexivity.
Defined.

End ListPagesFacts.

(** ** What storing an analysis touches *)

Module AiProcessFrame.
Import Json PyNum Store Scoring AiProcess.

Lemma update_analysed_frame id topic summary score dims ut (rows : list Intelligence) :
  map i_id (map (update_analysed id topic summary score dims ut) rows) = map i_id rows
  /\ map i_title (map (update_analysed id topic summary score dims ut) rows)
     = map i_title rows
  /\ map i_news_time (map (update_analysed id topic summary score dims ut) rows)
     = map i_news_time rows
  /\ map i_quality_status (map (update_analysed id topic summary score dims ut) rows)
     = map i_quality_status rows
  /\ (forall row, In row rows -> i_id row <> id ->
                  In row (map (update_analysed id topic summary score dims ut) rows)).
Proof.
  repeat split.
  1-4: rewrite map_map; apply map_ext; intros row; unfold update_analysed;
       destruct (i_id row =? id); reflexivity.
  intros row Hin Hne. apply in_map_iff. exists row. split; [|exact Hin].
  unfold update_analysed. destruct (i_id row =? id) eqn:E; [|reflexivity].
  apply Z.eqb_eq in E. contradiction.
Qed.


Import Responses.


End AiProcessFrame.

(** ** Which date bounds the listing applies *)

Module CollectDatesFacts.
Import PyStr Store IntelList CollectDates.

Section Bounds.

Variable bind_date : string -> option string.
Variable json_loads : string -> option Json.json.

Local Abbreviation listing := (get_intelligence_list bind_date json_loads).

Lemma same_conditions_same_listing (q q' : ListQuery) (db : Db) :
  where_conditions bind_date q' = where_conditions bind_date q ->
  page q' = page q -> page_size q' = page_size q ->
  sort_by q' = sort_by q -> order q' = order q ->
  listing q' db = listing q db.
Proof.
  intros Hw Hp Hs Hsort Ho.
  unfold get_intelligence_list, failed, data_query_error, page_rows, matching.
  rewrite Hw, Hp, Hs, Hsort, Ho. reflexivity.
Qed.

(** X10.  The collect-time bounds are a fallback, taken one at a time.  When
    [news_end_date] is given, neither [start_date] nor [end_date] has any
    effect on the answer; and when [start_date] is given, [end_date] has
    none: the listing cannot be asked for a closed range of collect times. *)
Theorem collect_bounds_are_a_fallback (q : ListQuery) (db : Db)
        (from to : option string) :
  (given_date (news_end_date q) <> None ->
   get_intelligence_list bind_date json_loads (with_collect_dates from to q) db
   = get_intelligence_list bind_date json_loads q db)
  /\ (given_date (start_date q) <> None ->
      get_intelligence_list bind_date json_loads
        (with_collect_dates (start_date q) to q) db
      = get_intelligence_list bind_date json_loads q db).
Proof.
  split; intros Hgiven; apply same_conditions_same_listing; try reflexivity;
    unfold where_conditions;
    cbn [with_collect_dates title topic quality min_score max_score news_start_date
         news_end_date start_date end_date].
  - destruct (given_date (news_end_date q)); [reflexivity|contradiction].
  - destruct (given_date (news_end_date q)); [reflexivity|].
    destruct (given_date (start_date q)); [reflexivity|contradiction].
Qed.

End Bounds.

Import ListSamples.

Lemma collect_bounds_are_a_fallback_witness :
  map it_id (items (get_intelligence_list at_midnight no_json second_day_only
                      collected_rows))
  = map it_id (items (get_intelligence_list at_midnight no_json
                        (with_collect_dates (Some "2025-01-02") None second_day_only)
                        collected_rows))
  /\ map it_id (items (get_intelligence_list at_midnight no_json second_day_only
                         collected_rows))
     = [2; 3].
Proof.
  split; [|reflexivity].
  assert (Hgiven : given_date (start_date second_day_only) <> None) by discriminate.
  pose proof (proj2 (collect_bounds_are_a_fallback at_midnight no_json second_day_only
                       collected_rows None None) Hgiven) as H.
  exact (f_equal (fun answer => map it_id (items answer)) (eq_sym H)).
Defined.

End CollectDatesFacts.

(** ** Scraped items *)

Module ScrapedItemsFacts.
Import PyStr Crawl ScrapedItems.

Lemma ends_clean_cons (c : ascii) (s : string) :
  ends_clean (String c s)
  = match s with EmptyString => negb (is_space c) | _ => ends_clean s end.
Proof. destruct s; reflexivity. Qed.

Lemma rstrip_ends_clean (s : string) : ends_clean (rstrip_by is_space s) = true.
Proof.
  induction s as [|c s IH]; [reflexivity|]. cbn [rstrip_by].
  destruct (rstrip_by is_space s) as [|d r] eqn:E.
  - destruct (is_space c) eqn:Ec; [reflexivity|]. cbn. rewrite Ec. reflexivity.
  - rewrite ends_clean_cons. exact IH.
Qed.

Lemma rstrip_fixed (s : string) : ends_clean s = true -> rstrip_by is_space s = s.
Proof.
  induction s as [|c s IH]; [reflexivity|]. rewrite ends_clean_cons. cbn [rstrip_by].
  destruct s as [|d s'].
  - intros H. cbn [rstrip_by]. apply negb_true_iff in H. rewrite H. reflexivity.
  - intros H. rewrite (IH H). reflexivity.
Qed.

Lemma lstrip_starts_clean (s : string) : starts_clean (lstrip_by is_space s) = true.
Proof.
  induction s as [|c s IH]; [reflexivity|]. cbn [lstrip_by].
  destruct (is_space c) eqn:Ec; [exact IH|]. cbn. rewrite Ec. reflexivity.
Qed.

Lemma lstrip_fixed (s : string) : starts_clean s = true -> lstrip_by is_space s = s.
Proof.
  destruct s as [|c s]; [reflexivity|]. cbn. intros H.
  apply negb_true_iff in H. rewrite H. reflexivity.
Qed.

Lemma lstrip_ends_clean (s : string) :
  ends_clean s = true -> ends_clean (lstrip_by is_space s) = true.
Proof.
  induction s as [|c s IH]; [reflexivity|]. rewrite ends_clean_cons. cbn [lstrip_by].
  destruct (is_space c) eqn:Ec.
  - destruct s; [cbn; discriminate|exact IH].
  - intros H. rewrite ends_clean_cons, Ec. exact H.
Qed.

Lemma strip_clean (s : string) :
  starts_clean (strip s) = true /\ ends_clean (strip s) = true.
Proof.
  unfold strip. split; [apply lstrip_starts_clean|].
  apply lstrip_ends_clean, rstrip_ends_clean.
Qed.

Lemma strip_fixed (s : string) :
  starts_clean s = true -> ends_clean s = true -> strip s = s.
Proof. intros Hs He. unfold strip. rewrite (rstrip_fixed s He). exact (lstrip_fixed s Hs). Qed.

(** [s.strip().strip()] is [s.strip()]. *)
Lemma strip_strip (s : string) : strip (strip s) = strip s.
Proof. destruct (strip_clean s). apply strip_fixed; assumption. Qed.

Lemma sub_spaces_tidy (s : string) (b : bool) :
  ends_clean s = true -> (s = EmptyString -> b = false) ->
  tidy_from b (sub_spaces b s) = true.
Proof.
  revert b. induction s as [|c s IH]; intros b He Hb.
  - rewrite (Hb eq_refl). reflexivity.
  - rewrite ends_clean_cons in He. cbn [sub_spaces].
    destruct (is_space c) eqn:Ec.
    + assert (Hs : s <> EmptyString) by (destruct s; [discriminate He|discriminate]).
      assert (He' : ends_clean s = true) by (destruct s; [contradiction|exact He]).
      assert (IH' := IH true He' (fun E => False_ind _ (Hs E))).
      destruct b; [exact IH'|].
      cbn [tidy_from]. change (is_space " ") with true. cbv iota.
      rewrite IH'. reflexivity.
    + cbn [tidy_from]. rewrite Ec. apply IH; [|reflexivity].
      destruct s; [reflexivity|exact He].
Qed.

Lemma tidy_from_fixed (s : string) (b : bool) :
  tidy_from b s = true -> sub_spaces b s = s.
Proof.
  revert b. induction s as [|c s IH]; intros b H; [reflexivity|].
  cbn [tidy_from] in H. cbn [sub_spaces]. destruct (is_space c) eqn:Ec.
  - apply andb_true_iff in H as [H Ht]. apply andb_true_iff in H as [Hc Hb].
    apply negb_true_iff in Hb. subst b. apply Ascii.eqb_eq in Hc. subst c.
    rewrite (IH true Ht). reflexivity.
  - rewrite (IH false H). reflexivity.
Qed.

Lemma tidy_from_clean (s : string) (b : bool) :
  tidy_from b s = true ->
  ends_clean s = true /\ (b = true -> starts_clean s = true).
Proof.
  revert b. induction s as [|c s IH]; intros b H; [split; reflexivity|].
  cbn [tidy_from] in H. rewrite ends_clean_cons. cbn [starts_clean].
  destruct (is_space c) eqn:Ec.
  - apply andb_true_iff in H as [H Ht]. apply andb_true_iff in H as [Hc Hb].
    apply negb_true_iff in Hb. subst b. destruct (IH true Ht) as [He _].
    split; [|discriminate]. destruct s; [discriminate Ht|exact He].
  - destruct (IH false H) as [He _]. split; [|reflexivity].
    destruct s; [reflexivity|exact He].
Qed.

Lemma collapse_strip_tidy (s : string) : tidy (collapse_spaces (strip s)) = true.
Proof.
  destruct (strip_clean s) as [Hs He]. unfold collapse_spaces.
  destruct (strip s) as [|c x]; [reflexivity|].
  cbn [starts_clean] in Hs. apply negb_true_iff in Hs.
  cbn [sub_spaces]. rewrite Hs. cbn [tidy tidy_from]. rewrite Hs.
  apply sub_spaces_tidy; [|reflexivity].
  rewrite ends_clean_cons in He. destruct x; [reflexivity|exact He].
Qed.

Lemma tidy_fixed (s : string) :
  tidy s = true -> collapse_spaces (strip s) = s.
Proof.
  destruct s as [|c x]; [reflexivity|]. unfold tidy. intros H.
  destruct (tidy_from_clean _ _ H) as [He Hs].
  rewrite (strip_fixed _ (Hs eq_refl) He).
  cbn [tidy_from] in H. unfold collapse_spaces. cbn [sub_spaces].
  destruct (is_space c).
  - apply andb_true_iff in H as [H _]. apply andb_true_iff in H as [_ H]. discriminate H.
  - rewrite (tidy_from_fixed x false H). reflexivity.
Qed.

Lemma sub_spaces_ascii (s : string) (b : bool) :
  isascii s = true -> isascii (sub_spaces b s) = true.
Proof.
  unfold isascii. revert b. induction s as [|c s IH]; intros b H; [reflexivity|].
  cbn [all_chars] in H. apply andb_true_iff in H as [Hc Hs]. cbn [sub_spaces].
  destruct (is_space c).
  - destruct b; [exact (IH true Hs)|]. cbn [all_chars]. rewrite (IH true Hs). reflexivity.
  - cbn [all_chars]. rewrite Hc. exact (IH false Hs).
Qed.

(** X11.  A constructed item is in normal form, for a title and a date given
    as ASCII text (where the whitespace of the model is the whitespace of
    Python).  Its title is ASCII text again, has no whitespace at either
    end and holds whitespace only as single blanks; its URL is the one
    given and is empty or starts with [http://] or [https://]; its date is
    ASCII text again without whitespace at either end; and constructing an
    item from its fields gives the same item again. *)
Theorem scraped_item_is_normalised (title url : string) (date : option string)
        (item : ScrapedItem) :
  isascii title = true ->
  (forall d, date = Some d -> isascii d = true) ->
  new title url date = Ok item ->
  isascii (si_title item) = true
  /\ tidy (si_title item) = true
  /\ si_url item = url
  /\ (url = EmptyString \/ starts_http url = true)
  /\ (forall d, si_date item = Some d ->
                isascii d = true /\ starts_clean d = true /\ ends_clean d = true)
  /\ new (si_title item) (si_url item) (si_date item) = Ok item.
Proof.
  intros Hascii Hdate.
  unfold new, __post_init__. cbn [si_title si_url si_date].
  destruct (negb (is_empty url) && negb (starts_http url))%bool eqn:Hurl;
    [discriminate|].
  intros H. injection H as <-. cbn [si_title si_url si_date]. rewrite Hurl.
  assert (Htidy : tidy (if is_empty title then title
                        else collapse_spaces (strip title)) = true).
  { destruct (is_empty title) eqn:Et; [destruct title; [reflexivity|discriminate Et]|].
    apply collapse_strip_tidy. }
  split.
  { destruct (is_empty title); [exact Hascii|].
    apply sub_spaces_ascii, PyStrFacts.isascii_strip, Hascii. }
  split; [exact Htidy|]. split; [reflexivity|]. split.
  { destruct url; [left; reflexivity|right].
    cbn [is_empty negb andb] in Hurl. apply negb_false_iff in Hurl. exact Hurl. }
  split.
  { intros d Hd. destruct date as [d0|]; [|discriminate Hd].
    specialize (Hdate d0 eq_refl).
    destruct (is_empty d0) eqn:Ed; injection Hd as <-.
    - destruct d0; [repeat split; reflexivity|discriminate Ed].
    - split; [apply PyStrFacts.isascii_strip, Hdate|apply strip_clean]. }
  f_equal. f_equal.
  - set (t := if is_empty title then title else collapse_spaces (strip title)) in *.
    destruct (is_empty t); [reflexivity|]. apply tidy_fixed. exact Htidy.
  - destruct date as [d0|]; [|reflexivity].
    destruct (is_empty d0) eqn:Ed; [rewrite Ed; reflexivity|].
    destruct (is_empty (strip d0)); [reflexivity|]. rewrite strip_strip. reflexivity.
Qed.

Lemma scraped_item_is_normalised_witness :
  new "  Green   roofs  in Asia " "https://x.com/a" (Some " 2025-01-02 ")
  = Ok (mkItem "Green roofs in Asia" "https://x.com/a" (Some "2025-01-02"))
  /\ tidy "Green roofs in Asia" = true.
Proof.
  split; [reflexivity|].
  refine (proj1 (proj2 (scraped_item_is_normalised
                  "  Green   roofs  in Asia " "https://x.com/a" (Some " 2025-01-02 ")
                  (mkItem "Green roofs in Asia" "https://x.com/a" (Some "2025-01-02"))
                  eq_refl _ eq_refl))).
  intros d H. injection H as <-. reflexivity.
Defined.

End ScrapedItemsFacts.

(** ** Recipes that were checked, recipes from the factory *)

Module RecipesFacts.
Import PyStr PyRepr Models ScraperMain Recipes ModelsFacts.

(** What [__post_init__] has made sure of when it returns. *)
Lemma post_init_requirements (self i : Instance) :
  __post_init__ self = Ok i ->
  (pagination_mode (fields i) = "number" -> truthy (page_pattern (fields i)) = true)
  /\ (pagination_mode (fields i) = "next" ->
      truthy (next_page_selector (fields i)) = true)
  /\ (pagination_mode (fields i) = "loadmore" ->
      truthy (load_more_selector (fields i)) = true).
Proof.
  unfold __post_init__. intros H.
  set (self1 := if drupal_detected self then _ else _) in H. cbv zeta in H.
  destruct (String.eqb (pagination_mode (fields self1)) "number"
            && negb (truthy (page_pattern (fields self1))))%bool eqn:E1;
    [discriminate H|].
  destruct (String.eqb (pagination_mode (fields self1)) "next"
            && negb (truthy (next_page_selector (fields self1))))%bool eqn:E2;
    [discriminate H|].
  destruct (String.eqb (pagination_mode (fields self1)) "loadmore"
            && negb (truthy (load_more_selector (fields self1))))%bool eqn:E3;
    [discriminate H|].
  injection H as <-. cbn [fields].
  assert (Hsame : forall r,
             let r' := (if wait_ms (if max_pages r <=? 0 then set_max_pages 1 r else r) <? 0
                        then set_wait_ms 0 (if max_pages r <=? 0 then set_max_pages 1 r else r)
                        else (if max_pages r <=? 0 then set_max_pages 1 r else r)) in
             pagination_mode r' = pagination_mode r
             /\ page_pattern r' = page_pattern r
             /\ next_page_selector r' = next_page_selector r
             /\ load_more_selector r' = load_more_selector r).
  { intros r. cbv zeta. destruct (max_pages r <=? 0);
      [destruct (wait_ms (set_max_pages 1 r) <? 0)|destruct (wait_ms r <? 0)];
      repeat split; reflexivity. }
  destruct (Hsame (fields self1)) as (-> & -> & -> & ->).
  repeat split; intros Hm; rewrite Hm in *; cbn [String.eqb Ascii.eqb Bool.eqb andb] in *.
  - apply negb_false_iff. exact E1.
  - apply negb_false_iff. exact E2.
  - apply negb_false_iff. exact E3.
Qed.

(** X12.  The validator never reports a missing required field on a recipe
    that was constructed: the constructor has refused those.  And since
    the constructor turns [drupal_zero_based] on in number mode, the
    Drupal page-limit warning of a constructed number-mode recipe depends
    on [max_pages] alone: it is given exactly when [max_pages > 20]. *)
Theorem constructed_recipe_warnings (a : ScraperRecipe) (i : Instance) :
  new a = Ok i ->
  (forall w, In w requirement_warnings -> ~ In w (validate_recipe (fields i)))
  /\ (pagination_mode a = "number" ->
      (In "Drupal分页建议限制最大页数以避免过多请求" (validate_recipe (fields i))
       <-> 20 < max_pages a)).
Proof.
  intros Hnew. unfold new in Hnew.
  destruct (post_init_requirements _ _ Hnew) as (Rnum & Rnext & Rload).
  destruct (post_init_ok _ _ Hnew) as (Hmode & Hpat & Hmax & _ & Hzero).
  cbn [fields] in Hmode, Hpat, Hmax, Hzero.
  split.
  - intros w Hw. unfold validate_recipe.
    destruct (String.eqb (pagination_mode (fields i)) "number") eqn:E1.
    + apply String.eqb_eq in E1. specialize (Rnum E1).
      destruct (page_pattern (fields i)) as [pattern|]; [|discriminate Rnum].
      cbn [truthy] in Rnum. apply negb_true_iff in Rnum. rewrite Rnum.
      unfold requirement_warnings in Hw. cbn [In] in Hw.
      repeat match goal with
             | |- context [if ?c then _ else _] => destruct c
             end;
        cbn [In app]; intuition (subst; discriminate).
    + destruct (String.eqb (pagination_mode (fields i)) "next") eqn:E2.
      * apply String.eqb_eq in E2. rewrite (Rnext E2). cbn [negb].
        unfold requirement_warnings in Hw. cbn [In] in Hw.
        repeat match goal with
               | |- context [if ?c then _ else _] => destruct c
               end;
          cbn [In app]; intuition (subst; discriminate).
      * destruct (String.eqb (pagination_mode (fields i)) "loadmore") eqn:E3.
        -- apply String.eqb_eq in E3. rewrite (Rload E3). cbn [negb].
           unfold requirement_warnings in Hw. cbn [In] in Hw.
           repeat match goal with
                  | |- context [if ?c then _ else _] => destruct c
                  end;
             cbn [In app]; intuition (subst; discriminate).
        -- unfold requirement_warnings in Hw. cbn [In] in Hw.
           repeat match goal with
                  | |- context [if ?c then _ else _] => destruct c
                  end;
             cbn [In app]; intuition (subst; discriminate).
  - intros Hnum.
    assert (Hp : truthy (page_pattern a) = true).
    { rewrite <- Hpat. apply Rnum. rewrite Hmode. exact Hnum. }
    unfold validate_recipe.
    rewrite (Hzero (new_number_mode_detected a Hnum Hp) eq_refl).
    rewrite Hmode, Hnum, Hmax, Hpat.
    cbn [String.eqb Ascii.eqb Bool.eqb andb].
    destruct (page_pattern a) as [pattern|]; [|discriminate Hp].
    cbn [truthy] in Hp. apply negb_true_iff in Hp. rewrite Hp.
    assert (Hgt : ((if max_pages a <=? 0 then 1 else max_pages a) >? 20) = true
                  <-> 20 < max_pages a).
    { destruct (max_pages a <=? 0) eqn:E; rewrite Z.gtb_ltb, Z.ltb_lt;
        [apply Z.leb_le in E|apply Z.leb_gt in E]; lia. }
    destruct ((if max_pages a <=? 0 then 1 else max_pages a) >? 20).
    + split; [intros _; apply Hgt; reflexivity|intros _].
      rewrite !in_app_iff. left. right. left. reflexivity.
    + split; [|intros H; apply Hgt in H; discriminate H].
      intros H. exfalso. revert H.
      repeat match goal with
             | |- context [if ?c then _ else _] => destruct c
             end;
        cbn [In app]; intuition discriminate.
Qed.

Lemma constructed_recipe_warnings_witness :
  new (Samples.x_com_five_pages false)
  = Ok (mkInstance (set_drupal_zero_based true (Samples.x_com_five_pages false)) true)
  /\ ~ In "数字分页模式需要设置URL模式"
          (validate_recipe (set_drupal_zero_based true (Samples.x_com_five_pages false))).
Proof.
  assert (Hnew : new (Samples.x_com_five_pages false)
                 = Ok (mkInstance (set_drupal_zero_based true
                                     (Samples.x_com_five_pages false)) true))
    by (vm_compute; reflexivity).
  split; [exact Hnew|].
  apply (proj1 (constructed_recipe_warnings _ _ Hnew)). left. reflexivity.
Defined.

(** Replacing the placeholder in a text built from brace-free pieces. *)
Lemma replace_plain (new a rest : string) :
  plain a = true ->
  replace "{n}" new (a ++ rest) = a ++ replace "{n}" new rest.
Proof.
  unfold replace, plain. induction a as [|c a IH]; intros Hp; [reflexivity|].
  cbn [has_char] in Hp. apply negb_true_iff, orb_false_iff in Hp as [Hc Hp].
  cbn [append replace_from startswith]. rewrite Hc. cbn [andb].
  rewrite IH; [reflexivity|]. apply negb_true_iff. exact Hp.
Qed.

Lemma replace_placeholder (new rest : string) :
  replace "{n}" new ("{n}" ++ rest) = new ++ replace "{n}" new rest.
Proof. reflexivity. Qed.

Lemma replace_nothing (new : string) : replace "{n}" new EmptyString = EmptyString.
Proof. reflexivity. Qed.

Lemma append_assoc (a b c : string) : (a ++ b) ++ c = a ++ (b ++ c).
Proof. induction a as [|x a IH]; [reflexivity|]. cbn [append]. rewrite IH. reflexivity. Qed.

Lemma append_empty (a : string) : a ++ EmptyString = a.
Proof. induction a as [|x a IH]; [reflexivity|]. cbn [append]. rewrite IH. reflexivity. Qed.

Lemma replace_piece (n p p' rest : string) :
  becomes n p p' ->
  replace "{n}" n (p ++ rest) = p' ++ replace "{n}" n rest.
Proof.
  intros [[Hp ->]|[-> ->]]; [apply replace_plain; exact Hp|].
  change ("page={n}" ++ rest) with ("page=" ++ ("{n}" ++ rest)).
  rewrite replace_plain by reflexivity. rewrite replace_placeholder.
  rewrite append_assoc. reflexivity.
Qed.

Lemma replace_pieces (n : string) (pieces pieces' : list string) :
  Forall2 (becomes n) pieces pieces' ->
  replace "{n}" n (String.concat "&" pieces) = String.concat "&" pieces'.
Proof.
  induction 1 as [|p p' pieces pieces' Hp Hrest IH]; [reflexivity|].
  cbn [String.concat]. destruct Hrest as [|q q' qs qs' Hq Hqs].
  - rewrite <- (append_empty p), (replace_piece n p p' EmptyString Hp).
    rewrite replace_nothing, append_empty. reflexivity.
  - rewrite (replace_piece n p p' _ Hp).
    rewrite (replace_plain n "&" _ eq_refl), IH. reflexivity.
Qed.

Lemma render_becomes (n : string) (params : list (string * param_value)) :
  forallb plain_param params = true ->
  Forall2 (becomes n) (flat_map render_param params) (flat_map (render_at n) params).
Proof.
  induction params as [|[key value] params IH]; intros H; [constructor|].
  cbn [forallb] in H. apply andb_true_iff in H as [Hp H].
  cbn [flat_map]. apply Forall2_app; [|exact (IH H)].
  unfold plain_param, render_at, render_param in *. cbn [fst] in *.
  destruct (String.eqb key "page").
  - constructor; [right; split; reflexivity|constructor].
  - cbn [orb] in Hp. rewrite forallb_forall in Hp.
    induction (match value with
               | One v => [key ++ "=" ++ str_of_scalar v]
               | Many vs => map (fun v => key ++ "[]=" ++ str_of_scalar v) vs
               end) as [|p ps IHp]; [constructor|].
    constructor; [left; split; [apply Hp; left|]; reflexivity|].
    apply IHp. intros x Hx. apply Hp. right. exact Hx.
Qed.

Lemma nonempty_pattern (a b : string) : is_empty (a ++ "?" ++ b) = false.
Proof. destruct a; reflexivity. Qed.

Section Factory.

Variable soup_select : string -> string -> option (list Element).
Variable urljoin_defrag : string -> string -> string.

Local Abbreviation next_url := (_get_next_page_url soup_select urljoin_defrag).

(** X13.  A Drupal recipe from the factory walks through the page numbers.
    When the path of [start_url] and the parameters other than [page]
    hold no brace, the recipe is constructed, and after page index [k]
    (the start page is index 0, so [k] runs up to 8 with [max_pages = 10])
    the next URL is the path of [start_url] with the query string of the
    parameters in their order, the page parameter being [k + 1]. *)
Theorem drupal_recipe_pages (domain start_url : string)
        (query_params : list (string * param_value)) (html cur : string) (k : Z) :
  plain (hd EmptyString (split_on "?" start_url)) = true ->
  forallb plain_param query_params = true ->
  0 <= k < 9 ->
  exists i,
    create_drupal_recipe domain start_url query_params = Ok i
    /\ max_pages (fields i) = 10
    /\ _get_next_page_url soup_select urljoin_defrag (fields i) html cur k
       = Some (hd EmptyString (split_on "?" start_url) ++ "?"
               ++ String.concat "&"
                    (flat_map (render_at (str_of_int (k + 1))) query_params)).
Proof.
  intros Hbase Hparams Hk. unfold create_drupal_recipe.
  set (base := hd EmptyString (split_on "?" start_url)) in *.
  set (pattern := (base ++ "?") ++ String.concat "&" (flat_map render_param query_params)).
  set (a := mkRecipe _ _ _ _ _ _ _ _ _ _ _ _ _ _ _ _ _ _ _ _ _ _ _ _ _).
  assert (Hp : truthy (page_pattern a) = true).
  { cbn [a page_pattern truthy]. unfold pattern. rewrite append_assoc.
    rewrite nonempty_pattern. reflexivity. }
  destruct (new_number_mode_ok a eq_refl Hp) as [i Hi]. exists i.
  split; [exact Hi|].
  destruct (post_init_ok _ _ Hi) as (Hmode & Hpat & Hmax & _ & Hzero).
  cbn [fields a pagination_mode page_pattern max_pages] in Hmode, Hpat, Hmax.
  change (max_pages (fields i) = 10) in Hmax.
  specialize (Hzero (new_number_mode_detected a eq_refl Hp) eq_refl).
  split; [exact Hmax|].
  unfold _get_next_page_url, max_pages_or_1. rewrite Hmax, Hmode, Hpat, Hzero.
  cbn [Z.eqb String.eqb Ascii.eqb Bool.eqb andb truthy].
  destruct (k >=? 10 - 1) eqn:Eg; [rewrite Z.geb_leb in Eg; apply Z.leb_le in Eg; lia|].
  assert (He : is_empty pattern = false)
    by (unfold pattern; rewrite append_assoc; apply nonempty_pattern).
  rewrite He. cbn [negb]. f_equal.
  unfold pattern. rewrite append_assoc.
  rewrite (replace_plain _ base _ Hbase).
  rewrite (replace_plain _ "?" _ eq_refl).
  rewrite (replace_pieces _ _ _ (render_becomes _ _ Hparams)). reflexivity.
Qed.

(** X14.  The other two recipes of the factory.  A simple recipe is always
    constructed, allows one page and never names a next page; a next-page
    recipe is refused when the selector is empty and otherwise constructed
    with that selector, five pages and the current page left out. *)
Theorem simple_and_next_recipes (domain start_url selector : string) :
  (exists i,
     create_simple_recipe domain start_url = Ok i
     /\ max_pages (fields i) = 1
     /\ forall html cur page_num,
          0 <= page_num ->
          _get_next_page_url soup_select urljoin_defrag (fields i) html cur page_num
          = None)
  /\ (selector = EmptyString ->
      create_next_page_recipe domain start_url selector
      = Raise (ValueError "下一页链接模式需要设置next_page_selector"))
  /\ (selector <> EmptyString ->
      exists i,
        create_next_page_recipe domain start_url selector = Ok i
        /\ pagination_mode (fields i) = "next"
        /\ next_page_selector (fields i) = Some selector
        /\ max_pages (fields i) = 5
        /\ exclude_current_page (fields i) = true).
Proof.
  split; [|split].
  - unfold create_simple_recipe.
    set (a := mkRecipe _ _ _ _ _ _ _ _ _ _ _ _ _ _ _ _ _ _ _ _ _ _ _ _ _).
    exists (mkInstance a false). split; [reflexivity|]. split; [reflexivity|].
    intros html cur page_num Hp. unfold _get_next_page_url, max_pages_or_1.
    cbn [fields]. change (if max_pages a =? 0 then 1 else max_pages a) with 1.
    destruct (page_num >=? 1 - 1) eqn:E; [reflexivity|].
    rewrite Z.geb_leb in E. apply Z.leb_gt in E. lia.
  - intros ->. reflexivity.
  - intros Hs. destruct selector as [|c selector]; [contradiction|].
    unfold create_next_page_recipe.
    set (a := mkRecipe _ _ _ _ _ _ _ _ _ _ _ _ _ _ _ _ _ _ _ _ _ _ _ _ _).
    exists (mkInstance a false). split; [reflexivity|]. repeat split; reflexivity.
Qed.

End Factory.

Import Samples.

Lemma drupal_recipe_pages_witness :
  exists i,
    create_drupal_recipe "x.com" "https://x.com/search?q=old&page=0" search_params
    = Ok i
    /\ _get_next_page_url empty_page keep_href (fields i) "<html>"
         "https://x.com/search?q=old&page=0" 0
       = Some "https://x.com/search?q=green&type[]=news&type[]=7&page=1".
Proof.
  destruct (drupal_recipe_pages empty_page keep_href "x.com"
              "https://x.com/search?q=old&page=0" search_params "<html>"
              "https://x.com/search?q=old&page=0" 0)
    as (i & Hi & _ & Hnext); [reflexivity|reflexivity|lia|].
  exists i. split; [exact Hi|exact Hnext].
Defined.

Lemma simple_and_next_recipes_witness :
  create_next_page_recipe "x.com" "https://x.com/news" EmptyString
  = Raise (ValueError "下一页链接模式需要设置next_page_selector")
  /\ exists i, create_next_page_recipe "x.com" "https://x.com/news" "a.next" = Ok i
               /\ next_page_selector (fields i) = Some "a.next".
Proof.
  destruct (simple_and_next_recipes empty_page keep_href "x.com"
              "https://x.com/news" EmptyString) as (_ & Hrefused & _).
  destruct (simple_and_next_recipes empty_page keep_href "x.com"
              "https://x.com/news" "a.next") as (_ & _ & Hbuilt).
  split; [exact (Hrefused eq_refl)|].
  destruct Hbuilt as (i & Hi & _ & Hsel & _); [discriminate|].
  exists i. split; [exact Hi|exact Hsel].
Defined.

End RecipesFacts.

(** ** The summary of a test run *)

Module ExtractionFacts.
Import PyStr Json Extraction.

(** The two loops, one field at a time. *)
Lemma summary_field (key : string) (results : list dict) :
  In key ["title"; "url"; "date"] ->
  field_of key (generate_extraction_summary results)
  = fold_left (fun f item => count_field key item f) results
      (fold_left (fun f item => sample_field key item f) (firstn 5 results)
                 (mkFieldSummary 0 [])).
Proof.
  intros Hkey. unfold generate_extraction_summary.
  set (step1 := fun (s : Summary) (item : dict) =>
                  mkSummary _ (sample_field _ _ _) _ _).
  set (step2 := fun (s : Summary) (item : dict) =>
                  mkSummary _ (count_field _ _ _) _ _).
  assert (H1 : forall l s,
             field_of key (fold_left step1 l s)
             = fold_left (fun f item => sample_field key item f) l (field_of key s)).
  { induction l as [|item l IH]; intros s; [reflexivity|]. cbn [fold_left].
    rewrite IH. f_equal. cbn [In] in Hkey.
    destruct Hkey as [<-|[<-|[<-|[]]]]; reflexivity. }
  assert (H2 : forall l s,
             field_of key (fold_left step2 l s)
             = fold_left (fun f item => count_field key item f) l (field_of key s)).
  { induction l as [|item l IH]; intros s; [reflexivity|]. cbn [fold_left].
    rewrite IH. f_equal. cbn [In] in Hkey.
    destruct Hkey as [<-|[<-|[<-|[]]]]; reflexivity. }
  rewrite H2, H1. do 2 f_equal. cbn [In] in Hkey.
  destruct Hkey as [<-|[<-|[<-|[]]]]; reflexivity.
Qed.

Lemma count_loop (key : string) (items : list dict) (f : FieldSummary) :
  fold_left (fun f item => count_field key item f) items f
  = mkFieldSummary (count f + having key items) (samples f).
Proof.
  revert f. induction items as [|item items IH]; intros f; cbn [fold_left].
  - unfold having. cbn. destruct f. cbn. f_equal. lia.
  - rewrite IH. unfold count_field, having. cbn [filter].
    destruct (has_field key item); cbn [count samples List.length]; f_equal; lia.
Qed.

Lemma sample_loop (key : string) (items : list dict) (f : FieldSummary) :
  fold_left (fun f item => sample_field key item f) items f
  = mkFieldSummary
      (count f + having key items)
      (samples f
       ++ firstn (3 - List.length (samples f))
                 (map (get_or_none key) (filter (has_field key) items)))%list.
Proof.
  revert f. induction items as [|item items IH]; intros f; cbn [fold_left].
  - unfold having. cbn. rewrite firstn_nil, app_nil_r. destruct f. cbn. f_equal. lia.
  - rewrite IH. unfold sample_field, having. cbn [filter].
    destruct (has_field key item); cbn [count samples List.length map]; [|reflexivity].
    f_equal; [lia|].
    destruct (Z.of_nat (List.length (samples f)) <? 3) eqn:E.
    + apply Z.ltb_lt in E. rewrite length_app, <- app_assoc. cbn [List.length app].
      f_equal. replace (3 - List.length (samples f))%nat
        with (S (3 - (List.length (samples f) + 1)))%nat by lia.
      reflexivity.
    + apply Z.ltb_ge in E.
      replace (3 - List.length (samples f))%nat with 0%nat by lia. reflexivity.
Qed.

(** X15.  [generate_extraction_summary] counts the first five items twice.
    For each of the fields [title], [url] and [date], the counter is the
    number of items that have the field plus the number of those among the
    first five, so it exceeds the number of items that have the field as
    soon as one of the first five has it; the samples are the values of
    the first three of the first five items that have the field; and
    [total_items] is the number of items. *)
Theorem summary_counts_first_five_twice (key : string) (results : list dict) :
  In key ["title"; "url"; "date"] ->
  let summary := generate_extraction_summary results in
  count (field_of key summary) = having key results + having key (firstn 5 results)
  /\ samples (field_of key summary)
     = firstn 3 (map (get_or_none key) (filter (has_field key) (firstn 5 results)))
  /\ total_items summary = Z.of_nat (List.length results)
  /\ (0 < having key (firstn 5 results) ->
      having key results < count (field_of key summary)).
Proof.
  intros Hkey. cbv zeta. rewrite (summary_field key results Hkey).
  rewrite count_loop, sample_loop. cbn [count samples List.length app Nat.sub].
  split; [lia|]. split; [reflexivity|]. split; [|lia].
  unfold generate_extraction_summary.
  set (step1 := fun (s : Summary) (item : dict) =>
                  mkSummary _ (sample_field _ _ _) _ _).
  set (step2 := fun (s : Summary) (item : dict) =>
                  mkSummary _ (count_field _ _ _) _ _).
  assert (H : forall step : Summary -> dict -> Summary,
             (forall s item, total_items (step s item) = total_items s) ->
             forall (l : list dict) s,
               total_items (fold_left step l s) = total_items s).
  { intros step Hstep. induction l as [|item l IH]; intros s; [reflexivity|].
    cbn [fold_left]. rewrite IH. apply Hstep. }
  rewrite (H step2), (H step1); reflexivity.
Qed.

Lemma summary_counts_first_five_twice_witness :
  count (with_title (generate_extraction_summary seven_items)) = 6 + 4
  /\ having "title" seven_items
     < count (with_title (generate_extraction_summary seven_items)).
Proof.
  destruct (summary_counts_first_five_twice "title" seven_items)
    as (Hcount & _ & _ & Hmore); [left; reflexivity|].
  split; [exact Hcount | exact (Hmore eq_refl)].
Defined.

End ExtractionFacts.

(** ** The content handed to the analysis *)

Module FetchingFacts.
Import PyStr AiService Fetching.

Lemma take_points_bound (n : nat) (s : string) :
  0 <= len_points (take_points n s) <= Z.of_nat n.
Proof.
  revert n. induction s as [|c s IH]; intros n; cbn [take_points len_points].
  - lia.
  - destruct (is_continuation c) eqn:Ec.
    + cbn [len_points]. rewrite Ec. apply IH.
    + destruct n as [|n]; cbn [len_points]; [lia|].
      rewrite Ec. specialize (IH n). lia.
Qed.

Lemma head_bound (s : string) :
  len_points (head CONTENT_MAX_LENGTH s) <= CONTENT_MAX_LENGTH.
Proof.
  unfold head. pose proof (take_points_bound (Z.to_nat CONTENT_MAX_LENGTH) s) as H.
  unfold CONTENT_MAX_LENGTH in *. lia.
Qed.

(** X16.  [get_article_content] always reports success and never hands over
    more than [CONTENT_MAX_LENGTH] characters, whatever the request came
    back with.  The fetched text is used only when the request succeeded
    with more than 100 characters; in every other case the content is the
    head of the stored content of the article, and the error of the
    request, if any, is carried along. *)
Theorem content_always_there_and_bounded
    (USE_URL_FETCH : bool) (article_content : string) (reply : Reply) :
  let result := get_article_content USE_URL_FETCH article_content reply in
  success result = true
  /\ len_points (content result) <= CONTENT_MAX_LENGTH
  /\ (source result = "fetched"
      /\ (exists extracted_content, reply = Answered 200 extracted_content)
      /\ 100 < len_points (strip (content result))
      \/ source result <> "fetched"
         /\ content result = head CONTENT_MAX_LENGTH article_content
         /\ error_message result
            = (if USE_URL_FETCH then error_message (fetch_webpage_content reply)
               else None)).
Proof.
  cbv zeta. unfold get_article_content.
  destruct USE_URL_FETCH; cbn [negb].
  2:{ cbn [success content source error_message].
      split; [reflexivity|]. split; [apply head_bound|].
      right. split; [discriminate|]. split; reflexivity. }
  destruct (success (fetch_webpage_content reply)
            && (100 <? len_points (strip (content (fetch_webpage_content reply)))))%bool
    eqn:E.
  - apply andb_true_iff in E as [Hs Hlen]. apply Z.ltb_lt in Hlen.
    split; [exact Hs|].
    destruct reply as [status extracted_content| |e]; cbn in Hs; try discriminate Hs.
    unfold fetch_webpage_content in *.
    destruct (status =? 200) eqn:Est; cbn [negb] in *; [|discriminate Hs].
    apply Z.eqb_eq in Est. subst status.
    cbn [content source success]. split; [apply head_bound|].
    left. split; [reflexivity|]. split; [eexists; reflexivity|exact Hlen].
  - cbn [success content source error_message].
    split; [reflexivity|]. split; [apply head_bound|].
    right. split; [discriminate|]. split; reflexivity.
Qed.

End FetchingFacts.

(** ** Saving a manual configuration *)

Module SaveSourceFacts.
Import PyStr Models ScraperMain SaveSource ModelsFacts.

Lemma new_keeps_selectors (a : ScraperRecipe) (i : Instance) :
  new a = Ok i ->
  pagination_mode (fields i) = pagination_mode a
  /\ next_page_selector (fields i) = next_page_selector a.
Proof.
  unfold new, __post_init__. intros H.
  set (self1 := if drupal_detected (mkInstance a false) then _ else _) in H.
  assert (Hx : pagination_mode (fields self1) = pagination_mode a
               /\ next_page_selector (fields self1) = next_page_selector a).
  { unfold self1. destruct (drupal_detected _); [destruct (negb _)|];
      cbn [fields]; split; reflexivity. }
  destruct Hx as [Hm Hs]. cbv zeta in H.
  repeat match type of H with
         | (if ?c then _ else _) = _ => destruct c; [discriminate H|]
         end.
  injection H as <-. cbn [fields]. rewrite <- Hm, <- Hs.
  destruct (max_pages (fields self1) <=? 0);
    [destruct (wait_ms (set_max_pages 1 (fields self1)) <? 0)
    |destruct (wait_ms (fields self1) <? 0)]; split; reflexivity.
Qed.

Section Saved.

Variable soup_select : string -> string -> option (list Element).
Variable urljoin_defrag : string -> string -> string.

(** X17.  The handler stores the recipe without constructing it, and writes
    the selector of a mode only in that mode.  So a form whose mode asks
    for a field that is empty is stored all the same, and the stored
    recipe is refused with [ValueError] whenever it is loaded; and a
    stored recipe that loads gives a next page only in the modes [next]
    and [number]: in every other mode, a next-page selector of the form
    having been dropped, the scraper finds no next page on any page. *)
Theorem stored_recipe_loads_and_pages (form : Form.t) (domain : string)
    (recipe : ScraperRecipe) :
  api_create_or_update_source_enhanced form = Ok (Stored domain recipe) ->
  Crud._parse_domain (Form.domain form) = Ok domain
  /\ domain <> EmptyString
  /\ recipe = recipe_data domain form
  /\ (forall field, required_field form = Some field -> truthy field = false ->
      new recipe = Raise (ValueError (requirement_error (Form.pagination_mode form))))
  /\ (forall i, new recipe = Ok i ->
      Form.pagination_mode form <> "next" ->
      Form.pagination_mode form <> "number" ->
      forall html current_url page_num,
        _get_next_page_url soup_select urljoin_defrag (fields i)
                           html current_url page_num = None).
Proof.
  unfold api_create_or_update_source_enhanced. intros H.
  destruct (Crud._parse_domain (Form.domain form)) as [d|e|] eqn:Hd;
    [|discriminate H|discriminate H].
  destruct (is_empty d) eqn:He; [discriminate H|].
  injection H as <- <-.
  split; [reflexivity|]. split; [intros ->; discriminate He|].
  split; [reflexivity|]. split.
  - intros field Hf Ht. unfold required_field in Hf. cbv zeta in Hf.
    destruct (String.eqb (Form.pagination_mode form) "number") eqn:E1.
    { injection Hf as <-. apply String.eqb_eq in E1.
      apply (new_requires _ (Form.pagination_mode form) page_pattern);
        [intros; reflexivity|rewrite E1; cbn [In]; auto|reflexivity|].
      unfold recipe_data. cbv zeta. cbn [page_pattern]. rewrite E1. exact Ht. }
    destruct (String.eqb (Form.pagination_mode form) "next") eqn:E2.
    { injection Hf as <-. apply String.eqb_eq in E2.
      apply (new_requires _ (Form.pagination_mode form) next_page_selector);
        [intros; reflexivity|rewrite E2; cbn [In]; auto|reflexivity|].
      unfold recipe_data. cbv zeta. cbn [next_page_selector]. rewrite E2. exact Ht. }
    destruct (String.eqb (Form.pagination_mode form) "loadmore") eqn:E3;
      [|discriminate Hf].
    injection Hf as <-. apply String.eqb_eq in E3.
    apply (new_requires _ (Form.pagination_mode form) load_more_selector);
      [intros; reflexivity|rewrite E3; cbn [In]; auto|reflexivity|].
    unfold recipe_data. cbv zeta. cbn [load_more_selector]. rewrite E3. exact Ht.
  - intros i Hi Hnext Hnumber html current_url page_num.
    destruct (new_keeps_selectors _ _ Hi) as [Hm Hs].
    unfold recipe_data in Hm, Hs. cbv zeta in Hm, Hs.
    cbn [pagination_mode next_page_selector] in Hm, Hs.
    apply String.eqb_neq in Hnext, Hnumber. rewrite Hnext in Hs.
    unfold _get_next_page_url.
    destruct (page_num >=? max_pages_or_1 (fields i) - 1); [reflexivity|].
    cbv zeta. rewrite Hm, Hs, Hnumber, Hnext. cbn [andb default_recipe next_page_selector].
    destruct (String.eqb (Form.pagination_mode form) "loadmore"); [reflexivity|].
    destruct (is_empty (Form.pagination_mode form) || _)%bool; reflexivity.
Qed.

End Saved.

Lemma stored_recipe_loads_and_pages_witness :
  api_create_or_update_source_enhanced (bare_form "https://www.X.com/news")
  = Ok (Stored "x.com" (recipe_data "x.com" (bare_form "https://www.X.com/news")))
  /\ new (recipe_data "x.com" (bare_form "https://www.X.com/news"))
     = Raise (ValueError "下一页链接模式需要设置next_page_selector")
  /\ (exists i, new (recipe_data "x.com" none_with_selector) = Ok i
                /\ max_pages (fields i) = 5
                /\ _get_next_page_url Samples.empty_page Samples.keep_href (fields i)
                                      EmptyString "https://x.com/" 0 = None).
Proof.
  split; [reflexivity|].
  destruct (stored_recipe_loads_and_pages
              Samples.empty_page Samples.keep_href
              (bare_form "https://www.X.com/news") "x.com" _ eq_refl)
    as (_ & _ & _ & Hrefused & _).
  split; [exact (Hrefused None eq_refl eq_refl)|].
  destruct (stored_recipe_loads_and_pages
              Samples.empty_page Samples.keep_href
              none_with_selector "x.com" _ eq_refl)
    as (_ & _ & _ & _ & Hpages).
  assert (Hnew : new (recipe_data "x.com" none_with_selector)
                 = Ok (mkInstance (recipe_data "x.com" none_with_selector) false))
    by (vm_compute; reflexivity).
  exists (mkInstance (recipe_data "x.com" none_with_selector) false).
  split; [exact Hnew|]. split; [reflexivity|].
  apply (Hpages _ Hnew); intros E; discriminate E.
Defined.

End SaveSourceFacts.

(** ** Reading integers back *)

Module PyIntFacts.
Import PyStr PyRepr PyInt PyStrFacts.

Lemma uint_value_acc (d : Decimal.uint) (acc : positive) :
  uint_value d (Z.pos acc) = Z.pos (Pos.of_uint_acc d acc).
Proof.
  revert acc. induction d; intros acc; cbn [uint_value Pos.of_uint_acc];
    [reflexivity|..];
    match goal with
    | |- uint_value _ ?a = Z.pos (Pos.of_uint_acc _ ?b) =>
        replace a with (Z.pos b)
          by (rewrite ?Pos2Z.inj_add, ?Pos2Z.inj_mul; lia)
    end; apply IHd.
Qed.

Lemma uint_value_of_uint (d : Decimal.uint) : uint_value d 0 = Z.of_uint d.
Proof.
  unfold Z.of_uint.
  induction d; cbn [uint_value Pos.of_uint]; [reflexivity|exact IHd|..];
    match goal with
    | |- uint_value _ ?a = Z.of_N (N.pos (Pos.of_uint_acc _ ?b)) =>
        change a with (Z.pos b)
    end; apply uint_value_acc.
Qed.

Lemma scan_digit (c : ascii) (s : string) (acc count : Z) (prev : seen) :
  is_digit c = true ->
  scan (String c s) acc count prev
  = scan s (acc * 10 + (Z.of_nat (code c) - 48)) (count + 1) Digit.
Proof. intros H. cbn [scan]. rewrite H. reflexivity. Qed.

Ltac digit_value :=
  match goal with
  | |- context [Z.of_nat (code ?c) - 48] =>
      let v := eval vm_compute in (Z.of_nat (code c) - 48) in
      change (Z.of_nat (code c) - 48) with v
  end.

Lemma scan_digits (d : Decimal.uint) (acc count : Z) :
  scan (NilEmpty.string_of_uint d) acc count Digit
  = Some (uint_value d acc,
          count + Z.of_nat (String.length (NilEmpty.string_of_uint d)),
          EmptyString).
Proof.
  revert acc count. induction d; intros acc count;
    cbn [NilEmpty.string_of_uint uint_value];
    [cbn [scan String.length]; do 3 f_equal; lia|..];
    (rewrite scan_digit by reflexivity; rewrite IHd;
     cbn [String.length]; rewrite Nat2Z.inj_succ; digit_value;
     replace (count + 1 + Z.of_nat (String.length (NilEmpty.string_of_uint d)))
       with (count + Z.succ (Z.of_nat (String.length (NilEmpty.string_of_uint d))))
       by lia;
     reflexivity).
Qed.

Lemma scan_uint (d : Decimal.uint) (acc count : Z) :
  d <> Decimal.Nil ->
  scan (NilEmpty.string_of_uint d) acc count Nothing
  = Some (uint_value d acc,
          count + Z.of_nat (String.length (NilEmpty.string_of_uint d)),
          EmptyString).
Proof.
  intros Hd. destruct d; [congruence|..];
    cbn [NilEmpty.string_of_uint uint_value];
    (rewrite scan_digit by reflexivity; rewrite scan_digits;
     cbn [String.length]; rewrite Nat2Z.inj_succ; digit_value;
     replace (count + 1 + Z.of_nat (String.length (NilEmpty.string_of_uint d)))
       with (count + Z.succ (Z.of_nat (String.length (NilEmpty.string_of_uint d))))
       by lia;
     reflexivity).
Qed.

Lemma uint_chars (d : Decimal.uint) :
  all_chars is_digit (NilEmpty.string_of_uint d) = true.
Proof. induction d; cbn [NilEmpty.string_of_uint all_chars]; [reflexivity|..]; exact IHd. Qed.

Lemma str_of_int_chars (n : Z) : all_chars digit_or_minus (str_of_int n) = true.
Proof.
  assert (H : forall d, all_chars digit_or_minus (NilZero.string_of_uint d) = true).
  { intros d. destruct d; [reflexivity|..];
      apply (all_chars_weaken is_digit); try apply uint_chars;
      intros c Hc; unfold digit_or_minus; rewrite Hc; reflexivity. }
  unfold str_of_int. destruct (Z.to_int n); cbn [NilZero.string_of_int]; [apply H|].
  cbn [all_chars]. rewrite H. reflexivity.
Qed.

Lemma str_of_int_not_empty (n : Z) : is_empty (str_of_int n) = false.
Proof.
  unfold str_of_int. destruct n; cbn [Z.to_int NilZero.string_of_int]; [reflexivity| |reflexivity].
  pose proof (DecimalPos.Unsigned.to_uint_nonnil p) as Hp.
  destruct (Pos.to_uint p); [congruence|..]; reflexivity.
Qed.

(** [int(str(n))] is [n], as long as the text stays within the digit
    limit. *)
Lemma int_of_str_of_int (n : Z) :
  Z.of_nat (String.length (str_of_int n)) <= MAX_STR_DIGITS ->
  int_of_str (str_of_int n) = Ok n.
Proof.
  intros Hlen. unfold int_of_str.
  assert (Hascii : isascii (str_of_int n) = true).
  { apply (all_chars_weaken digit_or_minus); [|apply str_of_int_chars].
    intros c. unfold digit_or_minus, is_digit, in_range, is_ascii_char, code.
    intros H. apply orb_true_iff in H as [H|H].
    - apply andb_true_iff in H as [_ H]. apply Nat.leb_le in H. apply Nat.leb_le. lia.
    - apply Ascii.eqb_eq in H. subst c. reflexivity. }
  rewrite Hascii. cbn [negb]. unfold str_of_int in *.
  pose proof (DecimalZ.of_to n) as Hn.
  destruct n as [|p|p]; cbn [Z.to_int NilZero.string_of_int] in *.
  - reflexivity.
  - pose proof (DecimalPos.Unsigned.to_uint_nonnil p) as Hp.
    set (d := Pos.to_uint p) in *.
    assert (Hs : NilZero.string_of_uint d = NilEmpty.string_of_uint d)
      by (destruct d; [congruence|..]; reflexivity).
    rewrite Hs in *.
    assert (Hdig : all_chars is_digit (NilEmpty.string_of_uint d) = true)
      by apply uint_chars.
    assert (Hl : lstrip_by c_space (NilEmpty.string_of_uint d) = NilEmpty.string_of_uint d).
    { destruct (NilEmpty.string_of_uint d) as [|c s]; [reflexivity|].
      cbn [all_chars] in Hdig. apply andb_true_iff in Hdig as [Hc _].
      cbn [lstrip_by]. replace (c_space c) with false; [reflexivity|].
      revert Hc. unfold is_digit, c_space, in_range, code.
      intros Hc. apply andb_true_iff in Hc as [H1 H2].
      apply Nat.leb_le in H1, H2. symmetry. apply orb_false_iff. split.
      - apply andb_false_iff. right. apply Nat.leb_gt. lia.
      - apply Nat.eqb_neq. lia. }
    rewrite Hl.
    assert (Hsign : (let (negative, t) :=
                       match NilEmpty.string_of_uint d with
                       | String "+" t' => (false, t')
                       | String "-" t' => (true, t')
                       | _ => (false, NilEmpty.string_of_uint d)
                       end in
                     (negative, t)) = (false, NilEmpty.string_of_uint d)).
    { destruct d; [congruence|..]; reflexivity. }
    destruct (match NilEmpty.string_of_uint d with
              | String "+" t' => (false, t')
              | String "-" t' => (true, t')
              | _ => (false, NilEmpty.string_of_uint d)
              end) as [negative t].
    injection Hsign as -> ->.
    rewrite (scan_uint d 0 0 Hp).
    replace (MAX_STR_DIGITS <? 0 + Z.of_nat (String.length (NilEmpty.string_of_uint d)))
      with false by (symmetry; apply Z.ltb_ge; lia).
    cbn [lstrip_by is_empty]. rewrite uint_value_of_uint. f_equal. exact Hn.
  - pose proof (DecimalPos.Unsigned.to_uint_nonnil p) as Hp.
    set (d := Pos.to_uint p) in *.
    assert (Hs : NilZero.string_of_uint d = NilEmpty.string_of_uint d)
      by (destruct d; [congruence|..]; reflexivity).
    rewrite Hs in *.
    cbn [lstrip_by]. change (c_space "-") with false. cbv iota beta.
    rewrite (scan_uint d 0 0 Hp).
    cbn [String.length] in Hlen.
    replace (MAX_STR_DIGITS <? 0 + Z.of_nat (String.length (NilEmpty.string_of_uint d)))
      with false by (symmetry; apply Z.ltb_ge; lia).
    cbn [lstrip_by is_empty]. rewrite uint_value_of_uint. f_equal. exact Hn.
Qed.

End PyIntFacts.

(** ** The ids of a request *)

Module IdListFacts.
Import PyStr PyRepr PyInt IdList PyStrFacts PyIntFacts.

Lemma digit_or_minus_not_comma (c : ascii) :
  digit_or_minus c = true -> Ascii.eqb c "," = false.
Proof.
  unfold digit_or_minus, is_digit, in_range, code. intros H.
  apply orb_true_iff in H as [H|H].
  - apply andb_true_iff in H as [H1 H2]. apply Nat.leb_le in H1.
    apply Ascii.eqb_neq. intros ->. cbn in H1. lia.
  - apply Ascii.eqb_eq in H. subst c. reflexivity.
Qed.

Lemma digit_or_minus_not_space (c : ascii) :
  digit_or_minus c = true -> is_space c = false.
Proof.
  unfold digit_or_minus. intros H. apply orb_true_iff in H as [H|H].
  - revert H. unfold is_digit, is_space, in_range, code. intros H.
    apply andb_true_iff in H as [H1 H2]. apply Nat.leb_le in H1, H2.
    apply orb_false_iff. split; apply andb_false_iff; right; apply Nat.leb_gt; lia.
  - apply Ascii.eqb_eq in H. subst c. reflexivity.
Qed.

Lemma split_on_piece (c : ascii) (piece rest : string) :
  has_char (fun a => Ascii.eqb a c) piece = false ->
  split_on c (piece ++ String c rest) = piece :: split_on c rest.
Proof.
  induction piece as [|a piece IH]; cbn [append split_on has_char]; intros H.
  - rewrite Ascii.eqb_refl. reflexivity.
  - apply orb_false_iff in H as [Ha Hp]. rewrite Ha, (IH Hp). reflexivity.
Qed.

Lemma split_on_last (c : ascii) (piece : string) :
  has_char (fun a => Ascii.eqb a c) piece = false ->
  split_on c piece = [piece].
Proof.
  induction piece as [|a piece IH]; cbn [split_on has_char]; intros H; [reflexivity|].
  apply orb_false_iff in H as [Ha Hp]. rewrite Ha, (IH Hp). reflexivity.
Qed.

Lemma split_on_concat (c : ascii) (pieces : list string) :
  pieces <> [] ->
  Forall (fun piece => has_char (fun a => Ascii.eqb a c) piece = false) pieces ->
  split_on c (String.concat (String c EmptyString) pieces) = pieces.
Proof.
  intros Hne Hall. induction Hall as [|piece pieces Hp Hall IH]; [congruence|].
  destruct pieces as [|piece' pieces'].
  - cbn [String.concat]. apply split_on_last. exact Hp.
  - change (String.concat (String c EmptyString) (piece :: piece' :: pieces'))
      with (piece ++ String c (String.concat (String c EmptyString) (piece' :: pieces'))).
    rewrite (split_on_piece c piece _ Hp). f_equal. apply IH. discriminate.
Qed.

Lemma strip_str_of_int (n : Z) : strip (str_of_int n) = str_of_int n.
Proof.
  apply strip_none.
  exact (all_chars_has_not _ _ _ digit_or_minus_not_space (str_of_int_chars n)).
Qed.

Lemma id_list_joined (ids : list Z) :
  forallb within_limit ids = true -> id_list (joined ids) = Ok ids.
Proof.
  intros Hlim. unfold id_list, joined.
  destruct ids as [|id ids]; [reflexivity|].
  rewrite split_on_concat; [|discriminate|].
  2:{ apply Forall_forall. intros piece Hin. apply in_map_iff in Hin as (n & <- & _).
      apply (all_chars_has_not digit_or_minus); [|apply str_of_int_chars].
      exact digit_or_minus_not_comma. }
  revert Hlim. generalize (id :: ids). clear. intros ids.
  induction ids as [|id ids IH]; cbn [forallb map filter]; intros Hlim; [reflexivity|].
  apply andb_true_iff in Hlim as [Hid Hids].
  rewrite strip_str_of_int, str_of_int_not_empty. cbn [negb ints].
  rewrite strip_str_of_int, int_of_str_of_int by (apply Z.leb_le; exact Hid).
  cbn [bind]. rewrite (IH Hids). reflexivity.
Qed.

(** X18.  The ids of a crawl request are read back as they were written: for
    a list of ids that is not empty (each id within the digit limit of
    [int]), the comma-joined decimal texts are parsed into the same list,
    in order, and the crawl asks for exactly these topics. *)
Theorem topic_ids_round_trip (ids : list Z) :
  ids <> [] ->
  forallb within_limit ids = true ->
  id_list (joined ids) = Ok ids
  /\ start_crawling_ids (joined ids) = Ok (TopicsAsked ids).
Proof.
  intros Hne Hlim. pose proof (id_list_joined ids Hlim) as H.
  split; [exact H|]. unfold start_crawling_ids. rewrite H.
  destruct ids; [congruence|reflexivity].
Qed.

Lemma topic_ids_round_trip_witness :
  joined [3; -12; 700] = "3,-12,700"
  /\ start_crawling_ids "3,-12,700" = Ok (TopicsAsked [3; -12; 700]).
Proof.
  split; [reflexivity|].
  exact (proj2 (topic_ids_round_trip [3; -12; 700]
                  ltac:(discriminate) ltac:(vm_compute; reflexivity))).
Defined.

Lemma split_on_ascii (c : ascii) (s : string) :
  isascii s = true -> Forall (fun piece => isascii piece = true) (split_on c s).
Proof.
  unfold isascii. induction s as [|a s IH]; intros H.
  - repeat constructor.
  - cbn [all_chars] in H. apply andb_true_iff in H as [Ha Hs]. specialize (IH Hs).
    cbn [split_on]. destruct (Ascii.eqb a c).
    + constructor; [reflexivity|exact IH].
    + destruct (split_on c s) as [|w ws].
      * repeat constructor. cbn [all_chars]. rewrite Ha. reflexivity.
      * inversion IH as [|? ? Hw Hws]; subst. constructor; [|exact Hws].
        cbn [all_chars]. rewrite Ha. exact Hw.
Qed.

Lemma int_of_str_ascii (s : string) :
  isascii s = true -> int_of_str s <> Unmodelled.
Proof.
  intros H. unfold int_of_str. rewrite H. cbn [negb].
  destruct (lstrip_by c_space s) as [|c t]; cbv zeta.
  - cbn. discriminate.
  - set (signed := match String c t with
                   | String "+" t' => (false, t')
                   | String "-" t' => (true, t')
                   | _ => (false, String c t)
                   end).
    destruct signed as [negative rest].
    destruct (scan rest 0 0 Nothing) as [[[acc count] left]|]; [|discriminate].
    destruct (MAX_STR_DIGITS <? count); [discriminate|].
    destruct (is_empty (lstrip_by c_space left)); discriminate.
Qed.

(** The ids read off ASCII pieces that are not blank: a list with an id
    for every piece, or the exception of the first piece that is no
    literal. *)
Lemma ints_ascii (pieces : list string) :
  Forall (fun piece => isascii piece = true) pieces ->
  (exists ids, ints pieces = Ok ids /\ List.length ids = List.length pieces)
  \/ (exists e, ints pieces = Raise e).
Proof.
  induction 1 as [|id pieces Hid Hall IH]; [left; exists []; split; reflexivity|].
  cbn [ints].
  pose proof (int_of_str_ascii (strip id) (PyStrFacts.isascii_strip id Hid)) as Hm.
  destruct (int_of_str (strip id)) as [n|e|]; cbn [bind];
    [|right; eauto|congruence].
  destruct IH as [(ids & -> & Hlen)|(e & ->)]; cbn [bind]; [left|right; eauto].
  exists (n :: ids). split; [reflexivity|]. cbn [List.length]. rewrite Hlen. reflexivity.
Qed.

(** X19.  For [topic_ids] given as ASCII text (where [strip] and [int] of
    the model are those of Python): the crawl answers that no topic was
    chosen exactly when every comma-separated piece of [topic_ids] is
    blank, the empty text included; otherwise every piece that is not
    blank gives a topic id and the crawl asks for these topics, or the
    first piece that is no integer literal turns the answer into the
    failure message of the crawl. *)
Theorem no_topic_chosen (topic_ids : string) :
  isascii topic_ids = true ->
  (start_crawling_ids topic_ids = Ok (ErrorAnswer "请至少选择一个议题")
   <-> forallb blank (split_on "," topic_ids) = true)
  /\ (forallb blank (split_on "," topic_ids) = false ->
      (exists ids,
         start_crawling_ids topic_ids = Ok (TopicsAsked ids)
         /\ List.length ids
            = List.length (filter (fun id => negb (blank id)) (split_on "," topic_ids))
         /\ ids <> [])
      \/ (exists e,
            start_crawling_ids topic_ids = Ok (ErrorAnswer ("爬取失败: " ++ str_of_exn e)))).
Proof.
  intros Hascii. unfold start_crawling_ids, id_list.
  pose proof (split_on_ascii "," topic_ids Hascii) as Hpieces.
  split.
  - clear Hpieces.
    induction (split_on "," topic_ids) as [|id pieces IH]; cbn [filter forallb].
    + split; reflexivity.
    + unfold blank at 1. destruct (is_empty (strip id)) eqn:E; cbn [negb andb].
      * exact IH.
      * split; [|discriminate]. cbn [ints].
        destruct (int_of_str (strip id)) as [n|e|]; cbn [bind];
          [|intros H; injection H as H; discriminate H|discriminate].
        destruct (ints (filter (fun id0 => negb (is_empty (strip id0))) pieces))
          as [ns|e|]; cbn [bind Json.is_nil];
          [discriminate|intros H; injection H as H; discriminate H|discriminate].
  - intros Hblank.
    change (fun id => negb (blank id)) with (fun id => negb (is_empty (strip id))).
    set (chosen := filter (fun id => negb (is_empty (strip id))) (split_on "," topic_ids)).
    assert (Hchosen : Forall (fun piece => isascii piece = true) chosen).
    { apply Forall_forall. intros piece Hin. apply filter_In in Hin as [Hin _].
      rewrite Forall_forall in Hpieces. exact (Hpieces piece Hin). }
    assert (Hsome : chosen <> []).
    { unfold chosen. intros Hnil.
      assert (Hall : forallb blank (split_on "," topic_ids) = true); [|congruence].
      apply forallb_forall. intros piece Hin. unfold blank.
      destruct (is_empty (strip piece)) eqn:E; [reflexivity|].
      assert (Hx : In piece (filter (fun id => negb (is_empty (strip id)))
                                    (split_on "," topic_ids))).
      { apply filter_In. split; [exact Hin|]. rewrite E. reflexivity. }
      rewrite Hnil in Hx. destruct Hx. }
    destruct (ints_ascii chosen Hchosen) as [(ids & Hids & Hlen)|(e & He)].
    + left. exists ids. rewrite Hids.
      destruct ids as [|n ids].
      * destruct chosen; [congruence|discriminate Hlen].
      * split; [reflexivity|]. split; [exact Hlen|discriminate].
    + right. exists e. rewrite He. reflexivity.
Qed.

Lemma no_topic_chosen_witness :
  start_crawling_ids " , ," = Ok (ErrorAnswer "请至少选择一个议题")
  /\ ((exists ids,
         start_crawling_ids "3, x" = Ok (TopicsAsked ids)
         /\ List.length ids
            = List.length (filter (fun id => negb (blank id)) (split_on "," "3, x"))
         /\ ids <> [])
      \/ (exists e,
            start_crawling_ids "3, x" = Ok (ErrorAnswer ("爬取失败: " ++ str_of_exn e)))).
Proof.
  split.
  - apply (proj1 (no_topic_chosen " , ," eq_refl)). reflexivity.
  - apply (proj2 (no_topic_chosen "3, x" eq_refl)). reflexivity.
Defined.

End IdListFacts.

(** ** Truth of a form value *)

Module BoolifyFacts.
Import PyStr PyRepr PyInt Boolify PyStrFacts PyIntFacts IdListFacts.

Lemma digit_or_minus_not_upper (c : ascii) :
  digit_or_minus c = true -> is_upper c = false.
Proof.
  unfold digit_or_minus. intros H. apply orb_true_iff in H as [H|H].
  - revert H. unfold is_digit, is_upper, in_range, code. intros H.
    apply andb_true_iff in H as [H1 H2]. apply Nat.leb_le in H1, H2.
    apply andb_false_iff. left. apply Nat.leb_gt. lia.
  - apply Ascii.eqb_eq in H. subst c. reflexivity.
Qed.

Lemma true_word_int (n : Z) :
  existsb (String.eqb (lower (strip (str_of_int n)))) TRUE_WORDS = (n =? 1).
Proof.
  rewrite strip_str_of_int.
  rewrite (lower_none _ (all_chars_has_not _ _ _ digit_or_minus_not_upper
                           (str_of_int_chars n))).
  destruct (n =? 1) eqn:E.
  - apply Z.eqb_eq in E. subst n. reflexivity.
  - apply Z.eqb_neq in E. apply not_true_is_false. intros H.
    apply existsb_exists in H as (word & Hin & Hw). apply String.eqb_eq in Hw.
    pose proof (str_of_int_chars n) as Hchars. rewrite Hw in Hchars.
    cbn [TRUE_WORDS In] in Hin.
    destruct Hin as [<-|[<-|[<-|[<-|[<-|[]]]]]]; try discriminate Hchars.
    assert (Hround : int_of_str (str_of_int n) = Ok n).
    { apply int_of_str_of_int. rewrite Hw. cbn. unfold MAX_STR_DIGITS. lia. }
    rewrite Hw in Hround. vm_compute in Hround. congruence.
Qed.

(** What [strip] removes: whitespace before and after what it keeps. *)
Lemma lstrip_split (p : ascii -> bool) (s : string) :
  exists before, s = before ++ lstrip_by p s /\ all_chars p before = true.
Proof.
  induction s as [|c s IH]; [exists EmptyString; split; reflexivity|].
  cbn [lstrip_by]. destruct (p c) eqn:Ec; [|exists EmptyString; split; reflexivity].
  destruct IH as (before & Hs & Hb). exists (String c before).
  cbn [append all_chars]. rewrite Ec, Hb, <- Hs. split; reflexivity.
Qed.

Lemma rstrip_split (p : ascii -> bool) (s : string) :
  exists after, s = rstrip_by p s ++ after /\ all_chars p after = true.
Proof.
  induction s as [|c s IH]; [exists EmptyString; split; reflexivity|].
  cbn [rstrip_by]. destruct IH as (after & Hs & Ha).
  destruct (rstrip_by p s) as [|d r] eqn:E.
  - cbn [append] in Hs. subst s. destruct (p c) eqn:Ec.
    + exists (String c after). cbn [append all_chars]. rewrite Ec, Ha. split; reflexivity.
    + exists after. split; [reflexivity|exact Ha].
  - exists after. cbn [append] in *. rewrite <- Hs. split; [reflexivity|exact Ha].
Qed.

Lemma strip_split (s : string) :
  exists before after,
    s = before ++ strip s ++ after
    /\ all_chars is_space before = true /\ all_chars is_space after = true.
Proof.
  destruct (rstrip_split is_space s) as (after & Hs & Ha).
  destruct (lstrip_split is_space (rstrip_by is_space s)) as (before & Hr & Hb).
  exists before, after. split; [|split; assumption].
  unfold strip. rewrite Hs at 1. rewrite Hr at 1.
  apply RecipesFacts.append_assoc.
Qed.

Lemma rstrip_spaces (s : string) :
  all_chars is_space s = true -> rstrip_by is_space s = EmptyString.
Proof.
  induction s as [|c s IH]; [reflexivity|]. cbn [all_chars rstrip_by]. intros H.
  apply andb_true_iff in H as [Hc Hs]. rewrite (IH Hs), Hc. reflexivity.
Qed.

Lemma rstrip_app_spaces (s after : string) :
  all_chars is_space after = true ->
  rstrip_by is_space (s ++ after) = rstrip_by is_space s.
Proof.
  intros Ha. induction s as [|c s IH]; cbn [append rstrip_by].
  - apply rstrip_spaces, Ha.
  - rewrite IH. reflexivity.
Qed.

Lemma lstrip_spaces_app (before s : string) :
  all_chars is_space before = true ->
  lstrip_by is_space (before ++ s) = lstrip_by is_space s.
Proof.
  induction before as [|c before IH]; [reflexivity|]. cbn [all_chars append lstrip_by].
  intros H. apply andb_true_iff in H as [Hc Hb]. rewrite Hc. exact (IH Hb).
Qed.

Lemma ends_clean_app (before word : string) :
  word <> EmptyString -> ScrapedItems.ends_clean word = true ->
  ScrapedItems.ends_clean (before ++ word) = true.
Proof.
  intros Hne He. induction before as [|c before IH]; [exact He|].
  cbn [append]. rewrite ScrapedItemsFacts.ends_clean_cons.
  destruct (before ++ word) as [|d r] eqn:E; [|exact IH].
  destruct before; [cbn [append] in E; contradiction|discriminate E].
Qed.

(** A word without whitespace at its ends is what [strip] keeps of it,
    whatever whitespace is put around it. *)
Lemma strip_padded (before word after : string) :
  all_chars is_space before = true -> all_chars is_space after = true ->
  word <> EmptyString ->
  ScrapedItems.starts_clean word = true -> ScrapedItems.ends_clean word = true ->
  strip (before ++ word ++ after) = word.
Proof.
  intros Hb Ha Hne Hs He. unfold strip.
  rewrite <- RecipesFacts.append_assoc, (rstrip_app_spaces _ _ Ha).
  rewrite (ScrapedItemsFacts.rstrip_fixed _ (ends_clean_app before word Hne He)).
  rewrite (lstrip_spaces_app _ _ Hb).
  apply ScrapedItemsFacts.lstrip_fixed, Hs.
Qed.

Lemma lower_char_space (c : ascii) : is_space (lower_char c) = is_space c.
Proof. destruct c as [[] [] [] [] [] [] [] []]; reflexivity. Qed.

Lemma lower_clean (s : string) :
  ScrapedItems.starts_clean (lower s) = ScrapedItems.starts_clean s
  /\ ScrapedItems.ends_clean (lower s) = ScrapedItems.ends_clean s
  /\ (lower s = EmptyString <-> s = EmptyString).
Proof.
  split; [|split].
  - destruct s; [reflexivity|]. cbn. rewrite lower_char_space. reflexivity.
  - induction s as [|c s IH]; [reflexivity|]. cbn [lower].
    rewrite !ScrapedItemsFacts.ends_clean_cons, lower_char_space, IH.
    destruct s; reflexivity.
  - destruct s; split; try discriminate; reflexivity.
Qed.

Lemma true_word_clean (word : string) :
  In (lower word) TRUE_WORDS ->
  word <> EmptyString
  /\ ScrapedItems.starts_clean word = true /\ ScrapedItems.ends_clean word = true.
Proof.
  intros Hin. destruct (lower_clean word) as (Hs & He & Hn).
  rewrite <- Hs, <- He.
  cbn [TRUE_WORDS In] in Hin.
  destruct Hin as [H|[H|[H|[H|[H|[]]]]]]; rewrite <- H in *;
    (split; [intros E; apply Hn in E; discriminate E|split; reflexivity]).
Qed.

(** The test of [_boolify] on a text. *)
Lemma true_word_text (s : string) :
  existsb (String.eqb (lower (strip s))) TRUE_WORDS = true <-> says_yes s.
Proof.
  split.
  - intros H. apply existsb_exists in H as (word & Hin & Hw).
    apply String.eqb_eq in Hw. subst word.
    destruct (strip_split s) as (before & after & Hs & Hb & Ha).
    exists before, (strip s), after. auto.
  - intros (before & word & after & -> & Hb & Ha & Hin).
    destruct (true_word_clean word Hin) as (Hne & Hs & He).
    rewrite (strip_padded before word after Hb Ha Hne Hs He).
    apply existsb_exists. exists (lower word). split; [exact Hin|apply String.eqb_refl].
Qed.

(** X20.  For a value that is [True], [False], [None], an integer or an
    ASCII text (where [strip] and [lower] of the model are those of
    Python): [_boolify] says yes to [True], to the integer 1 and to the
    texts that are one of [1], [true], [on], [yes], [y], the letters in
    either case, with nothing but whitespace around the word, and to
    nothing else; [None] is false, and any other integer, [2] and [-1]
    included, is false or, beyond the digit limit of [str], an error. *)
Theorem boolify_true_values (v : value) :
  (forall s, v = VStr s -> isascii s = true) ->
  (_boolify v = Ok true
   <-> v = VBool true \/ v = VInt 1 \/ exists s, v = VStr s /\ says_yes s)
  /\ (v = VNone -> _boolify v = Ok false)
  /\ (forall n, v = VInt n -> n <> 1 ->
      _boolify v = Ok false \/ _boolify v = Raise str_limit_error)
  /\ (forall s, v = VStr s -> exists b, _boolify v = Ok b).
Proof.
  intros _. split; [|split; [|split]].
  - destruct v as [b| |n|s]; cbn [_boolify].
    + split.
      * intros H. injection H as ->. left. reflexivity.
      * intros [H|[H|(s & H & _)]]; try discriminate H. injection H as ->. reflexivity.
    + split; [discriminate|]. intros [H|[H|(s & H & _)]]; discriminate H.
    + cbn [str_of_value].
      destruct (MAX_STR_DIGITS <? Z.of_nat (String.length (str_of_int (Z.abs n)))) eqn:El;
        cbn [bind].
      * split; [discriminate|]. intros [H|[H|(s & H & _)]]; try discriminate H.
        injection H as ->. vm_compute in El. discriminate El.
      * rewrite true_word_int. split.
        -- intros H. injection H as H. apply Z.eqb_eq in H. subst n.
           right. left. reflexivity.
        -- intros [H|[H|(s & H & _)]]; try discriminate H. injection H as ->. reflexivity.
    + cbn [str_of_value bind]. split.
      * intros H. injection H as H. right. right. exists s. split; [reflexivity|].
        apply true_word_text. exact H.
      * intros [H|[H|(s' & H & Hyes)]]; try discriminate H. injection H as <-.
        f_equal. apply true_word_text. exact Hyes.
  - intros ->. reflexivity.
  - intros n -> Hn. cbn [_boolify str_of_value].
    destruct (MAX_STR_DIGITS <? Z.of_nat (String.length (str_of_int (Z.abs n))));
      cbn [bind]; [right; reflexivity|left].
    rewrite true_word_int. apply Z.eqb_neq in Hn. rewrite Hn. reflexivity.
  - intros s ->. cbn [_boolify str_of_value bind]. eauto.
Qed.

Lemma boolify_true_values_witness :
  _boolify (VStr "  Yes ") = Ok true
  /\ _boolify (VStr "no") = Ok false
  /\ (_boolify (VInt 2) = Ok false \/ _boolify (VInt 2) = Raise str_limit_error).
Proof.
  split; [|split].
  - apply (proj1 (boolify_true_values (VStr "  Yes ")
                    ltac:(intros s H; injection H as <-; reflexivity))).
    right. right. exists "  Yes ". split; [reflexivity|].
    exists "  ", "Yes", " ". repeat split; try reflexivity.
    cbn. auto.
  - reflexivity.
  - apply (proj1 (proj2 (proj2 (boolify_true_values (VInt 2)
                    ltac:(intros s H; discriminate H)))) 2 eq_refl).
    discriminate.
Defined.

End BoolifyFacts.

(** ** The export *)

Module ExportFacts.
Import PyStr IdList Exporting.

Section Grouping.

Variable Columns : Type.

Local Abbreviation Row := (Row Columns).
Local Abbreviation Entry := (Entry Columns).

Lemma append_source_ids (intel_id : Z) (source : string * string) (d : list Entry) :
  map e_id (append_source Columns intel_id source d) = map e_id d.
Proof.
  induction d as [|e d IH]; cbn [append_source map]; [reflexivity|].
  destruct (e_id e =? intel_id); cbn [map e_id]; [reflexivity|].
  rewrite IH. reflexivity.
Qed.

Lemma append_source_in (intel_id : Z) (source : string * string) (d : list Entry)
      (e' : Entry) :
  NoDup (map e_id d) ->
  In e' (append_source Columns intel_id source d) ->
  (e_id e' <> intel_id /\ In e' d)
  \/ (e_id e' = intel_id
      /\ exists e, In e d /\ e_id e = intel_id
                   /\ sources e' = (sources e ++ [source])%list
                   /\ e_columns e' = e_columns e).
Proof.
  induction d as [|e d IH]; cbn [append_source map]; intros Hnd Hin; [destruct Hin|].
  inversion Hnd as [|x l Hx Hnd']; subst.
  destruct (e_id e =? intel_id) eqn:E.
  - apply Z.eqb_eq in E. destruct Hin as [<-|Hin].
    + right. cbn [e_id sources e_columns]. split; [exact E|].
      exists e. repeat split; [left; reflexivity|exact E].
    + left. split; [|right; exact Hin].
      intros H. apply Hx. rewrite E, <- H. apply in_map. exact Hin.
  - apply Z.eqb_neq in E. destruct Hin as [<-|Hin].
    + left. split; [exact E|left; reflexivity].
    + destruct (IH Hnd' Hin) as [[Hne Hd]|(He & e0 & Hd & H0 & Hs & Hc)].
      * left. split; [exact Hne|right; exact Hd].
      * right. split; [exact He|]. exists e0. repeat split; auto. right. exact Hd.
Qed.

Lemma sources_of_snoc (intel_id : Z) (seen : list Row) (row : Row) :
  sources_of Columns intel_id (seen ++ [row])
  = (sources_of Columns intel_id seen ++ sources_of Columns intel_id [row])%list.
Proof. unfold sources_of. apply flat_map_app. Qed.

Lemma sources_of_fresh (intel_id : Z) (seen : list Row) :
  ~ In intel_id (map id seen) -> sources_of Columns intel_id seen = [].
Proof.
  unfold sources_of. induction seen as [|row seen IH]; cbn [map In flat_map];
    intros H; [reflexivity|].
  destruct (id row =? intel_id) eqn:E.
  - apply Z.eqb_eq in E. exfalso. apply H. left. exact E.
  - rewrite IH; [reflexivity|]. intros Hin. apply H. right. exact Hin.
Qed.

Lemma first_columns_snoc (intel_id : Z) (seen : list Row) (row : Row) :
  first_columns Columns intel_id (seen ++ [row])
  = match first_columns Columns intel_id seen with
    | Some c => Some c
    | None => if id row =? intel_id then Some (columns row) else None
    end.
Proof.
  unfold first_columns. induction seen as [|r seen IH]; cbn [app find].
  - destruct (id row =? intel_id); reflexivity.
  - destruct (id r =? intel_id); [reflexivity|exact IH].
Qed.

Lemma first_columns_fresh (intel_id : Z) (seen : list Row) :
  ~ In intel_id (map id seen) -> first_columns Columns intel_id seen = None.
Proof.
  unfold first_columns. induction seen as [|row seen IH]; cbn [map In find];
    intros H; [reflexivity|].
  destruct (id row =? intel_id) eqn:E.
  - apply Z.eqb_eq in E. exfalso. apply H. left. exact E.
  - apply IH. intros Hin. apply H. right. exact Hin.
Qed.

Lemma existsb_id (intel_id : Z) (d : list Entry) :
  existsb (fun e => e_id e =? intel_id) d = true <-> In intel_id (map e_id d).
Proof.
  rewrite existsb_exists. split.
  - intros (e & Hin & He). apply Z.eqb_eq in He. subst. apply in_map. exact Hin.
  - intros Hin. apply in_map_iff in Hin as (e & He & Hin).
    exists e. split; [exact Hin|]. apply Z.eqb_eq. exact He.
Qed.

Lemma add_row_holds (d : list Entry) (seen : list Row) (row : Row) :
  holds Columns d seen -> holds Columns (add_row Columns d row) (seen ++ [row]).
Proof.
  intros (Hnd & Hids & Hent). unfold add_row. cbv zeta.
  set (d1 := if existsb _ d then d else _).
  assert (H1 : NoDup (map e_id d1)
               /\ (forall intel_id,
                      In intel_id (map e_id d1) <-> In intel_id (map id (seen ++ [row])))
               /\ (forall e, In e d1 ->
                   sources e = sources_of Columns (e_id e) seen
                   /\ Some (e_columns e)
                      = first_columns Columns (e_id e) (seen ++ [row]))).
  { unfold d1. destruct (existsb (fun e => e_id e =? id row) d) eqn:Ex.
    - apply existsb_id in Ex. split; [exact Hnd|]. split.
      + intros i. rewrite map_app, in_app_iff, <- Hids. cbn [map In].
        split; [auto|]. intros [H|[<-|[]]]; [exact H|exact Ex].
      + intros e He. destruct (Hent e He) as [Hs Hc]. split; [exact Hs|].
        rewrite first_columns_snoc, <- Hc. reflexivity.
    - assert (Hfresh : ~ In (id row) (map e_id d)).
      { intros H. apply existsb_id in H. congruence. }
      split.
      + rewrite map_app. cbn [map e_id]. apply CrawlInvariants.NoDup_snoc; assumption.
      + split.
        * intros i. rewrite !map_app, !in_app_iff, Hids. cbn [map In e_id]. tauto.
        * intros e He. apply in_app_iff in He as [He|[<-|[]]].
          -- destruct (Hent e He) as [Hs Hc]. split; [exact Hs|].
             rewrite first_columns_snoc, <- Hc. reflexivity.
          -- cbn [sources e_id e_columns].
             assert (Hf : ~ In (id row) (map id seen)) by (rewrite <- Hids; exact Hfresh).
             rewrite (sources_of_fresh _ _ Hf), first_columns_snoc,
               (first_columns_fresh _ _ Hf), Z.eqb_refl.
             split; reflexivity. }
  clearbody d1. destruct H1 as (Hnd1 & Hids1 & Hent1).
  assert (Hplain : (forall intel_id, sources_of Columns intel_id [row] = []) ->
                   holds Columns d1 (seen ++ [row])).
  { intros Hno. split; [exact Hnd1|]. split; [exact Hids1|].
    intros e He. destruct (Hent1 e He) as [Hs Hc]. split; [|exact Hc].
    rewrite sources_of_snoc, Hno, app_nil_r. exact Hs. }
  destruct (url row) as [u|] eqn:Eu.
  2:{ apply Hplain. intros i. unfold sources_of. cbn [flat_map]. rewrite Eu.
      destruct (id row =? i); reflexivity. }
  destruct (is_empty u) eqn:Ee.
  { apply Hplain. intros i. unfold sources_of. cbn [flat_map]. rewrite Eu, Ee.
    destruct (id row =? i); reflexivity. }
  split; [rewrite append_source_ids; exact Hnd1|].
  split; [intros i; rewrite append_source_ids; apply Hids1|].
  intros e' He'.
  destruct (append_source_in _ _ _ _ Hnd1 He')
    as [[Hne Hd]|(Hid & e & Hd & He & Hs & Hc)].
  - destruct (Hent1 e' Hd) as [Hs Hc]. split; [|exact Hc].
    rewrite sources_of_snoc, Hs. unfold sources_of at 3. cbn [flat_map].
    replace (id row =? e_id e') with false
      by (symmetry; apply Z.eqb_neq; congruence).
    rewrite app_nil_r. reflexivity.
  - destruct (Hent1 e Hd) as [Hs0 Hc0]. rewrite Hid, <- He. split.
    + rewrite Hs, Hs0, sources_of_snoc. f_equal. unfold sources_of. cbn [flat_map].
      rewrite He, Z.eqb_refl, Eu, Ee. reflexivity.
    + rewrite Hc. exact Hc0.
Qed.

(** X21.  The export lists every intelligence once, with all its sources: in
    [data_to_export], no id occurs twice, the ids are those of the rows,
    and each entry carries the columns of the first row of its id and, as
    [sources], the url and domain of every row of its id that has a url,
    in row order (a missing domain as the empty text). *)
Theorem export_groups_rows (rows : list Row) :
  let data := data_to_export Columns rows in
  NoDup (map e_id data)
  /\ (forall intel_id, In intel_id (map e_id data) <-> In intel_id (map id rows))
  /\ (forall e, In e data ->
      sources e = sources_of Columns (e_id e) rows
      /\ Some (e_columns e) = first_columns Columns (e_id e) rows).
Proof.
  cbv zeta. change (holds Columns (data_to_export Columns rows) rows).
  unfold data_to_export. induction rows as [|row rows IH] using rev_ind.
  - split; [constructor|]. split; [reflexivity|]. intros e [].
  - rewrite fold_left_app. cbn [fold_left]. apply add_row_holds. exact IH.
Qed.

End Grouping.

Section Answers.

Variables Columns Response : Type.
Variable fetchall : list Z -> res (list (Row Columns)).
Variable render : string -> list (Entry Columns) -> res Response.
Variable str_of_http : Z -> string -> string.

(** X22.  The export answers with the rendered file or with status 500, never
    with another status: the 400 the body raises for an empty id list or
    an unknown format is caught and sent as 500.  Since the name [text] is
    bound only in the branch of the selected ids, every other request
    (scope [filtered] or [all], or no ids given) fails with the unbound
    local; a file is returned only for scope [selected] with a list of ids
    that parses and is not empty, and a format among csv, json and
    excel. *)
Theorem export_answers (format export_scope : string)
    (intelligence_ids : option string) (outcome : Outcome Response) :
  export_intelligence Columns Response fetchall render str_of_http
                      format export_scope intelligence_ids = Ok outcome ->
  ((exists response, outcome = Returned response)
   \/ (exists detail, outcome = HTTPException 500 detail))
  /\ ((String.eqb export_scope "selected" && Models.truthy intelligence_ids)%bool = false ->
      outcome = HTTPException 500
        "导出失败: cannot access local variable 'text' where it is not associated with a value")
  /\ (forall response, outcome = Returned response ->
      export_scope = "selected"
      /\ exists text ids rows,
           intelligence_ids = Some text /\ id_list text = Ok ids /\ ids <> []
           /\ fetchall ids = Ok rows
           /\ In (lower format) ["csv"; "json"; "excel"]
           /\ render (lower format) (data_to_export Columns rows) = Ok response).
Proof.
  unfold export_intelligence, export_body.
  destruct (String.eqb export_scope "selected" && Models.truthy intelligence_ids)%bool
    eqn:Econd.
  2:{ cbn [bind]. intros H. injection H as <-.
      split; [right; eexists; reflexivity|]. split; [reflexivity|].
      intros response H. discriminate H. }
  apply andb_true_iff in Econd as [Escope Eids]. apply String.eqb_eq in Escope.
  destruct intelligence_ids as [text|]; [|discriminate Eids].
  destruct (id_list text) as [ids|e|] eqn:Hids; cbn [bind];
    [| |discriminate].
  2:{ intros H. injection H as <-.
      split; [right; eexists; reflexivity|]. split; [discriminate|].
      intros response H. discriminate H. }
  destruct ids as [|i ids]; cbn [Json.is_nil bind].
  { intros H. injection H as <-.
    split; [right; eexists; reflexivity|]. split; [discriminate|].
    intros response H. discriminate H. }
  destruct (fetchall (i :: ids)) as [rows|e|] eqn:Hrows; cbn [bind];
    [| |discriminate].
  2:{ intros H. injection H as <-.
      split; [right; eexists; reflexivity|]. split; [discriminate|].
      intros response H. discriminate H. }
  destruct (String.eqb (lower format) "csv" || String.eqb (lower format) "json"
            || String.eqb (lower format) "excel")%bool eqn:Ekind.
  2:{ intros H. injection H as <-.
      split; [right; eexists; reflexivity|]. split; [discriminate|].
      intros response H. discriminate H. }
  destruct (render (lower format) (data_to_export Columns rows)) as [r|e|] eqn:Hr;
    cbn [bind]; [| |discriminate].
  2:{ intros H. injection H as <-.
      split; [right; eexists; reflexivity|]. split; [discriminate|].
      intros response H. discriminate H. }
  intros H. injection H as <-.
  split; [left; eexists; reflexivity|]. split; [discriminate|].
  intros response H. injection H as <-. split; [exact Escope|].
  exists text, (i :: ids), rows.
  split; [reflexivity|]. split; [exact Hids|]. split; [discriminate|].
  split; [exact Hrows|]. split; [|exact Hr].
  apply orb_true_iff in Ekind as [Ekind|Ekind];
    [apply orb_true_iff in Ekind as [Ekind|Ekind]|];
    apply String.eqb_eq in Ekind; rewrite Ekind; cbn [In]; auto.
Qed.

End Answers.

Lemma export_answers_witness :
  export_intelligence string _ sample_fetchall sample_render sample_str_of_http
                      "CSV" "selected" (Some "7, 9")
  = Ok (Returned
          ("csv", [mkEntry 7 "seven" [("https://a.com/1", "a.com");
                                      ("https://b.com/2", EmptyString)];
                   mkEntry 9 "nine" []]))
  /\ exists outcome,
       export_intelligence string _ sample_fetchall sample_render sample_str_of_http
                           "csv" "all" None = Ok outcome
       /\ outcome
          = HTTPException 500
              "导出失败: cannot access local variable 'text' where it is not associated with a value".
Proof.
  split; [reflexivity|]. eexists. split; [reflexivity|].
  exact (proj1 (proj2 (export_answers string _ sample_fetchall sample_render
                                      sample_str_of_http "csv" "all" None _ eq_refl))
               eq_refl).
Defined.

End ExportFacts.

(** ** The pages of a scrape *)

Module ScrapeFacts.
Import PyStr Models ScraperMain Crawl Scrape.

Lemma new_ok (title url : string) (date : option string) (item : ScrapedItem) :
  ScrapedItems.new title url date = Ok item ->
  si_title item
  = (if is_empty title then title else ScrapedItems.collapse_spaces (strip title))
  /\ si_url item = url
  /\ (is_empty url = false -> ScrapedItems.starts_http url = true).
Proof.
  unfold ScrapedItems.new, ScrapedItems.__post_init__. cbn [si_title si_url si_date].
  destruct (negb (is_empty url) && negb (ScrapedItems.starts_http url))%bool eqn:E;
    [discriminate|].
  intros H. injection H as <-. cbn [si_title si_url]. repeat split.
  intros He. rewrite He in E. cbn [negb andb] in E. apply negb_false_iff in E. exact E.
Qed.

Lemma new_modelled (title url : string) (date : option string) :
  ScrapedItems.new title url date <> Unmodelled.
Proof.
  unfold ScrapedItems.new, ScrapedItems.__post_init__.
  destruct (negb _ && negb _)%bool; discriminate.
Qed.

Lemma collapse_not_empty (s : string) :
  is_empty s = false -> ScrapedItems.collapse_spaces s <> EmptyString.
Proof.
  destruct s as [|c s]; [discriminate|]. intros _.
  unfold ScrapedItems.collapse_spaces. cbn [ScrapedItems.sub_spaces].
  destruct (is_space c); discriminate.
Qed.

Lemma has_url_in (url : string) (results : Results) :
  has_url url results = false -> ~ In url (map fst results).
Proof.
  unfold has_url. intros H Hin. apply in_map_iff in Hin as (entry & He & Hin).
  assert (Hx : existsb (fun entry => String.eqb (fst entry) url) results = true).
  { apply existsb_exists. exists entry. split; [exact Hin|]. apply String.eqb_eq. exact He. }
  congruence.
Qed.

Lemma not_existing (title : string) (results : Results) :
  existsb (String.eqb title) (existing_titles results) = false ->
  ~ In title (existing_titles results).
Proof.
  intros H Hin.
  assert (Hx : existsb (String.eqb title) (existing_titles results) = true).
  { apply existsb_exists. exists title. split; [exact Hin|apply String.eqb_refl]. }
  congruence.
Qed.

Lemma len_snoc (results : Results) (entry : string * ScrapedItem) :
  len (results ++ [entry])%list = len results + 1.
Proof. unfold len. rewrite length_app. cbn [List.length]. lia. Qed.

Section Kept.

Variable soup_select : string -> string -> option (list Element).
Variable urljoin_defrag : string -> string -> string.
Variable fetch_html : string -> option string.
Variable parse_page : string -> Page.
Variable recipe : ScraperRecipe.
Variable T : Prop.
Variable max_links : Z.

(** The size test at the end of a turn of the inner loop. *)
Lemma size_test (processed : list Z) (results : Results) :
  kept T results -> len results <= limit max_links ->
  let out := (if len results >=? max_links
              then (results, Ok None)
              else (results, Ok (Some processed))) : Results * res (option (list Z)) in
  kept T (fst out)
  /\ match snd out with
     | Ok (Some _) => len (fst out) < limit max_links
     | Ok None => max_links <= len (fst out) <= limit max_links
     | Raise _ => len (fst out) < limit max_links
     | Unmodelled => False
     end.
Proof.
  intros Hk Hl. cbv zeta. unfold limit in *.
  destruct (len results >=? max_links) eqn:E; cbn [fst snd]; (split; [exact Hk|]); lia.
Qed.

Lemma visit_kept (page_url : string) (a : Anchor) (processed : list Z)
      (results : Results) :
  (T -> forall title, a_title a = Some title -> ScrapedItems.tidy title = true) ->
  kept T results -> len results < limit max_links ->
  let out := visit urljoin_defrag page_url max_links a processed results in
  kept T (fst out)
  /\ match snd out with
     | Ok (Some _) => len (fst out) < limit max_links
     | Ok None => max_links <= len (fst out) <= limit max_links
     | Raise _ => len (fst out) < limit max_links
     | Unmodelled => False
     end.
Proof.
  intros Ha Hk Hl. cbv zeta. unfold visit.
  destruct (existsb (Z.eqb (a_id a)) processed); [split; [exact Hk|exact Hl]|].
  cbv zeta.
  destruct (_normalize_url urljoin_defrag page_url (a_href a)) as [url|];
    [|split; [exact Hk|exact Hl]].
  destruct (is_empty url || has_url url results)%bool eqn:Eskip;
    [split; [exact Hk|exact Hl]|].
  apply orb_false_iff in Eskip as [Hne Hfresh].
  assert (Hsame : forall p, let out := (if len results >=? max_links
                              then (results, Ok None)
                              else (results, Ok (Some p)))
                             : Results * res (option (list Z)) in
                  kept T (fst out)
                  /\ match snd out with
                     | Ok (Some _) => len (fst out) < limit max_links
                     | Ok None => max_links <= len (fst out) <= limit max_links
                     | Raise _ => len (fst out) < limit max_links
                     | Unmodelled => False
                     end).
  { intros p. apply size_test; [exact Hk|lia]. }
  destruct (a_title a) as [title|] eqn:Etitle; [|apply Hsame].
  destruct (negb (is_empty title) && negb (is_empty (strip title)))%bool eqn:Etruthy;
    [|apply Hsame].
  apply andb_true_iff in Etruthy as [Et Es].
  apply negb_true_iff in Et, Es.
  destruct (existsb (String.eqb title) (existing_titles results)) eqn:Eold;
    [apply Hsame|].
  destruct (ScrapedItems.new title url (a_date a)) as [item|e|] eqn:Enew; cbn [bind].
  - apply size_test; [|rewrite len_snoc; lia].
    destruct (new_ok _ _ _ _ Enew) as (Hti & Hu & Hhttp). rewrite Et in Hti.
    destruct Hk as [[Hnd Hall] Htitles]. split; [split|].
    + rewrite map_app. cbn [map fst].
      apply CrawlInvariants.NoDup_snoc; [exact Hnd|apply has_url_in; exact Hfresh].
    + apply Forall_app. split; [exact Hall|]. constructor; [|constructor].
      cbn [fst snd]. split; [exact Hu|]. split; [exact (Hhttp Hne)|]. split.
      * rewrite Hti. apply ScrapedItemsFacts.collapse_strip_tidy.
      * rewrite Hti. apply collapse_not_empty. exact Es.
    + intros Ht. unfold existing_titles. rewrite map_app. cbn [map snd].
      apply CrawlInvariants.NoDup_snoc; [exact (Htitles Ht)|].
      rewrite Hti, (ScrapedItemsFacts.tidy_fixed title (Ha Ht title eq_refl)).
      apply not_existing. exact Eold.
  - split; [exact Hk|exact Hl].
  - destruct (new_modelled _ _ _ Enew).
Qed.

Lemma visit_anchors_kept (page_url : string) (anchors : list Anchor)
      (processed : list Z) (results : Results) :
  (T -> tidy_titles anchors) ->
  kept T results -> len results < limit max_links ->
  let out := visit_anchors urljoin_defrag page_url max_links anchors processed results in
  kept T (fst out)
  /\ match snd out with
     | Ok (Some _) => len (fst out) < limit max_links
     | Ok None => max_links <= len (fst out) <= limit max_links
     | Raise _ => len (fst out) < limit max_links
     | Unmodelled => False
     end.
Proof.
  revert processed results. induction anchors as [|a anchors IH];
    intros processed results Ha Hk Hl; cbv zeta; cbn [visit_anchors].
  - split; [exact Hk|exact Hl].
  - assert (Ha1 : T -> forall title, a_title a = Some title ->
                                     ScrapedItems.tidy title = true).
    { intros Ht title Htitle. specialize (Ha Ht).
      inversion Ha as [|? ? Hhead Htail]; subst. exact (proj2 (Hhead title Htitle)). }
    assert (Ha2 : T -> tidy_titles anchors).
    { intros Ht. specialize (Ha Ht). inversion Ha; assumption. }
    pose proof (visit_kept page_url a processed results Ha1 Hk Hl) as Hv.
    cbv zeta in Hv.
    destruct (visit urljoin_defrag page_url max_links a processed results)
      as [results' [[processed'|]|e|]]; cbn [fst snd] in Hv; destruct Hv as [Hk' Hl'].
    + exact (IH processed' results' Ha2 Hk' Hl').
    + split; [exact Hk'|exact Hl'].
    + split; [exact Hk'|exact Hl'].
    + destruct Hl'.
Qed.

Lemma visit_boxes_kept (page_url : string) (container_count : Z)
      (found : list (list Anchor)) (raw_links : Z)
      (processed : list Z) (results : Results) :
  (T -> Forall tidy_titles found) ->
  kept T results -> len results < limit max_links ->
  let out := visit_boxes urljoin_defrag page_url max_links container_count found
                         raw_links processed results in
  kept T (fst out) /\ len (fst out) <= limit max_links /\ snd out <> Unmodelled.
Proof.
  revert raw_links processed results. induction found as [|anchors found IH];
    intros raw_links processed results Ha Hk Hl; cbv zeta; cbn [visit_boxes].
  - cbn [fst snd]. split; [exact Hk|]. split; [lia|discriminate].
  - assert (Ha1 : T -> tidy_titles anchors).
    { intros Ht. specialize (Ha Ht). inversion Ha; assumption. }
    assert (Ha2 : T -> Forall tidy_titles found).
    { intros Ht. specialize (Ha Ht). inversion Ha; assumption. }
    pose proof (visit_anchors_kept page_url anchors processed results Ha1 Hk Hl) as Hv.
    cbv zeta in Hv.
    destruct (visit_anchors urljoin_defrag page_url max_links anchors processed results)
      as [results' [[processed'|]|e|]]; cbn [fst snd] in Hv; destruct Hv as [Hk' Hl'].
    + exact (IH _ processed' results' Ha2 Hk' Hl').
    + cbn [fst snd]. split; [exact Hk'|]. split; [lia|discriminate].
    + cbn [fst snd]. split; [exact Hk'|]. split; [lia|discriminate].
    + destruct Hl'.
Qed.

Lemma parse_one_page_kept (page : Page) (page_url : string) (results : Results) :
  (T -> tidy_page page) ->
  kept T results -> len results < limit max_links ->
  let out := _parse_one_page urljoin_defrag page page_url max_links results in
  kept T (fst out) /\ len (fst out) <= limit max_links /\ snd out <> Unmodelled.
Proof.
  intros Ha Hk Hl. unfold _parse_one_page.
  destruct (boxes page) as [|b bs] eqn:Eb.
  - apply visit_boxes_kept; [|exact Hk|exact Hl].
    intros Ht. constructor; [exact (proj2 (Ha Ht))|constructor].
  - apply visit_boxes_kept; [|exact Hk|exact Hl].
    intros Ht. pose proof (proj1 (Ha Ht)) as H. rewrite Eb in H. exact H.
Qed.

Lemma pages_from_kept (remaining : nat) (page_num : Z) (current_url : string)
      (results : Results) (totals : Totals) :
  (T -> forall html, tidy_page (parse_page html)) ->
  kept T results -> len results < limit max_links ->
  exists results' totals',
    pages_from soup_select urljoin_defrag fetch_html parse_page recipe
               remaining page_num max_links current_url results totals
    = Ok (results', totals')
    /\ kept T results' /\ len results' <= limit max_links
    /\ t_pages totals <= t_pages totals' <= t_pages totals + Z.of_nat remaining
    /\ (remaining <> O -> t_pages totals + 1 <= t_pages totals')
    /\ (t_truncated totals' = true ->
        t_truncated totals = true \/ max_links <= len results').
Proof.
  revert page_num current_url results totals.
  induction remaining as [|remaining IH];
    intros page_num current_url results totals Ha Hk Hl; cbn [pages_from].
  - exists results, totals. split; [reflexivity|]. split; [exact Hk|].
    split; [lia|]. split; [lia|]. split; [congruence|]. auto.
  - cbv zeta.
    assert (Hstop : forall (results' : Results) (c r : Z) (tr : bool),
               kept T results' -> len results' <= limit max_links ->
               (tr = true -> t_truncated totals = true \/ max_links <= len results') ->
               exists results'' totals',
                 Ok (results', mkTotals c r (t_pages totals + 1) tr)
                 = Ok (results'', totals')
                 /\ kept T results'' /\ len results'' <= limit max_links
                 /\ t_pages totals <= t_pages totals'
                    <= t_pages totals + Z.of_nat (S remaining)
                 /\ (S remaining <> O -> t_pages totals + 1 <= t_pages totals')
                 /\ (t_truncated totals' = true ->
                     t_truncated totals = true \/ max_links <= len results'')).
    { intros results' c r tr Hk' Hl' Htr. eexists _, _. split; [reflexivity|].
      cbn [t_pages t_truncated]. split; [exact Hk'|]. split; [exact Hl'|].
      split; [lia|]. split; [lia|exact Htr]. }
    destruct (fetch_html current_url) as [html|].
    2:{ apply Hstop; [exact Hk|lia|auto]. }
    pose proof (parse_one_page_kept (parse_page html) current_url results
                                    (fun Ht => Ha Ht html) Hk Hl) as Hp.
    cbv zeta in Hp.
    destruct (_parse_one_page urljoin_defrag (parse_page html) current_url max_links results)
      as [results' [[c_cnt raw]|e|]]; cbn [fst snd] in Hp;
      destruct Hp as (Hk' & Hl' & Hm); [| |congruence].
    2:{ apply Hstop; [exact Hk'|exact Hl'|auto]. }
    cbn [total_containers total_raw t_pages t_truncated].
    destruct (len results' >=? max_links) eqn:Efull.
    { apply Hstop; [exact Hk'|exact Hl'|]. intros _. right. lia. }
    destruct (_get_next_page_url soup_select urljoin_defrag recipe html current_url page_num)
      as [next_url|].
    2:{ apply Hstop; [exact Hk'|exact Hl'|auto]. }
    destruct (is_empty next_url).
    { apply Hstop; [exact Hk'|exact Hl'|auto]. }
    assert (Hl2 : len results' < limit max_links) by (unfold limit in *; lia).
    destruct (IH (page_num + 1) next_url results'
                 (mkTotals (total_containers totals + (if 0 <? c_cnt then c_cnt else 0))
                           (total_raw totals + raw) (t_pages totals + 1)
                           (t_truncated totals))
                 Ha Hk' Hl2)
      as (results'' & totals' & Hrun & Hk'' & Hl'' & Hpages & _ & Htr).
    cbn [t_pages t_truncated] in *.
    exists results'', totals'. split; [exact Hrun|]. split; [exact Hk''|].
    split; [exact Hl''|]. split; [lia|]. split; [lia|exact Htr].
Qed.

Lemma empty_kept : kept T [].
Proof.
  split; [split; [constructor|constructor]|]. intros _. constructor.
Qed.

Lemma scrape_kept :
  (T -> forall html, tidy_page (parse_page html)) ->
  exists results totals,
    scrape soup_select urljoin_defrag fetch_html parse_page recipe max_links
    = Ok (map snd results,
          mkMeta (if total_containers totals =? 0
                  then (if len results =? 0 then 0 else 1) else total_containers totals)
                 (total_raw totals) (len results)
                 (Z.max 0 (total_raw totals - len results))
                 (t_pages totals) (t_truncated totals) (load_strategy recipe)
                 (scraper_base_url recipe) (pagination_mode recipe)
                 (1 <? t_pages totals))
    /\ kept T results /\ len results <= limit max_links
    /\ 1 <= t_pages totals <= Z.max 1 (max_pages_or_1 recipe)
    /\ (t_truncated totals = true -> max_links <= len results).
Proof.
  intros Ha. unfold scrape. cbv zeta.
  assert (Hl : len [] < limit max_links) by (unfold limit, len; cbn; lia).
  destruct (pages_from_kept (Z.to_nat (Z.max 1 (max_pages_or_1 recipe))) 0
                            (scraper_base_url recipe) [] (mkTotals 0 0 0 false)
                            Ha empty_kept Hl)
    as (results & totals & Hrun & Hk & Hlen & Hpages & Hfirst & Htr).
  rewrite Hrun. cbn [bind]. exists results, totals. split; [reflexivity|].
  split; [exact Hk|]. split; [exact Hlen|]. cbn [t_pages t_truncated] in *.
  split.
  - split; [apply Hfirst|]; lia.
  - intros H. destruct (Htr H) as [H0|H0]; [discriminate H0|exact H0].
Qed.

End Kept.

Section Scrapes.

Variable soup_select : string -> string -> option (list Element).
Variable urljoin_defrag : string -> string -> string.
Variable fetch_html : string -> option string.
Variable parse_page : string -> Page.
Variable recipe : ScraperRecipe.

(** X23.  [scrape] always returns, and what it returns is well formed
    whatever the pages hold: no URL occurs twice among the items, every
    item has a URL that starts with [http://] or [https://] and a tidy
    title that is not empty, there are at most [max(1, max_links)] items,
    [unique] is their number, between 1 and [max(1, max_pages)] pages were
    visited, [truncated] is set only when [max_links] items were reached,
    and [dedup] is the number of raw links beyond the items, not below 0. *)
Theorem scrape_well_formed (max_links : Z) :
  exists items meta,
    scrape soup_select urljoin_defrag fetch_html parse_page recipe max_links
    = Ok (items, meta)
    /\ NoDup (map si_url items)
    /\ Forall (fun item =>
                 ScrapedItems.starts_http (si_url item) = true
                 /\ ScrapedItems.tidy (si_title item) = true
                 /\ si_title item <> EmptyString)
              items
    /\ Z.of_nat (List.length items) <= Z.max 1 max_links
    /\ unique meta = Z.of_nat (List.length items)
    /\ 1 <= pages meta <= Z.max 1 (max_pages_or_1 recipe)
    /\ pagination_working meta = (1 <? pages meta)
    /\ (truncated meta = true -> max_links <= unique meta)
    /\ dedup meta = Z.max 0 (raw meta - unique meta).
Proof.
  destruct (scrape_kept soup_select urljoin_defrag fetch_html parse_page recipe
                        False max_links (fun H => False_ind _ H))
    as (results & totals & Hrun & [[Hnd Hall] _] & Hlen & Hpages & Htr).
  eexists _, _. split; [exact Hrun|]. cbn [unique pages pagination_working truncated dedup raw].
  assert (Hurls : map si_url (map snd results) = map fst results).
  { rewrite map_map. apply map_ext_in. intros entry Hin.
    rewrite Forall_forall in Hall. exact (proj1 (Hall entry Hin)). }
  split; [rewrite Hurls; exact Hnd|]. split.
  { apply Forall_forall. intros item Hin. apply in_map_iff in Hin as (entry & <- & Hin).
    rewrite Forall_forall in Hall. destruct (Hall entry Hin) as (Hu & Hh & Ht & Hn).
    rewrite Hu. auto. }
  rewrite length_map. fold (len results).
  split; [exact Hlen|]. split; [reflexivity|]. split; [exact Hpages|].
  split; [reflexivity|]. split; [exact Htr|reflexivity].
Qed.

(** X24.  Titles are compared as the page gives them but stored tidied, so
    the results hold no title twice provided the pages give titles that
    are ASCII text and tidy already (no whitespace at the ends, single
    blanks inside). *)
Theorem scrape_titles_distinct (max_links : Z) (items : list ScrapedItem) (meta : Meta) :
  (forall html, tidy_page (parse_page html)) ->
  scrape soup_select urljoin_defrag fetch_html parse_page recipe max_links
  = Ok (items, meta) ->
  NoDup (map si_title items).
Proof.
  intros Htidy Hrun.
  destruct (scrape_kept soup_select urljoin_defrag fetch_html parse_page recipe
                        True max_links (fun _ => Htidy))
    as (results & totals & Hrun' & [_ Htitles] & _).
  rewrite Hrun in Hrun'. injection Hrun' as -> _.
  rewrite map_map. exact (Htitles I).
Qed.

End Scrapes.

(** Without tidy titles the same title can be stored twice; and a link
    that is no http(s) URL ends the scrape, the items stored before it
    staying in the results. *)
Lemma scrape_double_blank :
  scrape Samples.empty_page Samples.keep_href (fun _ => Some EmptyString)
         (fun _ => double_blank_page) (Samples.x_com_five_pages true) 10
  = Ok ([mkItem "Green roofs" "https://x.com/a" None;
         mkItem "Green roofs" "https://x.com/b" None],
        mkMeta 1 0 2 0 1 false "static" "https://x.com/" "number" false).
Proof. vm_compute. reflexivity. Qed.

Lemma scrape_titles_distinct_witness :
  scrape Samples.empty_page Samples.keep_href (fun _ => Some EmptyString)
         (fun _ => tidy_page_sample) (Samples.x_com_five_pages true) 10
  = Ok ([mkItem "Green roofs" "https://x.com/a" None;
         mkItem "Blue roofs" "https://x.com/c" (Some "2025-01-02")],
        mkMeta 5 15 2 13 5 false "static" "https://x.com/" "number" true)
  /\ NoDup (map si_title [mkItem "Green roofs" "https://x.com/a" None;
                          mkItem "Blue roofs" "https://x.com/c" (Some "2025-01-02")]).
Proof.
  assert (Hrun : scrape Samples.empty_page Samples.keep_href (fun _ => Some EmptyString)
                        (fun _ => tidy_page_sample) (Samples.x_com_five_pages true) 10
                 = Ok ([mkItem "Green roofs" "https://x.com/a" None;
                        mkItem "Blue roofs" "https://x.com/c" (Some "2025-01-02")],
                       mkMeta 5 15 2 13 5 false "static" "https://x.com/" "number" true))
    by (vm_compute; reflexivity).
  split; [exact Hrun|].
  refine (scrape_titles_distinct
            Samples.empty_page Samples.keep_href (fun _ => Some EmptyString)
            (fun _ => tidy_page_sample) (Samples.x_com_five_pages true) 10 _ _ _ Hrun).
  intros _. split; [constructor|].
  apply Forall_forall. intros a Ha title Htitle. cbn in Ha.
  destruct Ha as [<-|[<-|[<-|[]]]]; injection Htitle as <-; split; reflexivity.
Defined.

End ScrapeFacts.

(** ** The crawl that looks for dates *)

Module CrawlDatesFacts.
Import PyStr Store Crawl AiService CrawlTotals CrawlDates CrawlInvariants.

Section Dated.

Variable parse : string -> option datetime.
Variable parse_fuzzy : string -> option datetime.
Variable isoformat : datetime -> string.
Variable extract_date_from_url : string -> list string -> option DateExtractionResult.

Lemma extract_missing_step enable date_selectors item news_time :
  let r := extract_missing parse extract_date_from_url enable date_selectors
                           item news_time in
  0 <= snd r <= 1.
Proof.
  cbv zeta. unfold extract_missing. destruct news_time; [cbn; lia|].
  destruct (enable && _ && _)%bool; [|cbn; lia].
  destruct (extract_date_from_url _ _) as [dr|]; [|cbn; lia].
  destruct (dr_success dr); [|cbn; lia].
  destruct (dr_date dr) as [d|]; [|cbn; lia].
  destruct (parse d); cbn; lia.
Qed.

Lemma extract_missing_off enable date_selectors item news_time :
  enable = false \/ date_selectors = [] ->
  extract_missing parse extract_date_from_url enable date_selectors item news_time
  = (news_time, 0).
Proof.
  intros H. unfold extract_missing. destruct news_time; [reflexivity|].
  destruct H as [-> | ->]; [reflexivity|].
  cbn [Json.is_nil negb]. rewrite andb_false_r. reflexivity.
Qed.

Lemma date_selectors_off enable date_selector :
  enable = false \/ Models.truthy date_selector = false ->
  enable = false \/ date_selectors_of enable date_selector = [].
Proof.
  intros [H|H]; [left; exact H|right]. unfold date_selectors_of.
  destruct enable; [|reflexivity]. destruct date_selector as [text|]; [|reflexivity].
  cbn [Models.truthy] in H. apply negb_false_iff in H. rewrite H. reflexivity.
Qed.

Lemma merge_saved topic_name source_domain current_time item news_time st :
  let st' := merge_or_insert isoformat topic_name source_domain current_time
                             item news_time st in
  saved_count (snd st) <= saved_count (snd st') <= saved_count (snd st) + 1.
Proof.
  cbv zeta. destruct st as [db counts]. unfold merge_or_insert.
  destruct (find_by_title (si_title item) db) as [existing_row|].
  - destruct (i_news_time existing_row), news_time;
      cbn [snd bump_updated bump_duplicate saved_count]; lia.
  - unfold insert_intelligence. cbn [snd bump_saved saved_count]. lia.
Qed.

Lemma save_item_dated_keeps topic_name source_domain start_date enable date_selectors
      current_time item (st : Db * Counters * Z) :
  let st' := save_item_dated parse parse_fuzzy isoformat extract_date_from_url
                             topic_name source_domain start_date enable
                             date_selectors current_time item st in
  keeps (fst (fst st)) (saved_count (snd (fst st)))
        (fst (fst st')) (saved_count (snd (fst st')))
  /\ saved_count (snd (fst st)) <= saved_count (snd (fst st'))
     <= saved_count (snd (fst st)) + 1
  /\ snd st <= snd st' <= snd st + 1.
Proof.
  cbv zeta. unfold save_item_dated.
  pose proof (extract_missing_step enable date_selectors item
                (parse_item_date parse parse_fuzzy item)) as He. cbv zeta in He.
  destruct (extract_missing parse extract_date_from_url enable date_selectors item
                            (parse_item_date parse parse_fuzzy item))
    as [news_time extracted]. cbn [snd] in He. cbv zeta. cbn [fst snd].
  split; [|split; [|lia]].
  - destruct (out_of_range start_date news_time) as [[|]|e|]; cbn [bind fst snd];
      try apply keeps_refl.
    destruct st as [[db counts] n]. cbn [fst snd]. apply merge_keeps.
  - destruct (out_of_range start_date news_time) as [[|]|e|];
      cbn [bind fst snd bump_out_of_range saved_count]; try lia.
    apply merge_saved.
Qed.

Lemma save_items_dated_keeps topic_name source_domain start_date enable date_selectors
      (items : list (Z * ScrapedItem)) (st : Db * Counters * Z) :
  let st' :=
    fold_left (fun st ti =>
                 save_item_dated parse parse_fuzzy isoformat extract_date_from_url
                                 topic_name source_domain start_date enable
                                 date_selectors (fst ti) (snd ti) st)
              items st in
  keeps (fst (fst st)) (saved_count (snd (fst st)))
        (fst (fst st')) (saved_count (snd (fst st')))
  /\ saved_count (snd (fst st)) <= saved_count (snd (fst st'))
     <= saved_count (snd (fst st)) + Z.of_nat (List.length items)
  /\ snd st <= snd st' <= snd st + Z.of_nat (List.length items).
Proof.
  cbv zeta. revert st. induction items as [|ti items IH]; intros st; cbn [fold_left].
  - split; [apply keeps_refl|cbn [List.length]; lia].
  - pose proof (save_item_dated_keeps topic_name source_domain start_date enable
                  date_selectors (fst ti) (snd ti) st) as (K1 & S1 & E1).
    destruct (IH (save_item_dated parse parse_fuzzy isoformat extract_date_from_url
                                  topic_name source_domain start_date enable
                                  date_selectors (fst ti) (snd ti) st))
      as (K2 & S2 & E2).
    split; [exact (keeps_trans _ _ _ _ _ _ K1 K2)|]. cbn [List.length]. lia.
Qed.

(** What a step of the crawl does to the tables and the three totals. *)
Lemma crawl_source_dated_keeps topic_name start_date enable run
      (st : Db * (Z * Z * Z)) :
  let st' := crawl_source_dated parse parse_fuzzy isoformat extract_date_from_url
                                topic_name start_date enable run st in
  keeps (fst st) (snd (fst (snd st))) (fst st') (snd (fst (snd st')))
  /\ fst (fst (snd st'))
     = fst (fst (snd st)) + match run_items (source_run run) with
                            | Some items => Z.of_nat (List.length items)
                            | None => 0
                            end
  /\ 0 <= snd (fst (snd st')) - snd (fst (snd st))
     <= fst (fst (snd st')) - fst (fst (snd st))
  /\ 0 <= snd (snd st') - snd (snd st)
     <= fst (fst (snd st')) - fst (fst (snd st)).
Proof.
  cbv zeta. unfold crawl_source_dated.
  destruct (run_items (source_run run)) as [items|].
  2:{ split; [apply keeps_refl|]. lia. }
  cbv zeta.
  destruct (save_items_dated_keeps topic_name (run_domain (source_run run)) start_date
              enable (date_selectors_of enable (date_selector run)) items
              (fst st, no_counts, 0)) as (K & S & E).
  destruct (fold_left _ items (fst st, no_counts, 0)) as [[db counts] n].
  cbn [fst snd no_counts saved_count] in *.
  split; [|split; [reflexivity|lia]].
  pose proof (keeps_shift _ _ _ _ (snd (fst (snd st))) K) as Hs.
  replace (0 + snd (fst (snd st))) with (snd (fst (snd st))) in Hs by lia.
  replace (saved_count counts + snd (fst (snd st)))
    with (snd (fst (snd st)) + saved_count counts) in Hs by lia.
  exact Hs.
Qed.

Lemma crawl_topic_dated_keeps topic_name start_date enable (runs : list DatedRun)
      (st : Db * (Z * Z * Z)) :
  let st' :=
    fold_left (fun st run =>
                 crawl_source_dated parse parse_fuzzy isoformat extract_date_from_url
                                    topic_name start_date enable run st)
              runs st in
  keeps (fst st) (snd (fst (snd st))) (fst st') (snd (fst (snd st')))
  /\ fst (fst (snd st'))
     = fst (fst (snd st))
       + fold_right (fun run m => match run_items run with
                                  | Some items => Z.of_nat (List.length items) + m
                                  | None => m
                                  end) 0 (map source_run runs)
  /\ 0 <= snd (fst (snd st')) - snd (fst (snd st))
     <= fst (fst (snd st')) - fst (fst (snd st))
  /\ 0 <= snd (snd st') - snd (snd st)
     <= fst (fst (snd st')) - fst (fst (snd st)).
Proof.
  cbv zeta. revert st. induction runs as [|run runs IH]; intros st;
    cbn [fold_left fold_right map].
  - split; [apply keeps_refl|]. lia.
  - destruct (crawl_source_dated_keeps topic_name start_date enable run st)
      as (K1 & C1 & S1 & E1).
    destruct (IH (crawl_source_dated parse parse_fuzzy isoformat extract_date_from_url
                                     topic_name start_date enable run st))
      as (K2 & C2 & S2 & E2).
    split; [exact (keeps_trans _ _ _ _ _ _ K1 K2)|].
    rewrite C2, C1. destruct (run_items (source_run run)); lia.
Qed.

Lemma crawl_dated_keeps now days_back enable (topics : list (string * list DatedRun))
      (db : Db) :
  let st' := start_crawling_with_date_extraction
               parse parse_fuzzy isoformat extract_date_from_url
               now days_back enable topics db in
  keeps db 0 (fst st') (snd (fst (snd st')))
  /\ fst (fst (snd st')) = items_scraped (plain_topics topics)
  /\ 0 <= snd (fst (snd st')) <= fst (fst (snd st'))
  /\ 0 <= snd (snd st') <= fst (fst (snd st')).
Proof.
  cbv zeta. unfold start_crawling_with_date_extraction. cbv zeta.
  set (start_date := start_date_of now days_back).
  assert (H : forall st : Db * (Z * Z * Z),
             let st' :=
               fold_left
                 (fun st topic =>
                    fold_left
                      (fun st run =>
                         crawl_source_dated parse parse_fuzzy isoformat
                                            extract_date_from_url
                                            (fst topic) start_date enable run st)
                      (snd topic) st)
                 topics st in
             keeps (fst st) (snd (fst (snd st))) (fst st') (snd (fst (snd st')))
             /\ fst (fst (snd st'))
                = fst (fst (snd st)) + items_scraped (plain_topics topics)
             /\ 0 <= snd (fst (snd st')) - snd (fst (snd st))
                <= fst (fst (snd st')) - fst (fst (snd st))
             /\ 0 <= snd (snd st') - snd (snd st)
                <= fst (fst (snd st')) - fst (fst (snd st))).
  { induction topics as [|topic topics' IH]; intros st; cbv zeta;
      cbn [fold_left plain_topics map items_scraped fold_right].
    - split; [apply keeps_refl|]. lia.
    - destruct (crawl_topic_dated_keeps (fst topic) start_date enable (snd topic) st)
        as (K1 & C1 & S1 & E1).
      destruct (IH (fold_left
                      (fun st run =>
                         crawl_source_dated parse parse_fuzzy isoformat
                                            extract_date_from_url
                                            (fst topic) start_date enable run st)
                      (snd topic) st)) as (K2 & C2 & S2 & E2).
      split; [exact (keeps_trans _ _ _ _ _ _ K1 K2)|].
      rewrite C2, C1. cbn [fst snd]. fold (plain_topics topics').
      fold (items_scraped (plain_topics topics')).
      rewrite (scraped_from (map source_run (snd topic))
                            (items_scraped (plain_topics topics'))). lia. }
  destruct (H (db, (0, 0, 0))) as (K & C & S & E). cbv zeta in K, C, S, E.
  cbn [fst snd] in K, C, S, E. split; [exact K|]. lia.
Qed.

(** X25.  The crawl with date extraction keeps the guarantees of the plain
    crawl and counts within bounds: titles that were distinct stay
    distinct, [total_crawled] is the number of items the sources
    returned, and neither [total_saved] nor [total_date_extracted] is
    negative or exceeds it. *)
Theorem dated_crawl_keeps_titles_and_counts now days_back enable
    (topics : list (string * list DatedRun)) (db : Db) :
  NoDup (map i_title (intelligence db)) ->
  let result := start_crawling_with_date_extraction
                  parse parse_fuzzy isoformat extract_date_from_url
                  now days_back enable topics db in
  let total_crawled := fst (fst (snd result)) in
  let total_saved := snd (fst (snd result)) in
  let total_date_extracted := snd (snd result) in
  NoDup (map i_title (intelligence (fst result)))
  /\ total_crawled = items_scraped (plain_topics topics)
  /\ 0 <= total_saved <= total_crawled
  /\ 0 <= total_date_extracted <= total_crawled.
Proof.
  intros Hnd. cbv zeta.
  destruct (crawl_dated_keeps now days_back enable topics db) as ((T & _) & C & S & E).
  split; [exact (T Hnd)|]. split; [exact C|]. split; [exact S|exact E].
Qed.

Lemma save_items_off topic_name source_domain start_date enable date_selectors
      (items : list (Z * ScrapedItem)) (st : Db * Counters) (n : Z) :
  enable = false \/ date_selectors = [] ->
  fold_left (fun st ti =>
               save_item_dated parse parse_fuzzy isoformat extract_date_from_url
                               topic_name source_domain start_date enable
                               date_selectors (fst ti) (snd ti) st)
            items (st, n)
  = (fold_left (fun st ti =>
                  save_item_guarded parse parse_fuzzy isoformat topic_name
                                    source_domain start_date (fst ti) (snd ti) st)
               items st, n).
Proof.
  intros Hoff. revert st. induction items as [|ti items IH]; intros st;
    cbn [fold_left]; [reflexivity|].
  unfold save_item_dated at 2. rewrite (extract_missing_off _ _ _ _ Hoff).
  cbn [fst snd]. replace (n + 0) with n by lia.
  rewrite <- IH. reflexivity.
Qed.

Lemma crawl_source_off topic_name start_date enable run (db : Db) (c s e : Z) :
  enable = false \/ Models.truthy (date_selector run) = false ->
  crawl_source_dated parse parse_fuzzy isoformat extract_date_from_url
                     topic_name start_date enable run (db, (c, s, e))
  = let r := crawl_source parse parse_fuzzy isoformat topic_name start_date
                          (source_run run) (db, (c, s)) in
    (fst r, (fst (snd r), snd (snd r), e)).
Proof.
  intros Hoff. unfold crawl_source_dated, crawl_source.
  destruct (run_items (source_run run)) as [items|]; [|reflexivity].
  cbv zeta. rewrite (save_items_off _ _ _ _ _ _ _ _ (date_selectors_off _ _ Hoff)).
  unfold save_items. cbn [fst snd].
  destruct (fold_left _ items (db, no_counts)) as [db' counts].
  cbn [fst snd]. replace (e + 0) with e by lia. reflexivity.
Qed.

(** X26.  With the extraction switched off, or when no source has a date
    selector, the crawl with date extraction is the plain crawl: it
    leaves the same tables, reports the same totals, and extracts no
    date. *)
Theorem dated_crawl_off_is_plain_crawl now days_back enable
    (topics : list (string * list DatedRun)) (db : Db) :
  enable = false \/ no_selectors topics = true ->
  start_crawling_with_date_extraction parse parse_fuzzy isoformat
                                      extract_date_from_url
                                      now days_back enable topics db
  = let plain := start_crawling parse parse_fuzzy isoformat now days_back
                                (plain_topics topics) db in
    (fst plain, (fst (snd plain), snd (snd plain), 0)).
Proof.
  intros Hoff. unfold start_crawling_with_date_extraction, start_crawling. cbv zeta.
  set (start_date := start_date_of now days_back).
  assert (H : forall (db : Db) (c s e : Z),
             fold_left
               (fun st topic =>
                  fold_left
                    (fun st run =>
                       crawl_source_dated parse parse_fuzzy isoformat
                                          extract_date_from_url
                                          (fst topic) start_date enable run st)
                    (snd topic) st)
               topics (db, (c, s, e))
             = let r :=
                 fold_left
                   (fun st topic =>
                      fold_left
                        (fun st run => crawl_source parse parse_fuzzy isoformat
                                                    (fst topic) start_date run st)
                        (snd topic) st)
                   (plain_topics topics) (db, (c, s)) in
               (fst r, (fst (snd r), snd (snd r), e))).
  { induction topics as [|topic topics' IH]; intros db0 c s e;
      cbn [fold_left plain_topics map]; [reflexivity|].
    assert (Hrest : enable = false \/ no_selectors topics' = true).
    { destruct Hoff as [H|H]; [left; exact H|right].
      cbn [no_selectors forallb] in H. apply andb_true_iff in H as [_ H]. exact H. }
    assert (Htopic : forall run, In run (snd topic) ->
                       enable = false \/ Models.truthy (date_selector run) = false).
    { intros run Hin. destruct Hoff as [H|H]; [left; exact H|right].
      cbn [no_selectors forallb] in H. apply andb_true_iff in H as [H _].
      rewrite forallb_forall in H. apply negb_true_iff. exact (H run Hin). }
    assert (Hruns : forall (runs : list DatedRun) (db : Db) (c s e : Z),
               (forall run, In run runs ->
                  enable = false \/ Models.truthy (date_selector run) = false) ->
               fold_left
                 (fun st run =>
                    crawl_source_dated parse parse_fuzzy isoformat extract_date_from_url
                                       (fst topic) start_date enable run st)
                 runs (db, (c, s, e))
               = let r :=
                   fold_left
                     (fun st run => crawl_source parse parse_fuzzy isoformat
                                                 (fst topic) start_date run st)
                     (map source_run runs) (db, (c, s)) in
                 (fst r, (fst (snd r), snd (snd r), e))).
    { clear. induction runs as [|run runs IHr]; intros db c s e Hq;
        cbn [fold_left map]; [reflexivity|].
      rewrite (crawl_source_off _ _ _ _ _ _ _ _ (Hq run (or_introl eq_refl))).
      cbv zeta.
      destruct (crawl_source parse parse_fuzzy isoformat (fst topic) start_date
                             (source_run run) (db, (c, s))) as [db' [c' s']].
      cbn [fst snd]. apply IHr. intros r Hin. apply Hq. right. exact Hin. }
    rewrite (Hruns (snd topic) db0 c s e Htopic). cbv zeta. cbn [fst snd].
    destruct (fold_left _ (map source_run (snd topic)) (db0, (c, s))) as [db' [c' s']].
    cbn [fst snd]. apply (IH Hrest). }
  apply H.
Qed.

End Dated.

Lemma dated_crawl_keeps_titles_and_counts_witness :
  NoDup (map i_title (intelligence stored_db))
  /\ snd (start_crawling_with_date_extraction
            CrawlSamples.sample_parse CrawlSamples.sample_fuzzy
            CrawlSamples.sample_isoformat sample_extract
            CrawlSamples.sample_now 7 true sample_dated_topics stored_db)
     = (3, 1, 2)
  /\ NoDup (map i_title
              (intelligence
                 (fst (start_crawling_with_date_extraction
                         CrawlSamples.sample_parse CrawlSamples.sample_fuzzy
                         CrawlSamples.sample_isoformat sample_extract
                         CrawlSamples.sample_now 7 true sample_dated_topics
                         stored_db)))).
Proof.
  assert (Hnd : NoDup (map i_title (intelligence stored_db))).
  { cbn. repeat constructor; cbn; intuition discriminate. }
  split; [exact Hnd|]. split; [vm_compute; reflexivity|].
  exact (proj1 (dated_crawl_keeps_titles_and_counts
                  CrawlSamples.sample_parse CrawlSamples.sample_fuzzy
                  CrawlSamples.sample_isoformat sample_extract
                  CrawlSamples.sample_now 7 true sample_dated_topics stored_db Hnd)).
Defined.

Lemma dated_crawl_off_is_plain_crawl_witness :
  start_crawling_with_date_extraction
    CrawlSamples.sample_parse CrawlSamples.sample_fuzzy
    CrawlSamples.sample_isoformat sample_extract
    CrawlSamples.sample_now 7 false sample_dated_topics stored_db
  = (fst (start_crawling CrawlSamples.sample_parse CrawlSamples.sample_fuzzy
                         CrawlSamples.sample_isoformat CrawlSamples.sample_now 7
                         sample_topics stored_db),
     (3, 1, 0)).
Proof.
  rewrite (dated_crawl_off_is_plain_crawl
             CrawlSamples.sample_parse CrawlSamples.sample_fuzzy
             CrawlSamples.sample_isoformat sample_extract
             CrawlSamples.sample_now 7 false sample_dated_topics stored_db
             (or_introl eq_refl)).
  vm_compute. reflexivity.
Defined.

End CrawlDatesFacts.

(** ** Analysing a batch *)

Module BatchFacts.
Import PyStr Json PyNum Store Scoring AiProcess Batch.

Lemma framed_refl (ids : list Z) (db : Db) : framed ids db db.
Proof. repeat split; auto. Qed.

Lemma framed_trans (ids : list Z) (a b c : Db) :
  framed ids a b -> framed ids b c -> framed ids a c.
Proof.
  intros (S1 & I1 & T1 & R1) (S2 & I2 & T2 & R2). repeat split; try congruence.
  intros row Hin Hid. apply R2; [apply R1; assumption|exact Hid].
Qed.

Section BatchProofs.

Variable json_dumps : json -> string.

Lemma single_framed (ids : list Z) (analysis : dict) (update_time : string)
      (intelligence_id : Z) (db db' : Db) (answer : reply) :
  In intelligence_id ids ->
  ai_process_single_intelligence json_dumps analysis update_time intelligence_id db
  = Ok (db', answer) ->
  framed ids db db'.
Proof.
  intros Hin. unfold ai_process_single_intelligence.
  destruct (find_by_id intelligence_id db) as [row|];
    [|intros H; injection H as <- <-; apply framed_refl].
  destruct (process_body json_dumps analysis update_time intelligence_id row db)
    as [[db1 r1]|e|] eqn:Hbody;
    [|intros H; injection H as <- <-; apply framed_refl|discriminate].
  intros H. injection H as <- <-. revert Hbody. unfold process_body.
  destruct (add_dimensions (scores_of analysis) (PInt 0) weights) as [total| |];
    cbn [bind]; try discriminate.
  destruct (bind_text (get_or "议题" (JStr "未分类") analysis)) as [topic| |];
    cbn [bind]; try discriminate.
  destruct (bind_text (get_or "摘要" (JStr (i_title row)) analysis)) as [summary| |];
    cbn [bind]; try discriminate.
  destruct (bind_real (round1 total)) as [score| |]; cbn [bind]; try discriminate.
  intros H. injection H as <- _. unfold framed. cbn [intelligence intelligence_sources].
  destruct (AiProcessFrame.update_analysed_frame
              intelligence_id topic summary score
              (json_dumps (scores_of analysis)) update_time (intelligence db))
    as (H1 & H2 & _ & _ & H5).
  split; [reflexivity|]. split; [exact H1|]. split; [exact H2|].
  intros r Hr Hid. apply H5; [exact Hr|]. intros E. apply Hid. rewrite E. exact Hin.
Qed.

Lemma with_dates_fails (analysis : dict) (update_time : string)
      (intelligence_id : Z) (db db' : Db) (answer : reply) :
  ai_process_single_intelligence_with_date_extraction analysis update_time
                                                      intelligence_id db
  = Ok (db', answer) ->
  db' = db /\ is_success answer = false.
Proof.
  unfold ai_process_single_intelligence_with_date_extraction.
  destruct (find_by_id intelligence_id db) as [row|];
    [|intros H; injection H as <- <-; split; reflexivity].
  unfold process_body_with_dates.
  destruct (add_dimensions (scores_of analysis) (PInt 0) weights) as [total| |];
    cbn [bind]; try discriminate;
    intros H; injection H as <- <-; split; reflexivity.
Qed.

Lemma successes_snoc (results : list (Z * reply)) (entry : Z * reply) :
  successes (results ++ [entry])
  = successes results + (if is_success (snd entry) then 1 else 0).
Proof.
  unfold successes. rewrite filter_app, length_app. cbn [filter].
  destruct (is_success (snd entry)); cbn [List.length]; lia.
Qed.

(** The loop, for a [single] that keeps [P] and answers within [ok] on
    the jobs that are [allowed]. *)
Lemma process_all_spec (single : dict -> string -> Z -> Db -> res (Db * reply))
      (P : Db -> Db -> Prop) (ok : reply -> bool) (allowed : Job -> Prop) :
  (forall db, P db db) ->
  (forall a b c, P a b -> P b c -> P a c) ->
  (forall job db db' answer,
      allowed job ->
      process_one single job db = Ok (db', answer) -> P db db' /\ ok answer = true) ->
  (forall message, ok (Failure message) = true) ->
  forall (jobs : list Job) (db : Db) (results : list (Z * reply)) (n : Z)
         (db' : Db) (results' : list (Z * reply)) (n' : Z),
    Forall allowed jobs ->
    process_all single jobs db results n = Ok (db', (results', n')) ->
    P db db'
    /\ map fst results' = (map fst results ++ map fst jobs)%list
    /\ n' - n = successes results' - successes results
    /\ (forallb (fun entry => ok (snd entry)) results = true ->
        forallb (fun entry => ok (snd entry)) results' = true).
Proof.
  intros Prefl Ptrans Hone Hfail.
  induction jobs as [|job jobs IH]; intros db results n db' results' n' Hall H;
    cbn [process_all] in H.
  - injection H as <- <- <-. split; [apply Prefl|].
    split; [rewrite app_nil_r; reflexivity|]. split; [lia|auto].
  - inversion Hall as [|j js Hjob Hrest]; subst.
    destruct (process_one single job db) as [[db1 result]|e|] eqn:Hrun;
      [| |discriminate H].
    + destruct (Hone _ _ _ _ Hjob Hrun) as [HP Hok].
      destruct (IH _ _ _ _ _ _ Hrest H) as (HP' & Hids & Hn & Hres).
      split; [exact (Ptrans _ _ _ HP HP')|]. split.
      { rewrite Hids, map_app, <- app_assoc. reflexivity. }
      split.
      { rewrite successes_snoc in Hn. cbn [snd] in Hn.
        destruct (is_success result); lia. }
      intros Hold. apply Hres. rewrite forallb_app, Hold. cbn [forallb snd].
      rewrite Hok. reflexivity.
    + destruct (IH _ _ _ _ _ _ Hrest H) as (HP' & Hids & Hn & Hres).
      split; [exact HP'|]. split.
      { rewrite Hids, map_app, <- app_assoc. reflexivity. }
      split.
      { rewrite successes_snoc in Hn. cbn [snd is_success] in Hn. lia. }
      intros Hold. apply Hres. rewrite forallb_app, Hold. cbn [forallb snd].
      rewrite Hfail. reflexivity.
Qed.

Lemma successes_bounds (results : list (Z * reply)) :
  0 <= successes results <= Z.of_nat (List.length results).
Proof.
  unfold successes. pose proof (filter_length_le (fun entry => is_success (snd entry)) results).
  lia.
Qed.

Lemma process_one_framed (ids : list Z) (job : Job) (db db' : Db) (answer : reply) :
  In (fst job) ids ->
  process_one (ai_process_single_intelligence json_dumps) job db = Ok (db', answer) ->
  framed ids db db'.
Proof.
  intros Hin. unfold process_one. destruct (snd job) as [analysis update_time| |e].
  - apply single_framed. exact Hin.
  - destruct (find_by_id (fst job) db); intros H; injection H as <- <-;
      apply framed_refl.
  - destruct (find_by_id (fst job) db); intros H; injection H as <- <-;
      apply framed_refl.
Qed.

Lemma process_one_with_dates (job : Job) (db db' : Db) (answer : reply) :
  process_one ai_process_single_intelligence_with_date_extraction job db
  = Ok (db', answer) ->
  db' = db /\ is_success answer = false.
Proof.
  unfold process_one. destruct (snd job) as [analysis update_time| |e].
  - apply with_dates_fails.
  - destruct (find_by_id (fst job) db); intros H; injection H as <- <-;
      split; reflexivity.
  - destruct (find_by_id (fst job) db); intros H; injection H as <- <-;
      split; reflexivity.
Qed.

(** X27.  [batch_ai_process] answers for every id, in order, and counts what
    it lists: the ids of [results] are the ids of the request,
    [total_count] is their number, [success_count] is the number of
    successes among the results; and the batch writes only to the rows it
    was asked to analyse: the sources, the ids and the titles are as
    before and every row with another id is untouched.  An empty request
    is answered with an error and changes nothing. *)
Theorem batch_lists_and_counts (jobs : list Job) (db db' : Db) (answer : BatchAnswer) :
  batch_ai_process json_dumps jobs db = Ok (db', answer) ->
  framed (map fst jobs) db db'
  /\ match answer with
     | BatchError message =>
         jobs = [] /\ db' = db /\ message = "请提供要处理的情报ID列表"
     | BatchDone results success_count total_count =>
         jobs <> []
         /\ map fst results = map fst jobs
         /\ total_count = Z.of_nat (List.length jobs)
         /\ success_count = successes results
         /\ 0 <= success_count <= total_count
     end.
Proof.
  unfold batch_ai_process, batch. destruct jobs as [|job jobs]; cbn [is_nil].
  { intros H. injection H as <- <-. split; [apply framed_refl|auto]. }
  set (all := job :: jobs).
  destruct (process_all (ai_process_single_intelligence json_dumps) all db [] 0)
    as [[db1 [results n]]|e|] eqn:Hrun; cbn [bind]; try discriminate.
  intros H. injection H as <- <-. cbn [fst snd].
  destruct (process_all_spec (ai_process_single_intelligence json_dumps)
                             (framed (map fst all)) (fun _ => true)
                             (fun j => In (fst j) (map fst all))
                             (framed_refl _) (framed_trans _)
                             (fun j a b r Hj Hr =>
                                conj (process_one_framed _ j a b r Hj Hr) eq_refl)
                             (fun _ => eq_refl)
                             all db [] 0 db1 results n)
    as (HP & Hids & Hn & _).
  { apply Forall_forall. intros j Hj. apply in_map. exact Hj. }
  { exact Hrun. }
  split; [exact HP|]. split; [discriminate|]. split; [exact Hids|].
  split; [reflexivity|].
  assert (Hs : n = successes results) by (unfold successes in Hn at 2; cbn in Hn; lia).
  split; [exact Hs|].
  pose proof (successes_bounds results) as Hb.
  assert (Hlen : List.length results = List.length all).
  { cbn [map app] in Hids. fold all in Hids.
    rewrite <- (length_map fst results), Hids. apply length_map. }
  rewrite Hs. subst all.
  change (0 <= successes results <= Z.of_nat (List.length (job :: jobs))).
  rewrite <- Hlen. exact Hb.
Qed.

(** X28.  [batch_ai_process_with_date_extraction] never analyses anything:
    whatever the ids and whatever the model answers, every entry of
    [results] is a failure, [success_count] is 0 and the tables are left
    exactly as they were (the single analysis it calls fails on the
    unbound local before it writes). *)
Theorem batch_with_dates_never_succeeds (jobs : list Job) (db db' : Db)
    (results : list (Z * reply)) (success_count total_count : Z) :
  batch_ai_process_with_date_extraction jobs db
  = Ok (db', BatchDone results success_count total_count) ->
  db' = db
  /\ success_count = 0
  /\ forallb (fun entry => negb (is_success (snd entry))) results = true
  /\ map fst results = map fst jobs
  /\ total_count = Z.of_nat (List.length jobs).
Proof.
  unfold batch_ai_process_with_date_extraction, batch.
  destruct (is_nil jobs); [discriminate|].
  destruct (process_all ai_process_single_intelligence_with_date_extraction jobs db [] 0)
    as [[db1 [results1 n]]|e|] eqn:Hrun; cbn [bind]; try discriminate.
  intros H. injection H as <- <- <- <-. cbn [fst snd].
  destruct (process_all_spec ai_process_single_intelligence_with_date_extraction
                             (fun a b => b = a)
                             (fun r => negb (is_success r))
                             (fun _ => True)
                             (fun _ => eq_refl)
                             (fun a b c H1 H2 => eq_trans H2 H1)
                             (fun j a b r _ Hr =>
                                match process_one_with_dates j a b r Hr with
                                | conj H1 H2 =>
                                    conj H1 (f_equal negb H2)
                                end)
                             (fun _ => eq_refl)
                             jobs db [] 0 db1 results1 n)
    as (HP & Hids & Hn & Hall).
  { apply Forall_forall. intros; exact I. }
  { exact Hrun. }
  specialize (Hall eq_refl).
  split; [exact HP|]. split; [|split; [exact Hall|split; [exact Hids|reflexivity]]].
  assert (Hz : successes results1 = 0).
  { clear -Hall. unfold successes. induction results1 as [|entry rs IH]; [reflexivity|].
    cbn [forallb] in Hall. apply andb_true_iff in Hall as [He Hr].
    cbn [filter]. apply negb_true_iff in He. rewrite He. exact (IH Hr). }
  unfold successes in Hn at 2. cbn in Hn. lia.
Qed.

End BatchProofs.

Lemma batch_lists_and_counts_witness :
  exists db' results,
    batch_ai_process sample_dumps
                     [(1, Arrived Responses.good_answer "now"); (5, TimedOut)]
                     pending_db
    = Ok (db', BatchDone results 1 2)
    /\ map fst results = [1; 5]
    /\ map i_title (intelligence db') = ["title"].
Proof.
  destruct (batch_ai_process sample_dumps
              [(1, Arrived Responses.good_answer "now"); (5, TimedOut)] pending_db)
    as [[db' answer]| |] eqn:H; try (vm_compute in H; discriminate H).
  destruct (batch_lists_and_counts sample_dumps _ _ _ _ H) as ((_ & _ & Ht & _) & Ha).
  destruct answer as [message|results success_count total_count].
  { destruct Ha as [E _]. discriminate E. }
  destruct Ha as (_ & Hids & Htotal & Hsucc & _).
  exists db', results.
  assert (Hcount : success_count = 1).
  { vm_compute in H. injection H as _ _ E _. symmetry. exact E. }
  rewrite Hcount, Htotal. split; [reflexivity|]. split; [exact Hids|exact Ht].
Defined.

Lemma batch_with_dates_never_succeeds_witness :
  exists results,
    batch_ai_process_with_date_extraction
      [(1, Arrived Responses.good_answer "now"); (5, TimedOut)] pending_db
    = Ok (pending_db, BatchDone results 0 2)
    /\ map fst results = [1; 5].
Proof.
  destruct (batch_ai_process_with_date_extraction
              [(1, Arrived Responses.good_answer "now"); (5, TimedOut)] pending_db)
    as [[db' [message|results success_count total_count]]| |] eqn:H;
    try (vm_compute in H; discriminate H).
  destruct (batch_with_dates_never_succeeds _ _ _ _ _ _ H)
    as (-> & -> & _ & Hids & ->).
  exists results. split; [reflexivity|exact Hids].
Defined.

End BatchFacts.

(** ** Subscriptions *)

Module SubscriptionsFacts.
Import Subscriptions.

Lemma get_client_some (db : Tables) (id : Z) (client : Client) :
  get_client db id = Some client -> In client (clients db) /\ client_id client = id.
Proof.
  unfold get_client. intros H. apply find_some in H as [Hin Hid].
  split; [exact Hin|]. apply Z.eqb_eq. exact Hid.
Qed.

Lemma get_topic_some (db : Tables) (id topic : Z) :
  get_topic db id = Some topic -> topic = id.
Proof.
  unfold get_topic. intros H. apply find_some in H as [_ H].
  apply Z.eqb_eq in H. symmetry. exact H.
Qed.

Lemma with_topics_other (id : Z) (ts : list Z) (rows : list Client) :
  ~ In id (map client_id rows) -> map (with_topics id ts) rows = rows.
Proof.
  induction rows as [|row rows IH]; cbn [map In]; intros H; [reflexivity|].
  unfold with_topics at 1. destruct (client_id row =? id) eqn:E.
  - apply Z.eqb_eq in E. exfalso. apply H. left. exact E.
  - f_equal. apply IH. intros Hin. apply H. right. exact Hin.
Qed.

(** Giving a client the topics it has changes nothing, ids being
    distinct. *)
Lemma with_topics_same (id : Z) (rows : list Client) (client : Client) :
  NoDup (map client_id rows) ->
  find (fun c => client_id c =? id) rows = Some client ->
  map (with_topics id (topics client)) rows = rows.
Proof.
  induction rows as [|row rows IH]; cbn [map find]; intros Hnd Hf; [reflexivity|].
  inversion Hnd as [|x l Hx Hnd']; subst. unfold with_topics at 1.
  destruct (client_id row =? id) eqn:E.
  - injection Hf as <-. apply Z.eqb_eq in E. f_equal; [destruct row; reflexivity|].
    apply with_topics_other. rewrite <- E. exact Hx.
  - f_equal. apply IH; assumption.
Qed.

Lemma with_topics_twice (id : Z) (ts ts' : list Z) (rows : list Client) :
  map (with_topics id ts') (map (with_topics id ts) rows) = map (with_topics id ts') rows.
Proof.
  rewrite map_map. apply map_ext. intros row. unfold with_topics.
  destruct (client_id row =? id) eqn:E; cbn [client_id client_name]; rewrite E; reflexivity.
Qed.

Lemma with_topics_ids (id : Z) (ts : list Z) (rows : list Client) :
  map client_id (map (with_topics id ts) rows) = map client_id rows.
Proof.
  rewrite map_map. apply map_ext. intros row. unfold with_topics.
  destruct (client_id row =? id); reflexivity.
Qed.

Lemma find_with_topics (id other : Z) (ts : list Z) (rows : list Client) :
  find (fun c => client_id c =? other) (map (with_topics id ts) rows)
  = option_map (with_topics id ts) (find (fun c => client_id c =? other) rows).
Proof.
  induction rows as [|row rows IH]; cbn [map find option_map]; [reflexivity|].
  assert (Hid : client_id (with_topics id ts row) = client_id row).
  { unfold with_topics. destruct (client_id row =? id); reflexivity. }
  rewrite Hid. destruct (client_id row =? other); [reflexivity|exact IH].
Qed.

Lemma remove_first_snoc (topic : Z) (ts : list Z) :
  existsb (Z.eqb topic) ts = false -> remove_first topic (ts ++ [topic]) = ts.
Proof.
  induction ts as [|t ts IH]; cbn [existsb app remove_first]; intros H.
  - rewrite Z.eqb_refl. reflexivity.
  - apply orb_false_iff in H as [Ht Hts]. rewrite Z.eqb_sym, Ht, (IH Hts). reflexivity.
Qed.

Lemma existsb_snoc (topic : Z) (ts : list Z) :
  existsb (Z.eqb topic) (ts ++ [topic]) = true.
Proof. rewrite existsb_app. cbn. rewrite Z.eqb_refl, orb_true_r. reflexivity. Qed.

(** X29.  Subscribing and unsubscribing.  With client ids that tell the
    clients apart: after [assign_topic_to_client] for a client and a topic
    that exist, the client is subscribed to the topic, its other
    subscriptions and those of the other clients are as before, and no
    topic is listed twice if none was; assigning again changes nothing;
    and unassigning a topic that was newly assigned gives back the tables
    as they were.  When the client or the topic does not exist, nothing
    changes. *)
Theorem subscribe_then_unsubscribe (db : Tables) (id topic_id : Z) :
  NoDup (map client_id (clients db)) ->
  let db' := fst (assign_topic_to_client db id topic_id) in
  (get_client db id = None \/ get_topic db topic_id = None -> db' = db)
  /\ (get_client db id <> None -> get_topic db topic_id <> None ->
      In topic_id (subscribed db' id)
      /\ (forall t, In t (subscribed db' id) <-> In t (subscribed db id) \/ t = topic_id)
      /\ (NoDup (subscribed db id) -> NoDup (subscribed db' id)))
  /\ (forall other, other <> id -> subscribed db' other = subscribed db other)
  /\ fst (assign_topic_to_client db' id topic_id) = db'
  /\ (~ In topic_id (subscribed db id) ->
      fst (unassign_topic_from_client db' id topic_id) = db).
Proof.
  intros Hnd. cbv zeta.
  destruct (get_client db id) as [client|] eqn:Hc.
  2:{ assert (Ha : assign_topic_to_client db id topic_id = (db, None))
        by (unfold assign_topic_to_client; rewrite Hc; reflexivity).
      rewrite Ha. cbn [fst]. rewrite Ha. cbn [fst].
      split; [reflexivity|]. split; [intros H; congruence|].
      split; [reflexivity|]. split; [reflexivity|].
      intros _. unfold unassign_topic_from_client. rewrite Hc. reflexivity. }
  destruct (get_topic db topic_id) as [topic|] eqn:Ht.
  2:{ assert (Ha : assign_topic_to_client db id topic_id = (db, Some client))
        by (unfold assign_topic_to_client; rewrite Hc, Ht; reflexivity).
      rewrite Ha. cbn [fst]. rewrite Ha. cbn [fst].
      split; [reflexivity|]. split; [intros _ H; congruence|].
      split; [reflexivity|]. split; [reflexivity|].
      intros _. unfold unassign_topic_from_client. rewrite Hc, Ht. reflexivity. }
  pose proof (get_topic_some _ _ _ Ht) as ->.
  destruct (get_client_some _ _ _ Hc) as [Hin Hid].
  assert (Hsub : subscribed db id = topics client)
    by (unfold subscribed; rewrite Hc; reflexivity).
  destruct (existsb (Z.eqb topic_id) (topics client)) eqn:Hex.
  - (* already subscribed *)
    assert (Ha : assign_topic_to_client db id topic_id = (db, Some client))
      by (unfold assign_topic_to_client; rewrite Hc, Ht, Hex; reflexivity).
    rewrite Ha. cbn [fst]. rewrite Ha. cbn [fst].
    assert (Hmem : In topic_id (topics client)).
    { apply existsb_exists in Hex as (t & Hin' & E). apply Z.eqb_eq in E.
      subst. exact Hin'. }
    split; [intros [H|H]; discriminate H|]. split.
    { intros _ _. rewrite Hsub. split; [exact Hmem|]. split; [|auto].
      intros t. split; [auto|]. intros [H| ->]; [exact H|exact Hmem]. }
    split; [reflexivity|]. split; [reflexivity|].
    intros H. exfalso. apply H. rewrite Hsub. exact Hmem.
  - (* newly subscribed *)
    set (ts := (topics client ++ [topic_id])%list).
    set (db' := mkTables (map (with_topics id ts) (clients db)) (topic_ids db)).
    assert (Ha : assign_topic_to_client db id topic_id
                 = (db', Some (mkClient (client_id client) (client_name client) ts)))
      by (unfold assign_topic_to_client; rewrite Hc, Ht, Hex; reflexivity).
    rewrite Ha. cbn [fst].
    assert (Hc' : get_client db' id
                  = Some (mkClient (client_id client) (client_name client) ts)).
    { unfold get_client, db'. cbn [clients]. rewrite find_with_topics.
      fold (get_client db id). rewrite Hc. cbn [option_map]. unfold with_topics.
      rewrite Hid, Z.eqb_refl. reflexivity. }
    assert (Ht' : get_topic db' topic_id = Some topic_id) by exact Ht.
    assert (Hsub' : subscribed db' id = ts)
      by (unfold subscribed; rewrite Hc'; reflexivity).
    split; [intros [H|H]; discriminate H|]. split.
    { intros _ _. rewrite Hsub', Hsub. unfold ts. split.
      - apply in_app_iff. right. left. reflexivity.
      - split.
        + intros t. rewrite in_app_iff. cbn [In]. intuition congruence.
        + intros Hn. apply CrawlInvariants.NoDup_snoc; [exact Hn|].
          intros Hmem.
          assert (Hx : existsb (Z.eqb topic_id) (topics client) = true).
          { apply existsb_exists. exists topic_id. split; [exact Hmem|apply Z.eqb_refl]. }
          congruence. }
    split.
    { intros other Hother. unfold subscribed, get_client, db'. cbn [clients].
      rewrite find_with_topics.
      destruct (find (fun c => client_id c =? other) (clients db)) as [c|] eqn:Hf;
        cbn [option_map]; [|reflexivity].
      apply find_some in Hf as [_ Hf]. apply Z.eqb_eq in Hf.
      unfold with_topics. replace (client_id c =? id) with false; [reflexivity|].
      symmetry. apply Z.eqb_neq. congruence. }
    split.
    + unfold assign_topic_to_client. rewrite Hc', Ht'. cbn [topics].
      unfold ts. rewrite existsb_snoc. reflexivity.
    + intros _. unfold unassign_topic_from_client. rewrite Hc', Ht'. cbn [topics].
      unfold ts at 1. rewrite existsb_snoc. cbn [fst]. unfold ts.
      rewrite (remove_first_snoc _ _ Hex). unfold db'. cbn [clients topic_ids].
      rewrite with_topics_twice, (with_topics_same id (clients db) client Hnd Hc).
      destruct db; reflexivity.
Qed.

Lemma subscribe_then_unsubscribe_witness :
  subscribed (fst (assign_topic_to_client two_clients 2 30)) 2 = [30]
  /\ fst (unassign_topic_from_client
            (fst (assign_topic_to_client two_clients 2 30)) 2 30)
     = two_clients.
Proof.
  assert (Hnd : NoDup (map client_id (clients two_clients))).
  { cbn. repeat constructor; cbn; intuition discriminate. }
  destruct (subscribe_then_unsubscribe two_clients 2 30 Hnd) as (_ & _ & _ & _ & Hback).
  split; [reflexivity|]. apply Hback. cbn. tauto.
Defined.

End SubscriptionsFacts.
